(** * Storacha examples: delegation bootstrap, session store, CID utility
      and upload orchestration

    A shallow embedding of the original logic of the repository:

    - [UCAN-Expert/src/lib/api.ts]: the CID utility ([extractCID],
      [isValidCID], [createGatewayURL], [createGatewayURLs]) and the
      retrying delegation fetch ([request], [getDelegationWithRetry]);
    - [UCAN-Expert/server.js]: the base64 normaliser [cleanBase64];
    - the two [useStoracha] hooks (the artboard hook with upload history,
      and the upload-demo hook): session initialiser, [saveSession],
      [loginWithDelegation] / [setupDelegation], [uploadFile].

    Text is modelled as [string], a sequence of 8-bit characters: the bytes
    of the UTF-8 encoding.  A surrogate code unit that is not part of a pair
    is carried by the three bytes its code has in the three-byte form of the
    encoding (ED A0..BF 80..BF), so that a JavaScript string that is not
    well-formed Unicode is a text that is not well-formed UTF-8.  The length
    of a text, its [length] in JavaScript, is counted in UTF-16 code units
    ([Text.length]), and white space is the white space of ECMAScript
    ([JS.white_space_width]).  The third-party SDK, [fetch] and the clock
    are inputs of the functions that use them, and every call that reaches
    them is recorded in a trace; console output is not recorded. *)

From Stdlib Require Import ZArith NArith String Ascii List Bool Lia.
From stdpp Require Import gmap strings list pretty.

Set Warnings "-register-all".
Open Scope string_scope.

(** ** JavaScript text primitives *)

Module JS.

Definition is_empty (s : string) : bool :=
  match s with EmptyString => true | String _ _ => false end.

(** A string is truthy when it is not empty: [if (s)], [!s], [s ? a : b]. *)
Definition truthy (s : string) : bool := negb (is_empty s).

(** [s.startsWith(p)] *)
Definition startsWith (s p : string) : bool := String.prefix p s.

Fixpoint drop (n : nat) (s : string) : string :=
  match n, s with
  | O, _ => s
  | S n', String _ s' => drop n' s'
  | S _, EmptyString => EmptyString
  end.

Fixpoint take (n : nat) (s : string) : string :=
  match n, s with
  | S n', String c s' => String c (take n' s')
  | _, _ => EmptyString
  end.

Fixpoint forallb (p : ascii -> bool) (s : string) : bool :=
  match s with
  | EmptyString => true
  | String c s' => p c && forallb p s'
  end.

Fixpoint filter (p : ascii -> bool) (s : string) : string :=
  match s with
  | EmptyString => EmptyString
  | String c s' => if p c then String c (filter p s') else filter p s'
  end.

Fixpoint take_while (p : ascii -> bool) (s : string) : string :=
  match s with
  | EmptyString => EmptyString
  | String c s' => if p c then String c (take_while p s') else EmptyString
  end.

Fixpoint drop_while (p : ascii -> bool) (s : string) : string :=
  match s with
  | EmptyString => EmptyString
  | String c s' => if p c then drop_while p s' else s
  end.

(** Character ranges of regular-expression classes, by character code. *)
Definition between (lo hi c : ascii) : bool :=
  (N_of_ascii lo <=? N_of_ascii c)%N && (N_of_ascii c <=? N_of_ascii hi)%N.

Definition is_char (x c : ascii) : bool := Ascii.eqb x c.

(** The double quote character. *)
Definition dquote : ascii := "034".

Definition is_digit : ascii -> bool := between "0" "9".
Definition is_lower : ascii -> bool := between "a" "z".
Definition is_upper : ascii -> bool := between "A" "Z".
Definition is_alnum (c : ascii) : bool := is_lower c || is_upper c || is_digit c.

(** [c.repeat(n)] for a one-character string. *)
Fixpoint repeat (c : ascii) (n : nat) : string :=
  match n with
  | O => EmptyString
  | S n' => String c (repeat c n')
  end.

(** *** White space

    What [\s] matches and [trim] strips: the WhiteSpace and LineTerminator
    characters of ECMAScript, U+0009 to U+000D, U+0020, U+00A0, U+1680,
    U+2000 to U+200A, U+2028, U+2029, U+202F, U+205F, U+3000 and U+FEFF.

    [white_space_width s] is the number of bytes of the white-space
    character [s] starts with, 0 when it starts with none. *)
Definition white_space_width (s : string) : nat :=
  match s with
  | String c s1 =>
      let b := N_of_ascii c in
      if (9 <=? b)%N && (b <=? 13)%N || (b =? 32)%N then 1
      else
        match s1 with
        | String c1 s2 =>
            let b1 := N_of_ascii c1 in
            if (b =? 194)%N && (b1 =? 160)%N then 2
            else
              match s2 with
              | String c2 _ =>
                  let b2 := N_of_ascii c2 in
                  if (b =? 225)%N && (b1 =? 154)%N && (b2 =? 128)%N
                     || (b =? 226)%N && (b1 =? 128)%N
                        && ((128 <=? b2)%N && (b2 <=? 138)%N
                            || (168 <=? b2)%N && (b2 <=? 169)%N
                            || (b2 =? 175)%N)
                     || (b =? 226)%N && (b1 =? 129)%N && (b2 =? 159)%N
                     || (b =? 227)%N && (b1 =? 128)%N && (b2 =? 128)%N
                     || (b =? 239)%N && (b1 =? 187)%N && (b2 =? 191)%N
                  then 3
                  else 0
              | EmptyString => 0
              end
        | EmptyString => 0
        end
  | EmptyString => 0
  end.

(** [s.replace(/\s/g, '')] and [s.replace(/\s+/g, '')], with [skip] bytes of
    a white-space character still to drop. *)
Fixpoint remove_white_space_from (skip : nat) (s : string) : string :=
  match s with
  | EmptyString => EmptyString
  | String c s' =>
      match skip with
      | S n => remove_white_space_from n s'
      | O =>
          match white_space_width s with
          | S n => remove_white_space_from n s'
          | O => String c (remove_white_space_from 0 s')
          end
      end
  end.

Definition remove_white_space (s : string) : string :=
  remove_white_space_from 0 s.

(** [s.trimStart()], with [skip] bytes of a white-space character still to
    drop. *)
Fixpoint trim_start_from (skip : nat) (s : string) : string :=
  match s with
  | EmptyString => EmptyString
  | String _ s' =>
      match skip with
      | S n => trim_start_from n s'
      | O =>
          match white_space_width s with
          | S n => trim_start_from n s'
          | O => s
          end
      end
  end.

Definition trimStart (s : string) : string := trim_start_from 0 s.

(** A text of white space only. *)
Definition blank (s : string) : bool := is_empty (remove_white_space s).

(** [s.trimEnd()]: the text is cut where only white space follows. *)
Fixpoint trimEnd (s : string) : string :=
  match s with
  | EmptyString => EmptyString
  | String c s' => if blank s then EmptyString else String c (trimEnd s')
  end.

(** [s.trim()]: white space removed at both ends. *)
Definition trim (s : string) : string := trimEnd (trimStart s).

(** [s.includes(p)] *)
Fixpoint includes (s p : string) : bool :=
  String.prefix p s ||
  match s with
  | EmptyString => false
  | String _ s' => includes s' p
  end.

(** [parts.join(sep)] *)
Fixpoint join (sep : string) (parts : list string) : string :=
  match parts with
  | [] => ""
  | [x] => x
  | x :: rest => x +:+ sep +:+ join sep rest
  end.

Definition hex_digit (n : N) : ascii :=
  match n with
  | 0 => "0" | 1 => "1" | 2 => "2" | 3 => "3" | 4 => "4" | 5 => "5"
  | 6 => "6" | 7 => "7" | 8 => "8" | 9 => "9" | 10 => "A" | 11 => "B"
  | 12 => "C" | 13 => "D" | 14 => "E" | _ => "F"
  end%char%N.

(** Characters [encodeURIComponent] leaves alone:
    [A-Z a-z 0-9 - _ . ! ~ * ' ( )]. *)
Definition uri_unreserved (c : ascii) : bool :=
  is_alnum c || is_char "-" c || is_char "_" c || is_char "." c
  || is_char "!" c || is_char "~" c || is_char "*" c || is_char "'" c
  || is_char "(" c || is_char ")" c.

(** The escaping of [encodeURIComponent]: every other character becomes
    [%XX], the two upper-case hexadecimal digits of its (UTF-8) byte. *)
Fixpoint percent_encode (s : string) : string :=
  match s with
  | EmptyString => EmptyString
  | String c s' =>
      if uri_unreserved c then String c (percent_encode s')
      else String "%" (String (hex_digit (N_of_ascii c / 16))
                        (String (hex_digit (N_of_ascii c mod 16))
                          (percent_encode s')))
  end.

(** What a [throw] carries: the constructor of the error, its message and,
    for [APIError], the HTTP status it was built with. *)
Inductive ErrorKind :=
| Error | APIError | SyntaxError | TypeError
| Named (name : string)      (* an error class of a library *)
| Thrown (what : string).    (* a thrown value that is no [Error] *)

Record Exn := mkExn {
  exn_kind : ErrorKind;
  exn_message : string;
  exn_status : option Z
}.

Definition new_Error (msg : string) : Exn := mkExn Error msg None.

(** The outcome of evaluating a function body. *)
Inductive completion (A : Type) :=
| Normal (a : A)
| Throw (e : Exn).
Arguments Normal {A} a.
Arguments Throw {A} e.

(** [items.map(f)] for a callback that may throw: the calls are made in the
    order of the items, and the first one that throws ends the loop. *)
Fixpoint map_items {A B : Type} (f : A -> completion B) (items : list A)
  : completion (list B) :=
  match items with
  | [] => Normal []
  | x :: rest =>
      match f x with
      | Throw e => Throw e
      | Normal y =>
          match map_items f rest with
          | Throw e => Throw e
          | Normal ys => Normal (y :: ys)
          end
      end
  end.

End JS.

Export JS.

(** ** JSON values, [JSON.stringify] and [JSON.parse] *)

Module JSON.

(** A JavaScript value as JSON carries it.  Integers are [Num]; a number
    literal with a fraction or an exponent is kept as written ([NumLit]).
    An object is the list of its own properties in insertion order.

    The model stops short of JavaScript in three places: an integer is
    written and read as it is, whatever its size, where JavaScript numbers
    are exact up to 2^53 only; the keys of an object that are array indices
    are not moved to the front; and two escapes [\uXXXX] that form a
    surrogate pair are read as two code units, not joined into one
    character. *)
Inductive value :=
| Null
| Bool (b : bool)
| Num (n : Z)
| NumLit (lit : string)
| Str (s : string)
| Arr (items : list value)
| Obj (fields : list (string * value)).

(** [obj[key] = v]: an existing property keeps its place. *)
Fixpoint set_field (key : string) (v : value) (fields : list (string * value))
  : list (string * value) :=
  match fields with
  | [] => [(key, v)]
  | (k, w) :: rest =>
      if String.eqb k key then (k, v) :: rest
      else (k, w) :: set_field key v rest
  end.

(** [obj[key]], [None] for [undefined]. *)
Fixpoint get_field (key : string) (fields : list (string * value))
  : option value :=
  match fields with
  | [] => None
  | (k, w) :: rest => if String.eqb k key then Some w else get_field key rest
  end.

(** *** Serialisation *)

Definition hex_lower (n : N) : ascii :=
  match n with
  | 0 => "0" | 1 => "1" | 2 => "2" | 3 => "3" | 4 => "4" | 5 => "5"
  | 6 => "6" | 7 => "7" | 8 => "8" | 9 => "9" | 10 => "a" | 11 => "b"
  | 12 => "c" | 13 => "d" | 14 => "e" | _ => "f"
  end%char%N.

(** The escape of one character inside a string literal. *)
Definition escape_char (c : ascii) : string :=
  if is_char dquote c then String "\" (String dquote "")
  else if is_char "\" c then "\\"
  else if is_char "008" c then "\b"
  else if is_char "012" c then "\f"
  else if is_char "010" c then "\n"
  else if is_char "013" c then "\r"
  else if is_char "009" c then "\t"
  else if (N_of_ascii c <? 32)%N
  then "\u00" +:+ String (hex_lower (N_of_ascii c / 16))
                   (String (hex_lower (N_of_ascii c mod 16)) "")
  else String c "".

(** The code unit of a surrogate that is not part of a pair, from the three
    bytes that carry it. *)
Definition lone_surrogate (b0 b1 b2 : N) : option N :=
  if (b0 =? 237)%N && (160 <=? b1)%N && (b1 <=? 191)%N
     && (128 <=? b2)%N && (b2 <=? 191)%N
  then Some (55296 + (b1 - 160) * 64 + (b2 - 128))%N
  else None.

(** The escape [\uXXXX] of a code unit, in lower-case digits. *)
Definition escape_unit (u : N) : string :=
  String "\" (String "u"
    (String (hex_lower (u / 4096))
       (String (hex_lower ((u / 256) mod 16))
          (String (hex_lower ((u / 16) mod 16))
             (String (hex_lower (u mod 16)) ""))))).

(** The text between the quotes of a string literal: a lone surrogate is
    written as its escape (well-formed [JSON.stringify]), every other
    character as [escape_char] says. *)
Fixpoint escape (s : string) : string :=
  match s with
  | EmptyString => EmptyString
  | String c s' =>
      match s' with
      | String c1 (String c2 rest) =>
          match lone_surrogate (N_of_ascii c) (N_of_ascii c1) (N_of_ascii c2) with
          | Some u => escape_unit u +:+ escape rest
          | None => escape_char c +:+ escape s'
          end
      | _ => escape_char c +:+ escape s'
      end
  end.

Definition quote (s : string) : string :=
  String dquote (escape s +:+ String dquote "").

Fixpoint stringify (v : value) : string :=
  match v with
  | Null => "null"
  | Bool true => "true"
  | Bool false => "false"
  | Num n => pretty n
  | NumLit lit => lit
  | Str s => quote s
  | Arr items => "[" +:+ join "," (List.map stringify items) +:+ "]"
  | Obj fields =>
      "{" +:+ join "," (List.map (fun kv =>
                 match kv with
                 | (k, w) => quote k +:+ ":" +:+ stringify w
                 end) fields) +:+ "}"
  end.

(** *** Lexical analysis: one pass, one character at a time *)

Inductive token :=
| TLBrace | TRBrace | TLBracket | TRBracket | TComma | TColon
| TString (s : string)
| TNumber (lit : string)
| TWord (w : string).

(** What the scanner is in the middle of; text is accumulated reversed. *)
Inductive lex_state :=
| LDefault
| LString (acc : string)
| LEscape (acc : string)
| LUnicode (acc : string) (digits : list N)
| LNumber (acc : string)
| LWord (acc : string).

(** JSON white space: space, tab, line feed, carriage return. *)
Definition is_ws (c : ascii) : bool :=
  is_char " " c || is_char "009" c || is_char "010" c || is_char "013" c.

Definition is_number_char (c : ascii) : bool :=
  is_digit c || is_char "-" c || is_char "+" c || is_char "." c
  || is_char "e" c || is_char "E" c.

Definition hex_value (c : ascii) : option N :=
  if is_digit c then Some (N_of_ascii c - 48)%N
  else if between "a" "f" c then Some (N_of_ascii c - 87)%N
  else if between "A" "F" c then Some (N_of_ascii c - 55)%N
  else None.

(** The UTF-8 bytes of a 16-bit code unit, most significant first. *)
Definition utf8 (u : N) : list ascii :=
  if (u <? 128)%N then [ascii_of_N u]
  else if (u <? 2048)%N
  then [ascii_of_N (192 + u / 64); ascii_of_N (128 + u mod 64)]
  else [ascii_of_N (224 + u / 4096); ascii_of_N (128 + (u / 64) mod 64);
        ascii_of_N (128 + u mod 64)].

Definition push_chars (cs : list ascii) (acc : string) : string :=
  fold_left (fun a c => String c a) cs acc.

(** The scanner outside any token. *)
Definition lex_default (c : ascii) : option (lex_state * list token) :=
  if is_ws c then Some (LDefault, [])
  else if is_char "{" c then Some (LDefault, [TLBrace])
  else if is_char "}" c then Some (LDefault, [TRBrace])
  else if is_char "[" c then Some (LDefault, [TLBracket])
  else if is_char "]" c then Some (LDefault, [TRBracket])
  else if is_char "," c then Some (LDefault, [TComma])
  else if is_char ":" c then Some (LDefault, [TColon])
  else if is_char dquote c then Some (LString "", [])
  else if is_char "-" c || is_digit c then Some (LNumber (String c ""), [])
  else if is_lower c then Some (LWord (String c ""), [])
  else None.

(** A token that ends because the next character cannot continue it: the
    token is emitted and the character scanned afresh. *)
Definition lex_after (t : token) (c : ascii) : option (lex_state * list token) :=
  match lex_default c with
  | Some (st, ts) => Some (st, t :: ts)
  | None => None
  end.

Definition lex_step (st : lex_state) (c : ascii)
  : option (lex_state * list token) :=
  match st with
  | LDefault => lex_default c
  | LString acc =>
      if is_char dquote c then Some (LDefault, [TString (String.rev acc)])
      else if is_char "\" c then Some (LEscape acc, [])
      else if (N_of_ascii c <? 32)%N then None
      else Some (LString (String c acc), [])
  | LEscape acc =>
      if is_char dquote c || is_char "\" c || is_char "/" c
      then Some (LString (String c acc), [])
      else if is_char "b" c then Some (LString (String "008" acc), [])
      else if is_char "f" c then Some (LString (String "012" acc), [])
      else if is_char "n" c then Some (LString (String "010" acc), [])
      else if is_char "r" c then Some (LString (String "013" acc), [])
      else if is_char "t" c then Some (LString (String "009" acc), [])
      else if is_char "u" c then Some (LUnicode acc [], [])
      else None
  | LUnicode acc digits =>
      match hex_value c with
      | None => None
      | Some d =>
          match digits with
          | [d1; d2; d3] =>
              Some (LString (push_chars
                               (utf8 (((d1 * 16 + d2) * 16 + d3) * 16 + d)) acc),
                    [])
          | _ => Some (LUnicode acc (digits ++ [d])%list, [])
          end
      end
  | LNumber acc =>
      if is_number_char c then Some (LNumber (String c acc), [])
      else lex_after (TNumber (String.rev acc)) c
  | LWord acc =>
      if is_lower c then Some (LWord (String c acc), [])
      else lex_after (TWord (String.rev acc)) c
  end.

Fixpoint lex (st : lex_state) (s : string) : option (list token) :=
  match s with
  | EmptyString =>
      match st with
      | LDefault => Some []
      | LNumber acc => Some [TNumber (String.rev acc)]
      | LWord acc => Some [TWord (String.rev acc)]
      | LString _ | LEscape _ | LUnicode _ _ => None
      end
  | String c s' =>
      match lex_step st c with
      | None => None
      | Some (st', ts) =>
          match lex st' s' with
          | None => None
          | Some rest => Some (ts ++ rest)%list
          end
      end
  end.

(** *** Numbers: an optional minus sign; either 0 or a digit 1-9 and more
    digits; an optional fraction (a point and digits); an optional exponent
    (e or E, an optional sign, digits). *)

Definition digits_nonempty (s : string) : bool :=
  negb (is_empty s) && JS.forallb is_digit s.

Definition int_part_ok (s : string) : bool :=
  match s with
  | String "0" EmptyString => true
  | String c _ => between "1" "9" c && JS.forallb is_digit s
  | EmptyString => false
  end.

Definition exponent_ok (s : string) : bool :=
  match s with
  | EmptyString => true
  | String c rest =>
      (is_char "e" c || is_char "E" c)
      && match rest with
         | String d rest' =>
             if is_char "+" d || is_char "-" d then digits_nonempty rest'
             else digits_nonempty rest
         | EmptyString => false
         end
  end.

Definition fraction_ok (s : string) : bool :=
  match s with
  | String "." rest =>
      negb (is_empty (JS.take_while is_digit rest))
      && exponent_ok (JS.drop_while is_digit rest)
  | _ => exponent_ok s
  end.

Definition unsigned_ok (s : string) : bool :=
  int_part_ok (JS.take_while is_digit s)
  && fraction_ok (JS.drop_while is_digit s).

Definition number_ok (lit : string) : bool :=
  match lit with
  | String "-" rest => unsigned_ok rest
  | _ => unsigned_ok lit
  end.

Fixpoint digits_value (acc : Z) (s : string) : Z :=
  match s with
  | EmptyString => acc
  | String c s' => digits_value (10 * acc + Z.of_N (N_of_ascii c - 48)) s'
  end.

Definition number_value (lit : string) : option value :=
  if negb (number_ok lit) then None
  else match lit with
       | String "-" rest =>
           if JS.forallb is_digit rest then Some (Num (- digits_value 0 rest))
           else Some (NumLit lit)
       | _ =>
           if JS.forallb is_digit lit then Some (Num (digits_value 0 lit))
           else Some (NumLit lit)
       end.

Definition word_value (w : string) : option value :=
  if String.eqb w "true" then Some (Bool true)
  else if String.eqb w "false" then Some (Bool false)
  else if String.eqb w "null" then Some Null
  else None.

(** *** Syntax analysis: a stack of the containers still open *)

Inductive frame :=
| FArr (items : list value)                        (* reversed *)
| FObj (fields : list (string * value))
| FKey (fields : list (string * value)) (key : string).

Inductive parse_state :=
| PValue (first : bool) (stack : list frame)
    (* a value is expected; [first]: directly after the bracket that
       opened an array, which may close again at once *)
| PKey (first : bool) (stack : list frame)
| PColon (stack : list frame)
| PAfter (stack : list frame)
| PDone (v : value).

(** A complete value goes into the innermost open container. *)
Definition put (v : value) (stack : list frame) : option parse_state :=
  match stack with
  | [] => Some (PDone v)
  | FArr items :: st => Some (PAfter (FArr (v :: items) :: st))
  | FKey fields key :: st => Some (PAfter (FObj (set_field key v fields) :: st))
  | FObj _ :: _ => None
  end.

Definition parse_value_token (t : token) (stack : list frame)
  : option parse_state :=
  match t with
  | TString s => put (Str s) stack
  | TNumber lit =>
      match number_value lit with Some v => put v stack | None => None end
  | TWord w =>
      match word_value w with Some v => put v stack | None => None end
  | TLBracket => Some (PValue true (FArr [] :: stack))
  | TLBrace => Some (PKey true (FObj [] :: stack))
  | TRBrace | TRBracket | TComma | TColon => None
  end.

Definition parse_step (st : parse_state) (t : token) : option parse_state :=
  match st with
  | PValue first stack =>
      match t, first, stack with
      | TRBracket, true, FArr items :: st' => put (Arr (List.rev items)) st'
      | _, _, _ => parse_value_token t stack
      end
  | PKey first stack =>
      match t, stack with
      | TString k, FObj fields :: st' => Some (PColon (FKey fields k :: st'))
      | TRBrace, FObj fields :: st' =>
          if first then put (Obj fields) st' else None
      | _, _ => None
      end
  | PColon stack =>
      match t with
      | TColon => Some (PValue false stack)
      | _ => None
      end
  | PAfter stack =>
      match t, stack with
      | TComma, FArr _ :: _ => Some (PValue false stack)
      | TComma, FObj _ :: _ => Some (PKey false stack)
      | TRBracket, FArr items :: st' => put (Arr (List.rev items)) st'
      | TRBrace, FObj fields :: st' => put (Obj fields) st'
      | _, _ => None
      end
  | PDone _ => None
  end.

Fixpoint parse_tokens (st : parse_state) (ts : list token) : option value :=
  match ts with
  | [] => match st with PDone v => Some v | _ => None end
  | t :: ts' =>
      match parse_step st t with
      | Some st' => parse_tokens st' ts'
      | None => None
      end
  end.

(** The rest of a text, read with the containers of [st] open. *)
Definition parse_from (st : parse_state) (text : string) : option value :=
  match lex LDefault text with
  | Some ts => parse_tokens st ts
  | None => None
  end.

(** [JSON.parse(text)]; [None] when it throws [SyntaxError]. *)
Definition parse (text : string) : option value :=
  parse_from (PValue false []) text.

(** Truthiness of a value: [if (v)], [v || w]. *)
Definition truthy (v : value) : bool :=
  match v with
  | Null => false
  | Bool b => b
  | Num n => negb (n =? 0)%Z
  | NumLit lit =>
      negb (JS.forallb (fun c => is_char "0" c || is_char "-" c || is_char "." c)
              (JS.take_while (fun c => negb (is_char "e" c || is_char "E" c)) lit))
  | Str s => JS.truthy s
  | Arr _ | Obj _ => true
  end.

(** [String(v)], as the [Error] constructor applies it to its message. *)
Fixpoint to_string (v : value) : string :=
  match v with
  | Null => "null"
  | Bool true => "true"
  | Bool false => "false"
  | Num n => pretty n
  | NumLit lit => lit
  | Str s => s
  | Arr items =>
      join "," (List.map (fun w => match w with
                                  | Null => ""
                                  | _ => to_string w
                                  end) items)
  | Obj _ => "[object Object]"
  end.

End JSON.

(** ** More text primitives: [split], [length], [decodeURIComponent] *)

Module Text.

(** [s.split(sep)] for a one-character separator; the result is never the
    empty list. *)
Fixpoint split (sep : ascii) (s : string) : list string :=
  match s with
  | EmptyString => [EmptyString]
  | String c s' =>
      if is_char sep c then EmptyString :: split sep s'
      else match split sep s' with
           | x :: rest => String c x :: rest
           | [] => [String c EmptyString]
           end
  end.

(** A byte of the form 10xxxxxx: inside a multi-byte character. *)
Definition continuation (b : N) : bool := (128 <=? b)%N && (b <=? 191)%N.

(** [s.length]: the number of UTF-16 code units of the text whose UTF-8
    bytes are [s].  A character of four bytes takes two code units, every
    other character one. *)
Fixpoint length (s : string) : nat :=
  match s with
  | EmptyString => 0
  | String c s' =>
      (if continuation (N_of_ascii c) then 0
       else if (240 <=? N_of_ascii c)%N then 2 else 1) + length s'
  end.

(** A character of one byte and one code unit: U+0000 to U+007F. *)
Definition one_byte (c : ascii) : bool := (N_of_ascii c <? 128)%N.

(** The byte an escape [%XY] stands for. *)
Definition octet (x y : ascii) : option N :=
  match JSON.hex_value x, JSON.hex_value y with
  | Some h, Some l => Some (16 * h + l)%N
  | _, _ => None
  end.

(** How many bytes follow a first byte, by its leading one bits; [None] for
    a byte that cannot come first. *)
Definition following (lead : N) : option nat :=
  if (lead <? 128)%N then Some 0
  else if (lead <? 192)%N then None
  else if (lead <? 224)%N then Some 1
  else if (lead <? 240)%N then Some 2
  else if (lead <? 248)%N then Some 3
  else None.

(** The well-formed UTF-8 sequences of more than one byte: no overlong
    form, no surrogate, nothing above U+10FFFF. *)
Definition utf8_code_point (lead : N) (more : list N) : bool :=
  match more with
  | [b1] => (194 <=? lead)%N && (lead <=? 223)%N && continuation b1
  | [b1; b2] =>
      ((lead =? 224)%N && (160 <=? b1)%N && (b1 <=? 191)%N
       || (225 <=? lead)%N && (lead <=? 236)%N && continuation b1
       || (lead =? 237)%N && (128 <=? b1)%N && (b1 <=? 159)%N
       || (238 <=? lead)%N && (lead <=? 239)%N && continuation b1)
      && continuation b2
  | [b1; b2; b3] =>
      ((lead =? 240)%N && (144 <=? b1)%N && (b1 <=? 191)%N
       || (241 <=? lead)%N && (lead <=? 243)%N && continuation b1
       || (lead =? 244)%N && (128 <=? b1)%N && (b1 <=? 143)%N)
      && continuation b2 && continuation b3
  | _ => false
  end.

(** A multi-byte character under way: its first byte, the bytes read after
    it (latest first) and the number still to come. *)
Record pending := mkPending {
  lead : N;
  seen : list N;
  awaited : nat
}.

Definition bytes_text (bs : list N) (rest : string) : string :=
  fold_right (fun b t => String (ascii_of_N b) t) rest bs.

(** The decoding loop of [decodeURIComponent]; [None] where it throws
    [URIError]: an incomplete escape, a byte that cannot start a character,
    an escaped character cut short or not well formed. *)
Fixpoint decode (p : option pending) (s : string) : option string :=
  match s with
  | EmptyString =>
      match p with
      | None => Some EmptyString
      | Some _ => None
      end
  | String c s1 =>
      if is_char "%" c
      then match s1 with
           | String x (String y rest) =>
               match octet x y, p with
               | None, _ => None
               | Some b, None =>
                   match following b with
                   | None => None
                   | Some O => option_map (String (ascii_of_N b)) (decode None rest)
                   | Some (S n) => decode (Some (mkPending b [] (S n))) rest
                   end
               | Some b, Some q =>
                   if negb (continuation b) then None
                   else match awaited q with
                        | O => None
                        | S O =>
                            let more := List.rev (b :: seen q) in
                            if utf8_code_point (lead q) more
                            then option_map (bytes_text (lead q :: more))
                                   (decode None rest)
                            else None
                        | S n => decode (Some (mkPending (lead q) (b :: seen q) n)) rest
                        end
               end
           | _ => None
           end
      else match p with
           | None => option_map (String c) (decode None s1)
           | Some _ => None
           end
  end.

Definition decodeURIComponent (s : string) : option string := decode None s.

(** Well-formed UTF-8: the texts that are JavaScript strings without lone
    surrogates. *)
Fixpoint well_formed (s : string) : bool :=
  match s with
  | EmptyString => true
  | String c s1 =>
      if (N_of_ascii c <? 128)%N then well_formed s1
      else match s1 with
           | String c1 s2 =>
               if utf8_code_point (N_of_ascii c) [N_of_ascii c1]
               then well_formed s2
               else match s2 with
                    | String c2 s3 =>
                        if utf8_code_point (N_of_ascii c)
                             [N_of_ascii c1; N_of_ascii c2]
                        then well_formed s3
                        else match s3 with
                             | String c3 s4 =>
                                 utf8_code_point (N_of_ascii c)
                                   [N_of_ascii c1; N_of_ascii c2; N_of_ascii c3]
                                 && well_formed s4
                             | EmptyString => false
                             end
                    | EmptyString => false
                    end
           | EmptyString => false
           end
  end.

(** [encodeURIComponent(s)]: a text with an unpaired surrogate has no UTF-8
    encoding and the call throws [URIError]; any other text is escaped byte
    by byte. *)
Definition encodeURIComponent (s : string) : completion string :=
  if well_formed s then Normal (percent_encode s)
  else Throw (mkExn (Named "URIError") "URI malformed" None).

(** Every character [encodeURIComponent] puts out: an unreserved one or
    the [%] of an escape (the digits of an escape are unreserved). *)
Definition url_char (c : ascii) : bool := uri_unreserved c || is_char "%" c.

(** What follows the host of a URL: nothing, or a path. *)
Definition path_or_empty (rest : string) : bool :=
  match rest with
  | EmptyString => true
  | String c _ => is_char "/" c
  end.

End Text.

(** ** CID utility ([utils] of [src/lib/api.ts]) *)

Module Utils.

(** [.replace(/^(ipfs:\/\/|https?:\/\/)/, '')] *)
Definition strip_scheme (s : string) : string :=
  if startsWith s "ipfs://" then JS.drop 7 s
  else if startsWith s "https://" then JS.drop 8 s
  else if startsWith s "http://" then JS.drop 7 s
  else s.

Definition not_slash (c : ascii) : bool := negb (is_char "/" c).

(** [.replace(/\.ipfs\.[^\/]+/, '')]: the leftmost [.ipfs.] that is
    followed by a character other than [/] is removed together with all the
    characters up to the next [/]. *)
Fixpoint remove_ipfs_host (s : string) : string :=
  match s with
  | EmptyString => EmptyString
  | String c s' =>
      if startsWith s ".ipfs." && negb (is_empty (JS.take_while not_slash (JS.drop 6 s)))
      then JS.drop_while not_slash (JS.drop 6 s)
      else String c (remove_ipfs_host s')
  end.

(** Characters that no rewriting step of [extractCID] looks for. *)
Definition plain (c : ascii) : bool := not_slash c && negb (is_char "." c).

(** [.replace(/^\/ipfs\//, '')] *)
Definition strip_ipfs_path (s : string) : string :=
  if startsWith s "/ipfs/" then JS.drop 6 s else s.

(** [.split('/')[0]] *)
Definition first_segment (s : string) : string := JS.take_while not_slash s.

Definition extractCID (input : string) : string :=
  if negb (truthy input) then ""
  else first_segment (strip_ipfs_path (remove_ipfs_host (strip_scheme input))).

(** Base58btc alphabet [[1-9A-HJ-NP-Za-km-z]]. *)
Definition is_base58 (c : ascii) : bool :=
  between "1" "9" c || between "A" "H" c || between "J" "N" c
  || between "P" "Z" c || between "a" "k" c || between "m" "z" c.

(** [[a-z2-7]] *)
Definition is_base32 (c : ascii) : bool := is_lower c || between "2" "7" c.
(** [[0-9a-f]] *)
Definition is_base16 (c : ascii) : bool := is_digit c || between "a" "f" c.
(** [[0-9a-z]] *)
Definition is_base36 (c : ascii) : bool := is_digit c || is_lower c.
(** [[A-Za-z0-9+/]] *)
Definition is_base64_nopad (c : ascii) : bool :=
  is_alnum c || is_char "+" c || is_char "/" c.
(** [[a-zA-Z0-9_\-\.]] *)
Definition is_generic (c : ascii) : bool :=
  is_alnum c || is_char "_" c || is_char "-" c || is_char "." c.

(** [/^Qm[1-9A-HJ-NP-Za-km-z]{44}$/.test(s)]: 44 characters of the class,
    each of which is one byte. *)
Definition test_cidv0 (s : string) : bool :=
  match s with
  | String "Q" (String "m" t) =>
      (String.length t =? 44)%nat && JS.forallb is_base58 t
  | _ => false
  end.

(** [/^h[cls]+$/.test(s)] for a one-character head [h]. *)
Definition test_head_plus (head cls : ascii -> bool) (s : string) : bool :=
  match s with
  | String c t => head c && negb (is_empty t) && JS.forallb cls t
  | EmptyString => false
  end.

(** [/^[mM][A-Za-z0-9+/]+={0,2}$/.test(s)] *)
Definition test_base64 (s : string) : bool :=
  match s with
  | String c t =>
      (is_char "m" c || is_char "M" c)
      && negb (is_empty (JS.take_while is_base64_nopad t))
      && match JS.drop_while is_base64_nopad t with
         | "" | "=" | "==" => true
         | _ => false
         end
  | EmptyString => false
  end.

(** [/^[a-zA-Z0-9_\-\.]+$/.test(s)] *)
Definition test_generic (s : string) : bool :=
  negb (is_empty s) && JS.forallb is_generic s.

(** [commonPrefixes.includes(cleanCID[0])] with
    [commonPrefixes = ['k', 'K', 'h', 'H', '9']]. *)
Definition has_common_prefix (s : string) : bool :=
  match s with
  | String c _ =>
      is_char "k" c || is_char "K" c || is_char "h" c || is_char "H" c
      || is_char "9" c
  | EmptyString => false
  end.

(** [cleanCID.length] is the number of UTF-16 code units. *)
Definition isValidCID (cid : string) : bool :=
  if negb (truthy cid) then false
  else
    let cleanCID := extractCID cid in
    if negb (truthy cleanCID) then false
    else if startsWith cleanCID "Qm" && (Text.length cleanCID =? 46)%nat
    then test_cidv0 cleanCID
    else if startsWith cleanCID "b"
    then test_head_plus (is_char "b") is_base32 cleanCID
         && (59 <=? Text.length cleanCID)%nat
    else if startsWith cleanCID "z"
    then test_head_plus (is_char "z") is_base58 cleanCID
         && (46 <=? Text.length cleanCID)%nat
    else if startsWith cleanCID "f"
    then test_head_plus (is_char "f") is_base16 cleanCID
    else if startsWith cleanCID "v"
    then test_head_plus (is_char "v") is_base36 cleanCID
    else if startsWith cleanCID "t"
    then test_head_plus (is_char "t") is_digit cleanCID
    else if startsWith cleanCID "m" || startsWith cleanCID "M"
    then test_base64 cleanCID
    else if has_common_prefix cleanCID
    then (30 <? Text.length cleanCID)%nat
    else if (Text.length cleanCID <? 30)%nat then false
    else test_generic cleanCID.

(** [filename.replace(/^\//, '')] *)
Definition clean_filename (filename : string) : string :=
  if startsWith filename "/" then JS.drop 1 filename else filename.

(** The part [createGatewayURL], [createIPFSURL] and [createGatewayURLs]
    append to [url] under [if (filename)]; [encodeURIComponent] may throw. *)
Definition filename_suffix (filename : option string) : completion string :=
  match filename with
  | Some f =>
      if truthy f
      then match Text.encodeURIComponent (clean_filename f) with
           | Normal encoded => Normal ("/" +:+ encoded)
           | Throw e => Throw e
           end
      else Normal ""
  | None => Normal ""
  end.

(** [url += suffix], where building the suffix may throw. *)
Definition with_suffix (url : string) (suffix : completion string)
  : completion string :=
  match suffix with
  | Normal t => Normal (url +:+ t)
  | Throw e => Throw e
  end.

(** [createGatewayURL(cid, filename?, gateway = 'dweb.link')] *)
Definition createGatewayURL (cid : string) (filename gateway : option string)
  : completion string :=
  let gateway := default "dweb.link" gateway in
  let cleanCID := extractCID cid in
  if negb (isValidCID cleanCID) then Throw (new_Error ("Invalid CID: " +:+ cid))
  else
    let url := "https://" +:+ cleanCID +:+ ".ipfs." +:+ gateway in
    with_suffix url (filename_suffix filename).

Definition gateways : list string :=
  ["dweb.link"; "w3s.link"; "ipfs.io"; "cloudflare-ipfs.com";
   "gateway.pinata.cloud"].

(** [createGatewayURLs(cid, filename?)]: the callback of [gateways.map]
    encodes the file name anew for every gateway. *)
Definition createGatewayURLs (cid : string) (filename : option string)
  : completion (list string) :=
  let cleanCID := extractCID cid in
  if negb (isValidCID cleanCID) then Normal []
  else
    map_items (fun gateway =>
      let url := "https://" +:+ cleanCID +:+ ".ipfs." +:+ gateway in
      with_suffix url (filename_suffix filename)) gateways.

End Utils.

(** ** Backend API client ([StorachaAPI] of [src/lib/api.ts]) *)

Module Api.

(** What [fetch] resolves with: the status line and the text of the body. *)
Record Response := mkResponse {
  status : Z;
  statusText : string;
  body : string
}.

(** The outcome of one [fetch]: it rejects (with an [Error] carrying a
    message, or with some other value), or resolves with a response. *)
Inductive FetchResult :=
| Rejected (message : option string)
| Resolved (r : Response).

(** [response.ok] *)
Definition ok (r : Response) : bool := (200 <=? status r)%Z && (status r <=? 299)%Z.

Definition new_APIError (message : string) (status : option Z) : Exn :=
  mkExn APIError message status.

(** The messages of the errors the runtime itself raises in [request]; their
    wording is the engine's. *)
Definition json_syntax_message : string := "Unexpected token in JSON".
Definition null_property_message : string :=
  "Cannot read properties of null (reading 'error')".

(** [data.error || `HTTP ${response.status}: ${response.statusText}`] *)
Definition error_message (data : JSON.value) (r : Response) : completion string :=
  let fallback := "HTTP " +:+ pretty (status r) +:+ ": " +:+ statusText r in
  match data with
  | JSON.Null => Throw (mkExn TypeError null_property_message None)
  | JSON.Obj fields =>
      match JSON.get_field "error" fields with
      | Some e => Normal (if JSON.truthy e then JSON.to_string e else fallback)
      | None => Normal fallback
      end
  | _ => Normal fallback
  end.

(** The [try] block of [request], once [fetch] has settled. *)
Definition request_try (outcome : FetchResult) : completion JSON.value :=
  match outcome with
  | Rejected (Some message) => Throw (mkExn TypeError message None)
  | Rejected None => Throw (mkExn (Thrown "value") "" None)
  | Resolved r =>
      match JSON.parse (body r) with
      | None => Throw (mkExn SyntaxError json_syntax_message None)
      | Some data =>
          if negb (ok r)
          then match error_message data r with
               | Normal message => Throw (new_APIError message (Some (status r)))
               | Throw e => Throw e
               end
          else Normal data
      end
  end.

(** [request(endpoint)]: the [catch] block lets an [APIError] through and
    wraps anything else in an [APIError] without status. *)
Definition request (outcome : FetchResult) : completion JSON.value :=
  match request_try outcome with
  | Normal data => Normal data
  | Throw error =>
      match exn_kind error with
      | APIError => Throw error
      | Thrown _ => Throw (new_APIError "Network request failed" None)
      | _ => Throw (new_APIError (exn_message error) None)
      end
  end.

(** What [getDelegationWithRetry] does to the world: requests and waits. *)
Inductive Event :=
| EvFetch (url : string)
| EvSleep (ms : Z).

(** The address [getDelegation(did)] asks for: [baseURL] and the endpoint
    [/api/delegation/${encodeURIComponent(did)}], which cannot be built for
    a [did] with an unpaired surrogate. *)
Definition delegation_url (baseURL did : string) : completion string :=
  match Text.encodeURIComponent did with
  | Normal encoded => Normal (baseURL +:+ "/api/delegation/" +:+ encoded)
  | Throw e => Throw e
  end.

(** [getDelegation(did)]: where the endpoint cannot be built the call throws
    before any request; otherwise the request is made and settles as
    [outcome] says. *)
Definition getDelegation (url : completion string) (outcome : FetchResult)
  : list Event * completion JSON.value :=
  match url with
  | Normal u => ([EvFetch u], request outcome)
  | Throw e => ([], Throw e)
  end.

(** The errors the [catch] block of the retry loop rethrows at once. *)
Definition no_retry (error : Exn) : bool :=
  match exn_kind error with
  | APIError =>
      match exn_status error with
      | Some st => (st =? 400)%Z || (st =? 401)%Z || (st =? 403)%Z
      | None => false
      end
  | _ => false
  end.

(** The [for] loop of [getDelegationWithRetry]; [remaining] is
    [maxRetries - attempt], and [net n] is how the [n]-th request of the call
    settles. *)
Fixpoint retry_loop (net : nat -> FetchResult) (url : completion string)
    (maxRetries : nat) (delay : Z) (remaining attempt : nat)
    (lastError : option Exn) : list Event * completion JSON.value :=
  match remaining with
  | O =>
      ([], Throw (default (new_Error "Failed to get delegation after retries")
                    lastError))
  | S remaining' =>
      let wait :=
        if (0 <? attempt)%nat
        then [EvSleep (delay * 2 ^ (Z.of_nat attempt - 1))]
        else [] in
      let evs := (wait ++ (getDelegation url (net attempt)).1)%list in
      match (getDelegation url (net attempt)).2 with
      | Normal response => (evs, Normal response)
      | Throw error =>
          if no_retry error then (evs, Throw error)
          else if (attempt =? maxRetries - 1)%nat then (evs, Throw error)
          else
            let '(evs', result) :=
              retry_loop net url maxRetries delay remaining' (S attempt)
                (Some error) in
            ((evs ++ evs')%list, result)
      end
  end.

(** [getDelegationWithRetry(did, maxRetries = 3, delay = 1000)] *)
Definition getDelegationWithRetry (baseURL : string) (net : nat -> FetchResult)
    (did : string) (maxRetries : option nat) (delay : option Z)
  : list Event * completion JSON.value :=
  let maxRetries := default 3%nat maxRetries in
  let delay := default 1000%Z delay in
  retry_loop net (delegation_url baseURL did) maxRetries delay maxRetries 0 None.

(** What one round of the loop does before its request settles. *)
Definition attempt_events (url : string) (delay : Z) (attempt : nat)
  : list Event :=
  ((if (0 <? attempt)%nat
    then [EvSleep (delay * 2 ^ (Z.of_nat attempt - 1))]
    else []) ++ [EvFetch url])%list.

(** The round [attempt] is the last one: its request succeeds, or fails with
    an error that is rethrown at once, or it is round [maxRetries - 1]. *)
Definition stops (net : nat -> FetchResult) (maxRetries attempt : nat) : bool :=
  match request (net attempt) with
  | Normal _ => true
  | Throw error => no_retry error || (attempt =? maxRetries - 1)%nat
  end.

(** [storage.loadSpaceInfo()]: [JSON.parse] under [try], [null] in the
    [catch] block and when nothing is stored. *)
Definition loadSpaceInfo (localStorage : gmap string string) : JSON.value :=
  match localStorage !! "storacha_space_info" with
  | Some stored =>
      if truthy stored
      then match JSON.parse stored with
           | Some v => v
           | None => JSON.Null
           end
      else JSON.Null
  | None => JSON.Null
  end.

Definition is_fetch (e : Event) : bool :=
  match e with EvFetch _ => true | EvSleep _ => false end.

(** The requests and the waits of a trace. *)
Definition fetch_count (evs : list Event) : nat :=
  length (List.filter is_fetch evs).

Definition sleeps (evs : list Event) : list Z :=
  flat_map (fun e => match e with EvSleep ms => [ms] | EvFetch _ => [] end) evs.

End Api.

(** ** Base64 normalisation of the backend ([server.js]) *)

Module Server.

(** [[A-Za-z0-9+/=]] *)
Definition is_base64 (c : ascii) : bool :=
  is_alnum c || is_char "+" c || is_char "/" c || is_char "=" c.

(** [while (cleaned.length % 4 !== 0) cleaned += '='], [None] when the loop
    has not left within [fuel] rounds. *)
Fixpoint pad_loop (fuel : nat) (cleaned : string) : option string :=
  if (Text.length cleaned mod 4 =? 0)%nat then Some cleaned
  else match fuel with
       | O => None
       | S fuel' => pad_loop fuel' (cleaned +:+ "=")
       end.

(** What [cleanBase64] returns: [null] or a string. *)
Inductive nullable := Null | Text (s : string).

Definition cleanBase64 (fuel : nat) (input : string) : option nullable :=
  if negb (truthy input) then Some Null
  else
    let cleaned := remove_white_space (trim input) in
    let cleaned := JS.filter is_base64 cleaned in
    match pad_loop fuel cleaned with
    | Some cleaned => Some (Text cleaned)
    | None => None
    end.

End Server.

(** ** The client SDK as the hooks see it *)

Module SDK.

(** A namespace the client knows: [s.did()]. *)
Record Space := mkSpace { did : string }.

(** A parsed proof: [parsedProof.capabilities], which may be missing.  A
    capability is a string or an object. *)
Record Delegation := mkDelegation {
  capabilities : option (list JSON.value)
}.

(** The client handle: [storachaClient.agent?.did()]. *)
Record Client := mkClient { agent_did : option string }.

Record File := mkFile {
  file_name : string;
  file_size : Z;
  file_type : string
}.

(** How each call into the SDK settles. *)
Record Env := mkEnv {
  Signer_parse : string -> completion unit;
  create : completion Client;
  Proof_parse : string -> completion Delegation;
  addSpace : Delegation -> completion unit;
  spaces : completion (list Space);
  setCurrentSpace : string -> completion unit;
  uploadFile : File -> completion string
}.

(** The calls a hook makes, and the timers it arms, in order. *)
Inductive Event :=
| EvSignerParse (key : string)
| EvCreate
| EvProofParse (proof : string)
| EvAddSpace (proof : Delegation)
| EvSpaces
| EvSetCurrentSpace (space : string)
| EvUploadFile (file : File)
| EvSetInterval (ms : Z)
| EvClearInterval
| EvSetTimeout (ms : Z).

(** Computations that call the SDK and may throw. *)
Definition M (A : Type) : Type := list Event * completion A.

Definition ret {A} (a : A) : M A := ([], Normal a).
Definition throw {A} (e : Exn) : M A := ([], Throw e).
Definition bind {A B} (m : M A) (k : A -> M B) : M B :=
  match m with
  | (evs, Normal a) => let '(evs', r) := k a in ((evs ++ evs')%list, r)
  | (evs, Throw e) => (evs, Throw e)
  end.
(** [await f(...)]: the call is made and settles as the environment says. *)
Definition call {A} (ev : Event) (outcome : completion A) : M A := ([ev], outcome).

End SDK.

Notation "x <- m ;; k" := (SDK.bind m (fun x => k))
  (at level 100, m at next level, right associativity).

(** ** Session records *)

Module Session.

Inductive Method := email | delegation.

Record UserSession := mkSession {
  session_email : string;
  isLoggedIn : bool;
  method : option Method;
  spaceDid : option string;
  agentDid : option string
}.

Definition SESSION_KEY : string := "storacha_session".

Definition method_json (m : option Method) : JSON.value :=
  match m with
  | Some email => JSON.Str "email"
  | Some delegation => JSON.Str "delegation"
  | None => JSON.Null
  end.

Definition optional_field (key : string) (v : option string)
  : list (string * JSON.value) :=
  match v with
  | Some s => [(key, JSON.Str s)]
  | None => []
  end.

(** The session object as a value; an [undefined] property is left out by
    [JSON.stringify]. *)
Definition session_json (s : UserSession) : JSON.value :=
  JSON.Obj ([("email", JSON.Str (session_email s));
             ("isLoggedIn", JSON.Bool (isLoggedIn s));
             ("method", method_json (method s))]
            ++ optional_field "spaceDid" (spaceDid s)
            ++ optional_field "agentDid" (agentDid s))%list.

(** [{ email: '', isLoggedIn: false, method: null, spaceDid: '', agentDid: '' }] *)
Definition empty_session : UserSession :=
  mkSession "" false None (Some "") (Some "").

(** The initialiser of [userSession] in both hooks:
    [saved ? JSON.parse(saved) : { ... }] over
    [localStorage.getItem(SESSION_KEY)]. *)
Definition init_userSession (localStorage : gmap string string)
  : completion JSON.value :=
  match localStorage !! SESSION_KEY with
  | Some saved =>
      if truthy saved
      then match JSON.parse saved with
           | Some v => Normal v
           | None => Throw (mkExn SyntaxError Api.json_syntax_message None)
           end
      else Normal (session_json empty_session)
  | None => Normal (session_json empty_session)
  end.

End Session.

(** ** Delegation bootstrap, the statements both hooks share *)

Module Bootstrap.
Import SDK Session.

Record DelegationConfig := mkConfig {
  key : string;
  proof : string;
  config_spaceDid : option string
}.

(** [input.replace(/[^A-Za-z0-9+/=]/g, '').trim()] *)
Definition cleanBase64 (input : string) : string :=
  trim (JS.filter Server.is_base64 input).

Definition requiredCapabilities : list string :=
  ["space/blob/add"; "space/index/add"; "upload/add"].

(** [typeof c === 'string' ? c.includes(cap) : JSON.stringify(c).includes(cap)] *)
Definition mentions (cap : string) (c : JSON.value) : bool :=
  match c with
  | JSON.Str text => includes text cap
  | _ => includes (JSON.stringify c) cap
  end.

Definition missingCapabilities (capabilities : list JSON.value) : list string :=
  List.filter (fun cap => negb (existsb (mentions cap) capabilities))
    requiredCapabilities.

Definition missing_message (missing : list string) : string :=
  "Delegation proof missing required capabilities: " +:+ join ", " missing
  +:+ ". Please regenerate with proper permissions.".

Definition proof_message : string :=
  "Invalid delegation proof. Proof too short or missing.".
Definition key_message : string :=
  "Invalid private key format. Should start with " +:+ String dquote "Mg"
  +:+ String dquote " and be base64 encoded.".
Definition no_space_message : string :=
  "No space available. The provided proof may not delegate access to a usable space, or the client failed to initialize it.".

(** The choice of [currentSpace] among [spaces]. *)
Definition select_space (requested : option string) (spaces : list Space)
  : option Space :=
  match requested with
  | Some d =>
      if truthy d
      then match List.find (fun sp => String.eqb (did sp) d) spaces with
           | Some sp => Some sp
           | None => head spaces
           end
      else head spaces
  | None => head spaces
  end.

(** From [cleanBase64(delegationConfig.proof)] to the session object: the
    body of [loginWithDelegation] and of [setupDelegation] up to
    [saveSession]. *)
Definition bootstrap (sdk : Env) (delegationConfig : DelegationConfig)
  : M (UserSession * Client * Space) :=
  let cleanProof := cleanBase64 (proof delegationConfig) in
  let cleanKey := trim (key delegationConfig) in
  if negb (truthy cleanProof) || (Text.length cleanProof <? 100)%nat
  then throw (new_Error proof_message)
  else if negb (truthy cleanKey) || negb (startsWith cleanKey "Mg")
  then throw (new_Error key_message)
  else
    _ <- call (EvSignerParse cleanKey) (Signer_parse sdk cleanKey) ;;
    storachaClient <- call EvCreate (create sdk) ;;
    parsedProof <- call (EvProofParse cleanProof) (Proof_parse sdk cleanProof) ;;
    let capabilities := default [] (capabilities parsedProof) in
    let missing := missingCapabilities capabilities in
    if (0 <? length missing)%nat
    then throw (new_Error (missing_message missing))
    else
      _ <- call (EvAddSpace parsedProof) (addSpace sdk parsedProof) ;;
      spaces <- call EvSpaces (spaces sdk) ;;
      match select_space (config_spaceDid delegationConfig) spaces with
      | None => throw (new_Error no_space_message)
      | Some currentSpace =>
          _ <- call (EvSetCurrentSpace (did currentSpace))
                 (setCurrentSpace sdk (did currentSpace)) ;;
          ret (mkSession "delegation@user" true (Some delegation)
                 (Some (did currentSpace)) (agent_did storachaClient),
               storachaClient, currentSpace)
      end.

(** The reading of the specification, for comparison with [mentions]: the
    capability list has an entry for [cap], that is a string equal to it or
    an object whose [can] is it. *)
Definition spec_lists (cap : string) (c : JSON.value) : bool :=
  match c with
  | JSON.Str text => String.eqb text cap
  | JSON.Obj fields =>
      match JSON.get_field "can" fields with
      | Some (JSON.Str text) => String.eqb text cap
      | _ => false
      end
  | _ => false
  end.

Definition spec_lacks (capabilities : list JSON.value) (cap : string) : bool :=
  negb (existsb (spec_lists cap) capabilities).

(** The calls [bootstrap] has made once the proof is parsed. *)
Definition parsed_events (delegationConfig : DelegationConfig) : list Event :=
  [EvSignerParse (trim (key delegationConfig)); EvCreate;
   EvProofParse (cleanBase64 (proof delegationConfig))].

(** [err.message || fallback] *)
Definition message_or (fallback : string) (err : Exn) : string :=
  if truthy (exn_message err) then exn_message err else fallback.

Definition kind_name (k : ErrorKind) : string :=
  match k with
  | Error => "Error"
  | APIError => "APIError"
  | SyntaxError => "SyntaxError"
  | TypeError => "TypeError"
  | Named name => name
  | Thrown what => what
  end.

(** [err.toString()] *)
Definition exn_to_string (err : Exn) : string :=
  match exn_kind err with
  | Thrown what => what
  | k =>
      if truthy (exn_message err)
      then kind_name k +:+ ": " +:+ exn_message err
      else kind_name k
  end.

End Bootstrap.

(** ** The artboard hook: [useStoracha] with upload history *)

Module Artboard.
Import SDK Session Bootstrap.

Definition DEFAULT_GATEWAY : string := "storacha.link".
Definition UPLOADS_KEY : string := "storacha_uploads".

(** An [UploadedFile]; the [Date] of [uploadedAt] is carried as the ISO text
    it serialises to. *)
Record UploadedFile := mkUploaded {
  id : string;
  name : string;
  size : Z;
  type : string;
  cid : string;
  uploadedAt : string;
  gatewayUrl : string;
  thumbnailUrl : option string;
  description : option string
}.

Definition file_json (f : UploadedFile) : JSON.value :=
  JSON.Obj ([("id", JSON.Str (id f)); ("name", JSON.Str (name f));
             ("size", JSON.Num (size f)); ("type", JSON.Str (type f));
             ("cid", JSON.Str (cid f)); ("uploadedAt", JSON.Str (uploadedAt f));
             ("gatewayUrl", JSON.Str (gatewayUrl f))]
            ++ optional_field "thumbnailUrl" (thumbnailUrl f)
            ++ optional_field "description" (description f))%list.

(** The property names of the record, in order. *)
Definition file_keys (f : UploadedFile) : list string :=
  match file_json f with
  | JSON.Obj fields => List.map fst fields
  | _ => []
  end.

Definition get_string (key : string) (fields : list (string * JSON.value))
  : option string :=
  match JSON.get_field key fields with
  | Some (JSON.Str s) => Some s
  | _ => None
  end.

Definition get_optional (key : string) (fields : list (string * JSON.value))
  : option (option string) :=
  match JSON.get_field key fields with
  | Some (JSON.Str s) => Some (Some s)
  | None => Some None
  | _ => None
  end.

(** A stored value read back as the record [saveUploads] wrote. *)
Definition read_file (v : JSON.value) : option UploadedFile :=
  match v with
  | JSON.Obj fields =>
      id ← get_string "id" fields;
      name ← get_string "name" fields;
      size ← match JSON.get_field "size" fields with
             | Some (JSON.Num n) => Some n
             | _ => None
             end;
      type ← get_string "type" fields;
      cid ← get_string "cid" fields;
      uploadedAt ← get_string "uploadedAt" fields;
      gatewayUrl ← get_string "gatewayUrl" fields;
      thumbnailUrl ← get_optional "thumbnailUrl" fields;
      description ← get_optional "description" fields;
      let f := mkUploaded id name size type cid uploadedAt gatewayUrl
                 thumbnailUrl description in
      if decide (List.map fst fields = file_keys f) then Some f else None
  | _ => None
  end.

(** How an initialiser of the hook ends: with a value, with an exception, or
    on a stored value that [JSON.parse] accepts but that is no list of
    records written by [saveUploads] (left outside this development). *)
Inductive init_result (A : Type) :=
| InitOk (a : A)
| InitThrow (e : Exn)
| InitForeign.
Arguments InitOk {A} a.
Arguments InitThrow {A} e.
Arguments InitForeign {A}.

(** The initialiser of [uploadedFiles]:
    [saved ? JSON.parse(saved).map(f => ({...f, uploadedAt: new Date(f.uploadedAt)})) : []] *)
Definition init_uploadedFiles (localStorage : gmap string string)
  : init_result (list UploadedFile) :=
  match localStorage !! UPLOADS_KEY with
  | Some saved =>
      if truthy saved
      then match JSON.parse saved with
           | None => InitThrow (mkExn SyntaxError Api.json_syntax_message None)
           | Some (JSON.Arr items) =>
               match mapM read_file items with
               | Some files => InitOk files
               | None => InitForeign
               end
           | Some JSON.Null =>
               InitThrow (mkExn TypeError "Cannot read properties of null (reading 'map')" None)
           | Some _ =>
               InitThrow (mkExn TypeError "JSON.parse(...).map is not a function" None)
           end
      else InitOk []
  | None => InitOk []
  end.

(** ['pending' | 'uploading' | 'completed' | 'error']; the last is written
    [failed] here, [error] being a field of the hook's state. *)
Inductive Status := pending | uploading | completed | failed.

(** An entry of the progress map.  [{...prev[fileId], status, progress}] on a
    missing entry leaves the other properties undefined. *)
Record UploadProgress := mkProgress {
  progress_fileId : option string;
  fileName : option string;
  progress : Z;
  status : Status;
  bytesUploaded : option Z;
  totalBytes : option Z
}.

(** The state the hook keeps, the browser storage it mirrors to, and the
    calls it has made. *)
Record State := mkState {
  localStorage : gmap string string;
  client : option Client;
  space : option Space;
  isInitializing : bool;
  uploadedFiles : list UploadedFile;
  error : option string;
  isConnected : bool;
  userSession : JSON.value;
  uploadProgress : gmap string UploadProgress;
  abortControllers : gset string;
  trace : list Event
}.

Definition with_localStorage (f : gmap string string -> gmap string string)
    (st : State) : State :=
  mkState (f (localStorage st)) (client st) (space st) (isInitializing st)
    (uploadedFiles st) (error st) (isConnected st) (userSession st)
    (uploadProgress st) (abortControllers st) (trace st).
Definition setClient (c : option Client) (st : State) : State :=
  mkState (localStorage st) c (space st) (isInitializing st)
    (uploadedFiles st) (error st) (isConnected st) (userSession st)
    (uploadProgress st) (abortControllers st) (trace st).
Definition setSpace (sp : option Space) (st : State) : State :=
  mkState (localStorage st) (client st) sp (isInitializing st)
    (uploadedFiles st) (error st) (isConnected st) (userSession st)
    (uploadProgress st) (abortControllers st) (trace st).
Definition setIsInitializing (b : bool) (st : State) : State :=
  mkState (localStorage st) (client st) (space st) b
    (uploadedFiles st) (error st) (isConnected st) (userSession st)
    (uploadProgress st) (abortControllers st) (trace st).
Definition setUploadedFiles (files : list UploadedFile) (st : State) : State :=
  mkState (localStorage st) (client st) (space st) (isInitializing st)
    files (error st) (isConnected st) (userSession st)
    (uploadProgress st) (abortControllers st) (trace st).
Definition setError (e : option string) (st : State) : State :=
  mkState (localStorage st) (client st) (space st) (isInitializing st)
    (uploadedFiles st) e (isConnected st) (userSession st)
    (uploadProgress st) (abortControllers st) (trace st).
Definition setIsConnected (b : bool) (st : State) : State :=
  mkState (localStorage st) (client st) (space st) (isInitializing st)
    (uploadedFiles st) (error st) b (userSession st)
    (uploadProgress st) (abortControllers st) (trace st).
Definition setUserSession (v : JSON.value) (st : State) : State :=
  mkState (localStorage st) (client st) (space st) (isInitializing st)
    (uploadedFiles st) (error st) (isConnected st) v
    (uploadProgress st) (abortControllers st) (trace st).
Definition setUploadProgress
    (f : gmap string UploadProgress -> gmap string UploadProgress)
    (st : State) : State :=
  mkState (localStorage st) (client st) (space st) (isInitializing st)
    (uploadedFiles st) (error st) (isConnected st) (userSession st)
    (f (uploadProgress st)) (abortControllers st) (trace st).
Definition with_abortControllers (f : gset string -> gset string)
    (st : State) : State :=
  mkState (localStorage st) (client st) (space st) (isInitializing st)
    (uploadedFiles st) (error st) (isConnected st) (userSession st)
    (uploadProgress st) (f (abortControllers st)) (trace st).
Definition log (evs : list Event) (st : State) : State :=
  mkState (localStorage st) (client st) (space st) (isInitializing st)
    (uploadedFiles st) (error st) (isConnected st) (userSession st)
    (uploadProgress st) (abortControllers st) (trace st ++ evs)%list.

(** How mounting the hook ends. *)
Definition useStoracha (storage : gmap string string) : init_result State :=
  match init_uploadedFiles storage with
  | InitOk files =>
      match init_userSession storage with
      | Normal session =>
          InitOk (mkState storage None None false files None false session ∅ ∅ [])
      | Throw e => InitThrow e
      end
  | InitThrow e => InitThrow e
  | InitForeign => InitForeign
  end.

Definition saveSession (session : UserSession) (st : State) : State :=
  let st := with_localStorage
              <[SESSION_KEY := JSON.stringify (session_json session)]> st in
  setUserSession (session_json session) st.

Definition clearSession (st : State) : State :=
  let st := with_localStorage (delete SESSION_KEY) st in
  setUserSession (session_json empty_session) st.

Definition saveUploads (files : list UploadedFile) (st : State) : State :=
  with_localStorage
    <[UPLOADS_KEY := JSON.stringify (JSON.Arr (List.map file_json files))]> st.

Inductive LoginResult :=
| LoginOk (session : UserSession)
| LoginFailed (error details : string).

(** [loginWithDelegation(delegationConfig)].  The modules the function
    imports on the way are taken to load. *)
Definition loginWithDelegation (sdk : Env) (delegationConfig : DelegationConfig)
    (st : State) : State * LoginResult :=
  let st := setIsInitializing true st in
  let st := setError None st in
  let '(evs, outcome) := bootstrap sdk delegationConfig in
  let st := log evs st in
  let '(st, result) :=
    match outcome with
    | Normal (session, storachaClient, currentSpace) =>
        let st := saveSession session st in
        let st := setClient (Some storachaClient) st in
        let st := setSpace (Some currentSpace) st in
        let st := setIsConnected true st in
        (st, LoginOk session)
    | Throw err =>
        let errorMessage := message_or "Delegation login failed" err in
        let st := setError (Some errorMessage) st in
        let st := setIsConnected false st in
        (st, LoginFailed errorMessage (exn_to_string err))
    end in
  (setIsInitializing false st, result).

(** [`${Date.now()}-${file.name}`] *)
Definition fileId (now : N) (file : File) : string :=
  pretty now +:+ "-" +:+ file_name file.

(** [{...prev[fileId], status, progress}] *)
Definition restatus (entry : option UploadProgress) (st : Status) (p : Z)
  : UploadProgress :=
  match entry with
  | Some e =>
      mkProgress (progress_fileId e) (fileName e) p st (bytesUploaded e)
        (totalBytes e)
  | None => mkProgress None None p st None None
  end.

Inductive UploadResult :=
| UploadOk (cid url : string) (file : UploadedFile)
| UploadFailed (error : string).

(** The [catch] and [finally] blocks of [uploadFile]. *)
Definition uploadFile_catch (fileId : string) (err : Exn) (st : State)
  : State * UploadResult :=
  let errorMsg := message_or "Upload failed" err in
  let st := setUploadProgress
              (fun prev => <[fileId := restatus (prev !! fileId) failed 0]> prev)
              st in
  let st := setError (Some errorMsg) st in
  let st := with_abortControllers (fun m => m ∖ {[fileId]}) st in
  (st, UploadFailed errorMsg).

(** [uploadFile(file, description)] up to [await client.uploadFile(file)]:
    either it has ended already, or the upload is pending. *)
Definition uploadFile_begin (now : N) (file : File) (st : State)
  : State * option UploadResult :=
  let fileId := fileId now file in
  let st := with_abortControllers (fun m => {[fileId]} ∪ m) st in
  let st := setUploadProgress
              <[fileId := mkProgress (Some fileId) (Some (file_name file)) 0
                            pending (Some 0%Z) (Some (file_size file))]> st in
  match client st, space st with
  | Some _, Some _ =>
      let st := setUploadProgress
                  (fun prev => <[fileId := restatus (prev !! fileId) uploading 5]> prev)
                  st in
      let st := log [EvSetInterval 300; EvUploadFile file] st in
      (st, None)
  | _, _ =>
      let '(st, r) :=
        uploadFile_catch fileId
          (new_Error "Please login first. Client or space not initialized.") st in
      (st, Some r)
  end.

(** The error [uploadFile] rethrows when [client.uploadFile] fails. *)
Definition upload_error (uploadErr : Exn) : Exn :=
  let m := exn_message uploadErr in
  if includes m "space/blob/add" || includes m "permission denied"
     || includes m "capability"
  then new_Error ("Upload permission denied: " +:+ m
                  +:+ ". Your delegation may not have 'space/blob/add' capability.")
  else uploadErr.

(** [uploadFile] from the moment [client.uploadFile(file)] settles with
    [outcome]; [now] is the clock at the creation of the record and [date]
    the ISO text of [new Date()]. *)
Definition uploadFile_end (outcome : completion string) (now : N) (date : string)
    (fileId : string) (file : File) (description : option string) (st : State)
  : State * UploadResult :=
  match outcome with
  | Throw uploadErr => uploadFile_catch fileId (upload_error uploadErr) st
  | Normal cidString =>
      let gatewayUrl := "https://" +:+ cidString +:+ ".ipfs." +:+ DEFAULT_GATEWAY in
      let st := log [EvClearInterval] st in
      let thumbnailUrl :=
        if startsWith (file_type file) "image/"
        then gatewayUrl +:+ "?img-width=300&img-height=300&img-fit=cover"
        else gatewayUrl in
      let uploadedFile :=
        mkUploaded (cidString +:+ "-" +:+ pretty now) (file_name file)
          (file_size file) (file_type file) cidString date gatewayUrl
          (Some thumbnailUrl) description in
      let st := setUploadProgress
                  (fun prev =>
                     <[fileId :=
                         match prev !! fileId with
                         | Some e =>
                             mkProgress (progress_fileId e) (fileName e) 100
                               completed (Some (file_size file)) (totalBytes e)
                         | None =>
                             mkProgress None None 100 completed
                               (Some (file_size file)) None
                         end]> prev) st in
      let updated := uploadedFile :: uploadedFiles st in
      let st := saveUploads updated st in
      let st := setUploadedFiles updated st in
      let st := log [EvSetTimeout 2000] st in
      let st := with_abortControllers (fun m => m ∖ {[fileId]}) st in
      (st, UploadOk cidString gatewayUrl uploadedFile)
  end.

(** One call of [uploadFile] that nothing else interleaves with. *)
Definition uploadFile (sdk : Env) (now now' : N) (date : string) (file : File)
    (description : option string) (st : State) : State * UploadResult :=
  match uploadFile_begin now file st with
  | (st, Some r) => (st, r)
  | (st, None) =>
      uploadFile_end (SDK.uploadFile sdk file) now' date (fileId now file) file
        description st
  end.

End Artboard.

(** ** The upload-demo hook: [useStoracha] with [setupDelegation] *)

Module UploadDemo.
Import SDK Session Bootstrap.

Record State := mkState {
  localStorage : gmap string string;
  client : option Client;
  space : option Space;
  spaceDid : option string;
  isInitializing : bool;
  isUploading : bool;
  error : option string;
  userSession : JSON.value;
  trace : list Event
}.

Definition useStoracha (storage : gmap string string) : completion State :=
  match init_userSession storage with
  | Normal session =>
      Normal (mkState storage None None None false false None session [])
  | Throw e => Throw e
  end.

Definition saveSession (session : UserSession) (st : State) : State :=
  mkState (<[SESSION_KEY := JSON.stringify (session_json session)]> (localStorage st))
    (client st) (space st) (spaceDid st) (isInitializing st) (isUploading st)
    (error st) (session_json session) (trace st).

(** [setupDelegation(delegationConfig)] *)
Definition setupDelegation (sdk : Env) (delegationConfig : DelegationConfig)
    (st : State) : State * bool :=
  (* setIsInitializing(true); setError(null) *)
  let st := mkState (localStorage st) (client st) (space st) (spaceDid st)
              true (isUploading st) None (userSession st) (trace st) in
  let '(evs, outcome) := bootstrap sdk delegationConfig in
  let st := mkState (localStorage st) (client st) (space st) (spaceDid st)
              (isInitializing st) (isUploading st) (error st) (userSession st)
              (trace st ++ evs)%list in
  let '(st, result) :=
    match outcome with
    | Normal (session, storachaClient, currentSpace) =>
        let st := saveSession session st in
        (* setClient; setSpace; setSpaceDid *)
        (mkState (localStorage st) (Some storachaClient) (Some currentSpace)
           (Some (did currentSpace)) (isInitializing st) (isUploading st)
           (error st) (userSession st) (trace st), true)
    | Throw err =>
        let errorMessage := message_or "Delegation setup failed" err in
        (mkState (localStorage st) (client st) (space st) (spaceDid st)
           (isInitializing st) (isUploading st) (Some errorMessage)
           (userSession st) (trace st), false)
    end in
  (mkState (localStorage st) (client st) (space st) (spaceDid st) false
     (isUploading st) (error st) (userSession st) (trace st), result).

End UploadDemo.

(** ** Sample inputs *)

Module Sample.
Import SDK Session Bootstrap.

(** A proof text of 100 base64 characters and a key with the [Mg] prefix. *)
Definition config (requested : option string) : DelegationConfig :=
  mkConfig " MgAAAAAAAA " (JS.repeat "A" 100) requested.

(** A capability object as the SDK gives it: [{ can, with }]. *)
Definition capability (can : string) : JSON.value :=
  JSON.Obj [("can", JSON.Str can); ("with", JSON.Str "did:key:z6MkSpace")].

(** An SDK in which every call succeeds: the proof carries [capabilities]
    and the client knows the namespaces [known]. *)
Definition sdk (capabilities : option (list JSON.value)) (known : list Space)
  : Env :=
  mkEnv (fun _ => Normal ()) (Normal (mkClient (Some "did:key:z6MkAgent")))
    (fun _ => Normal (mkDelegation capabilities)) (fun _ => Normal ())
    (Normal known) (fun _ => Normal ())
    (fun _ => Normal "bafybeigdyrzt5sfp7udm7hu76uh7y26nf3efuylqabf3oclgtqy55fbzdi").

(** The state of each hook mounted on an empty storage. *)
Definition artboard : Artboard.State :=
  Artboard.mkState ∅ None None false [] None false (session_json empty_session)
    ∅ ∅ [].

Definition demo : UploadDemo.State :=
  UploadDemo.mkState ∅ None None None false false None
    (session_json empty_session) [].

Definition full_capabilities : list JSON.value :=
  [capability "space/blob/add"; capability "space/index/add";
   capability "upload/add"].


Definition ready_sdk : Env :=
  sdk (Some full_capabilities) [mkSpace "did:key:z6MkSpace"].

(** The artboard hook after a delegation login. *)
Definition logged_in : Artboard.State :=
  (Artboard.loginWithDelegation ready_sdk (config None) artboard).1.

(** A 2 MB image. *)
Definition photo : File := mkFile "photo.png" 2097152 "image/png".

End Sample.

(** ** More of [utils] ([src/lib/api.ts]): IPFS URLs, file names, ages *)

Module Links.

(** [createIPFSURL(cid, filename?)] *)
Definition createIPFSURL (cid : string) (filename : option string)
  : completion string :=
  let cleanCID := Utils.extractCID cid in
  if negb (Utils.isValidCID cleanCID) then Throw (new_Error ("Invalid CID: " +:+ cid))
  else
    let url := "ipfs://" +:+ cleanCID in
    Utils.with_suffix url (Utils.filename_suffix filename).

(** [extractFilename(path)]: the last segment of the path before any [?],
    decoded; as it stands where decoding throws. *)
Definition extractFilename (path : string) : string :=
  if negb (truthy path) then ""
  else
    let withoutQuery := hd "" (Text.split "?" path) in
    let segments := Text.split "/" withoutQuery in
    let lastSegment := List.last segments "" in
    match Text.decodeURIComponent lastSegment with
    | Some name => name
    | None => lastSegment
    end.

(** [isCIDDirectory(cidWithPath)] *)
Definition isCIDDirectory (cidWithPath : string) : bool :=
  let cleanPath := Utils.strip_scheme cidWithPath in
  (1 <? List.length (Text.split "/" cleanPath))%nat.

(** The [intervals] of [getTimeAgo], in the order [Object.entries] gives. *)
Definition intervals : list (string * Z) :=
  [("year", 31536000); ("month", 2592000); ("week", 604800); ("day", 86400);
   ("hour", 3600); ("minute", 60); ("second", 1)]%Z.

(** The [for] loop of [getTimeAgo] over the entries still to try. *)
Fixpoint time_ago (seconds : Z) (entries : list (string * Z)) : string :=
  match entries with
  | [] => "just now"
  | (unit, secondsInUnit) :: rest =>
      let interval := (seconds / secondsInUnit)%Z in
      if (1 <=? interval)%Z
      then pretty interval +:+ " " +:+ unit
           +:+ (if (interval =? 1)%Z then "" else "s") +:+ " ago"
      else time_ago seconds rest
  end.

(** [getTimeAgo(date)] at the time [now]; both are time values in
    milliseconds, so the date is a valid one. *)
Definition getTimeAgo (now date : Z) : string :=
  let seconds := ((now - date) / 1000)%Z in
  time_ago seconds intervals.

End Links.

(** ** Browser storage of the API client ([storage] of [src/lib/api.ts])

    The functions run in a browser ([typeof window] is not ['undefined']);
    the clock [Date.now()] is an input, in milliseconds. *)

Module Storage.

(** [v.key] for a value read from JSON other than [null], and a property
    name that no prototype defines; [None] is [undefined]. *)
Definition member (key : string) (v : JSON.value) : option JSON.value :=
  match v with
  | JSON.Obj fields => JSON.get_field key fields
  | _ => None
  end.

(** A property of an object literal; [JSON.stringify] leaves out a property
    whose value is [undefined]. *)
Definition property (key : string) (v : option JSON.value)
  : list (string * JSON.value) :=
  match v with
  | Some w => [(key, w)]
  | None => []
  end.

(** [saveDelegation(delegation)] *)
Definition saveDelegation (now : Z) (delegation : JSON.value)
    (localStorage : gmap string string) : completion (gmap string string) :=
  match delegation with
  | JSON.Null =>
      Throw (mkExn TypeError
               "Cannot read properties of null (reading 'delegation')" None)
  | _ =>
      Normal (<["storacha_delegation" :=
                  JSON.stringify
                    (JSON.Obj (property "token" (member "delegation" delegation)
                               ++ property "expiresAt" (member "expiresAt" delegation)
                               ++ property "spaceDid" (member "spaceDid" delegation)
                               ++ property "spaceName" (member "spaceName" delegation)
                               ++ [("timestamp", JSON.Num now)]))]>
                localStorage)
  end.

(** [clearDelegation()] *)
Definition clearDelegation (localStorage : gmap string string)
  : gmap string string :=
  delete "storacha_space_info" (delete "storacha_delegation" localStorage).

(** [v < n] and [v > n] for a property [v] read from JSON and a number [n].
    An [undefined] property compares as [NaN], [null] as 0, a boolean as 0
    or 1.  [None]: the comparison has to turn a text, an array or an object
    into a number, or meets a number written with a fraction or an
    exponent; these conversions are left outside this development. *)
Definition less_than (v : option JSON.value) (n : Z) : option bool :=
  match v with
  | None => Some false
  | Some JSON.Null => Some (0 <? n)%Z
  | Some (JSON.Bool b) => Some ((if b then 1 else 0) <? n)%Z
  | Some (JSON.Num z) => Some (z <? n)%Z
  | Some _ => None
  end.

Definition greater_than (v : option JSON.value) (n : Z) : option bool :=
  match v with
  | None => Some false
  | Some JSON.Null => Some (n <? 0)%Z
  | Some (JSON.Bool b) => Some (n <? (if b then 1 else 0))%Z
  | Some (JSON.Num z) => Some (n <? z)%Z
  | Some _ => None
  end.

(** [loadDelegation()]: the storage afterwards and the value returned
    ([JSON.Null] for [null]); [None] where a comparison leaves the model. *)
Definition loadDelegation (now : Z) (localStorage : gmap string string)
  : option (gmap string string * JSON.value) :=
  match localStorage !! "storacha_delegation" with
  | None => Some (localStorage, JSON.Null)
  | Some stored =>
      if negb (truthy stored) then Some (localStorage, JSON.Null)
      else
        match JSON.parse stored with
        | None => Some (clearDelegation localStorage, JSON.Null)
        | Some JSON.Null =>
            (* [data.expiresAt] throws, the [catch] block runs *)
            Some (clearDelegation localStorage, JSON.Null)
        | Some data =>
            let now := (now / 1000)%Z in
            match less_than (member "expiresAt" data) now with
            | Some true => Some (clearDelegation localStorage, JSON.Null)
            | Some false => Some (localStorage, data)
            | None => None
            end
        end
  end.

(** [hasValidDelegation()]; the clock is read once in [loadDelegation]
    ([now]) and once after it ([now']). *)
Definition hasValidDelegation (now now' : Z) (localStorage : gmap string string)
  : option (gmap string string * bool) :=
  match loadDelegation now localStorage with
  | None => None
  | Some (localStorage, delegation) =>
      if negb (JSON.truthy delegation) then Some (localStorage, false)
      else
        let now := (now' / 1000)%Z in
        let buffer := 300%Z in
        match greater_than (member "expiresAt" delegation) (now + buffer) with
        | Some valid => Some (localStorage, valid)
        | None => None
        end
  end.

(** [saveSpaceInfo(spaceDid, spaceName?)] *)
Definition saveSpaceInfo (now : Z) (spaceDid : string) (spaceName : option string)
    (localStorage : gmap string string) : gmap string string :=
  <["storacha_space_info" :=
      JSON.stringify
        (JSON.Obj ([("did", JSON.Str spaceDid)]
                   ++ Session.optional_field "name" spaceName
                   ++ [("lastUsed", JSON.Num now)]))]> localStorage.

(** [clearAll()] *)
Definition clearAll (localStorage : gmap string string) : gmap string string :=
  delete "storacha_client_state"
    (delete "storacha_space_info" (delete "storacha_delegation" localStorage)).

(** A [DelegationResponse] of the declared type, as the backend sends it
    with a delegation. *)
Record DelegationResponse := mkDelegationResponse {
  success : bool;
  delegation : string;
  expiresAt : Z;
  spaceDid : option string;
  spaceName : option string
}.

Definition response_json (r : DelegationResponse) : JSON.value :=
  JSON.Obj ([("success", JSON.Bool (success r));
             ("delegation", JSON.Str (delegation r));
             ("expiresAt", JSON.Num (expiresAt r))]
            ++ Session.optional_field "spaceDid" (spaceDid r)
            ++ Session.optional_field "spaceName" (spaceName r)).

(** The object [saveDelegation] stores for such a response. *)
Definition stored_delegation (saved : Z) (r : DelegationResponse) : JSON.value :=
  JSON.Obj ([("token", JSON.Str (delegation r));
             ("expiresAt", JSON.Num (expiresAt r))]
            ++ Session.optional_field "spaceDid" (spaceDid r)
            ++ Session.optional_field "spaceName" (spaceName r)
            ++ [("timestamp", JSON.Num saved)]).

(** The object [saveSpaceInfo] stores. *)
Definition stored_space_info (saved : Z) (spaceDid : string)
    (spaceName : option string) : JSON.value :=
  JSON.Obj ([("did", JSON.Str spaceDid)]
            ++ Session.optional_field "name" spaceName
            ++ [("lastUsed", JSON.Num saved)]).

End Storage.

(** ** The backend ([server.js]): initialisation and routes *)

Module Backend.
Import SDK.

(** The environment of the process and how each call into the SDK settles.
    [archive] is the outcome of [delegation.archive()]: [Some text] when
    [archive.ok] holds bytes, [text] being their base64 form. *)
Record Env := mkEnv {
  STORACHA_PRIVATE_KEY : option string;
  STORACHA_PROOF : option string;
  Signer_parse : string -> completion unit;
  create : completion Client;
  Proof_parse : string -> completion Delegation;
  addSpace : Delegation -> completion Space;
  setCurrentSpace : string -> completion unit;
  DID_parse : string -> completion unit;
  createDelegation : string -> Z -> completion unit;
  archive : completion (option string);
  currentSpace : option Space
}.

(** The calls the backend makes, in order. *)
Inductive Event :=
| EvSignerParse (key : string)
| EvCreate
| EvProofParse (proof : string)
| EvAddSpace (proof : Delegation)
| EvSetCurrentSpace (space : string)
| EvDIDParse (did : string)
| EvCreateDelegation (audience : string) (abilities : list string) (expiration : Z)
| EvArchive.

Definition M (A : Type) : Type := list Event * completion A.

Definition ret {A} (a : A) : M A := ([], Normal a).
Definition throw {A} (e : Exn) : M A := ([], Throw e).
Definition bind {A B} (m : M A) (k : A -> M B) : M B :=
  match m with
  | (evs, Normal a) => let '(evs', r) := k a in ((evs ++ evs')%list, r)
  | (evs, Throw e) => (evs, Throw e)
  end.
Definition call {A} (ev : Event) (outcome : completion A) : M A := ([ev], outcome).

Notation "x <~ m ;; k" := (bind m (fun x => k))
  (at level 100, m at next level, right associativity).

(** [cleanBase64(input)]; its padding loop ends within three rounds. *)
Definition cleanBase64 (input : string) : Server.nullable :=
  match Server.cleanBase64 3 input with
  | Some cleaned => cleaned
  | None => Server.Null
  end.

(** [!!storachaClient] *)
Definition has_client (storachaClient : option Client) : bool :=
  match storachaClient with Some _ => true | None => false end.

(** The [try] block of [initializeStoracha] from [Signer.parse] on: the calls
    made, the value of the variable [storachaClient] afterwards, and how the
    block ends. *)
Definition initialize_try (env : Env) (cleanedPrivateKey cleanedProofString : string)
    (storachaClient : option Client)
  : list Event * option Client * completion bool :=
  match Signer_parse env cleanedPrivateKey with
  | Throw e => ([EvSignerParse cleanedPrivateKey], storachaClient, Throw e)
  | Normal _ =>
      match create env with
      | Throw e => ([EvSignerParse cleanedPrivateKey; EvCreate], storachaClient, Throw e)
      | Normal created =>
          let '(evs, outcome) :=
            (proof <~ call (EvProofParse cleanedProofString)
                        (Proof_parse env cleanedProofString) ;;
             space <~ call (EvAddSpace proof) (addSpace env proof) ;;
             _ <~ call (EvSetCurrentSpace (did space))
                    (setCurrentSpace env (did space)) ;;
             ret true) in
          (([EvSignerParse cleanedPrivateKey; EvCreate] ++ evs)%list,
           Some created, outcome)
      end
  end.

(** The [catch] block of [initializeStoracha]: it returns [false], unless
    what was thrown has no [message], on which [.includes] throws. *)
Definition initialize_catch (error : Exn) : completion bool :=
  match exn_kind error with
  | Thrown _ =>
      Throw (mkExn TypeError
               "Cannot read properties of undefined (reading 'includes')" None)
  | _ => Normal false
  end.

(** [initializeStoracha()] *)
Definition initializeStoracha (env : Env) (storachaClient : option Client)
  : list Event * option Client * completion bool :=
  match STORACHA_PRIVATE_KEY env, STORACHA_PROOF env with
  | Some privateKey, Some proofString =>
      if negb (truthy privateKey) || negb (truthy proofString)
      then ([], storachaClient, Normal false)
      else
        match cleanBase64 privateKey, cleanBase64 proofString with
        | Server.Text cleanedPrivateKey, Server.Text cleanedProofString =>
            if negb (truthy cleanedPrivateKey) || negb (truthy cleanedProofString)
            then ([], storachaClient, Normal false)
            else
              match initialize_try env cleanedPrivateKey cleanedProofString
                      storachaClient with
              | (evs, storachaClient, Normal result) =>
                  (evs, storachaClient, Normal result)
              | (evs, storachaClient, Throw error) =>
                  (evs, storachaClient, initialize_catch error)
              end
        | _, _ => ([], storachaClient, Normal false)
        end
  | _, _ => ([], storachaClient, Normal false)
  end.

(** What a route answers: [res.status(status).json(body)]. *)
Record Reply := mkReply {
  status : Z;
  body : JSON.value
}.

(** [res.status(status).json({ success: false, error })] *)
Definition failure (status : Z) (error : string) : Reply :=
  mkReply status (JSON.Obj [("success", JSON.Bool false); ("error", JSON.Str error)]).

Definition not_configured_message : string :=
  "Storacha backend not configured properly. Check server logs.".
Definition invalid_did_message : string :=
  "Invalid DID format. Must start with " +:+ String dquote "did:"
  +:+ String dquote "".

Definition abilities : list string :=
  ["space/blob/add"; "space/index/add"; "filecoin/offer"; "upload/add"].

(** The lifetime of a delegation: [24 * 60 * 60] seconds. *)
Definition lifetime : Z := 24 * 60 * 60.

(** [app.get('/api/delegation/:did', ...)]; [now] and [now'] are the two
    readings of [Date.now()], [userDid] is [req.params.did]. *)
Definition delegation_route (env : Env) (now now' : Z) (userDid : string)
    (storachaClient : option Client) : list Event * option Client * Reply :=
  let '(evs, storachaClient, initialized) :=
    match storachaClient with
    | Some _ => ([], storachaClient, Normal true)
    | None => initializeStoracha env storachaClient
    end in
  match initialized with
  | Throw error =>
      (evs, storachaClient,
       failure 500 (Bootstrap.message_or "Failed to create delegation" error))
  | Normal false => (evs, storachaClient, failure 500 not_configured_message)
  | Normal true =>
      if negb (startsWith userDid "did:")
      then (evs, storachaClient, failure 400 invalid_did_message)
      else
        let expiration := (now / 1000 + lifetime)%Z in
        match (_ <~ call (EvDIDParse userDid) (DID_parse env userDid) ;;
               _ <~ call (EvCreateDelegation userDid abilities expiration)
                      (createDelegation env userDid expiration) ;;
               archive <~ call EvArchive (archive env) ;;
               match archive with
               | Some text => ret text
               | None => throw (new_Error "Failed to create delegation archive")
               end) with
        | (evs', Normal text) =>
            ((evs ++ evs')%list, storachaClient,
             mkReply 200
               (Storage.response_json
                  (Storage.mkDelegationResponse true text
                     (now' / 1000 + lifetime)%Z
                     (option_map did (currentSpace env))
                     (Some "My Storage Space"))))
        | (evs', Throw error) =>
            ((evs ++ evs')%list, storachaClient,
             failure 500 (Bootstrap.message_or "Failed to create delegation" error))
        end
  end.

(** [app.get('/api/health', ...)]; [timestamp] is [new Date().toISOString()]. *)
Definition health_route (timestamp : string) (storachaClient : option Client)
  : Reply :=
  mkReply 200 (JSON.Obj [("status", JSON.Str "ok");
                         ("storacha", JSON.Bool (has_client storachaClient));
                         ("timestamp", JSON.Str timestamp)]).

(** [app.get('/api/test-setup', ...)] *)
Definition test_setup_route (env : Env) (storachaClient : option Client)
  : list Event * option Client * Reply :=
  match initializeStoracha env storachaClient with
  | (evs, storachaClient, Normal result) =>
      (evs, storachaClient,
       mkReply 200
         (JSON.Obj [("success", JSON.Bool result);
                    ("message",
                     JSON.Str (if result then "Storacha initialized successfully"
                               else "Failed to initialize Storacha"));
                    ("hasClient", JSON.Bool (has_client storachaClient))]))
  | (evs, storachaClient, Throw error) =>
      (evs, storachaClient,
       mkReply 500
         (JSON.Obj ([("success", JSON.Bool false)]
                    ++ match exn_kind error with
                       | Thrown _ => []
                       | _ => [("error", JSON.Str (exn_message error))]
                       end)))
  end.

(** The response [fetch] resolves with for a reply; the status text is the
    transport's. *)
Definition respond (reply : Reply) (statusText : string) : Api.Response :=
  Api.mkResponse (status reply) statusText (JSON.stringify (body reply)).

(** The calls that belong to the initialisation. *)
Definition is_initialisation (ev : Event) : bool :=
  match ev with
  | EvSignerParse _ | EvCreate | EvProofParse _ | EvAddSpace _
  | EvSetCurrentSpace _ => true
  | EvDIDParse _ | EvCreateDelegation _ _ _ | EvArchive => false
  end.

(** The backend behind [fetch]: the requests of one caller for
    [/api/delegation/:did] are served one after the other, each with the
    variable [storachaClient] as the request before left it.  [clock n] are
    the two readings of the clock while request [n] is served. *)
Fixpoint serve (env : Env) (clock : nat -> Z * Z) (userDid : string)
    (storachaClient : option Client) (n : nat) : option Client * Reply :=
  match n with
  | O =>
      let '(_, storachaClient, reply) :=
        delegation_route env (clock 0).1 (clock 0).2 userDid storachaClient in
      (storachaClient, reply)
  | S n' =>
      let '(storachaClient, _) := serve env clock userDid storachaClient n' in
      let '(_, storachaClient, reply) :=
        delegation_route env (clock n).1 (clock n).2 userDid storachaClient in
      (storachaClient, reply)
  end.

(** How request [n] settles at the caller. *)
Definition network (env : Env) (clock : nat -> Z * Z) (userDid : string)
    (statusText : nat -> string) (storachaClient : option Client) (n : nat)
  : Api.FetchResult :=
  Api.Resolved (respond (serve env clock userDid storachaClient n).2 (statusText n)).

End Backend.

(** ** The pages that call the backend ([Uploader.tsx], [App.tsx]) and the
    DID check of the API client *)

Module Frontend.


Inductive BackendStatus := checking | ready | error | not_configured.

(** [data.storacha ? yes : no] on the body of the health response, once
    [fetch] has settled; [error] from the [catch] block. *)
Definition health_status (yes no : BackendStatus) (outcome : Api.FetchResult)
  : BackendStatus :=
  match outcome with
  | Api.Rejected _ => error
  | Api.Resolved r =>
      match JSON.parse (Api.body r) with
      | None => error
      | Some JSON.Null => error
      | Some data =>
          match Storage.member "storacha" data with
          | Some v => if JSON.truthy v then yes else no
          | None => no
          end
      end
  end.

(** [checkBackend] of [Uploader.tsx] *)
Definition checkBackend (outcome : Api.FetchResult) : BackendStatus :=
  health_status ready not_configured outcome.

(** [checkBackendHealth] of [App.tsx] *)
Definition checkBackendHealth (outcome : Api.FetchResult) : BackendStatus :=
  health_status ready error outcome.

End Frontend.

(** ** The artboard hook: the functions around the upload history *)

Module History.
Import SDK Session Bootstrap Artboard.

(** [logout()] *)
Definition logout (st : State) : State :=
  let st := setClient None st in
  let st := setSpace None st in
  let st := setIsConnected false st in
  let st := clearSession st in
  let st := setError None st in
  setUploadProgress (fun _ => ∅) st.

(** The callback of the timers that [uploadFile] and [cancelUpload] arm:
    the entry of [fileId] leaves the progress map. *)
Definition forget_progress (fileId : string) (st : State) : State :=
  setUploadProgress (delete fileId) st.

(** [cancelUpload(fileId)].  The signal of the controller is handed to
    nobody, so [controller.abort()] has no effect of its own. *)
Definition cancelUpload (fileId : string) (st : State) : State :=
  if decide (fileId ∈ abortControllers st)
  then
    let st := with_abortControllers (fun m => m ∖ {[fileId]}) st in
    let st := setUploadProgress
                (fun prev => <[fileId := restatus (prev !! fileId) failed 0]> prev)
                st in
    log [EvSetTimeout 1000] st
  else st.




(** [getShareableLink(cid, fileName?)] *)
Definition getShareableLink (cid : string) (fileName : option string)
  : completion string :=
  let baseUrl := "https://" +:+ cid +:+ ".ipfs." +:+ DEFAULT_GATEWAY in
  match fileName with
  | Some f =>
      if truthy f
      then match Text.encodeURIComponent f with
           | Normal encoded => Normal (baseUrl +:+ "/" +:+ encoded)
           | Throw e => Throw e
           end
      else Normal baseUrl
  | None => Normal baseUrl
  end.

(** The record a result carries, if any. *)
Definition record_of (result : UploadResult) : list UploadedFile :=
  match result with
  | UploadOk _ _ file => [file]
  | UploadFailed _ => []
  end.

(** The storage holds the upload history as the state has it: mounting the
    hook on this storage would start from [uploadedFiles st]. *)
Definition mirrored (st : State) : Prop :=
  init_uploadedFiles (localStorage st) = InitOk (uploadedFiles st).

(** The message of an upload attempted without a login. *)
Definition login_first : string :=
  "Please login first. Client or space not initialized.".

End History.

(** ** Sample backends *)

Module Scenario.

(** A backend with credentials whose SDK calls succeed, except that parsing
    the proof throws [proof_error] when one is given. *)
Definition backend (proof_error : option Exn) : Backend.Env :=
  Backend.mkEnv (Some " MgAAAAAAAAAA ") (Some "AAAAAAAA")
    (fun _ => Normal ()) (Normal (SDK.mkClient (Some "did:key:z6MkServer")))
    (fun _ => match proof_error with
              | Some e => Throw e
              | None => Normal (SDK.mkDelegation None)
              end)
    (fun _ => Normal (SDK.mkSpace "did:key:z6MkSpace")) (fun _ => Normal ())
    (fun _ => Normal ()) (fun _ _ => Normal ()) (Normal (Some "mAYIEAKwV"))
    (Some (SDK.mkSpace "did:key:z6MkSpace")).


(** A clock that reads 1700000000000 ms when the first request comes in and
    advances by 2 ms between readings. *)
Definition clock (n : nat) : Z * Z :=
  (1700000000000 + 4 * Z.of_nat n, 1700000000002 + 4 * Z.of_nat n)%Z.

End Scenario.

(** ** The upload-demo hook: the other callbacks and the effect *)

Module Demo.
Import SDK Session Bootstrap UploadDemo.

Definition setClient (c : option Client) (st : State) : State :=
  mkState (localStorage st) c (space st) (spaceDid st) (isInitializing st)
    (isUploading st) (error st) (userSession st) (trace st).
Definition setSpace (sp : option Space) (st : State) : State :=
  mkState (localStorage st) (client st) sp (spaceDid st) (isInitializing st)
    (isUploading st) (error st) (userSession st) (trace st).
Definition setSpaceDid (d : option string) (st : State) : State :=
  mkState (localStorage st) (client st) (space st) d (isInitializing st)
    (isUploading st) (error st) (userSession st) (trace st).
Definition setIsInitializing (b : bool) (st : State) : State :=
  mkState (localStorage st) (client st) (space st) (spaceDid st) b
    (isUploading st) (error st) (userSession st) (trace st).
Definition setIsUploading (b : bool) (st : State) : State :=
  mkState (localStorage st) (client st) (space st) (spaceDid st)
    (isInitializing st) b (error st) (userSession st) (trace st).
Definition setError (e : option string) (st : State) : State :=
  mkState (localStorage st) (client st) (space st) (spaceDid st)
    (isInitializing st) (isUploading st) e (userSession st) (trace st).
Definition log (evs : list Event) (st : State) : State :=
  mkState (localStorage st) (client st) (space st) (spaceDid st)
    (isInitializing st) (isUploading st) (error st) (userSession st)
    (trace st ++ evs)%list.

(** [saveSession(session)] for a session object built by spreading. *)
Definition saveSession_value (session : JSON.value) (st : State) : State :=
  mkState (<[SESSION_KEY := JSON.stringify session]> (localStorage st))
    (client st) (space st) (spaceDid st) (isInitializing st) (isUploading st)
    (error st) session (trace st).

(** [clearSession()] *)
Definition clearSession (st : State) : State :=
  mkState (delete SESSION_KEY (localStorage st)) (client st) (space st)
    (spaceDid st) (isInitializing st) (isUploading st) (error st)
    (session_json empty_session) (trace st).

(** [isReady: !!client && !!spaceDid] *)
Definition isReady (st : State) : bool :=
  match client st, spaceDid st with
  | Some _, Some d => truthy d
  | _, _ => false
  end.

(** [err instanceof Error ? err.message : fallback] *)
Definition message_of (fallback : string) (err : Exn) : string :=
  match exn_kind err with
  | Thrown _ => fallback
  | _ => exn_message err
  end.

(** [storachaClient.agent.did()]: a client without an agent makes the
    property access throw. *)
Definition agent_did_of (storachaClient : Client) : completion string :=
  match agent_did storachaClient with
  | Some d => Normal d
  | None =>
      Throw (mkExn TypeError
               "Cannot read properties of undefined (reading 'did')" None)
  end.

(** The [try] block of [initializeClient]. *)
Definition initializeClient_try (sdk : Env) (st : State)
  : State * completion string :=
  let st := log [EvCreate] st in
  match create sdk with
  | Throw e => (st, Throw e)
  | Normal storachaClient =>
      let st := setClient (Some storachaClient) st in
      match agent_did_of storachaClient with
      | Throw e => (st, Throw e)
      | Normal agentDid =>
          let st := log [EvSpaces] st in
          match spaces sdk with
          | Throw e => (st, Throw e)
          | Normal [] => (st, Normal agentDid)
          | Normal (space :: _) =>
              let st := log [EvSetCurrentSpace (did space)] st in
              match setCurrentSpace sdk (did space) with
              | Throw e => (st, Throw e)
              | Normal _ =>
                  let st := setSpace (Some space) st in
                  let st := setSpaceDid (Some (did space)) st in
                  let session :=
                    mkSession "delegation@user" true (Some delegation)
                      (Some (did space)) (Some agentDid) in
                  (saveSession session st, Normal agentDid)
              end
          end
      end
  end.

(** [initializeClient()]; the result is the agent's DID, or [null]. *)
Definition initializeClient (sdk : Env) (st : State) : State * option string :=
  let st := setIsInitializing true st in
  let st := setError None st in
  let '(st, result) :=
    match initializeClient_try sdk st with
    | (st, Normal agentDid) => (st, Some agentDid)
    | (st, Throw err) =>
        (setError (Some (message_of "Failed to initialize" err)) st, None)
    end in
  (setIsInitializing false st, result).

(** [{...v}] for a value read from JSON: the own properties of an object,
    none for [null], a boolean or a number.  The indices that a string or an
    array spreads into are left outside this development. *)
Definition spread (v : JSON.value) : option (list (string * JSON.value)) :=
  match v with
  | JSON.Obj fields => Some fields
  | JSON.Null | JSON.Bool _ | JSON.Num _ | JSON.NumLit _ => Some []
  | JSON.Str _ | JSON.Arr _ => None
  end.

(** [refreshSpaces()]; [None] where [spread] is. *)
Definition refreshSpaces (sdk : Env) (st : State) : option State :=
  match client st with
  | None => Some st
  | Some _ =>
      let st := log [EvSpaces] st in
      match spaces sdk with
      | Throw _ => Some st
      | Normal [] => Some (setSpaceDid None (setSpace None st))
      | Normal (space :: _) =>
          let st := log [EvSetCurrentSpace (did space)] st in
          match setCurrentSpace sdk (did space) with
          | Throw _ => Some st
          | Normal _ =>
              let st := setSpace (Some space) st in
              let st := setSpaceDid (Some (did space)) st in
              match spread (userSession st) with
              | Some fields =>
                  let session :=
                    JSON.Obj (JSON.set_field "spaceDid" (JSON.Str (did space))
                                fields) in
                  Some (saveSession_value session st)
              | None => None
              end
          end
      end
  end.

(** What [uploadFile] resolves to:
    [{ success: true, cid, url, gatewayUrl, size, name, file }] or
    [{ success: false, size, name, error }]. *)
Inductive UploadResult :=
| UploadOk (cid url gatewayUrl : string) (size : Z) (name : string)
    (file : Artboard.UploadedFile)
| UploadFailed (size : Z) (name : string) (error : string).

Definition setup_first : string :=
  "Please setup delegation first. Client or space not initialized.".

(** [uploadFile(file)]; [now] is the clock at the creation of the record
    and [date] the ISO text of [new Date()]. *)
Definition uploadFile (sdk : Env) (now : N) (date : string) (file : File)
    (st : State) : State * UploadResult :=
  match client st, space st with
  | Some _, Some _ =>
      let st := setIsUploading true st in
      let st := setError None st in
      let st := log [EvUploadFile file] st in
      let '(st, result) :=
        match SDK.uploadFile sdk file with
        | Normal cidString =>
            let gatewayUrl := "https://" +:+ cidString +:+ ".ipfs.storacha.link" in
            let uploadedFile :=
              Artboard.mkUploaded (cidString +:+ "-" +:+ pretty now)
                (file_name file) (file_size file) (file_type file) cidString
                date gatewayUrl
                (if startsWith (file_type file) "image/"
                 then Some (gatewayUrl
                            +:+ "?img-width=300&img-height=300&img-fit=cover")
                 else None)
                None in
            (st, UploadOk cidString ("ipfs://" +:+ cidString) gatewayUrl
                   (file_size file) (file_name file) uploadedFile)
        | Throw uploadErr =>
            let errorMessage :=
              message_of "Upload failed" (Artboard.upload_error uploadErr) in
            (setError (Some errorMessage) st,
             UploadFailed (file_size file) (file_name file) errorMessage)
        end in
      (setIsUploading false st, result)
  | _, _ => (st, UploadFailed (file_size file) (file_name file) setup_first)
  end.

(** [logout()] *)
Definition logout (st : State) : State :=
  let st := setClient None st in
  let st := setSpace None st in
  let st := setSpaceDid None st in
  let st := clearSession st in
  setError None st.

(** [v === text] for a property [v] of a value read from JSON. *)
Definition is_text (text : string) (v : option JSON.value) : bool :=
  match v with
  | Some (JSON.Str s) => String.eqb s text
  | _ => false
  end.

(** The effect [initializeFromSession] that runs once the hook has mounted.
    Reading a property of a session that is [null] throws. *)
Definition initializeFromSession (sdk : Env) (st : State) : completion State :=
  match userSession st with
  | JSON.Null =>
      Throw (mkExn TypeError
               "Cannot read properties of null (reading 'isLoggedIn')" None)
  | _ =>
      if from_option JSON.truthy false
           (Storage.member "isLoggedIn" (userSession st))
         && is_text "delegation" (Storage.member "method" (userSession st))
         && negb (bool_decide (is_Some (client st)))
      then Normal (initializeClient sdk st).1
      else Normal st
  end.

(** Mounting the hook on a storage: the initialisers, then the effect. *)
Definition mount (sdk : Env) (storage : gmap string string) : completion State :=
  match useStoracha storage with
  | Normal st => initializeFromSession sdk st
  | Throw e => Throw e
  end.

(** The session of the state is one that the hook writes, and mounting the
    hook on the storage would start from it. *)
Definition session_kept (st : State) : Prop :=
  exists session d,
    userSession st = session_json session
    /\ Session.spaceDid session = Some d
    /\ init_userSession (localStorage st) = Normal (userSession st).

End Demo.

(** ** The artboard hook: [loginWithEmail] and the effect [autoConnect] *)

Module Email.
Import SDK Session Bootstrap Artboard.

Definition DEFAULT_SPACE_NAME : string := "artboard-space".

(** *** The pattern [/^[^\s@]+@[^\s@]+\.[^\s@]+$/] *)

(** The bits a lead byte of UTF-8 contributes to its code point. *)
Definition lead_bits (b : N) : N :=
  if (b <? 128)%N then b
  else if (b <? 224)%N then (b mod 32)%N
  else if (b <? 240)%N then (b mod 16)%N
  else (b mod 8)%N.

(** The code points of a text, from its UTF-8 bytes: [acc] is the code point
    being read, if any. *)
Fixpoint code_points_from (acc : option N) (s : string) : list N :=
  match s with
  | EmptyString => match acc with Some n => [n] | None => [] end
  | String c s' =>
      let b := N_of_ascii c in
      if Text.continuation b
      then code_points_from (Some (default 0 acc * 64 + b mod 64)%N) s'
      else match acc with
           | Some n => n :: code_points_from (Some (lead_bits b)) s'
           | None => code_points_from (Some (lead_bits b)) s'
           end
  end.

Definition code_points (s : string) : list N := code_points_from None s.

(** [\s]: the white space and the line terminators of ECMAScript. *)
Definition white_space (n : N) : bool :=
  (9 <=? n)%N && (n <=? 13)%N
  || (n =? 32)%N || (n =? 160)%N || (n =? 5760)%N
  || (8192 <=? n)%N && (n <=? 8202)%N
  || (n =? 8232)%N || (n =? 8233)%N || (n =? 8239)%N || (n =? 8287)%N
  || (n =? 12288)%N || (n =? 65279)%N.

(** [[^\s@]] *)
Definition no_space_no_at (n : N) : bool := negb (white_space n || (n =? 64)%N).

(** A pattern is the test of what it leaves on what follows it.  [p+]: one
    character of the class, then more of them or the rest of the pattern. *)
Fixpoint plus (p : N -> bool) (k : list N -> bool) (s : list N) : bool :=
  match s with
  | c :: s' => p c && (plus p k s' || k s')
  | [] => false
  end.

(** A literal character. *)
Definition lit (x : N) (k : list N -> bool) (s : list N) : bool :=
  match s with
  | c :: s' => (c =? x)%N && k s'
  | [] => false
  end.

(** [$] *)
Definition end_of_input (s : list N) : bool :=
  match s with [] => true | _ :: _ => false end.

(** [/^[^\s@]+@[^\s@]+\.[^\s@]+$/.test(userEmail)].  A character outside the
    basic plane is two code units, neither white space nor [@], and is
    matched as one character of the class. *)
Definition email_pattern (userEmail : string) : bool :=
  plus no_space_no_at
    (lit 64 (plus no_space_no_at (lit 46 (plus no_space_no_at end_of_input))))
    (code_points userEmail).

(** *** The calls of the e-mail login *)

(** A space as [spaces()] lists it: [s.did()] and [s.name], which may be
    undefined. *)
Record Listed := mkListed {
  listed_space : Space;
  listed_name : option string
}.

Inductive Call :=
| CCreate
| CLogin (email : string)
| CPlanWait
| CSpaces
| CSetCurrentSpace (space : string)
| CCreateSpace (name : string).

(** How each call of the login settles.  [createSpace] and [setCurrentSpace]
    may be called twice and answer by the calls made before. *)
Record Env := mkEnv {
  create : completion Client;
  login : string -> completion unit;
  plan_wait : completion unit;
  has_spaces : bool;                       (* [storachaClient.spaces] is defined *)
  spaces : completion (list Listed);
  createSpace : list Call -> completion Space;
  setCurrentSpace : list Call -> string -> completion unit
}.

(** Computations over the calls made so far. *)
Definition M (A : Type) : Type := list Call -> list Call * completion A.

Definition ret {A} (a : A) : M A := fun calls => (calls, Normal a).
Definition throw {A} (e : Exn) : M A := fun calls => (calls, Throw e).
Definition bind {A B} (m : M A) (k : A -> M B) : M B :=
  fun calls =>
    match m calls with
    | (calls', Normal a) => k a calls'
    | (calls', Throw e) => (calls', Throw e)
    end.
Definition call {A} (c : Call) (outcome : list Call -> completion A) : M A :=
  fun calls => ((calls ++ [c])%list, outcome calls).
(** [try { m } catch (e) { handler }] *)
Definition try_catch {A} (m : M A) (handler : Exn -> M A) : M A :=
  fun calls =>
    match m calls with
    | (calls', Normal a) => (calls', Normal a)
    | (calls', Throw e) => handler e calls'
    end.

Notation "x <-- m ;; k" := (bind m (fun x => k))
  (at level 100, m at next level, right associativity).

(** [storachaSpace = await storachaClient.createSpace(DEFAULT_SPACE_NAME, { account });
     await storachaClient.setCurrentSpace(storachaSpace.did())] *)
Definition create_space (env : Env) : M Space :=
  storachaSpace <-- call (CCreateSpace DEFAULT_SPACE_NAME) (createSpace env) ;;
  _ <-- call (CSetCurrentSpace (did storachaSpace))
          (fun calls => setCurrentSpace env calls (did storachaSpace)) ;;
  ret storachaSpace.

(** [s.name === DEFAULT_SPACE_NAME || s.did().includes('space')] *)
Definition is_existing (s : Listed) : bool :=
  match listed_name s with
  | Some name => String.eqb name DEFAULT_SPACE_NAME
  | None => false
  end
  || includes (did (listed_space s)) "space".

(** The inner [try] of [loginWithEmail] with its handler. *)
Definition choose_space (env : Env) : M Space :=
  try_catch
    (if has_spaces env
     then
       spaces <-- call CSpaces (fun _ => spaces env) ;;
       match List.find is_existing spaces with
       | Some existingSpace =>
           _ <-- call (CSetCurrentSpace (did (listed_space existingSpace)))
                   (fun calls =>
                      setCurrentSpace env calls
                        (did (listed_space existingSpace))) ;;
           ret (listed_space existingSpace)
       | None => create_space env
       end
     else create_space env)
    (fun _ => create_space env).

Definition invalid_email : string := "Please enter a valid email address".

(** The outer [try] of [loginWithEmail] up to [saveSession]. *)
Definition loginWithEmail_try (env : Env) (userEmail : string)
  : M (UserSession * Client * Space) :=
  if negb (truthy userEmail) || negb (email_pattern userEmail)
  then throw (new_Error invalid_email)
  else
    storachaClient <-- call CCreate (fun _ => create env) ;;
    _ <-- call (CLogin userEmail) (fun _ => login env userEmail) ;;
    _ <-- call CPlanWait (fun _ => plan_wait env) ;;
    storachaSpace <-- choose_space env ;;
    ret (mkSession userEmail true (Some email) (Some (did storachaSpace))
           (agent_did storachaClient),
         storachaClient, storachaSpace).

Inductive Result :=
| LoggedIn (session : UserSession)
| Failed (error : string).

(** [loginWithEmail(userEmail)]: the state after it, the calls it made and
    what it resolves to. *)
Definition loginWithEmail (env : Env) (userEmail : string) (st : State)
  : State * list Call * Result :=
  let st := setIsInitializing true st in
  let st := setError None st in
  let '(calls, outcome) := loginWithEmail_try env userEmail [] in
  let '(st, result) :=
    match outcome with
    | Normal (session, storachaClient, storachaSpace) =>
        let st := saveSession session st in
        let st := setClient (Some storachaClient) st in
        let st := setSpace (Some storachaSpace) st in
        let st := setIsConnected true st in
        (st, LoggedIn session)
    | Throw err =>
        let errorMessage := message_or "Login failed" err in
        let st := setError (Some errorMessage) st in
        let st := setIsConnected false st in
        (st, Failed errorMessage)
    end in
  (setIsInitializing false st, calls, result).

(** The effect [autoConnect] that runs once the hook has mounted: the state
    after it and the calls it made.  Reading a property of a session that is
    [null] throws; a stored [email] that is no string is left outside this
    development. *)
Definition autoConnect (env : Env) (st : State)
  : init_result (State * list Call) :=
  match userSession st with
  | JSON.Null =>
      InitThrow (mkExn TypeError
                   "Cannot read properties of null (reading 'isLoggedIn')" None)
  | _ =>
      if from_option JSON.truthy false
           (Storage.member "isLoggedIn" (userSession st))
         && Demo.is_text "email" (Storage.member "method" (userSession st))
         && from_option JSON.truthy false
              (Storage.member "email" (userSession st))
      then match Storage.member "email" (userSession st) with
           | Some (JSON.Str userEmail) =>
               let run := loginWithEmail env userEmail st in
               InitOk (run.1.1, run.1.2)
           | _ => InitForeign
           end
      else InitOk (st, [])
  end.

(** Mounting the hook on a storage: the initialisers, then the effect. *)
Definition mount (env : Env) (storage : gmap string string)
  : init_result (State * list Call) :=
  match useStoracha storage with
  | InitOk st => autoConnect env st
  | InitThrow e => InitThrow e
  | InitForeign => InitForeign
  end.

(** The calls that create a space. *)
Definition creates_space (c : Call) : bool :=
  match c with
  | CCreateSpace _ => true
  | _ => false
  end.

(** Characters of one byte that are neither white space nor [@]. *)
Definition plain (c : ascii) : bool :=
  (N_of_ascii c <? 128)%N && no_space_no_at (N_of_ascii c).

End Email.

(** ** Sample clients of the e-mail login *)

Module Mail.

(** A client whose calls succeed: it lists the spaces [listed] and creates
    the space [did:key:z6MkNew]. *)
Definition env (listed : list Email.Listed) : Email.Env :=
  Email.mkEnv (Normal (SDK.mkClient (Some "did:key:z6MkAgent")))
    (fun _ => Normal ()) (Normal ()) true (Normal listed)
    (fun _ => Normal (SDK.mkSpace "did:key:z6MkNew"))
    (fun _ _ => Normal ()).

(** A client that lists no space and cannot make current the first space it
    creates. *)
Definition stubborn : Email.Env :=
  Email.mkEnv (Normal (SDK.mkClient (Some "did:key:z6MkAgent")))
    (fun _ => Normal ()) (Normal ()) true (Normal [])
    (fun calls =>
       Normal (SDK.mkSpace
                 ("did:key:z6MkNew"
                  +:+ pretty (length (List.filter Email.creates_space calls)))))
    (fun calls _ =>
       if (length (List.filter Email.creates_space calls) <? 2)%nat
       then Throw (new_Error "space not found")
       else Normal ()).

End Mail.

(** ** [utils.debounce] and [utils.throttle] *)

Module Timers.

(** [setTimeout(callback, delay)] arms a timer that runs its callback once,
    [delay] ms later or after that (a negative delay counts as 0), unless
    [clearTimeout] disarms it first. *)
Definition due (now delay : Z) : Z := now + Z.max 0 delay.

Section calls.
Context {A : Type}.

(** What happens to the function that [debounce] or [throttle] returned, in
    order: it is called with arguments, or an armed timer runs its callback.
    Each event carries the time at which it happens, in ms. *)
Inductive Event :=
| Called (now : Z) (args : A)
| Fired (now : Z).

Definition time_of (e : Event) : Z :=
  match e with
  | Called now _ => now
  | Fired now => now
  end.

(** The closure of [debounce(func, wait)]: the timer that [timeout] names
    while it is armed, with the time it is due and the [args] its callback
    holds; and the calls [func(...args)] made so far, with their times. *)
Record Debounced := mkDebounced {
  timeout : option (Z * A);
  debounce_ran : list (Z * A)
}.

(** One event of the debounced function; [None] when the event cannot
    happen (no timer is armed, or the armed one is not due). *)
Definition debounced (wait : Z) (e : Event) (st : Debounced)
  : option Debounced :=
  match e with
  | Called now args =>
      (* clearTimeout(timeout); timeout = setTimeout(() => func(...args), wait) *)
      Some (mkDebounced (Some (due now wait, args)) (debounce_ran st))
  | Fired now =>
      match timeout st with
      | Some (at_least, args) =>
          if (at_least <=? now)%Z
          then Some (mkDebounced None (debounce_ran st ++ [(now, args)])%list)
          else None
      | None => None
      end
  end.

(** The closure of [throttle(func, limit)]: [inThrottle], the timers armed
    to reset it, with the times they are due, and the calls [func(...args)]
    made so far. *)
Record Throttled := mkThrottled {
  inThrottle : bool;
  resets : list Z;
  throttle_ran : list (Z * A)
}.

(** [func earlier args] tells how the call [func(...args)] ends after the
    calls [earlier] of [func]: it returns ([true]) or throws ([false]).
    Where it throws, the exception leaves the throttled function before
    [inThrottle] is set and before a timer is armed. *)
Definition throttled (func : list (Z * A) -> A -> bool) (limit : Z)
    (e : Event) (st : Throttled) : option Throttled :=
  match e with
  | Called now args =>
      if negb (inThrottle st)
      then
        (* func(...args); inThrottle = true;
           setTimeout(() => (inThrottle = false), limit) *)
        let ran := (throttle_ran st ++ [(now, args)])%list in
        if func (throttle_ran st) args
        then Some (mkThrottled true (resets st ++ [due now limit])%list ran)
        else Some (mkThrottled (inThrottle st) (resets st) ran)
      else Some st
  | Fired now =>
      match resets st with
      | at_least :: rest =>
          if (at_least <=? now)%Z
          then Some (mkThrottled false rest (throttle_ran st))
          else None
      | [] => None
      end
  end.


(** The events [evs] happen one after the other, from the time [clock] on;
    [None] when they cannot. *)
Fixpoint run {S : Type} (step : Event -> S -> option S) (clock : Z)
    (evs : list Event) (st : S) : option S :=
  match evs with
  | [] => Some st
  | e :: rest =>
      if (clock <=? time_of e)%Z
      then match step e st with
           | Some st' => run step (time_of e) rest st'
           | None => None
           end
      else None
  end.

(** The calls among the events. *)
Fixpoint calls (evs : list Event) : list (Z * A) :=
  match evs with
  | [] => []
  | Called now args :: rest => (now, args) :: calls rest
  | Fired _ :: rest => calls rest
  end.

(** The calls that are directly followed by the running out of a timer,
    with the time of that. *)
Fixpoint settled (evs : list Event) : list (Z * Z * A) :=
  match evs with
  | [] => []
  | Called now args :: rest =>
      match rest with
      | Fired later :: _ => (now, later, args) :: settled rest
      | _ => settled rest
      end
  | Fired _ :: rest => settled rest
  end.

End calls.

(** Times that are at least [gap] apart, one after the other. *)
Fixpoint spaced (gap : Z) (times : list Z) : Prop :=
  match times with
  | t :: (t' :: _) as rest => (t + gap <= t')%Z /\ spaced gap rest
  | _ => True
  end.

End Timers.

(** * Properties *)

Example extractCID_ipfs_uri :
  Utils.extractCID "ipfs://bafybeigdyrzt5sfp7udm7hu76uh7y26nf3efuylqabf3oclgtqy55fbzdi/sub/path"
  = "bafybeigdyrzt5sfp7udm7hu76uh7y26nf3efuylqabf3oclgtqy55fbzdi".
Proof. reflexivity. Qed.

Example extractCID_gateway_url :
  Utils.extractCID "https://QmYwAPJzv5CZsnA625s3Xf2nemtYgPpHdWEz79ojWnPbdG.ipfs.dweb.link/a.png"
  = "QmYwAPJzv5CZsnA625s3Xf2nemtYgPpHdWEz79ojWnPbdG".
Proof. reflexivity. Qed.

Example isValidCID_v0 :
  Utils.isValidCID "QmYwAPJzv5CZsnA625s3Xf2nemtYgPpHdWEz79ojWnPbdG" = true.
Proof. reflexivity. Qed.

(** ** Text lemmas *)

Lemma sapp_cons (c : ascii) (s t : string) :
  String c s +:+ t = String c (s +:+ t).
Proof. reflexivity. Qed.

Lemma sapp_nil_l (s : string) : "" +:+ s = s.
Proof. reflexivity. Qed.

Lemma sapp_nil_r (s : string) : s +:+ "" = s.
Proof. induction s as [|c s IH]; [reflexivity|]. rewrite sapp_cons. by f_equal. Qed.

Lemma app_assoc_s (s t u : string) : (s +:+ t) +:+ u = s +:+ (t +:+ u).
Proof.
  induction s as [|c s IH]; [reflexivity|]. rewrite !sapp_cons. by f_equal.
Qed.

Lemma length_app_s (s t : string) :
  String.length (s +:+ t) = String.length s + String.length t.
Proof.
  induction s as [|c s IH]; [reflexivity|]. rewrite sapp_cons. simpl. by f_equal.
Qed.

Lemma prefix_empty (s : string) : String.prefix "" s = true.
Proof. by destruct s. Qed.

Lemma forallb_app (p : ascii -> bool) (s t : string) :
  JS.forallb p (s +:+ t) = JS.forallb p s && JS.forallb p t.
Proof.
  induction s as [|c s IH]; [reflexivity|].
  rewrite sapp_cons. simpl. rewrite IH. by rewrite andb_assoc.
Qed.

Lemma forallb_impl (p q : ascii -> bool) (s : string) :
  (forall c, p c = true -> q c = true) ->
  JS.forallb p s = true -> JS.forallb q s = true.
Proof.
  intros Hpq. induction s as [|c s IH]; [done|]. simpl.
  intros [Hc Hs]%andb_true_iff. rewrite (Hpq _ Hc). by apply IH.
Qed.

Lemma forallb_take (p : ascii -> bool) (n : nat) (s : string) :
  JS.forallb p s = true -> JS.forallb p (JS.take n s) = true.
Proof.
  revert n. induction s as [|c s IH]; intros [|n]; try done. simpl.
  intros [Hc Hs]%andb_true_iff. rewrite Hc. by apply IH.
Qed.

Lemma length_take (n : nat) (s : string) :
  n <= String.length s -> String.length (JS.take n s) = n.
Proof.
  revert n. induction s as [|c s IH]; intros [|n]; simpl; try lia.
  intros Hn. f_equal. apply IH. lia.
Qed.

Lemma prefix_forallb (p : ascii -> bool) (pre s : string) :
  String.prefix pre s = true -> JS.forallb p s = true -> JS.forallb p pre = true.
Proof.
  revert s. induction pre as [|c pre IH]; intros [|d s]; try done. simpl.
  destruct (Ascii.ascii_dec c d) as [->|]; [|done].
  intros Hpre [Hd Hs]%andb_true_iff. rewrite Hd. by eapply IH.
Qed.

Lemma take_while_all (p : ascii -> bool) (s : string) :
  JS.forallb p s = true -> JS.take_while p s = s.
Proof.
  induction s as [|c s IH]; [done|]. simpl.
  intros [-> Hs]%andb_true_iff. f_equal. by apply IH.
Qed.

(** On text of one-byte characters the code units are the bytes. *)
Lemma length_one_byte (s : string) :
  JS.forallb Text.one_byte s = true -> Text.length s = String.length s.
Proof.
  induction s as [|c s IH]; [done|]. cbn [JS.forallb Text.length String.length].
  intros [Hc Hs]%andb_true_iff. rewrite (IH Hs). unfold Text.one_byte in Hc.
  apply N.ltb_lt in Hc. unfold Text.continuation.
  replace (128 <=? N_of_ascii c)%N with false by (symmetry; apply N.leb_gt; lia).
  replace (240 <=? N_of_ascii c)%N with false by (symmetry; apply N.leb_gt; lia).
  done.
Qed.

Lemma base58_one_byte (c : ascii) :
  Utils.is_base58 c = true -> Text.one_byte c = true.
Proof. destruct c as [[] [] [] [] [] [] [] []]; by vm_compute. Qed.

(** ** CID utility: identifiers without [/] and [.] are left alone *)

Lemma strip_scheme_plain (s : string) :
  JS.forallb Utils.not_slash s = true -> Utils.strip_scheme s = s.
Proof.
  intros Hs. unfold Utils.strip_scheme, startsWith.
  destruct (String.prefix "ipfs://" s) eqn:H1.
  { by pose proof (prefix_forallb _ _ _ H1 Hs). }
  destruct (String.prefix "https://" s) eqn:H2.
  { by pose proof (prefix_forallb _ _ _ H2 Hs). }
  destruct (String.prefix "http://" s) eqn:H3.
  { by pose proof (prefix_forallb _ _ _ H3 Hs). }
  reflexivity.
Qed.

Lemma remove_ipfs_host_plain (s : string) :
  JS.forallb Utils.plain s = true -> Utils.remove_ipfs_host s = s.
Proof.
  induction s as [|c s IH]; [done|].
  intros Hall. pose proof Hall as [Hc Hs]%andb_true_iff.
  cbn [Utils.remove_ipfs_host].
  destruct (startsWith (String c s) ".ipfs.") eqn:Hpre.
  { by pose proof (prefix_forallb _ _ _ Hpre Hall). }
  simpl. f_equal. by apply IH.
Qed.

Lemma strip_ipfs_path_plain (s : string) :
  JS.forallb Utils.not_slash s = true -> Utils.strip_ipfs_path s = s.
Proof.
  intros Hs. unfold Utils.strip_ipfs_path, startsWith.
  destruct (String.prefix "/ipfs/" s) eqn:H1; [|done].
  by pose proof (prefix_forallb _ _ _ H1 Hs).
Qed.

Lemma plain_not_slash (c : ascii) : Utils.plain c = true -> Utils.not_slash c = true.
Proof. unfold Utils.plain. by intros [? _]%andb_true_iff. Qed.

Lemma extractCID_plain (s : string) :
  JS.forallb Utils.plain s = true -> Utils.extractCID s = s.
Proof.
  intros Hs.
  assert (JS.forallb Utils.not_slash s = true) as Hns
    by (eapply forallb_impl; [apply plain_not_slash|done]).
  unfold Utils.extractCID. destruct s as [|c s]; [done|].
  cbn [truthy is_empty negb].
  rewrite strip_scheme_plain, remove_ipfs_host_plain, strip_ipfs_path_plain by done.
  by apply take_while_all.
Qed.

Lemma base58_plain (c : ascii) : Utils.is_base58 c = true -> Utils.plain c = true.
Proof. destruct c as [[] [] [] [] [] [] [] []]; by vm_compute. Qed.

Lemma base58_generic (c : ascii) :
  Utils.is_base58 c = true -> Utils.is_generic c = true.
Proof. destruct c as [[] [] [] [] [] [] [] []]; by vm_compute. Qed.

(** ** CID validity of the legacy base58 form *)

Section cidv0.
Variable t : string.
Hypothesis t_len : String.length t = 44.
Hypothesis t_base58 : JS.forallb Utils.is_base58 t = true.

Lemma cidv0_accept : Utils.isValidCID ("Qm" +:+ t) = true.
Proof using t_len t_base58.
unfold Utils.isValidCID. cbn [truthy is_empty negb String.append].
rewrite extractCID_plain.
2:{ change (JS.forallb Utils.plain (String "Q" (String "m" t)) = true). simpl.
    eapply forallb_impl; [apply base58_plain|done]. }
change ("Qm" +:+ t) with (String "Q" (String "m" t)).
rewrite length_one_byte
  by (simpl; eapply forallb_impl; [apply base58_one_byte|done]).
cbn [truthy is_empty negb startsWith String.prefix String.length].
rewrite prefix_empty, !t_len. simpl. by rewrite t_len, t_base58.
Qed.

Lemma cidv0_truncated_accept : Utils.isValidCID (JS.take 45 ("Qm" +:+ t)) = true.
Proof using t_len t_base58.
change (JS.take 45 ("Qm" +:+ t)) with (String "Q" (String "m" (JS.take 43 t))).
assert (JS.forallb Utils.is_base58 (JS.take 43 t) = true) as H58
  by by apply forallb_take.
assert (String.length (JS.take 43 t) = 43) as Hlen
  by (apply length_take; lia).
unfold Utils.isValidCID. cbn [truthy is_empty negb].
rewrite extractCID_plain.
2:{ simpl. eapply forallb_impl; [apply base58_plain|done]. }
rewrite !length_one_byte
  by (simpl; eapply forallb_impl; [apply base58_one_byte|done]).
cbn [truthy is_empty negb startsWith String.prefix String.length].
rewrite prefix_empty, !Hlen. simpl.
eapply forallb_impl; [apply base58_generic|done].
Qed.
End cidv0.

Lemma cidv0_reject_zero (t1 t2 : string) (c : ascii) :
  String.length (t1 +:+ String c t2) = 44 ->
  JS.forallb Utils.is_base58 (t1 +:+ String c t2) = true ->
  Utils.isValidCID ("Qm" +:+ t1 +:+ String "0" t2) = false.
Proof.
  rewrite length_app_s, forallb_app. simpl.
  intros Hlen [H1 [Hc H2]%andb_true_iff]%andb_true_iff.
  unfold Utils.isValidCID. cbn [truthy is_empty negb String.append].
  change ("Qm" +:+ t1 +:+ String "0" t2)
    with (String "Q" (String "m" (t1 +:+ String "0" t2))).
  rewrite extractCID_plain.
  2:{ simpl. rewrite forallb_app. simpl.
      rewrite !(forallb_impl _ _ _ base58_plain) by done. done. }
  rewrite length_one_byte.
  2:{ simpl. rewrite forallb_app. simpl.
      rewrite !(forallb_impl _ _ _ base58_one_byte) by done. done. }
  cbn [truthy is_empty negb startsWith String.prefix String.length].
  rewrite prefix_empty, !length_app_s. simpl String.length.
  replace (String.length t1 + S (String.length t2)) with 44 by lia.
  simpl. rewrite forallb_app. simpl. by rewrite !andb_false_r.
Qed.

Example parse_stringify_example :
  let v := JSON.Obj [("email", JSON.Str "a@b.c"); ("isLoggedIn", JSON.Bool true);
                     ("method", JSON.Null);
                     ("n", JSON.Arr [JSON.Num 1; JSON.Num (-2); JSON.Arr []]);
                     ("s", JSON.Str (String "x" (String "010" (String dquote "A"))))] in
  JSON.parse (JSON.stringify v) = Some v.
Proof. vm_compute. reflexivity. Qed.

Example parse_number_literals :
  JSON.parse " [1, -2, 3.5e2, 0 ] "
  = Some (JSON.Arr [JSON.Num 1; JSON.Num (-2); JSON.NumLit "3.5e2"; JSON.Num 0]).
Proof. vm_compute. reflexivity. Qed.

Example parse_malformed :
  JSON.parse "{bad" = None /\ JSON.parse "[1,]" = None
  /\ JSON.parse "undefined" = None /\ JSON.parse "{} x" = None
  /\ JSON.parse "01" = None /\ JSON.parse "" = None
  /\ JSON.parse "<html>Unauthorized</html>" = None.
Proof. vm_compute. auto 10. Qed.

(** C4 (as amended).  [isValidCID] accepts every 46-character string made of
    [Qm] and 44 base58btc characters, and rejects it when one of the 44
    characters is replaced by [0]; the same string cut to 45 characters is
    not rejected: it misses the length test of the [Qm] branch, matches no
    other prefix and passes the generic check of length and character set. *)
Theorem isValidCID_cidv0 (t : string) :
  String.length t = 44 ->
  JS.forallb Utils.is_base58 t = true ->
  Utils.isValidCID ("Qm" +:+ t) = true
  /\ (forall t1 c t2, t = t1 +:+ String c t2 ->
        Utils.isValidCID ("Qm" +:+ t1 +:+ String "0" t2) = false)
  /\ Utils.isValidCID (JS.take 45 ("Qm" +:+ t)) = true.
Proof.
  intros Hlen H58. split; [by apply cidv0_accept|]. split.
  - intros t1 c t2 ->. by apply (cidv0_reject_zero t1 t2 c).
  - by apply cidv0_truncated_accept.
Qed.

Lemma isValidCID_cidv0_witness :
  Utils.isValidCID ("Qm" +:+ "YwAPJzv5CZsnA625s3Xf2nemtYgPpHdWEz79ojWnPbdG") = true
  /\ (forall t1 c t2,
        "YwAPJzv5CZsnA625s3Xf2nemtYgPpHdWEz79ojWnPbdG" = t1 +:+ String c t2 ->
        Utils.isValidCID ("Qm" +:+ t1 +:+ String "0" t2) = false)
  /\ Utils.isValidCID
       (JS.take 45 ("Qm" +:+ "YwAPJzv5CZsnA625s3Xf2nemtYgPpHdWEz79ojWnPbdG")) = true.
Proof.
  apply (isValidCID_cidv0 "YwAPJzv5CZsnA625s3Xf2nemtYgPpHdWEz79ojWnPbdG");
    reflexivity.
Defined.

(** C4, the claim as stated fails: a valid 46-character identifier cut to its
    first 45 characters is still accepted. *)
Lemma isValidCID_length_45_accepted :
  Utils.isValidCID "QmYwAPJzv5CZsnA625s3Xf2nemtYgPpHdWEz79ojWnPbdG" = true
  /\ JS.take 45 "QmYwAPJzv5CZsnA625s3Xf2nemtYgPpHdWEz79ojWnPbdG"
     = "QmYwAPJzv5CZsnA625s3Xf2nemtYgPpHdWEz79ojWnPbd"
  /\ String.length "QmYwAPJzv5CZsnA625s3Xf2nemtYgPpHdWEz79ojWnPbd" = 45
  /\ Utils.isValidCID "QmYwAPJzv5CZsnA625s3Xf2nemtYgPpHdWEz79ojWnPbd" = true.
Proof. repeat split; reflexivity. Qed.

(** Replacing [Q] or [m] themselves by [0] leaves an accepted string. *)
Example isValidCID_zero_in_prefix :
  Utils.isValidCID "0mYwAPJzv5CZsnA625s3Xf2nemtYgPpHdWEz79ojWnPbdG" = true
  /\ Utils.isValidCID "Q0YwAPJzv5CZsnA625s3Xf2nemtYgPpHdWEz79ojWnPbdG" = true.
Proof. split; reflexivity. Qed.

(** ** Gateway URLs *)

Lemma clean_filename_id (f : string) :
  startsWith f "/" = false -> Utils.clean_filename f = f.
Proof. unfold Utils.clean_filename. by intros ->. Qed.

Lemma well_formed_slash (f : string) :
  Text.well_formed (String "/" f) = Text.well_formed f.
Proof. reflexivity. Qed.

Lemma well_formed_clean (f : string) :
  Text.well_formed (Utils.clean_filename f) = Text.well_formed f.
Proof.
  unfold Utils.clean_filename, startsWith. destruct f as [|c f]; [done|].
  cbn [String.prefix]. destruct (Ascii.ascii_dec "/" c) as [<-|]; [|done].
  by rewrite prefix_empty.
Qed.

(** The suffix of a file name that can be encoded, and the exception for
    one that cannot. *)
Lemma filename_suffix_encoded (f : string) :
  f <> "" -> Text.well_formed f = true ->
  Utils.filename_suffix (Some f)
  = Normal ("/" +:+ percent_encode (Utils.clean_filename f)).
Proof.
  intros Hf Hwf. unfold Utils.filename_suffix, Text.encodeURIComponent.
  rewrite well_formed_clean, Hwf. by destruct f.
Qed.

Lemma filename_suffix_malformed (f : string) :
  f <> "" -> Text.well_formed f = false ->
  Utils.filename_suffix (Some f)
  = Throw (mkExn (Named "URIError") "URI malformed" None).
Proof.
  intros Hf Hwf. unfold Utils.filename_suffix, Text.encodeURIComponent.
  rewrite well_formed_clean, Hwf. by destruct f.
Qed.

Lemma filename_suffix_none (filename : option string) :
  filename = None \/ filename = Some "" ->
  Utils.filename_suffix filename = Normal "".
Proof. by intros [->| ->]. Qed.

(** The URLs of the five gateways differ: the names of the gateways have
    five different lengths. *)
Lemma gateway_urls_distinct (id suffix : string) :
  NoDup (List.map (fun gateway =>
                     "https://" +:+ id +:+ ".ipfs." +:+ gateway +:+ suffix)
           Utils.gateways).
Proof.
  apply (NoDup_fmap_1 String.length). unfold Utils.gateways.
  cbn [fmap list_fmap List.map]. rewrite !length_app_s.
  cbn [String.length].
  repeat (apply NoDup_cons_2; [rewrite ?elem_of_cons, elem_of_nil; lia|]).
  apply NoDup_nil_2.
Qed.

(** C9 (as amended).  [createGatewayURL] throws an [Error] with message
    [Invalid CID: ...] whenever the cleaned identifier fails [isValidCID].
    For a valid cleaned identifier [<id>] it returns
    [https://<id>.ipfs.<gateway>] ([dweb.link] when no gateway is given) when
    no file name or an empty one is given; for a file name that is not empty
    it appends [/] and the URL-encoding of the file name taken without one
    leading [/], and throws [URIError] when the file name holds a surrogate
    that is not part of a pair. *)
Theorem createGatewayURL_spec (cid : string) (filename gateway : option string) :
  (Utils.isValidCID (Utils.extractCID cid) = false ->
     Utils.createGatewayURL cid filename gateway
     = Throw (new_Error ("Invalid CID: " +:+ cid)))
  /\ (Utils.isValidCID (Utils.extractCID cid) = true ->
      (filename = None \/ filename = Some "" ->
         Utils.createGatewayURL cid filename gateway
         = Normal ("https://" +:+ Utils.extractCID cid +:+ ".ipfs."
                   +:+ default "dweb.link" gateway))
      /\ (forall f, filename = Some f -> f <> "" ->
            (Text.well_formed f = true ->
               Utils.createGatewayURL cid filename gateway
               = Normal ("https://" +:+ Utils.extractCID cid +:+ ".ipfs."
                         +:+ default "dweb.link" gateway +:+ "/"
                         +:+ percent_encode
                               (if startsWith f "/" then JS.drop 1 f else f)))
            /\ (Text.well_formed f = false ->
                  Utils.createGatewayURL cid filename gateway
                  = Throw (mkExn (Named "URIError") "URI malformed" None)))).
Proof.
  unfold Utils.createGatewayURL. split.
  - by intros ->.
  - intros ->. cbn [negb]. split.
    + intros Hnone. rewrite filename_suffix_none by done.
      cbn [Utils.with_suffix]. by rewrite !app_assoc_s, sapp_nil_r.
    + intros f -> Hf. split; intros Hwf.
      * rewrite filename_suffix_encoded by done. cbn [Utils.with_suffix].
        by rewrite !app_assoc_s.
      * by rewrite filename_suffix_malformed.
Qed.

Lemma createGatewayURL_spec_witness :
  Utils.createGatewayURL "not a cid" (Some "a.png") None
  = Throw (new_Error "Invalid CID: not a cid")
  /\ Utils.createGatewayURL
       "ipfs://QmYwAPJzv5CZsnA625s3Xf2nemtYgPpHdWEz79ojWnPbdG/x"
       (Some "my file.png") (Some "w3s.link")
     = Normal "https://QmYwAPJzv5CZsnA625s3Xf2nemtYgPpHdWEz79ojWnPbdG.ipfs.w3s.link/my%20file.png".
Proof.
  split.
  - apply (proj1 (createGatewayURL_spec "not a cid" (Some "a.png") None)).
    reflexivity.
  - apply (proj1 (proj2 (proj2 (createGatewayURL_spec
             "ipfs://QmYwAPJzv5CZsnA625s3Xf2nemtYgPpHdWEz79ojWnPbdG/x"
             (Some "my file.png") (Some "w3s.link")) eq_refl)
             "my file.png" eq_refl ltac:(discriminate)) eq_refl).
Defined.

(** C9, the claim as stated fails: for a valid identifier and a file name
    that is given, the URL need not end in [/] and the URL-encoding of the
    file name.  A leading [/] of the name is dropped before the encoding, an
    empty name adds nothing, and for a name with an unpaired surrogate (here
    U+D800) no URL is returned: the call throws [URIError]. *)
Lemma createGatewayURL_file_name_not_appended :
  Utils.isValidCID
    (Utils.extractCID "QmYwAPJzv5CZsnA625s3Xf2nemtYgPpHdWEz79ojWnPbdG") = true
  /\ Text.encodeURIComponent "/a b.png" = Normal "%2Fa%20b.png"
  /\ Utils.createGatewayURL "QmYwAPJzv5CZsnA625s3Xf2nemtYgPpHdWEz79ojWnPbdG"
       (Some "/a b.png") None
     = Normal "https://QmYwAPJzv5CZsnA625s3Xf2nemtYgPpHdWEz79ojWnPbdG.ipfs.dweb.link/a%20b.png"
  /\ Utils.createGatewayURL "QmYwAPJzv5CZsnA625s3Xf2nemtYgPpHdWEz79ojWnPbdG"
       (Some "") None
     = Normal "https://QmYwAPJzv5CZsnA625s3Xf2nemtYgPpHdWEz79ojWnPbdG.ipfs.dweb.link"
  /\ Utils.createGatewayURL "QmYwAPJzv5CZsnA625s3Xf2nemtYgPpHdWEz79ojWnPbdG"
       (Some (String "237" (String "160" (String "128" "")))) None
     = Throw (mkExn (Named "URIError") "URI malformed" None).
Proof. repeat split; reflexivity. Qed.

(** The length test of [isValidCID] counts code units, not bytes: [k] and
    fifteen times U+00E9 are 16 code units in 31 bytes. *)
Example isValidCID_counts_code_units :
  let cid := String "k" (Text.bytes_text
               (List.concat (List.repeat [195; 169]%N 15)) "") in
  String.length cid = 31 /\ Text.length cid = 16
  /\ Utils.isValidCID cid = false
  /\ Utils.createGatewayURL cid None None
     = Throw (new_Error ("Invalid CID: " +:+ cid))
  /\ Utils.createGatewayURLs cid None = Normal [].
Proof. repeat split; reflexivity. Qed.

(** C10 (as amended).  [createGatewayURLs] returns the empty list when the
    cleaned identifier fails [isValidCID], where [createGatewayURL] throws.
    For a valid identifier it returns five URLs, all different, one for each
    gateway of the fixed list in its order, each the URL [createGatewayURL]
    returns for that gateway; unless a file name that is not empty holds a
    surrogate that is not part of a pair: then it throws [URIError], as
    [createGatewayURL] does.  It throws in no other case. *)
Theorem createGatewayURLs_spec (cid : string) (filename : option string) :
  (Utils.isValidCID (Utils.extractCID cid) = false ->
     Utils.createGatewayURLs cid filename = Normal []
     /\ forall gateway,
          Utils.createGatewayURL cid filename gateway
          = Throw (new_Error ("Invalid CID: " +:+ cid)))
  /\ (Utils.isValidCID (Utils.extractCID cid) = true ->
      (forall f, filename = Some f -> f <> "" -> Text.well_formed f = true) ->
      exists urls,
        Utils.createGatewayURLs cid filename = Normal urls
        /\ length urls = 5
        /\ NoDup urls
        /\ List.map Normal urls
           = List.map (fun gateway =>
                         Utils.createGatewayURL cid filename (Some gateway))
               ["dweb.link"; "w3s.link"; "ipfs.io"; "cloudflare-ipfs.com";
                "gateway.pinata.cloud"])
  /\ (Utils.isValidCID (Utils.extractCID cid) = true ->
      forall f, filename = Some f -> f <> "" -> Text.well_formed f = false ->
        Utils.createGatewayURLs cid filename
        = Throw (mkExn (Named "URIError") "URI malformed" None)
        /\ forall gateway,
             Utils.createGatewayURL cid filename gateway
             = Throw (mkExn (Named "URIError") "URI malformed" None))
  /\ ((exists e, Utils.createGatewayURLs cid filename = Throw e)
      <-> Utils.isValidCID (Utils.extractCID cid) = true
          /\ exists f, filename = Some f /\ f <> ""
                       /\ Text.well_formed f = false).
Proof.
  assert (forall suffix,
            Utils.filename_suffix filename = Normal suffix ->
            Utils.isValidCID (Utils.extractCID cid) = true ->
            exists urls,
              Utils.createGatewayURLs cid filename = Normal urls
              /\ length urls = 5 /\ NoDup urls
              /\ List.map Normal urls
                 = List.map (fun gateway =>
                               Utils.createGatewayURL cid filename (Some gateway))
                     ["dweb.link"; "w3s.link"; "ipfs.io"; "cloudflare-ipfs.com";
                      "gateway.pinata.cloud"]) as Hfive.
  { intros suffix Hsuffix Hvalid.
    unfold Utils.createGatewayURLs, Utils.createGatewayURL.
    rewrite Hvalid, Hsuffix. cbn [negb Utils.with_suffix default].
    eexists. split; [reflexivity|]. split; [reflexivity|]. split; [|reflexivity].
    pose proof (gateway_urls_distinct (Utils.extractCID cid) suffix) as Hdup.
    unfold Utils.gateways in Hdup. cbn [List.map] in Hdup.
    by rewrite !app_assoc_s. }
  assert (forall f, filename = Some f -> f <> "" -> Text.well_formed f = false ->
          Utils.isValidCID (Utils.extractCID cid) = true ->
          Utils.createGatewayURLs cid filename
          = Throw (mkExn (Named "URIError") "URI malformed" None)) as Hthrow.
  { intros f -> Hf Hwf Hvalid. unfold Utils.createGatewayURLs.
    rewrite Hvalid, filename_suffix_malformed by done. reflexivity. }
  split; [|split; [|split; [|split]]].
  - intros Hinvalid. unfold Utils.createGatewayURLs, Utils.createGatewayURL.
    by rewrite Hinvalid.
  - intros Hvalid Hname. destruct filename as [f|].
    + destruct (decide (f = "")) as [->|Hf].
      * by apply (Hfive "").
      * apply (Hfive ("/" +:+ percent_encode (Utils.clean_filename f))); [|done].
        apply filename_suffix_encoded; [done|]. by apply Hname.
    + by apply (Hfive "").
  - intros Hvalid f Hfile Hf Hwf. split; [by apply (Hthrow f)|].
    intros gateway. subst filename. unfold Utils.createGatewayURL.
    by rewrite Hvalid, filename_suffix_malformed.
  - intros [e He].
    destruct (Utils.isValidCID (Utils.extractCID cid)) eqn:Hvalid.
    2:{ unfold Utils.createGatewayURLs in He. by rewrite Hvalid in He. }
    split; [done|]. destruct filename as [f|].
    + destruct (decide (f = "")) as [->|Hf].
      { destruct (Hfive "" eq_refl eq_refl) as (urls & Hurls & _). congruence. }
      destruct (Text.well_formed f) eqn:Hwf; [|by exists f].
      destruct (Hfive _ (filename_suffix_encoded f Hf Hwf) eq_refl)
        as (urls & Hurls & _). congruence.
    + destruct (Hfive "" eq_refl eq_refl) as (urls & Hurls & _). congruence.
  - intros [Hvalid (f & Hfile & Hf & Hwf)]. eexists. by apply (Hthrow f).
Qed.

Lemma createGatewayURLs_spec_witness :
  (Utils.createGatewayURLs "not a cid" None = Normal []
   /\ forall gateway,
        Utils.createGatewayURL "not a cid" None gateway
        = Throw (new_Error "Invalid CID: not a cid"))
  /\ exists urls,
       Utils.createGatewayURLs "QmYwAPJzv5CZsnA625s3Xf2nemtYgPpHdWEz79ojWnPbdG"
         (Some "a b") = Normal urls
       /\ length urls = 5
       /\ NoDup urls
       /\ List.map Normal urls
          = List.map (fun gateway =>
                        Utils.createGatewayURL
                          "QmYwAPJzv5CZsnA625s3Xf2nemtYgPpHdWEz79ojWnPbdG"
                          (Some "a b") (Some gateway))
               ["dweb.link"; "w3s.link"; "ipfs.io"; "cloudflare-ipfs.com";
                "gateway.pinata.cloud"].
Proof.
  split.
  - apply (proj1 (createGatewayURLs_spec "not a cid" None)). reflexivity.
  - apply (proj1 (proj2 (createGatewayURLs_spec
             "QmYwAPJzv5CZsnA625s3Xf2nemtYgPpHdWEz79ojWnPbdG" (Some "a b")))
             eq_refl).
    by intros f [= <-] _.
Defined.

(** C10, the claim as stated fails: the multi-gateway builder throws.  For a
    valid identifier and a file name with an unpaired surrogate (here
    U+D800) the first call of [encodeURIComponent] in the loop throws
    [URIError]; without the file name the five URLs are returned. *)
Lemma createGatewayURLs_throws :
  Utils.isValidCID
    (Utils.extractCID "QmYwAPJzv5CZsnA625s3Xf2nemtYgPpHdWEz79ojWnPbdG") = true
  /\ Utils.createGatewayURLs "QmYwAPJzv5CZsnA625s3Xf2nemtYgPpHdWEz79ojWnPbdG"
       (Some (String "237" (String "160" (String "128" ""))))
     = Throw (mkExn (Named "URIError") "URI malformed" None)
  /\ Utils.createGatewayURLs "QmYwAPJzv5CZsnA625s3Xf2nemtYgPpHdWEz79ojWnPbdG"
       None
     = Normal
         ["https://QmYwAPJzv5CZsnA625s3Xf2nemtYgPpHdWEz79ojWnPbdG.ipfs.dweb.link";
          "https://QmYwAPJzv5CZsnA625s3Xf2nemtYgPpHdWEz79ojWnPbdG.ipfs.w3s.link";
          "https://QmYwAPJzv5CZsnA625s3Xf2nemtYgPpHdWEz79ojWnPbdG.ipfs.ipfs.io";
          "https://QmYwAPJzv5CZsnA625s3Xf2nemtYgPpHdWEz79ojWnPbdG.ipfs.cloudflare-ipfs.com";
          "https://QmYwAPJzv5CZsnA625s3Xf2nemtYgPpHdWEz79ojWnPbdG.ipfs.gateway.pinata.cloud"].
Proof. repeat split; reflexivity. Qed.

(** ** Base64 normalisation *)

Lemma rev_app_rev_app (s t u : string) :
  String.rev_app (String.rev_app s t) u = String.rev_app t (s +:+ u).
Proof.
  revert t u. induction s as [|c s IH]; intros t u; [done|].
  simpl. rewrite IH. by rewrite sapp_cons.
Qed.

Lemma rev_involutive_s (s : string) : String.rev (String.rev s) = s.
Proof. unfold String.rev. rewrite rev_app_rev_app. simpl. apply sapp_nil_r. Qed.

(** *** White space *)

Lemma drop_app_length (n : nat) (s : string) :
  String.length (JS.drop n s) <= String.length s.
Proof.
  revert s. induction n as [|n IH]; intros [|c s]; simpl; try lia.
  specialize (IH s). lia.
Qed.

(** Dropping the bytes still to skip and starting afresh is the same. *)
Lemma remove_white_space_from_drop (skip : nat) (s : string) :
  JS.remove_white_space_from skip s = remove_white_space (JS.drop skip s).
Proof.
  revert skip. induction s as [|c s IH]; intros [|n]; try done.
  cbn [JS.remove_white_space_from JS.drop]. apply IH.
Qed.

Lemma trim_start_from_drop (skip : nat) (s : string) :
  JS.trim_start_from skip s = trimStart (JS.drop skip s).
Proof.
  revert skip. induction s as [|c s IH]; intros [|n]; try done.
  cbn [JS.trim_start_from JS.drop]. apply IH.
Qed.

Lemma remove_white_space_cons (c : ascii) (s : string) :
  remove_white_space (String c s)
  = match white_space_width (String c s) with
    | S n => remove_white_space (JS.drop n s)
    | O => String c (remove_white_space s)
    end.
Proof.
  unfold remove_white_space at 1. cbn [JS.remove_white_space_from].
  destruct (white_space_width (String c s)); [done|].
  apply remove_white_space_from_drop.
Qed.

Lemma trimStart_cons (c : ascii) (s : string) :
  trimStart (String c s)
  = match white_space_width (String c s) with
    | S n => trimStart (JS.drop n s)
    | O => String c s
    end.
Proof.
  unfold trimStart at 1. cbn [JS.trim_start_from].
  destruct (white_space_width (String c s)); [done|].
  apply trim_start_from_drop.
Qed.

(** A character of the base64 alphabet is a letter, a digit or one of
    [+ / =]: its code lies between 43 and 122. *)
Lemma base64_code (c : ascii) :
  Server.is_base64 c = true -> (43 <= N_of_ascii c <= 122)%N.
Proof. destruct c as [[] [] [] [] [] [] [] []]; vm_compute; (done || split; discriminate). Qed.

Lemma base64_one_byte (c : ascii) :
  Server.is_base64 c = true -> Text.one_byte c = true.
Proof. destruct c as [[] [] [] [] [] [] [] []]; by vm_compute. Qed.

(** No white-space character starts with a character of the base64
    alphabet. *)
Lemma white_space_width_base64 (c : ascii) (s : string) :
  Server.is_base64 c = true -> white_space_width (String c s) = 0.
Proof.
  intros Hc%base64_code. cbn [white_space_width]. cbv zeta.
  repeat match goal with
         | |- context [(?x <=? ?y)%N] =>
             destruct (N.leb_spec x y); try lia
         | |- context [(?x =? ?y)%N] =>
             destruct (N.eqb_spec x y); try lia
         end; cbn [andb orb]; by destruct s as [|c1 [|c2 s]].
Qed.

(** No byte of a white-space character is in the base64 alphabet. *)
Lemma white_space_not_base64 (s : string) (n : nat) :
  white_space_width s = S n ->
  JS.filter Server.is_base64 (JS.drop (S n) s) = JS.filter Server.is_base64 s.
Proof.
  assert (forall c, (N_of_ascii c < 43 \/ 122 < N_of_ascii c)%N ->
                    Server.is_base64 c = false) as Hout.
  { intros c Hc. destruct (Server.is_base64 c) eqn:Hb; [|done].
    apply base64_code in Hb. lia. }
  destruct s as [|c s]; [done|]. cbn [white_space_width]. cbv zeta.
  destruct ((9 <=? N_of_ascii c)%N && (N_of_ascii c <=? 13)%N
            || (N_of_ascii c =? 32)%N) eqn:H1.
  { intros [= <-]. cbn [JS.drop JS.filter]. rewrite Hout; [done|].
    apply orb_true_iff in H1 as [[?%N.leb_le ?%N.leb_le]%andb_true_iff|?%N.eqb_eq];
      lia. }
  destruct s as [|c1 s]; [done|].
  destruct ((N_of_ascii c =? 194)%N && (N_of_ascii c1 =? 160)%N) eqn:H2.
  { intros [= <-]. apply andb_true_iff in H2 as [?%N.eqb_eq ?%N.eqb_eq].
    cbn [JS.drop JS.filter]. rewrite !Hout by lia. done. }
  destruct s as [|c2 s]; [done|].
  match goal with |- (if ?b then _ else _) = _ -> _ => destruct b eqn:H3 end;
    [|done].
  intros [= <-]. cbn [JS.drop JS.filter].
  assert ((128 <= N_of_ascii c)%N /\ (128 <= N_of_ascii c1)%N
          /\ (128 <= N_of_ascii c2)%N) as (? & ? & ?).
  { repeat match type of H3 with
           | (_ || _) = true => apply orb_true_iff in H3 as [H3|H3]
           end;
    repeat match goal with
           | H : (_ && _) = true |- _ => apply andb_true_iff in H as [? ?]
           | H : (_ || _) = true |- _ => apply orb_true_iff in H as [?|?]
           | H : (_ =? _)%N = true |- _ => apply N.eqb_eq in H
           | H : (_ <=? _)%N = true |- _ => apply N.leb_le in H
           end; lia. }
  rewrite !Hout by lia. done.
Qed.

Lemma filter_remove_white_space_upto (n : nat) (s : string) :
  String.length s <= n ->
  JS.filter Server.is_base64 (remove_white_space s)
  = JS.filter Server.is_base64 s.
Proof.
  revert s. induction n as [|n IH]; intros [|c s] Hlen; try done;
    cbn [String.length] in Hlen; [lia|].
  rewrite remove_white_space_cons.
  destruct (white_space_width (String c s)) as [|w] eqn:Hw.
  - cbn [JS.filter]. rewrite IH by lia. done.
  - rewrite <- (white_space_not_base64 _ _ Hw). cbn [JS.drop].
    apply IH. pose proof (drop_app_length w s). lia.
Qed.

(** Removing white space first does not change the base64 characters of a
    text. *)
Lemma filter_remove_white_space (s : string) :
  JS.filter Server.is_base64 (remove_white_space s)
  = JS.filter Server.is_base64 s.
Proof. by apply (filter_remove_white_space_upto (String.length s)). Qed.

Lemma filter_trimStart_upto (n : nat) (s : string) :
  String.length s <= n ->
  JS.filter Server.is_base64 (trimStart s) = JS.filter Server.is_base64 s.
Proof.
  revert s. induction n as [|n IH]; intros [|c s] Hlen; try done;
    cbn [String.length] in Hlen; [lia|].
  rewrite trimStart_cons.
  destruct (white_space_width (String c s)) as [|w] eqn:Hw; [done|].
  rewrite <- (white_space_not_base64 _ _ Hw). cbn [JS.drop].
  apply IH. pose proof (drop_app_length w s). lia.
Qed.

Lemma filter_all (p : ascii -> bool) (s : string) :
  JS.forallb p s = true -> JS.filter p s = s.
Proof.
  induction s as [|c s IH]; [done|]. cbn [JS.forallb JS.filter].
  intros [-> Hs]%andb_true_iff. by rewrite IH.
Qed.

Lemma forallb_filter (p : ascii -> bool) (s : string) :
  JS.forallb p (JS.filter p s) = true.
Proof.
  induction s as [|c s IH]; [done|]. simpl.
  destruct (p c) eqn:Hp; [|done]. simpl. by rewrite Hp.
Qed.

Lemma filter_trimEnd (s : string) :
  JS.filter Server.is_base64 (trimEnd s) = JS.filter Server.is_base64 s.
Proof.
  induction s as [|c s IH]; [done|]. cbn [trimEnd].
  destruct (blank (String c s)) eqn:Hblank.
  - unfold blank in Hblank.
    rewrite <- (filter_remove_white_space (String c s)).
    by destruct (remove_white_space (String c s)).
  - cbn [JS.filter]. by rewrite IH.
Qed.

(** [trim] takes no base64 character away. *)
Lemma filter_trim (s : string) :
  JS.filter Server.is_base64 (trim s) = JS.filter Server.is_base64 s.
Proof.
  unfold trim. rewrite filter_trimEnd.
  by apply (filter_trimStart_upto (String.length s)).
Qed.

(** Text of base64 characters has no white space. *)
Lemma remove_white_space_base64 (s : string) :
  JS.forallb Server.is_base64 s = true -> remove_white_space s = s.
Proof.
  induction s as [|c s IH]; [done|]. cbn [JS.forallb].
  intros [Hc Hs]%andb_true_iff.
  rewrite remove_white_space_cons, white_space_width_base64 by done.
  by rewrite IH.
Qed.

Lemma trim_base64 (s : string) :
  JS.forallb Server.is_base64 s = true -> trim s = s.
Proof.
  intros Hs. unfold trim.
  assert (trimStart s = s) as ->.
  { destruct s as [|c s]; [done|]. rewrite trimStart_cons.
    apply andb_true_iff in Hs as [Hc _].
    by rewrite white_space_width_base64. }
  induction s as [|c s IH]; [done|]. cbn [trimEnd]. unfold blank.
  rewrite remove_white_space_base64 by done. cbn [is_empty].
  apply andb_true_iff in Hs as [_ Hs]. by rewrite IH.
Qed.

Lemma forallb_repeat (p : ascii -> bool) (c : ascii) (n : nat) :
  p c = true -> JS.forallb p (JS.repeat c n) = true.
Proof. intros Hc. induction n as [|n IH]; [done|]. simpl. by rewrite Hc. Qed.

Lemma length_repeat (c : ascii) (n : nat) : String.length (JS.repeat c n) = n.
Proof. induction n as [|n IH]; [done|]. simpl. by f_equal. Qed.

Lemma text_length_app (s t : string) :
  Text.length (s +:+ t) = Text.length s + Text.length t.
Proof.
  induction s as [|c s IH]; [reflexivity|]. rewrite sapp_cons.
  cbn [Text.length]. rewrite IH. lia.
Qed.

(** The hook's normaliser keeps exactly the base64 characters. *)
Lemma hook_cleanBase64_filter (s : string) :
  Bootstrap.cleanBase64 s = JS.filter Server.is_base64 s.
Proof. unfold Bootstrap.cleanBase64. apply trim_base64, forallb_filter. Qed.

Lemma pad_loop_done (fuel : nat) (s : string) :
  Text.length s mod 4 = 0 -> Server.pad_loop fuel s = Some s.
Proof. intros H. destruct fuel; cbn [Server.pad_loop]; by rewrite H. Qed.

Lemma pad_loop_step (fuel : nat) (s : string) :
  Text.length s mod 4 <> 0 ->
  Server.pad_loop (S fuel) s = Server.pad_loop fuel (s +:+ "=").
Proof.
  intros H. cbn [Server.pad_loop].
  destruct (Text.length s mod 4) eqn:E; [done|]. done.
Qed.

Lemma pad_loop_rounds (k fuel : nat) (s : string) :
  (Text.length s + k) mod 4 = 0 ->
  (forall j, j < k -> (Text.length s + j) mod 4 <> 0) ->
  k <= fuel ->
  Server.pad_loop fuel s = Some (s +:+ JS.repeat "=" k).
Proof.
  revert fuel s. induction k as [|k IH]; intros fuel s Hk Hmin Hfuel.
  - rewrite Nat.add_0_r in Hk. simpl. rewrite sapp_nil_r. by apply pad_loop_done.
  - destruct fuel as [|fuel]; [lia|].
    rewrite pad_loop_step.
    2:{ specialize (Hmin 0). rewrite Nat.add_0_r in Hmin. apply Hmin. lia. }
    rewrite (IH fuel (s +:+ "=")).
    + by rewrite app_assoc_s.
    + rewrite text_length_app. simpl. by replace (Text.length s + 1 + k)
        with (Text.length s + S k) by lia.
    + intros j Hj. rewrite text_length_app. simpl.
      replace (Text.length s + 1 + j) with (Text.length s + S j) by lia.
      apply Hmin. lia.
    + lia.
Qed.

Lemma padding_exists (n : nat) :
  exists k, k < 4 /\ (n + k) mod 4 = 0
            /\ forall j, j < k -> (n + j) mod 4 <> 0.
Proof.
  pose proof (Nat.mod_upper_bound n 4 ltac:(lia)) as Hr.
  assert (forall j, (n + j) mod 4 = (n mod 4 + j) mod 4) as Hadd
    by (intros j; by rewrite Nat.Div0.add_mod_idemp_l).
  setoid_rewrite Hadd.
  destruct (n mod 4) as [|[|[|[|r]]]] eqn:E; [| | | |lia].
  - exists 0. split; [lia|]. split; [reflexivity|]. intros j Hj. lia.
  - exists 3. split; [lia|]. split; [reflexivity|].
    intros [|[|[|j]]] Hj; try lia; cbv; lia.
  - exists 2. split; [lia|]. split; [reflexivity|].
    intros [|[|j]] Hj; try lia; cbv; lia.
  - exists 1. split; [lia|]. split; [reflexivity|].
    intros [|j] Hj; try lia; cbv; lia.
Qed.

(** On every input the padding loop of the backend leaves within three
    rounds. *)
Lemma pad_loop_total (fuel : nat) (s : string) :
  3 <= fuel ->
  exists k, k < 4 /\ Server.pad_loop fuel s = Some (s +:+ JS.repeat "=" k)
            /\ (Text.length s + k) mod 4 = 0.
Proof.
  intros Hfuel. destruct (padding_exists (Text.length s)) as (k & Hk & H0 & Hmin).
  exists k. split; [done|]. split; [|done].
  apply pad_loop_rounds; [done|done|lia].
Qed.

Lemma server_cleanBase64_filter (fuel : nat) (s : string) :
  Server.cleanBase64 fuel s =
    if negb (truthy s) then Some Server.Null
    else match Server.pad_loop fuel (JS.filter Server.is_base64 s) with
         | Some cleaned => Some (Server.Text cleaned)
         | None => None
         end.
Proof.
  unfold Server.cleanBase64. destruct (negb (truthy s)); [done|].
  by rewrite filter_remove_white_space, filter_trim.
Qed.

(** C3 (as amended).  For every non-empty string, [cleanBase64] of the
    backend returns the base64 characters of the string, in their order,
    followed by fewer than four [=] that bring the length to a multiple of
    4; nothing outside the base64 alphabet is left.  For a string of base64
    characters and white space these characters are the string without its
    white space.  On the empty string it returns [null].  On the same input
    the hook's [cleanBase64] returns the same characters and adds no
    padding. *)
Theorem cleanBase64_normalizes (fuel : nat) (s : string) :
  s <> "" ->
  3 <= fuel ->
  exists k r,
    Server.cleanBase64 fuel "" = Some Server.Null
    /\ k < 4
    /\ r = JS.filter Server.is_base64 s +:+ JS.repeat "=" k
    /\ Server.cleanBase64 fuel s = Some (Server.Text r)
    /\ JS.forallb Server.is_base64 r = true
    /\ Text.length r mod 4 = 0
    /\ Bootstrap.cleanBase64 s = JS.filter Server.is_base64 s
    /\ (JS.forallb Server.is_base64 (remove_white_space s) = true ->
        JS.filter Server.is_base64 s = remove_white_space s).
Proof.
  intros Hne Hfuel.
  destruct (pad_loop_total fuel (JS.filter Server.is_base64 s) Hfuel)
    as (k & Hk & Hpad & Hlen).
  exists k, (JS.filter Server.is_base64 s +:+ JS.repeat "=" k).
  split; [done|]. split; [done|]. split; [done|].
  split; [|split; [|split; [|split]]].
  - rewrite server_cleanBase64_filter. destruct s as [|c s]; [done|].
    cbn [truthy is_empty negb]. by rewrite Hpad.
  - rewrite forallb_app, forallb_filter. simpl. by apply forallb_repeat.
  - rewrite text_length_app.
    rewrite (length_one_byte (JS.repeat "=" k)), length_repeat; [done|].
    by apply forallb_repeat.
  - by rewrite hook_cleanBase64_filter.
  - intros Hs. rewrite <- filter_remove_white_space. by apply filter_all.
Qed.

Lemma cleanBase64_normalizes_witness :
  exists k r,
    Server.cleanBase64 3 "" = Some Server.Null
    /\ k < 4
    /\ r = JS.filter Server.is_base64 " QUJD RA " +:+ JS.repeat "=" k
    /\ Server.cleanBase64 3 " QUJD RA " = Some (Server.Text r)
    /\ JS.forallb Server.is_base64 r = true
    /\ Text.length r mod 4 = 0
    /\ Bootstrap.cleanBase64 " QUJD RA " = JS.filter Server.is_base64 " QUJD RA "
    /\ (JS.forallb Server.is_base64 (remove_white_space " QUJD RA ") = true ->
        JS.filter Server.is_base64 " QUJD RA " = remove_white_space " QUJD RA ").
Proof.
  apply (cleanBase64_normalizes 3 " QUJD RA "); [discriminate|lia].
Defined.

Example cleanBase64_pads :
  Server.cleanBase64 3 " QUJD RA " = Some (Server.Text "QUJDRA==")
  /\ Bootstrap.cleanBase64 " QUJD RA " = "QUJDRA".
Proof. split; reflexivity. Qed.

(** White space is the white space of ECMAScript: a no-break space (U+00A0),
    a line separator (U+2028) and a byte order mark (U+FEFF) are removed as
    a blank, a tab and a line feed are. *)
Example white_space_unicode :
  let nbsp := String "194" (String "160" "") in
  let ls := String "226" (String "128" (String "168" "")) in
  let bom := String "239" (String "187" (String "191" "")) in
  trim (nbsp +:+ " a" +:+ ls +:+ "b" +:+ bom +:+ String "009" "") = "a" +:+ ls +:+ "b"
  /\ remove_white_space
       (nbsp +:+ " a" +:+ ls +:+ "b" +:+ bom +:+ String "010" "") = "ab"
  /\ Server.cleanBase64 3 (nbsp +:+ "QUJD" +:+ ls +:+ "RA" +:+ bom)
     = Some (Server.Text "QUJDRA==")
  /\ trim (String "195" (String "160" "")) = String "195" (String "160" "").
Proof. repeat split; reflexivity. Qed.

(** C3, the claim as stated fails: the backend's [cleanBase64] returns [null]
    on the empty string, and the hook's [cleanBase64], whose result is handed
    to the proof parser as it is, leaves a length that is no multiple of 4. *)
Lemma cleanBase64_empty_and_unpadded :
  Server.cleanBase64 3 "" = Some Server.Null
  /\ Bootstrap.cleanBase64 "QUJD RA" = "QUJDRA"
  /\ String.length (Bootstrap.cleanBase64 "QUJD RA") mod 4 = 2.
Proof. repeat split; reflexivity. Qed.

(** ** The retrying delegation fetch *)

Section retry.
Variable net : nat -> Api.FetchResult.
Variable url : string.
Variable maxRetries : nat.
Variable delay : Z.

(** The loop runs up to the first round that stops, and returns what the
    request of that round gave. *)
Lemma retry_loop_run (n a : nat) (lastError : option Exn) :
  a + n < maxRetries ->
  (forall j, a <= j < a + n -> Api.stops net maxRetries j = false) ->
  Api.stops net maxRetries (a + n) = true ->
  Api.retry_loop net (Normal url) maxRetries delay (maxRetries - a) a lastError
  = (flat_map (Api.attempt_events url delay) (seq a (S n)),
     Api.request (net (a + n))).
Proof using Type.
  revert a lastError. induction n as [|n IH]; intros a lastError Hlt Hgo Hstop.
  - rewrite Nat.add_0_r in *.
    destruct (maxRetries - a) as [|r] eqn:Hr; [lia|].
    cbn [Api.retry_loop Api.getDelegation fst snd flat_map seq].
    rewrite List.app_nil_r.
    unfold Api.stops in Hstop. fold (Api.attempt_events url delay a).
    destruct (Api.request (net a)) as [response|error]; [done|].
    destruct (Api.no_retry error); [done|]. simpl in Hstop.
    by rewrite Hstop.
  - destruct (maxRetries - a) as [|r] eqn:Hr; [lia|].
    assert (Api.stops net maxRetries a = false) as Ha by (apply Hgo; lia).
    cbn [Api.retry_loop Api.getDelegation fst snd].
    fold (Api.attempt_events url delay a).
    unfold Api.stops in Ha.
    destruct (Api.request (net a)) as [response|error]; [done|].
    apply orb_false_iff in Ha as [-> ->].
    replace r with (maxRetries - S a) by lia.
    rewrite (IH (S a)); [|lia| |].
    + replace (S a + n) with (a + S n) by lia. reflexivity.
    + intros j Hj. apply Hgo. lia.
    + by replace (S a + n) with (a + S n) by lia.
Qed.


(** Where the endpoint cannot be built, every round fails before its
    request: the loop waits between the rounds and sends nothing. *)
Lemma retry_loop_no_endpoint (error : Exn) (n a : nat) (lastError : option Exn) :
  Api.no_retry error = false ->
  a + n = maxRetries - 1 -> 0 < maxRetries ->
  Api.retry_loop net (Throw error) maxRetries delay (maxRetries - a) a lastError
  = (List.map Api.EvSleep
       (List.map (fun j => (delay * 2 ^ (Z.of_nat j - 1))%Z)
          (List.filter (fun j => (0 <? j)%nat) (seq a (S n)))),
     Throw error).
Proof using Type.
  intros Hno. revert a lastError.
  induction n as [|n IH]; intros a lastError Hlast Hpos.
  - rewrite Nat.add_0_r in Hlast. subst a.
    destruct (maxRetries - (maxRetries - 1)) as [|r] eqn:Hr; [lia|].
    cbn [Api.retry_loop Api.getDelegation fst snd seq List.filter].
    rewrite Hno, Nat.eqb_refl, List.app_nil_r.
    by destruct (0 <? maxRetries - 1)%nat.
  - destruct (maxRetries - a) as [|r] eqn:Hr; [lia|].
    cbn [Api.retry_loop Api.getDelegation fst snd]. rewrite Hno.
    assert ((a =? maxRetries - 1)%nat = false) as -> by (apply Nat.eqb_neq; lia).
    replace r with (maxRetries - S a) by lia.
    rewrite (IH (S a)) by lia. rewrite List.app_nil_r.
    change (seq a (S (S n))) with (a :: seq (S a) (S n)).
    cbn [List.filter]. by destruct (0 <? a)%nat.
Qed.
End retry.

Lemma delegation_url_well_formed (baseURL did : string) :
  Text.well_formed did = true ->
  Api.delegation_url baseURL did
  = Normal (baseURL +:+ "/api/delegation/" +:+ percent_encode did).
Proof.
  intros Hwf. unfold Api.delegation_url, Text.encodeURIComponent.
  by rewrite Hwf.
Qed.

Lemma fetch_count_attempts (url : string) (delay : Z) (a n : nat) :
  Api.fetch_count (flat_map (Api.attempt_events url delay) (seq a n)) = n.
Proof.
  revert a. induction n as [|n IH]; intros a; [done|].
  cbn [seq flat_map]. unfold Api.fetch_count in *.
  rewrite List.filter_app, length_app, IH.
  unfold Api.attempt_events. by destruct (0 <? a)%nat.
Qed.

Lemma sleeps_app (evs evs' : list Api.Event) :
  Api.sleeps (evs ++ evs') = (Api.sleeps evs ++ Api.sleeps evs')%list.
Proof. unfold Api.sleeps. apply flat_map_app. Qed.

Lemma sleeps_attempts (url : string) (delay : Z) (a n : nat) :
  0 < a ->
  Api.sleeps (flat_map (Api.attempt_events url delay) (seq a n))
  = List.map (fun j => (delay * 2 ^ (Z.of_nat j - 1))%Z) (seq a n).
Proof.
  revert a. induction n as [|n IH]; intros a Ha; [done|].
  cbn [seq flat_map List.map]. rewrite sleeps_app, IH by lia.
  unfold Api.attempt_events. destruct (0 <? a)%nat eqn:E; [done|].
  apply Nat.ltb_ge in E. lia.
Qed.

(** [getDelegationWithRetry] sends one request per round up to the first
    round [k] that stops, waits [delay * 2^(j-1)] before round [j >= 1], and
    ends as the request of round [k] does. *)
Lemma getDelegationWithRetry_run (baseURL did : string)
    (net : nat -> Api.FetchResult) (maxRetries : option nat) (delay : option Z)
    (k : nat) :
  Text.well_formed did = true ->
  k < default 3 maxRetries ->
  (forall j, j < k -> Api.stops net (default 3 maxRetries) j = false) ->
  Api.stops net (default 3 maxRetries) k = true ->
  let run := Api.getDelegationWithRetry baseURL net did maxRetries delay in
  run.2 = Api.request (net k)
  /\ Api.fetch_count run.1 = S k
  /\ Api.sleeps run.1
     = List.map (fun j => (default 1000 delay * 2 ^ (Z.of_nat j - 1))%Z) (seq 1 k).
Proof.
  intros Hwf Hk Hgo Hstop run. subst run. unfold Api.getDelegationWithRetry.
  rewrite delegation_url_well_formed by done.
  pose proof (retry_loop_run net
                (baseURL +:+ "/api/delegation/" +:+ percent_encode did)
                (default 3 maxRetries) (default 1000%Z delay) k 0 None) as Hrun.
  rewrite Nat.sub_0_r in Hrun. rewrite Hrun; [|lia| |done].
  2:{ intros j Hj. apply Hgo. lia. }
  split; [done|]. split; [apply fetch_count_attempts|].
  cbn [fst seq flat_map]. rewrite sleeps_app.
  rewrite (sleeps_attempts _ _ 1 k) by lia. reflexivity.
Qed.

Lemma retry_loop_bound (net : nat -> Api.FetchResult) (url : completion string)
    (maxRetries : nat) (delay : Z) (remaining attempt : nat)
    (lastError : option Exn) :
  Api.fetch_count
    (Api.retry_loop net url maxRetries delay remaining attempt lastError).1
  <= remaining.
Proof.
  revert attempt lastError.
  induction remaining as [|r IH]; intros a lastError; [done|].
  cbn [Api.retry_loop].
  assert (Api.fetch_count
            ((if (0 <? a)%nat
              then [Api.EvSleep (delay * 2 ^ (Z.of_nat a - 1))]
              else []) ++ (Api.getDelegation url (net a)).1) <= 1) as H1
    by (destruct url, (0 <? a)%nat; cbn; lia).
  destruct ((Api.getDelegation url (net a)).2) as [response|error];
    cbn [fst]; [lia|].
  destruct (Api.no_retry error); cbn [fst]; [lia|].
  destruct (a =? maxRetries - 1)%nat; cbn [fst]; [lia|].
  specialize (IH (S a) (Some error)).
  destruct (Api.retry_loop net url maxRetries delay r (S a) (Some error))
    as [evs result].
  cbn [fst] in *. unfold Api.fetch_count in *.
  rewrite List.filter_app, length_app. lia.
Qed.

(** At most [maxRetries] requests are ever sent. *)
Lemma getDelegationWithRetry_bound (baseURL did : string)
    (net : nat -> Api.FetchResult) (maxRetries : option nat) (delay : option Z) :
  Api.fetch_count (Api.getDelegationWithRetry baseURL net did maxRetries delay).1
  <= default 3 maxRetries.
Proof. apply retry_loop_bound. Qed.

(** A response with status 400, 401 or 403 whose body is JSON text (other
    than [null]) becomes an [APIError] carrying that status, which stops the
    loop at once. *)
Lemma request_client_error (r : Api.Response) (data : JSON.value) :
  (Api.status r = 400 \/ Api.status r = 401 \/ Api.status r = 403)%Z ->
  JSON.parse (Api.body r) = Some data ->
  data <> JSON.Null ->
  exists message,
    Api.request (Api.Resolved r)
    = Throw (Api.new_APIError message (Some (Api.status r)))
    /\ Api.no_retry (Api.new_APIError message (Some (Api.status r))) = true.
Proof.
  intros Hst Hparse Hnull. unfold Api.request, Api.request_try.
  rewrite Hparse.
  assert (Api.ok r = false) as ->
    by (unfold Api.ok; destruct Hst as [-> | [-> | ->] ]; done).
  cbn [negb].
  assert (forall m, Api.no_retry (Api.new_APIError m (Some (Api.status r))) = true)
    as Hno by (intros m; cbn; destruct Hst as [-> | [-> | ->] ]; done).
  unfold Api.error_message.
  destruct data as [| | | | |items|fields]; [done|..];
    try (eexists; split; [reflexivity|apply Hno]).
  destruct (JSON.get_field "error" fields) as [e|];
    eexists; (split; [reflexivity|apply Hno]).
Qed.

(** A response whose body is no JSON text becomes an [APIError] without
    status, whatever the status of the response, and does not stop the
    loop before its last round. *)
Lemma request_unparsable_body (r : Api.Response) :
  JSON.parse (Api.body r) = None ->
  Api.request (Api.Resolved r)
  = Throw (Api.new_APIError Api.json_syntax_message None)
  /\ Api.no_retry (Api.new_APIError Api.json_syntax_message None) = false.
Proof.
  intros Hparse. unfold Api.request, Api.request_try. by rewrite Hparse.
Qed.

(** Transport failures and server errors do not stop the loop before its
    last round. *)
Lemma request_retriable (outcome : Api.FetchResult) (error : Exn) :
  Api.request outcome = Throw error ->
  match outcome with
  | Api.Rejected _ => True
  | Api.Resolved r => (Api.status r <> 400 /\ Api.status r <> 401
                       /\ Api.status r <> 403)%Z
  end ->
  Api.no_retry error = false.
Proof.
  unfold Api.request, Api.request_try.
  destruct outcome as [[message|]|r]; [by intros [= <-]|by intros [= <-]|].
  destruct (JSON.parse (Api.body r)) as [data|]; [|by intros [= <-]].
  destruct (negb (Api.ok r)); [|done].
  intros Herr (H400 & H401 & H403).
  assert (forall m, Api.no_retry (Api.new_APIError m (Some (Api.status r))) = false)
    as Hno.
  { intros m. cbn. apply orb_false_iff. split; [apply orb_false_iff; split|];
      by apply Z.eqb_neq. }
  destruct (Api.error_message data r) as [m|e] eqn:Hm; cbn in Herr.
  - injection Herr as <-. apply Hno.
  - unfold Api.error_message in Hm.
    destruct data as [| | | | |items|fields]; try done.
    + injection Hm as <-. by injection Herr as <-.
    + by destruct (JSON.get_field "error" fields).
Qed.

(** A response with status 400, 401 or 403 and a JSON body, arriving in
    round [k] after [k] failures that were retried, is thrown at once: no
    request follows it. *)
Lemma getDelegationWithRetry_client_error (baseURL did : string)
    (net : nat -> Api.FetchResult) (maxRetries : option nat) (delay : option Z)
    (k : nat) (r : Api.Response) (data : JSON.value) :
  Text.well_formed did = true ->
  k < default 3 maxRetries ->
  (forall j, j < k -> Api.stops net (default 3 maxRetries) j = false) ->
  net k = Api.Resolved r ->
  (Api.status r = 400 \/ Api.status r = 401 \/ Api.status r = 403)%Z ->
  JSON.parse (Api.body r) = Some data ->
  data <> JSON.Null ->
  let run := Api.getDelegationWithRetry baseURL net did maxRetries delay in
  (exists message,
     run.2 = Throw (Api.new_APIError message (Some (Api.status r))))
  /\ Api.fetch_count run.1 = S k.
Proof.
  intros Hwf Hk Hgo Hnet Hstatus Hparse Hnull run.
  destruct (request_client_error r data Hstatus Hparse Hnull)
    as (message & Hreq & Hno).
  assert (Api.stops net (default 3 maxRetries) k = true) as Hstop.
  { unfold Api.stops. rewrite Hnet, Hreq, Hno. done. }
  destruct (getDelegationWithRetry_run baseURL did net maxRetries delay k
              Hwf Hk Hgo Hstop) as (Hresult & Hcount & _).
  split; [|done]. exists message. subst run. rewrite Hresult.
  by rewrite Hnet.
Qed.


(** A [did] with a surrogate that is not part of a pair cannot be put into
    the address: no request is sent.  The [URIError] is no [APIError], so
    that the loop waits and tries again, [maxRetries] times in all, and
    then throws it. *)
Lemma getDelegationWithRetry_no_endpoint (baseURL did : string)
    (net : nat -> Api.FetchResult) (maxRetries : option nat) (delay : option Z) :
  Text.well_formed did = false ->
  0 < default 3 maxRetries ->
  let run := Api.getDelegationWithRetry baseURL net did maxRetries delay in
  run.2 = Throw (mkExn (Named "URIError") "URI malformed" None)
  /\ Api.fetch_count run.1 = 0
  /\ Api.sleeps run.1
     = List.map (fun j => (default 1000 delay * 2 ^ (Z.of_nat j - 1))%Z)
         (seq 1 (default 3 maxRetries - 1)).
Proof.
  intros Hwf Hpos run. subst run.
  unfold Api.getDelegationWithRetry, Api.delegation_url, Text.encodeURIComponent.
  rewrite Hwf.
  pose proof (retry_loop_no_endpoint net (default 3 maxRetries)
                (default 1000%Z delay)
                (mkExn (Named "URIError") "URI malformed" None)
                (default 3 maxRetries - 1) 0 None eq_refl) as Hrun.
  rewrite Nat.sub_0_r in Hrun. rewrite Hrun by lia. clear Hrun.
  cbn [seq List.filter Nat.ltb Nat.leb fst snd].
  assert (forall a n, 0 < a ->
            List.filter (fun j => (0 <? j)%nat) (seq a n) = seq a n) as Hpositive.
  { intros a n. revert a. induction n as [|n IH]; intros a Ha; [done|].
    cbn [seq List.filter]. rewrite IH by lia.
    by destruct a; [lia|]. }
  rewrite Hpositive by lia.
  split; [done|]. split.
  - unfold Api.fetch_count. by induction (seq 1 (default 3 maxRetries - 1)).
  - unfold Api.sleeps.
    induction (List.map _ (seq 1 (default 3 maxRetries - 1))) as [|x l IH];
      [done|]. cbn [List.map flat_map app]. by rewrite IH.
Qed.

Example getDelegationWithRetry_lone_surrogate :
  Api.getDelegationWithRetry "" (fun _ => Api.Rejected None)
    (String "237" (String "160" (String "128" ""))) None None
  = ([Api.EvSleep 1000; Api.EvSleep 2000],
     Throw (mkExn (Named "URIError") "URI malformed" None)).
Proof. vm_compute. reflexivity. Qed.

(** C7, the code at the failing input: the first request is answered with
    status 401 and an HTML body, the second with a delegation.  The 401
    response is not thrown: the call waits 1000 ms, sends a second request
    and returns its answer. *)
Theorem getDelegationWithRetry_retries_401 :
  let answer := JSON.Obj [("success", JSON.Bool true);
                          ("delegation", JSON.Str "AAAA")] in
  Api.getDelegationWithRetry "" (fun n =>
      match n with
      | 0 => Api.Resolved (Api.mkResponse 401 "Unauthorized"
                             "<html>Unauthorized</html>")
      | _ => Api.Resolved (Api.mkResponse 200 "OK" (JSON.stringify answer))
      end) "did:key:z6Mk" None None
  = ([Api.EvFetch "/api/delegation/did%3Akey%3Az6Mk"; Api.EvSleep 1000;
      Api.EvFetch "/api/delegation/did%3Akey%3Az6Mk"],
     Normal answer).
Proof. vm_compute. reflexivity. Qed.

(** With a JSON body the same 401 is thrown after the first request. *)
Example getDelegationWithRetry_throws_401_json :
  Api.getDelegationWithRetry "" (fun _ =>
      Api.Resolved (Api.mkResponse 401 "Unauthorized"
                      (JSON.stringify (JSON.Obj [("success", JSON.Bool false);
                                                 ("error", JSON.Str "denied")]))))
    "did:key:z6Mk" None None
  = ([Api.EvFetch "/api/delegation/did%3Akey%3Az6Mk"],
     Throw (Api.new_APIError "denied" (Some 401%Z))).
Proof. vm_compute. reflexivity. Qed.

(** Three transport failures: three requests, waits of 1000 and 2000 ms. *)
Example getDelegationWithRetry_gives_up :
  Api.getDelegationWithRetry "" (fun _ => Api.Rejected (Some "Failed to fetch"))
    "did:key:z6Mk" None None
  = ([Api.EvFetch "/api/delegation/did%3Akey%3Az6Mk"; Api.EvSleep 1000;
      Api.EvFetch "/api/delegation/did%3Akey%3Az6Mk"; Api.EvSleep 2000;
      Api.EvFetch "/api/delegation/did%3Akey%3Az6Mk"],
     Throw (Api.new_APIError "Failed to fetch" None)).
Proof. vm_compute. reflexivity. Qed.

(** ** Delegation bootstrap *)

Lemma prefix_app (p t : string) : String.prefix p (p +:+ t) = true.
Proof.
  induction p as [|c p IH]; [apply prefix_empty|].
  rewrite sapp_cons. simpl. by destruct (Ascii.ascii_dec c c).
Qed.

Lemma prefix_app_l (p s t : string) :
  String.prefix p s = true -> String.prefix p (s +:+ t) = true.
Proof.
  revert s. induction p as [|c p IH]; intros s; [intros; apply prefix_empty|].
  destruct s as [|d s]; [done|]. rewrite sapp_cons. simpl.
  destruct (Ascii.ascii_dec c d); [apply IH|done].
Qed.

Lemma includes_self (p : string) : includes p p = true.
Proof.
  pose proof (prefix_app p "") as H. rewrite (sapp_nil_r p) in H.
  destruct p; cbn [includes]; by rewrite H.
Qed.

Lemma includes_app_r (s t p : string) :
  includes t p = true -> includes (s +:+ t) p = true.
Proof.
  intros H. induction s as [|c s IH]; [done|].
  rewrite sapp_cons. cbn [includes]. rewrite IH. apply orb_true_r.
Qed.

Lemma includes_app_l (s t p : string) :
  includes s p = true -> includes (s +:+ t) p = true.
Proof.
  induction s as [|c s IH].
  - destruct p; [|done]. intros _. destruct t; done.
  - cbn [includes]. intros [H|H]%orb_true_iff.
    + rewrite sapp_cons. cbn [includes].
      change (String c (s +:+ t)) with (String c s +:+ t).
      by rewrite (prefix_app_l _ _ _ H).
    + rewrite sapp_cons. cbn [includes]. rewrite (IH H). apply orb_true_r.
Qed.

Lemma includes_join (sep x : string) (parts : list string) :
  In x parts -> includes (join sep parts) x = true.
Proof.
  induction parts as [|y [|z rest] IH]; [done| |].
  - intros [->|[]]. apply includes_self.
  - intros [->|Hin].
    + cbn [join]. apply includes_app_l, includes_self.
    + change (join sep (y :: z :: rest))
        with (y +:+ sep +:+ join sep (z :: rest)).
      by apply includes_app_r, includes_app_r, IH.
Qed.

(** The error message names every capability found missing. *)
Lemma missing_message_names (missing : list string) (cap : string) :
  In cap missing -> includes (Bootstrap.missing_message missing) cap = true.
Proof.
  intros Hin. unfold Bootstrap.missing_message.
  apply includes_app_r, includes_app_l. by apply includes_join.
Qed.

Lemma bind_call {A B : Type} (ev : SDK.Event) (outcome : completion A)
    (k : A -> SDK.M B) :
  SDK.bind (SDK.call ev outcome) k
  = match outcome with
    | Normal a => (ev :: (k a).1, (k a).2)
    | Throw e => ([ev], Throw e)
    end.
Proof.
  destruct outcome as [a|e]; [|done].
  unfold SDK.bind, SDK.call. by destruct (k a).
Qed.

(** The cleaned proof has base64 characters only: its length in code units
    is its length in bytes. *)
Lemma cleanBase64_length (s : string) :
  Text.length (Bootstrap.cleanBase64 s) = String.length (Bootstrap.cleanBase64 s).
Proof.
  apply length_one_byte. rewrite hook_cleanBase64_filter.
  eapply forallb_impl; [apply base64_one_byte|apply forallb_filter].
Qed.

Lemma proof_guard (s : string) :
  100 <= String.length (Bootstrap.cleanBase64 s) ->
  negb (truthy (Bootstrap.cleanBase64 s))
  || (Text.length (Bootstrap.cleanBase64 s) <? 100)%nat = false.
Proof.
  rewrite cleanBase64_length. intros H.
  destruct (Bootstrap.cleanBase64 s) as [|c t]; [simpl in H; lia|].
  cbn [truthy is_empty negb orb]. apply Nat.ltb_ge. done.
Qed.

Lemma key_guard (s : string) :
  startsWith s "Mg" = true ->
  negb (truthy s) || negb (startsWith s "Mg") = false.
Proof. intros H. rewrite H. by destruct s. Qed.

Section bootstrap.
Import SDK Session Bootstrap.
Variable sdk : Env.
Variable cfg : DelegationConfig.
Variable storachaClient : Client.
Variable parsedProof : Delegation.

Hypothesis proof_ok : 100 <= String.length (cleanBase64 (proof cfg)).
Hypothesis key_ok : startsWith (trim (key cfg)) "Mg" = true.
Hypothesis signer_ok : Signer_parse sdk (trim (key cfg)) = Normal ().
Hypothesis create_ok : create sdk = Normal storachaClient.
Hypothesis parse_ok :
  Proof_parse sdk (cleanBase64 (proof cfg)) = Normal parsedProof.

Lemma bootstrap_missing :
  missingCapabilities (default [] (capabilities parsedProof)) <> [] ->
  bootstrap sdk cfg
  = (parsed_events cfg,
     Throw (new_Error (missing_message
              (missingCapabilities (default [] (capabilities parsedProof)))))).
Proof using proof_ok key_ok signer_ok create_ok parse_ok.
  intros Hmissing. unfold bootstrap.
  rewrite proof_guard, key_guard by done.
  rewrite bind_call, signer_ok, bind_call, create_ok, bind_call, parse_ok.
  cbn [fst snd].
  destruct (missingCapabilities (default [] (capabilities parsedProof)));
    [done|reflexivity].
Qed.

Hypothesis nothing_missing :
  missingCapabilities (default [] (capabilities parsedProof)) = [].
Hypothesis addSpace_ok : addSpace sdk parsedProof = Normal ().
Variable known : list Space.
Hypothesis spaces_ok : spaces sdk = Normal known.



End bootstrap.



(** No namespace is selected only when none is known. *)
Lemma select_space_none (requested : option string) (known : list SDK.Space) :
  Bootstrap.select_space requested known = None <-> known = [].
Proof.
  unfold Bootstrap.select_space. split.
  - destruct requested as [d|]; [|by destruct known].
    destruct (truthy d); [|by destruct known].
    destruct (List.find _ known); [done|by destruct known].
  - intros ->. destruct requested as [d|]; [|done]. by destruct (truthy d).
Qed.

(** What [loginWithDelegation] and [setupDelegation] make of the outcome of
    the shared statements. *)
Lemma loginWithDelegation_failure (sdk : SDK.Env)
    (cfg : Bootstrap.DelegationConfig) (st : Artboard.State)
    (evs : list SDK.Event) (err : Exn) :
  Bootstrap.bootstrap sdk cfg = (evs, Throw err) ->
  Artboard.loginWithDelegation sdk cfg st
  = (Artboard.mkState (Artboard.localStorage st) (Artboard.client st)
       (Artboard.space st) false (Artboard.uploadedFiles st)
       (Some (Bootstrap.message_or "Delegation login failed" err)) false
       (Artboard.userSession st) (Artboard.uploadProgress st)
       (Artboard.abortControllers st) (Artboard.trace st ++ evs),
     Artboard.LoginFailed (Bootstrap.message_or "Delegation login failed" err)
       (Bootstrap.exn_to_string err)).
Proof. intros H. unfold Artboard.loginWithDelegation. by rewrite H. Qed.

Lemma loginWithDelegation_success (sdk : SDK.Env)
    (cfg : Bootstrap.DelegationConfig) (st : Artboard.State)
    (evs : list SDK.Event) (session : Session.UserSession)
    (storachaClient : SDK.Client) (currentSpace : SDK.Space) :
  Bootstrap.bootstrap sdk cfg
  = (evs, Normal (session, storachaClient, currentSpace)) ->
  Artboard.loginWithDelegation sdk cfg st
  = (Artboard.mkState
       (<[Session.SESSION_KEY := JSON.stringify (Session.session_json session)]>
          (Artboard.localStorage st))
       (Some storachaClient) (Some currentSpace) false
       (Artboard.uploadedFiles st) None true (Session.session_json session)
       (Artboard.uploadProgress st) (Artboard.abortControllers st)
       (Artboard.trace st ++ evs),
     Artboard.LoginOk session).
Proof. intros H. unfold Artboard.loginWithDelegation. by rewrite H. Qed.

Lemma setupDelegation_failure (sdk : SDK.Env)
    (cfg : Bootstrap.DelegationConfig) (st : UploadDemo.State)
    (evs : list SDK.Event) (err : Exn) :
  Bootstrap.bootstrap sdk cfg = (evs, Throw err) ->
  UploadDemo.setupDelegation sdk cfg st
  = (UploadDemo.mkState (UploadDemo.localStorage st) (UploadDemo.client st)
       (UploadDemo.space st) (UploadDemo.spaceDid st) false
       (UploadDemo.isUploading st)
       (Some (Bootstrap.message_or "Delegation setup failed" err))
       (UploadDemo.userSession st) (UploadDemo.trace st ++ evs),
     false).
Proof. intros H. unfold UploadDemo.setupDelegation. by rewrite H. Qed.

Lemma setupDelegation_success (sdk : SDK.Env)
    (cfg : Bootstrap.DelegationConfig) (st : UploadDemo.State)
    (evs : list SDK.Event) (session : Session.UserSession)
    (storachaClient : SDK.Client) (currentSpace : SDK.Space) :
  Bootstrap.bootstrap sdk cfg
  = (evs, Normal (session, storachaClient, currentSpace)) ->
  UploadDemo.setupDelegation sdk cfg st
  = (UploadDemo.mkState
       (<[Session.SESSION_KEY := JSON.stringify (Session.session_json session)]>
          (UploadDemo.localStorage st))
       (Some storachaClient) (Some currentSpace)
       (Some (SDK.did currentSpace)) false (UploadDemo.isUploading st) None
       (Session.session_json session) (UploadDemo.trace st ++ evs),
     true).
Proof. intros H. unfold UploadDemo.setupDelegation. by rewrite H. Qed.

Lemma includes_join_part (sep part x : string) (parts : list string) :
  In part parts -> includes part x = true ->
  includes (join sep parts) x = true.
Proof.
  intros Hin Hx. induction parts as [|y [|z rest] IH]; [done| |].
  - destruct Hin as [->|[]]. done.
  - change (join sep (y :: z :: rest)) with (y +:+ sep +:+ join sep (z :: rest)).
    destruct Hin as [->|Hin]; [by apply includes_app_l|].
    by apply includes_app_r, includes_app_r, IH.
Qed.

Lemma get_field_In (key : string) (v : JSON.value)
    (fields : list (string * JSON.value)) :
  JSON.get_field key fields = Some v -> In (key, v) fields.
Proof.
  induction fields as [|[k w] fields IH]; [done|]. simpl.
  destruct (String.eqb_spec k key) as [->|_].
  - intros [= ->]. by left.
  - intros H. right. by apply IH.
Qed.

(** A capability list that has an entry for a required capability, in the
    reading of the specification, also mentions it: whatever the code
    reports missing is indeed lacking.  The converse fails
    ([login_without_upload_add]). *)
Lemma missing_is_lacking (capabilities : list JSON.value) (cap : string) :
  In cap (Bootstrap.missingCapabilities capabilities) ->
  Bootstrap.spec_lacks capabilities cap = true.
Proof.
  unfold Bootstrap.missingCapabilities, Bootstrap.spec_lacks.
  intros [Hreq Hnone]%filter_In. apply negb_true_iff in Hnone.
  apply negb_true_iff. apply not_true_iff_false.
  intros (c & Hin & Hlists)%existsb_exists.
  apply not_true_iff_false in Hnone. apply Hnone.
  apply existsb_exists. exists c. split; [done|].
  assert (JSON.escape cap = cap) as Hescape.
  { unfold Bootstrap.requiredCapabilities in Hreq.
    destruct Hreq as [<-|[<-|[<-|[]]]]; reflexivity. }
  unfold Bootstrap.spec_lists in Hlists. unfold Bootstrap.mentions.
  destruct c as [| | | |text|items|fields]; try done.
  - apply String.eqb_eq in Hlists as ->. apply includes_self.
  - destruct (JSON.get_field "can" fields) as [[| | | |text| |]|] eqn:Hcan;
      try done.
    apply String.eqb_eq in Hlists as ->. apply get_field_In in Hcan.
    cbn [JSON.stringify]. apply includes_app_r, includes_app_l.
    apply (includes_join_part _ (JSON.quote "can" +:+ ":" +:+ JSON.quote cap)).
    + apply (in_map (fun kv : string * JSON.value =>
                       let (k, w) := kv in
                       JSON.quote k +:+ ":" +:+ JSON.stringify w)
               fields ("can", JSON.Str cap) Hcan).
    + apply includes_app_r, includes_app_r. unfold JSON.quote.
      rewrite Hescape.
      change (String dquote (cap +:+ String dquote ""))
        with (String dquote "" +:+ (cap +:+ String dquote "")).
      apply includes_app_r, includes_app_l, includes_self.
Qed.

(** C1 (as amended).  When the proof is parsed and some required capability
    is mentioned by no entry of its capability list -- it is a substring
    neither of an entry that is a string nor of the JSON text of any other
    entry -- both hooks fail with the message that names each capability
    found missing; the calls made are those up to the parsing of the proof,
    so neither [addSpace] nor [setCurrentSpace] is reached, and the stored
    session and the session state are left as they were. *)
Theorem delegation_missing_capability (sdk : SDK.Env)
    (cfg : Bootstrap.DelegationConfig) (storachaClient : SDK.Client)
    (parsedProof : SDK.Delegation)
    (st : Artboard.State) (st' : UploadDemo.State) :
  100 <= String.length (Bootstrap.cleanBase64 (Bootstrap.proof cfg)) ->
  startsWith (trim (Bootstrap.key cfg)) "Mg" = true ->
  SDK.Signer_parse sdk (trim (Bootstrap.key cfg)) = Normal () ->
  SDK.create sdk = Normal storachaClient ->
  SDK.Proof_parse sdk (Bootstrap.cleanBase64 (Bootstrap.proof cfg))
  = Normal parsedProof ->
  let missing :=
    Bootstrap.missingCapabilities (default [] (SDK.capabilities parsedProof)) in
  let message := Bootstrap.missing_message missing in
  missing <> [] ->
  (forall cap, In cap missing -> includes message cap = true)
  /\ (let run := Artboard.loginWithDelegation sdk cfg st in
      run.2 = Artboard.LoginFailed message ("Error: " +:+ message)
      /\ Artboard.trace run.1 = (Artboard.trace st ++ Bootstrap.parsed_events cfg)%list
      /\ Artboard.localStorage run.1 = Artboard.localStorage st
      /\ Artboard.userSession run.1 = Artboard.userSession st
      /\ Artboard.client run.1 = Artboard.client st
      /\ Artboard.space run.1 = Artboard.space st
      /\ Artboard.error run.1 = Some message)
  /\ (let run := UploadDemo.setupDelegation sdk cfg st' in
      run.2 = false
      /\ UploadDemo.trace run.1 = (UploadDemo.trace st' ++ Bootstrap.parsed_events cfg)%list
      /\ UploadDemo.localStorage run.1 = UploadDemo.localStorage st'
      /\ UploadDemo.userSession run.1 = UploadDemo.userSession st'
      /\ UploadDemo.client run.1 = UploadDemo.client st'
      /\ UploadDemo.space run.1 = UploadDemo.space st'
      /\ UploadDemo.error run.1 = Some message).
Proof.
  intros Hproof Hkey Hsigner Hcreate Hparse missing message Hmissing.
  pose proof (bootstrap_missing sdk cfg storachaClient parsedProof
                Hproof Hkey Hsigner Hcreate Hparse Hmissing) as Hrun.
  fold missing in Hrun. fold message in Hrun.
  split; [intros cap Hin; by apply missing_message_names|].
  rewrite (loginWithDelegation_failure _ _ _ _ _ Hrun).
  rewrite (setupDelegation_failure _ _ _ _ _ Hrun).
  done.
Qed.

Lemma delegation_missing_capability_witness :
  let run :=
    Artboard.loginWithDelegation
      (Sample.sdk (Some [Sample.capability "space/blob/add";
                         Sample.capability "space/index/add"]) [])
      (Sample.config None) Sample.artboard in
  run.2 = Artboard.LoginFailed
            "Delegation proof missing required capabilities: upload/add. Please regenerate with proper permissions."
            "Error: Delegation proof missing required capabilities: upload/add. Please regenerate with proper permissions."
  /\ Artboard.trace run.1
     = [SDK.EvSignerParse "MgAAAAAAAA"; SDK.EvCreate;
        SDK.EvProofParse (JS.repeat "A" 100)]
  /\ Artboard.localStorage run.1 = ∅
  /\ Artboard.userSession run.1 = Session.session_json Session.empty_session.
Proof.
  destruct (delegation_missing_capability
    (Sample.sdk (Some [Sample.capability "space/blob/add";
                       Sample.capability "space/index/add"]) [])
    (Sample.config None) (SDK.mkClient (Some "did:key:z6MkAgent"))
    (SDK.mkDelegation (Some [Sample.capability "space/blob/add";
                             Sample.capability "space/index/add"]))
    Sample.artboard Sample.demo
    ltac:(vm_compute; lia) ltac:(reflexivity) ltac:(reflexivity)
    ltac:(reflexivity) ltac:(reflexivity) ltac:(by vm_compute))
    as (_ & (Hresult & Htrace & Hstorage & Hsession & _) & _).
  split; [exact Hresult|]. split; [exact Htrace|].
  split; [exact Hstorage|exact Hsession].
Defined.

(** C1, the claim as stated fails: the list below has capabilities for
    [space/blob/add], [space/index/add] and [upload/list] only, so it lacks
    [upload/add]; yet the text [upload/add] occurs in a caveat, nothing is
    reported missing, and the login goes on to [addSpace] and
    [setCurrentSpace] and stores a logged-in session. *)
Lemma login_without_upload_add :
  let capabilities :=
    [Sample.capability "space/blob/add"; Sample.capability "space/index/add";
     JSON.Obj [("can", JSON.Str "upload/list");
               ("with", JSON.Str "did:key:z6MkSpace");
               ("nb", JSON.Obj [("note", JSON.Str "no upload/add")])]] in
  let run :=
    Artboard.loginWithDelegation
      (Sample.sdk (Some capabilities) [SDK.mkSpace "did:key:z6MkSpace"])
      (Sample.config None) Sample.artboard in
  Bootstrap.spec_lacks capabilities "upload/add" = true
  /\ Bootstrap.missingCapabilities capabilities = []
  /\ run.2 = Artboard.LoginOk
               (Session.mkSession "delegation@user" true
                  (Some Session.delegation) (Some "did:key:z6MkSpace")
                  (Some "did:key:z6MkAgent"))
  /\ Artboard.trace run.1
     = [SDK.EvSignerParse "MgAAAAAAAA"; SDK.EvCreate;
        SDK.EvProofParse (JS.repeat "A" 100);
        SDK.EvAddSpace (SDK.mkDelegation (Some capabilities)); SDK.EvSpaces;
        SDK.EvSetCurrentSpace "did:key:z6MkSpace"]
  /\ is_Some (Artboard.localStorage run.1 !! Session.SESSION_KEY).
Proof. vm_compute. repeat split; eauto. Qed.

(** The key is trimmed of the white space of ECMAScript: with a no-break
    space (U+00A0) before and after it the login goes through. *)
Example key_between_no_break_spaces :
  let nbsp := String "194" (String "160" "") in
  let run :=
    Artboard.loginWithDelegation Sample.ready_sdk
      (Bootstrap.mkConfig (nbsp +:+ "MgAAAAAAAA" +:+ nbsp) (JS.repeat "A" 100) None)
      Sample.artboard in
  run.2 = Artboard.LoginOk
            (Session.mkSession "delegation@user" true
               (Some Session.delegation) (Some "did:key:z6MkSpace")
               (Some "did:key:z6MkAgent"))
  /\ hd_error (Artboard.trace run.1) = Some (SDK.EvSignerParse "MgAAAAAAAA").
Proof. vm_compute. done. Qed.




Example delegation_no_space :
  (Artboard.loginWithDelegation
     (Sample.sdk (Some [Sample.capability "space/blob/add";
                        Sample.capability "space/index/add";
                        Sample.capability "upload/add"]) [])
     (Sample.config (Some "did:key:z6MkOther")) Sample.artboard).2
  = Artboard.LoginFailed Bootstrap.no_space_message
      ("Error: " +:+ Bootstrap.no_space_message).
Proof. vm_compute. reflexivity. Qed.

(** ** Reading back what [JSON.stringify] wrote *)

Lemma lex_cons (st st' : JSON.lex_state) (c : ascii) (t : string)
    (ts : list JSON.token) :
  JSON.lex_step st c = Some (st', ts) ->
  JSON.lex st (String c t) = option_map (app ts) (JSON.lex st' t).
Proof. intros H. simpl. rewrite H. by destruct (JSON.lex st' t). Qed.

Lemma lex_silent (st st' : JSON.lex_state) (c : ascii) (t : string) :
  JSON.lex_step st c = Some (st', []) ->
  JSON.lex st (String c t) = JSON.lex st' t.
Proof. intros H. rewrite (lex_cons _ _ _ _ _ H). by destruct (JSON.lex st' t). Qed.

(** Inside a string literal, the escape of a character reads as that
    character. *)
Lemma lex_escape_char (c : ascii) (acc t : string) :
  JSON.lex (JSON.LString acc) (JSON.escape_char c +:+ t)
  = JSON.lex (JSON.LString (String c acc)) t.
Proof.
  destruct c as [[] [] [] [] [] [] [] []];
    match goal with
    | |- context [JSON.escape_char ?x] =>
        let v := eval vm_compute in (JSON.escape_char x) in
        change (JSON.escape_char x) with v
    end;
    rewrite ?sapp_cons, sapp_nil_l;
    repeat (erewrite lex_silent by reflexivity); reflexivity.
Qed.

Lemma hex_value_lower (x : N) :
  (x < 16)%N -> JSON.hex_value (JSON.hex_lower x) = Some x.
Proof.
  intros Hx.
  assert (In x (List.map N.of_nat (seq 0 16))) as Hin.
  { apply in_map_iff. exists (N.to_nat x). split; [lia|]. apply in_seq. lia. }
  cbn in Hin. repeat (destruct Hin as [<-|Hin]; [reflexivity|]). done.
Qed.

(** The four digits of the escape of a code unit give the code unit back. *)
Lemma lex_escape_unit (u : N) (acc t : string) :
  (u < 65536)%N ->
  JSON.lex (JSON.LString acc) (JSON.escape_unit u +:+ t)
  = JSON.lex (JSON.LString (JSON.push_chars (JSON.utf8 u) acc)) t.
Proof.
  intros Hu. unfold JSON.escape_unit. rewrite !sapp_cons, sapp_nil_l.
  rewrite (lex_silent _ (JSON.LEscape acc)) by reflexivity.
  rewrite (lex_silent _ (JSON.LUnicode acc [])) by reflexivity.
  assert (u / 4096 < 16 /\ (u / 256) mod 16 < 16 /\ (u / 16) mod 16 < 16
          /\ u mod 16 < 16)%N as (H1 & H2 & H3 & H4).
  { repeat split; try (apply N.mod_lt; lia).
    apply N.Div0.div_lt_upper_bound. lia. }
  rewrite (lex_silent _ (JSON.LUnicode acc [u / 4096]%N))
    by (cbn [JSON.lex_step]; by rewrite hex_value_lower).
  rewrite (lex_silent _ (JSON.LUnicode acc [u / 4096; (u / 256) mod 16]%N))
    by (cbn [JSON.lex_step]; by rewrite hex_value_lower).
  rewrite (lex_silent _ (JSON.LUnicode acc [u / 4096; (u / 256) mod 16;
                                            (u / 16) mod 16]%N))
    by (cbn [JSON.lex_step]; by rewrite hex_value_lower).
  rewrite (lex_silent _ (JSON.LString (JSON.push_chars (JSON.utf8 u) acc))).
  { done. }
  cbn [JSON.lex_step]. rewrite hex_value_lower by done. do 4 f_equal.
  assert (u / 16 / 16 = u / 256)%N as Hq2 by (by rewrite N.Div0.div_div).
  assert (u / 256 / 16 = u / 4096)%N as Hq3 by (by rewrite N.Div0.div_div).
  pose proof (N.div_mod u 16 ltac:(lia)) as E1.
  pose proof (N.div_mod (u / 16) 16 ltac:(lia)) as E2.
  pose proof (N.div_mod (u / 256) 16 ltac:(lia)) as E3.
  rewrite Hq2 in E2. rewrite Hq3 in E3. f_equal. lia.
Qed.

(** The code unit of a lone surrogate is carried by its three bytes. *)
Lemma utf8_lone_surrogate (c c1 c2 : ascii) (u : N) :
  JSON.lone_surrogate (N_of_ascii c) (N_of_ascii c1) (N_of_ascii c2) = Some u ->
  (u < 65536)%N /\ JSON.utf8 u = [c; c1; c2].
Proof.
  unfold JSON.lone_surrogate.
  destruct (_ && _) eqn:Hb; [|done]. intros [= <-].
  repeat match type of Hb with
         | (_ && _) = true => apply andb_true_iff in Hb as [Hb ?]
         end.
  repeat match goal with
         | H : (_ =? _)%N = true |- _ => apply N.eqb_eq in H
         | H : (_ <=? _)%N = true |- _ => apply N.leb_le in H
         end.
  set (u := (55296 + (N_of_ascii c1 - 160) * 64 + (N_of_ascii c2 - 128))%N).
  assert (u = 13 * 4096 + (N_of_ascii c1 - 128) * 64 + (N_of_ascii c2 - 128))%N
    as Hu by (unfold u; lia).
  split; [lia|]. unfold JSON.utf8.
  destruct (N.ltb_spec u 128); [lia|]. destruct (N.ltb_spec u 2048); [lia|].
  assert (u / 4096 = 13)%N as ->.
  { symmetry. apply (N.div_unique u 4096 13
                       ((N_of_ascii c1 - 128) * 64 + (N_of_ascii c2 - 128))); lia. }
  assert (u mod 64 = N_of_ascii c2 - 128)%N as ->.
  { symmetry. apply (N.mod_unique u 64 (13 * 64 + (N_of_ascii c1 - 128))); lia. }
  assert (u / 64 = 13 * 64 + (N_of_ascii c1 - 128))%N as ->.
  { symmetry. apply (N.div_unique u 64 _ (N_of_ascii c2 - 128)); lia. }
  assert ((13 * 64 + (N_of_ascii c1 - 128)) mod 64 = N_of_ascii c1 - 128)%N as ->.
  { symmetry. apply (N.mod_unique _ 64 13); lia. }
  replace (224 + 13)%N with (N_of_ascii c) by lia.
  replace (128 + (N_of_ascii c1 - 128))%N with (N_of_ascii c1) by lia.
  replace (128 + (N_of_ascii c2 - 128))%N with (N_of_ascii c2) by lia.
  by rewrite !ascii_N_embedding.
Qed.

Lemma lex_string_body_upto (n : nat) (s acc t : string) :
  String.length s <= n ->
  JSON.lex (JSON.LString acc) (JSON.escape s +:+ String dquote t)
  = option_map (app [JSON.TString (String.rev (String.rev_app s acc))])
      (JSON.lex JSON.LDefault t).
Proof.
  revert s acc. induction n as [|n IH]; intros s acc Hlen.
  { destruct s; [|simpl in Hlen; lia].
    rewrite sapp_nil_l. by apply (lex_cons _ JSON.LDefault). }
  destruct s as [|c s].
  { rewrite sapp_nil_l. by apply (lex_cons _ JSON.LDefault). }
  cbn [String.length] in Hlen.
  assert (JSON.lex (JSON.LString acc)
            ((JSON.escape_char c +:+ JSON.escape s) +:+ String dquote t)
          = option_map
              (app [JSON.TString (String.rev (String.rev_app (String c s) acc))])
              (JSON.lex JSON.LDefault t)) as Hchar.
  { rewrite app_assoc_s, lex_escape_char.
    exact (IH s (String c acc) ltac:(lia)). }
  cbn [JSON.escape]. destruct s as [|c1 [|c2 rest]]; [exact Hchar..|].
  destruct (JSON.lone_surrogate (N_of_ascii c) (N_of_ascii c1) (N_of_ascii c2))
    as [u|] eqn:Hu; [|exact Hchar].
  apply utf8_lone_surrogate in Hu as [Hu16 Hbytes].
  rewrite app_assoc_s, lex_escape_unit, Hbytes by done.
  cbn [JSON.push_chars fold_left]. cbn [String.length] in Hlen.
  exact (IH rest (String c2 (String c1 (String c acc))) ltac:(lia)).
Qed.

Lemma lex_string_body (s acc t : string) :
  JSON.lex (JSON.LString acc) (JSON.escape s +:+ String dquote t)
  = option_map (app [JSON.TString (String.rev (String.rev_app s acc))])
      (JSON.lex JSON.LDefault t).
Proof. by apply (lex_string_body_upto (String.length s)). Qed.

(** A lone surrogate is written as an escape and read back. *)
Example stringify_lone_surrogate :
  let name := String "a" (String "237" (String "160" (String "128" "b"))) in
  JSON.stringify (JSON.Str name)
  = String dquote ("a\ud800b" +:+ String dquote "")
  /\ JSON.parse (JSON.stringify (JSON.Str name)) = Some (JSON.Str name).
Proof. split; reflexivity. Qed.

Lemma lex_quote (s t : string) :
  JSON.lex JSON.LDefault (JSON.quote s +:+ t)
  = option_map (app [JSON.TString s]) (JSON.lex JSON.LDefault t).
Proof.
  unfold JSON.quote. rewrite sapp_cons, app_assoc_s, sapp_cons, sapp_nil_l.
  rewrite (lex_silent _ (JSON.LString "")) by reflexivity.
  rewrite lex_string_body. unfold String.rev at 1.
  change (String.rev_app (String.rev_app s "") "")
    with (String.rev (String.rev s)).
  by rewrite rev_involutive_s.
Qed.

Lemma option_map_app (a b : list JSON.token) (o : option (list JSON.token)) :
  option_map (app a) (option_map (app b) o) = option_map (app (a ++ b)%list) o.
Proof. destruct o; simpl; [by rewrite app_assoc|done]. Qed.

Ltac lex_prefix :=
  intros;
  repeat (rewrite sapp_cons || rewrite sapp_nil_l);
  repeat (erewrite lex_cons by reflexivity);
  rewrite ?option_map_app; reflexivity.

Lemma lex_lbrace (t : string) :
  JSON.lex JSON.LDefault ("{" +:+ t)
  = option_map (app [JSON.TLBrace]) (JSON.lex JSON.LDefault t).
Proof. lex_prefix. Qed.

Lemma lex_lbracket (t : string) :
  JSON.lex JSON.LDefault ("[" +:+ t)
  = option_map (app [JSON.TLBracket]) (JSON.lex JSON.LDefault t).
Proof. lex_prefix. Qed.

Lemma lex_colon (t : string) :
  JSON.lex JSON.LDefault (":" +:+ t)
  = option_map (app [JSON.TColon]) (JSON.lex JSON.LDefault t).
Proof. lex_prefix. Qed.

Lemma lex_comma (t : string) :
  JSON.lex JSON.LDefault ("," +:+ t)
  = option_map (app [JSON.TComma]) (JSON.lex JSON.LDefault t).
Proof. lex_prefix. Qed.

Lemma lex_true_comma (t : string) :
  JSON.lex JSON.LDefault ("true" +:+ "," +:+ t)
  = option_map (app [JSON.TWord "true"; JSON.TComma]) (JSON.lex JSON.LDefault t).
Proof. lex_prefix. Qed.

Lemma lex_false_comma (t : string) :
  JSON.lex JSON.LDefault ("false" +:+ "," +:+ t)
  = option_map (app [JSON.TWord "false"; JSON.TComma]) (JSON.lex JSON.LDefault t).
Proof. lex_prefix. Qed.

Lemma lex_null_comma (t : string) :
  JSON.lex JSON.LDefault ("null" +:+ "," +:+ t)
  = option_map (app [JSON.TWord "null"; JSON.TComma]) (JSON.lex JSON.LDefault t).
Proof. lex_prefix. Qed.

Ltac lex_text :=
  repeat first
    [ rewrite lex_quote | rewrite lex_lbrace | rewrite lex_lbracket
    | rewrite lex_colon | rewrite lex_comma | rewrite lex_true_comma
    | rewrite lex_false_comma | rewrite lex_null_comma ].

(** The text [JSON.stringify] writes for a session parses back to that
    session. *)
Lemma session_text_parses (s : Session.UserSession) :
  JSON.parse (JSON.stringify (Session.session_json s))
  = Some (Session.session_json s).
Proof.
  destruct s as [e b m sd ad]. unfold JSON.parse, JSON.parse_from.
  destruct b, m as [[]|], sd as [sd|], ad as [ad|];
    cbn [JSON.stringify Session.session_json Session.session_email
         Session.isLoggedIn Session.method Session.spaceDid Session.agentDid
         Session.method_json Session.optional_field List.map join app];
    rewrite ?app_assoc_s; lex_text; reflexivity.
Qed.

(** *** Numbers *)

Lemma pretty_N_char_digit (x : N) : is_digit (pretty_N_char x) = true.
Proof. unfold pretty_N_char. by repeat case_match. Qed.

Lemma pretty_N_go_digits (x : N) (s : string) :
  JS.forallb is_digit s = true -> JS.forallb is_digit (pretty_N_go x s) = true.
Proof.
  revert s. induction (N.lt_wf_0 x) as [x _ IH]; intros s Hs.
  assert (x = 0 \/ 0 < x)%N as [->|Hx] by lia.
  - by rewrite pretty_N_go_0.
  - rewrite pretty_N_go_step by done. apply IH.
    + by apply N.div_lt.
    + simpl. by rewrite pretty_N_char_digit.
Qed.

(** The decimal text of a natural number consists of digits. *)
Lemma pretty_N_digits (x : N) : JS.forallb is_digit (pretty x) = true.
Proof.
  unfold pretty, pretty_N. case_decide; [done|]. by apply pretty_N_go_digits.
Qed.

Lemma digits_value_app (acc : Z) (d d' : string) :
  JSON.digits_value acc (d +:+ d')
  = JSON.digits_value (JSON.digits_value acc d) d'.
Proof.
  revert acc. induction d as [|c d IH]; intros acc; [done|].
  rewrite sapp_cons. simpl. apply IH.
Qed.

Lemma pretty_N_char_value (x : N) :
  (x < 10)%N -> Z.of_N (N_of_ascii (pretty_N_char x) - 48) = Z.of_N x.
Proof.
  intros Hx.
  assert (x = 0 \/ x = 1 \/ x = 2 \/ x = 3 \/ x = 4 \/ x = 5 \/ x = 6
          \/ x = 7 \/ x = 8 \/ x = 9)%N as H by lia.
  by repeat (destruct H as [->|H]; [done|]); subst.
Qed.

Lemma pretty_N_char_leading (x : N) :
  (0 < x < 10)%N -> between "1" "9" (pretty_N_char x) = true.
Proof.
  intros Hx.
  assert (x = 1 \/ x = 2 \/ x = 3 \/ x = 4 \/ x = 5 \/ x = 6
          \/ x = 7 \/ x = 8 \/ x = 9)%N as H by lia.
  by repeat (destruct H as [->|H]; [done|]); subst.
Qed.

(** The decimal text of a positive number: a leading digit other than 0,
    more digits, and the number as value. *)
Lemma pretty_N_go_spec (x : N) (s : string) :
  (0 < x)%N ->
  exists c d,
    pretty_N_go x s = String c d +:+ s
    /\ between "1" "9" c = true
    /\ JS.forallb is_digit d = true
    /\ forall acc,
         JSON.digits_value acc (String c d)
         = (acc * 10 ^ Z.of_nat (S (String.length d)) + Z.of_N x)%Z.
Proof.
  revert s. induction (N.lt_wf_0 x) as [x _ IH]; intros s Hx.
  rewrite pretty_N_go_step by done.
  pose proof (N.mod_lt x 10 ltac:(lia)) as Hmod.
  pose proof (N.div_mod x 10 ltac:(lia)) as Hdiv.
  assert (x `div` 10 = 0 \/ 0 < x `div` 10)%N as [H0|Hpos] by lia.
  - rewrite H0, pretty_N_go_0. exists (pretty_N_char (x `mod` 10)), "".
    assert (x `mod` 10 = x)%N as Hx' by lia. rewrite Hx'.
    split; [done|]. split; [apply pretty_N_char_leading; lia|]. split; [done|].
    intros acc. cbn [JSON.digits_value String.length].
    rewrite pretty_N_char_value by lia. lia.
  - destruct (IH (x `div` 10)%N ltac:(by apply N.div_lt)
                (String (pretty_N_char (x `mod` 10)) s) Hpos)
      as (c & d & Hgo & Hc & Hd & Hval).
    exists c, (d +:+ String (pretty_N_char (x `mod` 10)) "").
    split; [|split; [done|split]].
    + rewrite Hgo, !sapp_cons, app_assoc_s. by rewrite sapp_cons, sapp_nil_l.
    + rewrite forallb_app, Hd. simpl. by rewrite pretty_N_char_digit.
    + intros acc.
      change (String c (d +:+ String (pretty_N_char (x `mod` 10)) ""))
        with (String c d +:+ String (pretty_N_char (x `mod` 10)) "").
      rewrite digits_value_app, Hval. cbn [JSON.digits_value].
      rewrite pretty_N_char_value by done. rewrite length_app_s.
      cbn [String.length].
      replace (Z.of_nat (S (String.length d + 1)))
        with (Z.succ (Z.of_nat (S (String.length d)))) by lia.
      rewrite Z.pow_succ_r by lia. lia.
Qed.

Lemma drop_while_all (p : ascii -> bool) (s : string) :
  JS.forallb p s = true -> JS.drop_while p s = "".
Proof.
  induction s as [|c s IH]; [done|]. simpl.
  intros [-> Hs]%andb_true_iff. by apply IH.
Qed.

Lemma leading_digit (c : ascii) :
  between "1" "9" c = true -> is_digit c = true /\ is_char "-" c = false
                              /\ is_char "0" c = false.
Proof. destruct c as [[] [] [] [] [] [] [] []]; by vm_compute. Qed.

Lemma unsigned_ok_digits (c : ascii) (d : string) :
  between "1" "9" c = true -> JS.forallb is_digit d = true ->
  JSON.unsigned_ok (String c d) = true.
Proof.
  intros Hc Hd. destruct (leading_digit c Hc) as (Hdigit & _ & H0).
  unfold JSON.unsigned_ok.
  rewrite take_while_all by (simpl; by rewrite Hdigit).
  rewrite drop_while_all by (simpl; by rewrite Hdigit).
  cbn [JSON.fraction_ok JSON.exponent_ok].
  unfold JSON.int_part_ok.
  assert (JS.forallb is_digit (String c d) = true) as Hall
    by (simpl; by rewrite Hdigit).
  destruct c as [[] [] [] [] [] [] [] []]; try done.
  all: by rewrite Hall.
Qed.

Lemma number_value_digits (c : ascii) (d : string) :
  between "1" "9" c = true -> JS.forallb is_digit d = true ->
  JSON.number_value (String c d)
  = Some (JSON.Num (JSON.digits_value 0 (String c d)))
  /\ JSON.number_value (String "-" (String c d))
     = Some (JSON.Num (- JSON.digits_value 0 (String c d))).
Proof.
  intros Hc Hd. destruct (leading_digit c Hc) as (Hdigit & Hdash & _).
  assert (JS.forallb is_digit (String c d) = true) as Hall
    by (simpl; by rewrite Hdigit).
  pose proof (unsigned_ok_digits c d Hc Hd) as Hok.
  unfold JSON.number_value. split.
  - assert (JSON.number_ok (String c d) = true) as ->.
    { unfold JSON.number_ok.
      destruct c as [[] [] [] [] [] [] [] []]; try done. }
    cbn [negb]. rewrite Hall.
    destruct c as [[] [] [] [] [] [] [] []]; try done.
  - cbn [JSON.number_ok]. rewrite Hok. cbn [negb]. by rewrite Hall.
Qed.

(** The decimal text of an integer is a number literal with that value. *)
Lemma number_value_pretty (z : Z) :
  JSON.number_value (pretty z) = Some (JSON.Num z)
  /\ exists c d, pretty z = String c d
                 /\ (is_digit c || is_char "-" c) = true
                 /\ JS.forallb JSON.is_number_char d = true.
Proof.
  assert (forall d, JS.forallb is_digit d = true ->
                    JS.forallb JSON.is_number_char d = true) as Hnum.
  { intros d. apply forallb_impl. intros c Hc. unfold JSON.is_number_char.
    by rewrite Hc. }
  assert (forall p : positive,
            exists c d, pretty (Npos p) = String c d
                        /\ between "1" "9" c = true
                        /\ JS.forallb is_digit d = true
                        /\ JSON.digits_value 0 (String c d) = Zpos p)
    as Hpos.
  { intros p. destruct (pretty_N_go_spec (Npos p) "" ltac:(lia))
      as (c & d & Hgo & Hc & Hd & Hval).
    exists c, d. rewrite sapp_nil_r in Hgo. split; [|split; [done|split]].
    - unfold pretty, pretty_N. by case_decide.
    - done.
    - rewrite Hval. lia. }
  destruct z as [|p|p].
  - split; [done|]. by exists "0"%char, "".
  - destruct (Hpos p) as (c & d & Htext & Hc & Hd & Hval).
    change (pretty (Zpos p)) with (pretty (Npos p)). rewrite Htext. split.
    + rewrite (proj1 (number_value_digits c d Hc Hd)). by rewrite Hval.
    + exists c, d. split; [done|].
      destruct (leading_digit c Hc) as (-> & _). split; [done|by apply Hnum].
  - destruct (Hpos p) as (c & d & Htext & Hc & Hd & Hval).
    change (pretty (Zneg p)) with ("-" +:+ pretty (Npos p)). rewrite Htext.
    rewrite sapp_cons, sapp_nil_l. split.
    + rewrite (proj2 (number_value_digits c d Hc Hd)). by rewrite Hval.
    + exists "-"%char, (String c d). split; [done|]. split; [done|].
      destruct (leading_digit c Hc) as (Hdigit & _).
      simpl. unfold JSON.is_number_char at 1. rewrite Hdigit. by apply Hnum.
Qed.

Lemma lex_number_start (c : ascii) :
  (is_digit c || is_char "-" c) = true ->
  JSON.lex_default c = Some (JSON.LNumber (String c ""), [])
  /\ JSON.is_number_char c = true.
Proof. destruct c as [[] [] [] [] [] [] [] []]; by vm_compute. Qed.

Lemma lex_number_run (d acc t : string) :
  JS.forallb JSON.is_number_char d = true ->
  JSON.lex (JSON.LNumber acc) (d +:+ "," +:+ t)
  = option_map (app [JSON.TNumber (String.rev (String.rev_app d acc));
                     JSON.TComma])
      (JSON.lex JSON.LDefault t).
Proof.
  revert acc. induction d as [|c d IH]; intros acc.
  - intros _. rewrite sapp_nil_l, sapp_cons, sapp_nil_l.
    by apply (lex_cons _ JSON.LDefault).
  - cbn [JS.forallb]. intros [Hc Hd]%andb_true_iff. rewrite sapp_cons.
    rewrite (lex_silent _ (JSON.LNumber (String c acc))).
    + by apply IH.
    + cbn [JSON.lex_step]. by rewrite Hc.
Qed.

(** An integer followed by a comma reads as a number token and a comma. *)
Lemma lex_number_comma (z : Z) (t : string) :
  JSON.lex JSON.LDefault (pretty z +:+ "," +:+ t)
  = option_map (app [JSON.TNumber (pretty z); JSON.TComma])
      (JSON.lex JSON.LDefault t).
Proof.
  destruct (number_value_pretty z) as (_ & c & d & Htext & Hc & Hd).
  rewrite Htext, sapp_cons.
  destruct (lex_number_start c Hc) as (Hstart & _).
  rewrite (lex_silent _ (JSON.LNumber (String c ""))) by done.
  rewrite lex_number_run by done.
  change (String.rev (String.rev_app d (String c "")))
    with (String.rev (String.rev (String c d))).
  by rewrite rev_involutive_s.
Qed.

(** ** Session store *)

Lemma init_userSession_absent (storage : gmap string string) :
  storage !! Session.SESSION_KEY = None ->
  Session.init_userSession storage
  = Normal (Session.session_json Session.empty_session).
Proof. unfold Session.init_userSession. by intros ->. Qed.

Lemma init_userSession_parsed (storage : gmap string string)
    (saved : string) (v : JSON.value) :
  storage !! Session.SESSION_KEY = Some saved ->
  JSON.parse saved = Some v ->
  Session.init_userSession storage = Normal v.
Proof.
  unfold Session.init_userSession. intros -> Hparse.
  destruct saved as [|c saved]; [done|]. cbn [truthy is_empty negb].
  by rewrite Hparse.
Qed.

(** The initialiser has no handler around [JSON.parse]: a stored text that
    does not parse makes it throw. *)
Lemma init_userSession_malformed (storage : gmap string string) (saved : string) :
  storage !! Session.SESSION_KEY = Some saved ->
  JSON.parse saved = None ->
  Session.init_userSession storage
  = if truthy saved
    then Throw (mkExn SyntaxError Api.json_syntax_message None)
    else Normal (Session.session_json Session.empty_session).
Proof.
  unfold Session.init_userSession. intros -> Hparse.
  destruct (truthy saved); [by rewrite Hparse|done].
Qed.

(** C2, the code at the failing input: with the text [undefined] (or a
    truncated object) stored under [storacha_session], the initialiser of
    [userSession] throws a [SyntaxError] in both hooks, so mounting the hook
    throws instead of starting from the empty session. *)
Theorem useStoracha_malformed_session :
  let storage : gmap string string := {[ Session.SESSION_KEY := "undefined" ]} in
  let truncated : gmap string string :=
    {[ Session.SESSION_KEY :=
         JS.take 30 (JSON.stringify
                       (Session.session_json
                          (Session.mkSession "ada@example.org" true
                             (Some Session.email) (Some "did:key:z6MkSpace")
                             None))) ]} in
  Session.init_userSession storage
  = Throw (mkExn SyntaxError Api.json_syntax_message None)
  /\ Artboard.useStoracha storage
     = Artboard.InitThrow (mkExn SyntaxError Api.json_syntax_message None)
  /\ UploadDemo.useStoracha storage
     = Throw (mkExn SyntaxError Api.json_syntax_message None)
  /\ Session.init_userSession truncated
     = Throw (mkExn SyntaxError Api.json_syntax_message None).
Proof. vm_compute. repeat split; reflexivity. Qed.

(** A session stored by [saveSession] is read back as it was stored. *)
Example useStoracha_reads_saved_session :
  let session :=
    Session.mkSession "ada@example.org" true (Some Session.email)
      (Some "did:key:z6MkSpace") None in
  Artboard.useStoracha
    (Artboard.localStorage (Artboard.saveSession session Sample.artboard))
  = Artboard.InitOk
      (Artboard.mkState
         {[ Session.SESSION_KEY := JSON.stringify (Session.session_json session) ]}
         None None false [] None false (Session.session_json session) ∅ ∅ []).
Proof. vm_compute. reflexivity. Qed.

(** A session stored by [saveSession] is the session the initialiser of
    [userSession] returns at the next mount, in both hooks. *)
Lemma saved_session_is_loaded (session : Session.UserSession)
    (st : Artboard.State) (st' : UploadDemo.State) :
  Session.init_userSession
    (Artboard.localStorage (Artboard.saveSession session st))
  = Normal (Session.session_json session)
  /\ Session.init_userSession
       (UploadDemo.localStorage (UploadDemo.saveSession session st'))
     = Normal (Session.session_json session).
Proof.
  split.
  - apply (init_userSession_parsed _
             (JSON.stringify (Session.session_json session)));
      [apply lookup_insert_eq|apply session_text_parses].
  - apply (init_userSession_parsed _
             (JSON.stringify (Session.session_json session)));
      [apply lookup_insert_eq|apply session_text_parses].
Qed.

(** The loader of the space information in [src/lib/api.ts] reads the same
    kind of text under [try] and answers [null]. *)
Example loadSpaceInfo_malformed :
  Api.loadSpaceInfo {[ "storacha_space_info" := "undefined" ]} = JSON.Null.
Proof. vm_compute. reflexivity. Qed.

(** ** Upload identifiers *)

Lemma digits_dash_inj (d1 d2 n1 n2 : string) :
  JS.forallb is_digit d1 = true -> JS.forallb is_digit d2 = true ->
  d1 +:+ "-" +:+ n1 = d2 +:+ "-" +:+ n2 ->
  d1 = d2 /\ n1 = n2.
Proof.
  revert d2. induction d1 as [|c d1 IH]; intros [|c' d2]; simpl.
  - intros _ _ H. change (String "-" n1 = String "-" n2) in H.
    by injection H as ->.
  - intros _ [Hc _]%andb_true_iff H.
    change (String "-" n1 = String c' (d2 +:+ "-" +:+ n2)) in H.
    injection H as <- _. done.
  - intros [Hc _]%andb_true_iff _ H.
    change (String c (d1 +:+ "-" +:+ n1) = String "-" n2) in H.
    injection H as -> _. done.
  - intros [_ H1]%andb_true_iff [_ H2]%andb_true_iff H.
    change (String c (d1 +:+ "-" +:+ n1) = String c' (d2 +:+ "-" +:+ n2)) in H.
    injection H as -> Heq. destruct (IH d2 H1 H2 Heq) as [-> ->]. done.
Qed.

(** Two calls get the same identifier exactly when they read the same
    millisecond and their files have the same name. *)
Lemma fileId_eq_iff (now1 now2 : N) (file1 file2 : SDK.File) :
  Artboard.fileId now1 file1 = Artboard.fileId now2 file2
  <-> now1 = now2 /\ SDK.file_name file1 = SDK.file_name file2.
Proof.
  unfold Artboard.fileId. split.
  - intros [Hnow Hname]%digits_dash_inj; [|apply pretty_N_digits..].
    by apply (inj pretty) in Hnow.
  - by intros [-> ->].
Qed.

(** Up to the call of the SDK, an upload in a logged-in hook registers its
    identifier, enters the progress map as [uploading] at 5 percent and
    arms the progress timer. *)
Lemma uploadFile_begin_pending (now : N) (file : SDK.File) (st : Artboard.State) :
  is_Some (Artboard.client st) -> is_Some (Artboard.space st) ->
  Artboard.uploadFile_begin now file st
  = (Artboard.mkState (Artboard.localStorage st) (Artboard.client st)
       (Artboard.space st) (Artboard.isInitializing st)
       (Artboard.uploadedFiles st) (Artboard.error st)
       (Artboard.isConnected st) (Artboard.userSession st)
       (<[Artboard.fileId now file :=
            Artboard.mkProgress (Some (Artboard.fileId now file))
              (Some (SDK.file_name file)) 5 Artboard.uploading (Some 0%Z)
              (Some (SDK.file_size file))]>
          (<[Artboard.fileId now file :=
               Artboard.mkProgress (Some (Artboard.fileId now file))
                 (Some (SDK.file_name file)) 0 Artboard.pending (Some 0%Z)
                 (Some (SDK.file_size file))]>
             (Artboard.uploadProgress st)))
       ({[Artboard.fileId now file]} ∪ Artboard.abortControllers st)
       (Artboard.trace st ++ [SDK.EvSetInterval 300; SDK.EvUploadFile file]),
     None).
Proof.
  intros [c Hc] [sp Hsp]. unfold Artboard.uploadFile_begin.
  cbn [Artboard.client Artboard.space Artboard.with_abortControllers
       Artboard.setUploadProgress].
  rewrite Hc, Hsp.
  unfold Artboard.log, Artboard.setUploadProgress, Artboard.with_abortControllers.
  cbn. rewrite lookup_insert_eq. by rewrite Hc, Hsp.
Qed.

(** C5 (as amended).  The identifier of an upload is its start time in
    milliseconds, a dash and the file name: two calls get different
    identifiers exactly when they differ in the millisecond they start in or
    in the name of their file, and then each pending upload has its own
    entry in the progress map. *)
Theorem upload_ids_distinct (now1 now2 : N) (file1 file2 : SDK.File)
    (st : Artboard.State) :
  (Artboard.fileId now1 file1 = Artboard.fileId now2 file2
   <-> now1 = now2 /\ SDK.file_name file1 = SDK.file_name file2)
  /\ (is_Some (Artboard.client st) -> is_Some (Artboard.space st) ->
      now1 <> now2 \/ SDK.file_name file1 <> SDK.file_name file2 ->
      let st1 := (Artboard.uploadFile_begin now1 file1 st).1 in
      let st2 := (Artboard.uploadFile_begin now2 file2 st1).1 in
      Artboard.uploadProgress st2 !! Artboard.fileId now1 file1
      = Some (Artboard.mkProgress (Some (Artboard.fileId now1 file1))
                (Some (SDK.file_name file1)) 5 Artboard.uploading (Some 0%Z)
                (Some (SDK.file_size file1)))
      /\ Artboard.uploadProgress st2 !! Artboard.fileId now2 file2
         = Some (Artboard.mkProgress (Some (Artboard.fileId now2 file2))
                   (Some (SDK.file_name file2)) 5 Artboard.uploading (Some 0%Z)
                   (Some (SDK.file_size file2)))).
Proof.
  split; [apply fileId_eq_iff|].
  intros Hc Hsp Hdiff st1 st2.
  assert (Artboard.fileId now1 file1 <> Artboard.fileId now2 file2) as Hne.
  { intros [? ?]%fileId_eq_iff. destruct Hdiff; done. }
  subst st1 st2.
  rewrite (uploadFile_begin_pending now1 file1 st) by done.
  rewrite uploadFile_begin_pending by done.
  cbn [fst Artboard.uploadProgress]. split.
  - rewrite lookup_insert_ne by done. rewrite lookup_insert_ne by done.
    by rewrite lookup_insert_eq.
  - by rewrite lookup_insert_eq.
Qed.

Lemma upload_ids_distinct_witness :
  let st1 := (Artboard.uploadFile_begin 1700000000000 Sample.photo
                Sample.logged_in).1 in
  let st2 := (Artboard.uploadFile_begin 1700000000000
                (SDK.mkFile "notes.txt" 12 "text/plain") st1).1 in
  Artboard.uploadProgress st2 !! "1700000000000-photo.png"
  = Some (Artboard.mkProgress (Some "1700000000000-photo.png")
            (Some "photo.png") 5 Artboard.uploading (Some 0%Z)
            (Some 2097152%Z))
  /\ Artboard.uploadProgress st2 !! "1700000000000-notes.txt"
     = Some (Artboard.mkProgress (Some "1700000000000-notes.txt")
               (Some "notes.txt") 5 Artboard.uploading (Some 0%Z) (Some 12%Z)).
Proof.
  exact (proj2 (upload_ids_distinct 1700000000000 1700000000000 Sample.photo
                  (SDK.mkFile "notes.txt" 12 "text/plain") Sample.logged_in)
           ltac:(vm_compute; eauto) ltac:(vm_compute; eauto)
           ltac:(right; discriminate)).
Defined.

(** C5, the claim as stated fails: two different files with the same name,
    started in the same millisecond, get the same identifier; the progress
    map then holds one entry for the two pending uploads, that of the
    second. *)
Lemma upload_ids_collide :
  let file1 := SDK.mkFile "photo.png" 2097152 "image/png" in
  let file2 := SDK.mkFile "photo.png" 512 "image/png" in
  let st1 := (Artboard.uploadFile_begin 1700000000000 file1 Sample.logged_in).1 in
  let st2 := (Artboard.uploadFile_begin 1700000000000 file2 st1).1 in
  file1 <> file2
  /\ (Artboard.uploadFile_begin 1700000000000 file1 Sample.logged_in).2 = None
  /\ (Artboard.uploadFile_begin 1700000000000 file2 st1).2 = None
  /\ Artboard.fileId 1700000000000 file1 = Artboard.fileId 1700000000000 file2
  /\ size (Artboard.uploadProgress st2) = 1
  /\ Artboard.uploadProgress st2 !! "1700000000000-photo.png"
     = Some (Artboard.mkProgress (Some "1700000000000-photo.png")
               (Some "photo.png") 5 Artboard.uploading (Some 0%Z) (Some 512%Z)).
Proof. split; [discriminate|]. vm_compute. repeat split; reflexivity. Qed.

(** ** Upload records *)

Lemma init_uploadedFiles_empty (storage : gmap string string) :
  storage !! Artboard.UPLOADS_KEY = None
  \/ storage !! Artboard.UPLOADS_KEY = Some "[]" ->
  Artboard.init_uploadedFiles storage = Artboard.InitOk [].
Proof. unfold Artboard.init_uploadedFiles. by intros [->| ->]. Qed.

Lemma lex_rbrace (t : string) :
  JSON.lex JSON.LDefault ("}" +:+ t)
  = option_map (app [JSON.TRBrace]) (JSON.lex JSON.LDefault t).
Proof. lex_prefix. Qed.

Lemma parse_from_prefix (st st' : JSON.parse_state) (ts : list JSON.token)
    (text t : string) :
  JSON.lex JSON.LDefault text
  = option_map (app ts) (JSON.lex JSON.LDefault t) ->
  (forall rest, JSON.parse_tokens st (ts ++ rest) = JSON.parse_tokens st' rest) ->
  JSON.parse_from st text = JSON.parse_from st' t.
Proof.
  intros Hlex Hparse. unfold JSON.parse_from. rewrite Hlex.
  destruct (JSON.lex JSON.LDefault t); [apply Hparse|done].
Qed.

Lemma read_file_json (f : Artboard.UploadedFile) :
  Artboard.read_file (Artboard.file_json f) = Some f.
Proof. by destruct f as [? ? ? ? ? ? ? [?|] [?|]]. Qed.

(** Inside an array, the text of a record reads as that record. *)
Lemma parse_file_record (f : Artboard.UploadedFile) (first : bool)
    (items : list JSON.value) (stack : list JSON.frame) (t : string) :
  JSON.parse_from (JSON.PValue first (JSON.FArr items :: stack))
    (JSON.stringify (Artboard.file_json f) +:+ t)
  = JSON.parse_from
      (JSON.PAfter (JSON.FArr (Artboard.file_json f :: items) :: stack)) t.
Proof.
  destruct f as [id name size type cid uploadedAt gatewayUrl thumb descr].
  destruct thumb as [thumb|], descr as [descr|];
    cbn [JSON.stringify Artboard.file_json Artboard.id Artboard.name
         Artboard.size Artboard.type Artboard.cid Artboard.uploadedAt
         Artboard.gatewayUrl Artboard.thumbnailUrl Artboard.description
         Session.optional_field List.map join app];
    rewrite ?app_assoc_s;
    (eapply parse_from_prefix;
     [ lex_text; rewrite lex_number_comma; lex_text; rewrite lex_rbrace;
       rewrite ?option_map_app; reflexivity
     | intros rest; destruct first;
       cbn -[JSON.number_value pretty];
       rewrite (proj1 (number_value_pretty size)); reflexivity ]).
Qed.

Lemma lex_rbracket_end :
  JSON.lex JSON.LDefault "]" = Some [JSON.TRBracket].
Proof. reflexivity. Qed.

(** The records of a non-empty list, separated by commas and followed by the
    closing bracket, complete the array that is open. *)
Lemma parse_file_list (f : Artboard.UploadedFile)
    (files : list Artboard.UploadedFile) (first : bool)
    (items : list JSON.value) :
  JSON.parse_from (JSON.PValue first [JSON.FArr items])
    (join "," (List.map JSON.stringify
                 (List.map Artboard.file_json (f :: files))) +:+ "]")
  = Some (JSON.Arr (List.rev items
                    ++ List.map Artboard.file_json (f :: files))%list).
Proof.
  revert f first items. induction files as [|g files IH]; intros f first items.
  - cbn [List.map join]. rewrite parse_file_record.
    unfold JSON.parse_from. rewrite lex_rbracket_end. reflexivity.
  - change (join "," (List.map JSON.stringify
                        (List.map Artboard.file_json (f :: g :: files))))
      with (JSON.stringify (Artboard.file_json f) +:+ ","
            +:+ join "," (List.map JSON.stringify
                            (List.map Artboard.file_json (g :: files)))).
    rewrite !app_assoc_s, parse_file_record.
    rewrite (parse_from_prefix _
               (JSON.PValue false [JSON.FArr (Artboard.file_json f :: items)])
               [JSON.TComma] _ _ (lex_comma _)) by done.
    rewrite IH. cbn [List.rev List.map]. by rewrite <- app_assoc.
Qed.

(** The text [saveUploads] stores parses back to the list it was written
    from. *)
Lemma uploads_text_parses (files : list Artboard.UploadedFile) :
  JSON.parse (JSON.stringify (JSON.Arr (List.map Artboard.file_json files)))
  = Some (JSON.Arr (List.map Artboard.file_json files)).
Proof.
  destruct files as [|f files]; [reflexivity|].
  unfold JSON.parse. cbn [JSON.stringify].
  rewrite (parse_from_prefix _ (JSON.PValue true [JSON.FArr []])
             [JSON.TLBracket] _ _ (lex_lbracket _)) by done.
  by rewrite parse_file_list.
Qed.

Lemma mapM_read_file (files : list Artboard.UploadedFile) :
  mapM Artboard.read_file (List.map Artboard.file_json files) = Some files.
Proof.
  induction files as [|f files IH]; [done|].
  cbn [List.map mapM]. rewrite read_file_json. cbn. by rewrite IH.
Qed.

(** A storage that holds the text of a list of records is read by the
    initialiser of [uploadedFiles] as that list. *)
Lemma stored_uploads_are_loaded (files : list Artboard.UploadedFile)
    (storage : gmap string string) :
  storage !! Artboard.UPLOADS_KEY
  = Some (JSON.stringify (JSON.Arr (List.map Artboard.file_json files))) ->
  Artboard.init_uploadedFiles storage = Artboard.InitOk files.
Proof.
  intros Hstored. unfold Artboard.init_uploadedFiles.
  rewrite Hstored, uploads_text_parses, mapM_read_file. by destruct files.
Qed.

(** What [saveUploads] stores is what the initialiser of [uploadedFiles]
    reads at the next mount. *)
Lemma saved_uploads_are_loaded (files : list Artboard.UploadedFile)
    (st : Artboard.State) :
  Artboard.init_uploadedFiles
    (Artboard.localStorage (Artboard.saveUploads files st))
  = Artboard.InitOk files.
Proof. apply stored_uploads_are_loaded, lookup_insert_eq. Qed.

(** C8.  In a logged-in hook whose stored uploads list is empty (absent or
    [[]]) and whose [uploadedFiles] is what that list reads as, a successful
    upload of a file with an image MIME type yields a record with the size
    and type of the file and with the gateway URL followed by
    [?img-width=300&img-height=300&img-fit=cover] as thumbnail URL; the
    record becomes the only element of [uploadedFiles], the text stored
    under [storacha_uploads] is the JSON text of the one-element list of
    that record, and the list read back from the storage is that list. *)
Theorem uploadFile_image_record (sdk : SDK.Env) (now now' : N) (date : string)
    (file : SDK.File) (description : option string) (cidString : string)
    (st : Artboard.State) :
  is_Some (Artboard.client st) ->
  is_Some (Artboard.space st) ->
  Artboard.localStorage st !! Artboard.UPLOADS_KEY = None
  \/ Artboard.localStorage st !! Artboard.UPLOADS_KEY = Some "[]" ->
  Artboard.init_uploadedFiles (Artboard.localStorage st)
  = Artboard.InitOk (Artboard.uploadedFiles st) ->
  startsWith (SDK.file_type file) "image/" = true ->
  SDK.uploadFile sdk file = Normal cidString ->
  let run := Artboard.uploadFile sdk now now' date file description st in
  let gatewayUrl := "https://" +:+ cidString +:+ ".ipfs.storacha.link" in
  let thumbnailUrl := gatewayUrl +:+ "?img-width=300&img-height=300&img-fit=cover" in
  exists record,
    run.2 = Artboard.UploadOk cidString gatewayUrl record
    /\ Artboard.size record = SDK.file_size file
    /\ Artboard.type record = SDK.file_type file
    /\ startsWith (Artboard.type record) "image/" = true
    /\ Artboard.thumbnailUrl record = Some thumbnailUrl
    /\ thumbnailUrl <> ""
    /\ includes thumbnailUrl "img-width=300" = true
    /\ Artboard.uploadedFiles run.1 = [record]
    /\ Artboard.localStorage run.1 !! Artboard.UPLOADS_KEY
       = Some (JSON.stringify (JSON.Arr [Artboard.file_json record]))
    /\ Artboard.init_uploadedFiles (Artboard.localStorage run.1)
       = Artboard.InitOk [record].
Proof.
  intros Hc Hsp Hstored Hmirror Himage Hupload run gatewayUrl thumbnailUrl.
  rewrite (init_uploadedFiles_empty _ Hstored) in Hmirror.
  injection Hmirror as Hfiles.
  exists (Artboard.mkUploaded (cidString +:+ "-" +:+ pretty now')
            (SDK.file_name file) (SDK.file_size file) (SDK.file_type file)
            cidString date gatewayUrl (Some thumbnailUrl) description).
  assert (Artboard.localStorage run.1 !! Artboard.UPLOADS_KEY
          = Some (JSON.stringify
                    (JSON.Arr [Artboard.file_json
                       (Artboard.mkUploaded (cidString +:+ "-" +:+ pretty now')
                          (SDK.file_name file) (SDK.file_size file)
                          (SDK.file_type file) cidString date gatewayUrl
                          (Some thumbnailUrl) description)]))) as Hsaved.
  { subst run. unfold Artboard.uploadFile.
    rewrite uploadFile_begin_pending by done.
    rewrite Hupload. unfold Artboard.uploadFile_end. rewrite Himage.
    cbn [fst Artboard.uploadedFiles Artboard.localStorage Artboard.saveUploads
         Artboard.setUploadedFiles Artboard.with_abortControllers
         Artboard.setUploadProgress Artboard.log Artboard.with_localStorage].
    rewrite <- Hfiles. by rewrite lookup_insert_eq. }
  pose proof (stored_uploads_are_loaded [_] _ Hsaved) as Hloaded.
  split; [|split; [done|split; [done|split; [done|split; [done|split;
    [done|split; [|split; [|split; [exact Hsaved|exact Hloaded]]]]]]]]].
  - subst run. unfold Artboard.uploadFile.
    rewrite uploadFile_begin_pending by done.
    rewrite Hupload. unfold Artboard.uploadFile_end. by rewrite Himage.
  - subst thumbnailUrl. apply includes_app_r. reflexivity.
  - subst run. unfold Artboard.uploadFile.
    rewrite uploadFile_begin_pending by done.
    rewrite Hupload. unfold Artboard.uploadFile_end. rewrite Himage.
    cbn [fst Artboard.uploadedFiles Artboard.saveUploads
         Artboard.setUploadedFiles Artboard.with_abortControllers
         Artboard.setUploadProgress Artboard.log Artboard.with_localStorage].
    by rewrite <- Hfiles.
Qed.

Lemma uploadFile_image_record_witness :
  let run :=
    Artboard.uploadFile Sample.ready_sdk 1700000000000 1700000001500
      "2023-11-14T22:13:21.500Z" Sample.photo None Sample.logged_in in
  exists record,
    run.2 = Artboard.UploadOk
              "bafybeigdyrzt5sfp7udm7hu76uh7y26nf3efuylqabf3oclgtqy55fbzdi"
              "https://bafybeigdyrzt5sfp7udm7hu76uh7y26nf3efuylqabf3oclgtqy55fbzdi.ipfs.storacha.link"
              record
    /\ Artboard.size record = 2097152%Z
    /\ Artboard.thumbnailUrl record
       = Some "https://bafybeigdyrzt5sfp7udm7hu76uh7y26nf3efuylqabf3oclgtqy55fbzdi.ipfs.storacha.link?img-width=300&img-height=300&img-fit=cover"
    /\ Artboard.uploadedFiles run.1 = [record]
    /\ Artboard.init_uploadedFiles (Artboard.localStorage run.1)
       = Artboard.InitOk [record].
Proof.
  destruct (uploadFile_image_record Sample.ready_sdk 1700000000000
              1700000001500 "2023-11-14T22:13:21.500Z" Sample.photo None
              "bafybeigdyrzt5sfp7udm7hu76uh7y26nf3efuylqabf3oclgtqy55fbzdi"
              Sample.logged_in
              ltac:(vm_compute; eauto) ltac:(vm_compute; eauto)
              ltac:(left; reflexivity) ltac:(reflexivity) ltac:(reflexivity)
              ltac:(reflexivity))
    as (record & Hresult & Hsize & _ & _ & Hthumb & _ & _ & Hfiles & _
        & Hloaded).
  exists record. split; [exact Hresult|]. split; [exact Hsize|].
  split; [exact Hthumb|]. split; [exact Hfiles|exact Hloaded].
Defined.

(** ** URLs and the identifier they carry *)

Lemma drop_while_app (p : ascii -> bool) (s t : string) :
  JS.forallb p s = true -> JS.drop_while p (s +:+ t) = JS.drop_while p t.
Proof.
  induction s as [|c s IH]; [done|]. rewrite sapp_cons. simpl.
  intros [-> Hs]%andb_true_iff. by apply IH.
Qed.

Lemma take_while_app (p : ascii -> bool) (s t : string) :
  JS.forallb p s = true -> JS.take_while p (s +:+ t) = s +:+ JS.take_while p t.
Proof.
  induction s as [|c s IH]; [done|]. rewrite !sapp_cons. simpl.
  intros [-> Hs]%andb_true_iff. f_equal. by apply IH.
Qed.

Lemma forallb_take_while (p : ascii -> bool) (s : string) :
  JS.forallb p (JS.take_while p s) = true.
Proof.
  induction s as [|c s IH]; [done|]. simpl.
  destruct (p c) eqn:Hc; [|done]. simpl. by rewrite Hc.
Qed.

(** The identifier [extractCID] returns has no [/]. *)
Lemma extractCID_no_slash (s : string) :
  JS.forallb Utils.not_slash (Utils.extractCID s) = true.
Proof.
  unfold Utils.extractCID. destruct (negb (truthy s)); [done|].
  apply forallb_take_while.
Qed.

Lemma plain_not_dot (c : ascii) (s : string) :
  Utils.plain c = true -> startsWith (String c s) ".ipfs." = false.
Proof.
  unfold startsWith. cbn [String.prefix].
  destruct (Ascii.ascii_dec "." c) as [<-|]; [by vm_compute|done].
Qed.

Lemma remove_ipfs_host_app_plain (id rest : string) :
  JS.forallb Utils.plain id = true ->
  Utils.remove_ipfs_host (id +:+ rest) = id +:+ Utils.remove_ipfs_host rest.
Proof.
  induction id as [|c id IH]; [done|]. intros [Hc Hid]%andb_true_iff.
  rewrite !sapp_cons. cbn [Utils.remove_ipfs_host].
  rewrite (plain_not_dot _ _ Hc). cbn [andb]. f_equal. by apply IH.
Qed.

Lemma path_or_empty_cases (rest : string) :
  Text.path_or_empty rest = true -> rest = "" \/ exists t, rest = String "/" t.
Proof.
  destruct rest as [|c t]; [by left|]. unfold Text.path_or_empty, is_char.
  intros ->%Ascii.eqb_eq. right. by exists t.
Qed.

Lemma drop_while_path (rest : string) :
  Text.path_or_empty rest = true -> JS.drop_while Utils.not_slash rest = rest.
Proof. by intros [->|[t ->]]%path_or_empty_cases. Qed.

Lemma take_while_path (rest : string) :
  Text.path_or_empty rest = true -> JS.take_while Utils.not_slash rest = "".
Proof. by intros [->|[t ->]]%path_or_empty_cases. Qed.

Lemma remove_ipfs_host_gateway (g rest : string) :
  g <> "" -> JS.forallb Utils.not_slash g = true ->
  Text.path_or_empty rest = true ->
  Utils.remove_ipfs_host (".ipfs." +:+ g +:+ rest) = rest.
Proof.
  intros Hg Hns Hrest. destruct g as [|c g]; [done|].
  pose proof Hns as [Hc _]%andb_true_iff.
  change (Utils.remove_ipfs_host (".ipfs." +:+ String c g +:+ rest))
    with (if startsWith (".ipfs." +:+ String c g +:+ rest) ".ipfs."
             && negb (is_empty (JS.take_while Utils.not_slash (String c g +:+ rest)))
          then JS.drop_while Utils.not_slash (String c g +:+ rest)
          else String "." (Utils.remove_ipfs_host ("ipfs." +:+ String c g +:+ rest))).
  unfold startsWith. rewrite prefix_app, sapp_cons.
  cbn [JS.take_while]. rewrite Hc. cbn [is_empty negb andb].
  change (String c (g +:+ rest)) with (String c g +:+ rest).
  rewrite drop_while_app by done. by apply drop_while_path.
Qed.

Lemma remove_ipfs_host_path (rest : string) :
  Text.path_or_empty rest = true ->
  Text.path_or_empty (Utils.remove_ipfs_host rest) = true.
Proof. by intros [->|[t ->]]%path_or_empty_cases. Qed.

Lemma first_segment_app (id rest : string) :
  JS.forallb Utils.not_slash id = true -> Text.path_or_empty rest = true ->
  Utils.first_segment (id +:+ rest) = id.
Proof.
  intros Hid Hrest. unfold Utils.first_segment.
  rewrite take_while_app, take_while_path by done. apply sapp_nil_r.
Qed.

Lemma strip_ipfs_path_app (id rest : string) :
  id <> "" -> JS.forallb Utils.not_slash id = true ->
  Utils.strip_ipfs_path (id +:+ rest) = id +:+ rest.
Proof.
  intros Hid Hns. destruct id as [|c id]; [done|].
  pose proof Hns as [Hc _]%andb_true_iff.
  unfold Utils.strip_ipfs_path, startsWith. rewrite sapp_cons.
  cbn [String.prefix]. destruct (Ascii.ascii_dec "/" c) as [<-|]; done.
Qed.

Lemma percent_encode_char (c : ascii) :
  JS.forallb Text.url_char (percent_encode (String c "")) = true.
Proof. destruct c as [[] [] [] [] [] [] [] []]; by vm_compute. Qed.

Lemma percent_encode_cons (c : ascii) (s : string) :
  percent_encode (String c s)
  = percent_encode (String c "") +:+ percent_encode s.
Proof. cbn [percent_encode]. by destruct (uri_unreserved c). Qed.

Lemma percent_encode_chars (s : string) :
  JS.forallb Text.url_char (percent_encode s) = true.
Proof.
  induction s as [|c s IH]; [done|].
  rewrite percent_encode_cons, forallb_app, percent_encode_char. done.
Qed.

Lemma url_char_not_slash (c : ascii) : Text.url_char c = true -> Utils.not_slash c = true.
Proof. destruct c as [[] [] [] [] [] [] [] []]; by vm_compute. Qed.

(** The suffix of a URL, where it can be built, is empty or one path
    segment. *)
Lemma filename_suffix_path (filename : option string) (suffix : string) :
  Utils.filename_suffix filename = Normal suffix ->
  suffix = ""
  \/ exists t, suffix = String "/" t /\ JS.forallb Utils.not_slash t = true.
Proof.
  unfold Utils.filename_suffix, Text.encodeURIComponent.
  destruct filename as [f|]; [|intros [= <-]; by left].
  destruct (truthy f); [|intros [= <-]; by left].
  destruct (Text.well_formed (Utils.clean_filename f)); [|done].
  intros [= <-]. right. eexists. split; [reflexivity|].
  eapply forallb_impl; [apply url_char_not_slash|apply percent_encode_chars].
Qed.

Lemma filename_suffix_path_or_empty (filename : option string) (suffix : string) :
  Utils.filename_suffix filename = Normal suffix ->
  Text.path_or_empty suffix = true.
Proof. by intros [->|(t & -> & _)]%filename_suffix_path. Qed.

(** The validity check looks at its argument through [extractCID] only. *)
Lemma isValidCID_extractCID (s t : string) :
  s <> "" -> t <> "" -> Utils.extractCID s = Utils.extractCID t ->
  Utils.isValidCID s = Utils.isValidCID t.
Proof.
  intros Hs Ht Heq. unfold Utils.isValidCID. rewrite Heq.
  by destruct s, t.
Qed.

Lemma isValidCID_nonempty (s : string) : Utils.isValidCID s = true -> s <> "".
Proof. by intros H ->. Qed.

Lemma strip_scheme_https (x : string) : Utils.strip_scheme ("https://" +:+ x) = x.
Proof.
  unfold Utils.strip_scheme, startsWith.
  change (String.prefix "ipfs://" ("https://" +:+ x)) with false.
  by rewrite prefix_app.
Qed.

Lemma strip_scheme_ipfs (x : string) : Utils.strip_scheme ("ipfs://" +:+ x) = x.
Proof. unfold Utils.strip_scheme, startsWith. by rewrite prefix_app. Qed.

Lemma extractCID_of_gateway_url (id g suffix : string) :
  id <> "" -> JS.forallb Utils.plain id = true ->
  g <> "" -> JS.forallb Utils.not_slash g = true ->
  Text.path_or_empty suffix = true ->
  Utils.extractCID ("https://" +:+ id +:+ ".ipfs." +:+ g +:+ suffix) = id.
Proof.
  intros Hid Hplain Hg Hns Hsuffix.
  assert (JS.forallb Utils.not_slash id = true) as Hid_ns
    by (eapply forallb_impl; [apply plain_not_slash|done]).
  unfold Utils.extractCID.
  change (negb (truthy ("https://" +:+ ?x))) with false. cbv iota.
  rewrite strip_scheme_https.
  rewrite remove_ipfs_host_app_plain by done.
  rewrite remove_ipfs_host_gateway by done.
  rewrite strip_ipfs_path_app by done.
  by apply first_segment_app.
Qed.

Lemma extractCID_of_ipfs_url (id suffix : string) :
  id <> "" -> JS.forallb Utils.plain id = true ->
  Text.path_or_empty suffix = true ->
  Utils.extractCID ("ipfs://" +:+ id +:+ suffix) = id.
Proof.
  intros Hid Hplain Hsuffix.
  assert (JS.forallb Utils.not_slash id = true) as Hid_ns
    by (eapply forallb_impl; [apply plain_not_slash|done]).
  unfold Utils.extractCID.
  change (negb (truthy ("ipfs://" +:+ ?x))) with false. cbv iota.
  rewrite strip_scheme_ipfs.
  rewrite remove_ipfs_host_app_plain by done.
  rewrite strip_ipfs_path_app by done.
  apply first_segment_app; [done|].
  by apply remove_ipfs_host_path.
Qed.

Lemma createGatewayURL_inv (cid : string) (filename gateway : option string)
    (url : string) :
  Utils.createGatewayURL cid filename gateway = Normal url ->
  Utils.isValidCID (Utils.extractCID cid) = true
  /\ exists suffix,
       Utils.filename_suffix filename = Normal suffix
       /\ url = "https://" +:+ Utils.extractCID cid +:+ ".ipfs."
                +:+ default "dweb.link" gateway +:+ suffix.
Proof.
  unfold Utils.createGatewayURL.
  destruct (Utils.isValidCID (Utils.extractCID cid)); [|done].
  destruct (Utils.filename_suffix filename) as [suffix|e]; [|done].
  intros [= <-]. split; [done|]. exists suffix. split; [done|].
  by rewrite !app_assoc_s.
Qed.

Lemma createIPFSURL_inv (cid : string) (filename : option string) (url : string) :
  Links.createIPFSURL cid filename = Normal url ->
  Utils.isValidCID (Utils.extractCID cid) = true
  /\ exists suffix,
       Utils.filename_suffix filename = Normal suffix
       /\ url = "ipfs://" +:+ Utils.extractCID cid +:+ suffix.
Proof.
  unfold Links.createIPFSURL.
  destruct (Utils.isValidCID (Utils.extractCID cid)); [|done].
  destruct (Utils.filename_suffix filename) as [suffix|e]; [|done].
  intros [= <-]. split; [done|]. exists suffix. split; [done|].
  by rewrite !app_assoc_s.
Qed.

(** X1.  A URL built by [createGatewayURL] (for a gateway name that is not
    empty and has no [/]) or by [createIPFSURL], from an identifier without
    dots, can stand for the identifier: [extractCID] gives the identifier
    back, [isValidCID] accepts the URL, and the URL builders return for the
    URL what they return for the identifier it was built from. *)
Theorem url_round_trip (cid gateway : string) (filename : option string)
    (url : string) :
  JS.forallb Utils.plain (Utils.extractCID cid) = true ->
  gateway <> "" ->
  JS.forallb Utils.not_slash gateway = true ->
  Utils.createGatewayURL cid filename (Some gateway) = Normal url
  \/ Links.createIPFSURL cid filename = Normal url ->
  Utils.extractCID url = Utils.extractCID cid
  /\ Utils.isValidCID url = true
  /\ (forall f g, Utils.createGatewayURL url f g = Utils.createGatewayURL cid f g)
  /\ (forall f, Links.createIPFSURL url f = Links.createIPFSURL cid f)
  /\ (forall f, Utils.createGatewayURLs url f = Utils.createGatewayURLs cid f).
Proof.
  intros Hplain Hg Hns Hurl.
  assert (Utils.isValidCID (Utils.extractCID cid) = true
          /\ url <> ""
          /\ Utils.extractCID url = Utils.extractCID cid) as (Hvalid & Hurl0 & Hid).
  { destruct Hurl as [(Hvalid & suffix & Hsuffix & ->)%createGatewayURL_inv
                     |(Hvalid & suffix & Hsuffix & ->)%createIPFSURL_inv];
      (split; [done|]); (split; [done|]);
      pose proof (isValidCID_nonempty _ Hvalid) as Hne;
      apply filename_suffix_path_or_empty in Hsuffix.
    - by apply extractCID_of_gateway_url.
    - by apply extractCID_of_ipfs_url. }
  pose proof (isValidCID_nonempty _ Hvalid) as Hne.
  pose proof (extractCID_plain _ Hplain) as Hfix.
  split; [done|]. split.
  { rewrite <- Hvalid. apply isValidCID_extractCID; [done..|]. by rewrite Hfix. }
  split; [|split].
  - intros f g. unfold Utils.createGatewayURL. by rewrite Hid, Hvalid.
  - intros f. unfold Links.createIPFSURL. by rewrite Hid, Hvalid.
  - intros f. unfold Utils.createGatewayURLs. by rewrite Hid.
Qed.

Lemma url_round_trip_witness :
  Utils.extractCID
    "https://QmYwAPJzv5CZsnA625s3Xf2nemtYgPpHdWEz79ojWnPbdG.ipfs.w3s.link/a%20b.png"
  = "QmYwAPJzv5CZsnA625s3Xf2nemtYgPpHdWEz79ojWnPbdG"
  /\ Utils.createGatewayURL
       "https://QmYwAPJzv5CZsnA625s3Xf2nemtYgPpHdWEz79ojWnPbdG.ipfs.w3s.link/a%20b.png"
       None None
     = Normal "https://QmYwAPJzv5CZsnA625s3Xf2nemtYgPpHdWEz79ojWnPbdG.ipfs.dweb.link".
Proof.
  destruct (url_round_trip "/ipfs/QmYwAPJzv5CZsnA625s3Xf2nemtYgPpHdWEz79ojWnPbdG"
              "w3s.link" (Some "a b.png")
              "https://QmYwAPJzv5CZsnA625s3Xf2nemtYgPpHdWEz79ojWnPbdG.ipfs.w3s.link/a%20b.png"
              ltac:(reflexivity) ltac:(discriminate) ltac:(reflexivity)
              ltac:(left; reflexivity))
    as (Hid & _ & Hgateway & _).
  split; [exact Hid|]. exact (Hgateway None None).
Defined.

(** ** Paths *)

Lemma split_nonempty (sep : ascii) (s : string) : Text.split sep s <> [].
Proof.
  destruct s as [|c s]; [done|]. simpl.
  destruct (is_char sep c); [done|]. by destruct (Text.split sep s).
Qed.

Lemma split_count (s : string) :
  (1 <? List.length (Text.split "/" s))%nat = negb (JS.forallb Utils.not_slash s).
Proof.
  induction s as [|c s IH]; [done|].
  cbn [Text.split JS.forallb]. unfold Utils.not_slash at 1.
  destruct (is_char "/" c).
  - pose proof (split_nonempty "/" s). by destruct (Text.split "/" s).
  - cbn [negb andb]. rewrite <- IH.
    pose proof (split_nonempty "/" s). by destruct (Text.split "/" s).
Qed.

Lemma forallb_not_slash_path (rest : string) :
  Text.path_or_empty rest = true ->
  JS.forallb Utils.not_slash rest = is_empty rest.
Proof. by intros [->|[t ->]]%path_or_empty_cases. Qed.

Lemma filename_suffix_empty (filename : option string) (suffix : string) :
  Utils.filename_suffix filename = Normal suffix ->
  is_empty suffix
  = negb match filename with Some f => truthy f | None => false end.
Proof.
  unfold Utils.filename_suffix. destruct filename as [f|]; [|by intros [= <-]].
  destruct (truthy f); [|by intros [= <-]].
  destruct (Text.encodeURIComponent (Utils.clean_filename f)); [|done].
  by intros [= <-].
Qed.

(** X3.  [isCIDDirectory] tells the URLs built with a file name from those
    built without: on a URL that [createGatewayURL] (for a gateway name
    without [/]) or [createIPFSURL] returns, it holds exactly when a file
    name that is not empty was given. *)
Theorem isCIDDirectory_of_url (cid gateway : string) (filename : option string)
    (url : string) :
  JS.forallb Utils.not_slash gateway = true ->
  Utils.createGatewayURL cid filename (Some gateway) = Normal url
  \/ Links.createIPFSURL cid filename = Normal url ->
  Links.isCIDDirectory url
  = match filename with Some f => truthy f | None => false end.
Proof.
  intros Hns Hurl. unfold Links.isCIDDirectory. rewrite split_count.
  pose proof (extractCID_no_slash cid) as Hid.
  destruct Hurl as [(_ & suffix & Hsuffix & ->)%createGatewayURL_inv
                   |(_ & suffix & Hsuffix & ->)%createIPFSURL_inv];
    pose proof (filename_suffix_path_or_empty _ _ Hsuffix) as Hpath.
  - rewrite strip_scheme_https. cbn [default from_option id].
    rewrite !forallb_app, Hid, Hns.
    rewrite (forallb_not_slash_path suffix) by done.
    rewrite (filename_suffix_empty _ _ Hsuffix). cbn. by rewrite negb_involutive.
  - rewrite strip_scheme_ipfs.
    rewrite !forallb_app, Hid.
    rewrite (forallb_not_slash_path suffix) by done.
    rewrite (filename_suffix_empty _ _ Hsuffix). cbn. by rewrite negb_involutive.
Qed.

Lemma isCIDDirectory_of_url_witness :
  Links.isCIDDirectory
    "ipfs://QmYwAPJzv5CZsnA625s3Xf2nemtYgPpHdWEz79ojWnPbdG/notes.txt" = true.
Proof.
  exact (isCIDDirectory_of_url
           "QmYwAPJzv5CZsnA625s3Xf2nemtYgPpHdWEz79ojWnPbdG" "dweb.link"
           (Some "notes.txt")
           "ipfs://QmYwAPJzv5CZsnA625s3Xf2nemtYgPpHdWEz79ojWnPbdG/notes.txt"
           ltac:(reflexivity) ltac:(right; reflexivity)).
Defined.

Lemma split_none (sep : ascii) (s : string) :
  JS.forallb (fun c => negb (is_char sep c)) s = true -> Text.split sep s = [s].
Proof.
  induction s as [|c s IH]; [done|]. simpl.
  intros [Hc Hs]%andb_true_iff. apply negb_true_iff in Hc. rewrite Hc.
  by rewrite IH.
Qed.

Lemma split_app_length (sep : ascii) (p t : string) :
  2 <= List.length (Text.split sep (p +:+ String sep t)).
Proof.
  induction p as [|c p IH].
  - rewrite sapp_nil_l. cbn [Text.split]. unfold is_char. rewrite Ascii.eqb_refl.
    pose proof (split_nonempty sep t). destruct (Text.split sep t); [done|].
    simpl. lia.
  - rewrite sapp_cons. cbn [Text.split]. destruct (is_char sep c).
    + simpl. lia.
    + destruct (Text.split sep (p +:+ String sep t)); simpl in *; lia.
Qed.

(** The last segment of a path is what follows its last separator. *)
Lemma last_split_app (sep : ascii) (p t d : string) :
  List.last (Text.split sep (p +:+ String sep t)) d
  = List.last (Text.split sep t) d.
Proof.
  induction p as [|c p IH].
  - rewrite sapp_nil_l. cbn [Text.split]. unfold is_char. rewrite Ascii.eqb_refl.
    pose proof (split_nonempty sep t). by destruct (Text.split sep t).
  - rewrite sapp_cons. cbn [Text.split].
    pose proof (split_app_length sep p t) as Hlen.
    destruct (is_char sep c).
    + rewrite <- IH.
      destruct (Text.split sep (p +:+ String sep t)) as [|x [|y rest]];
        simpl in Hlen; try lia. done.
    + rewrite <- IH.
      destruct (Text.split sep (p +:+ String sep t)) as [|x [|y rest]];
        simpl in Hlen; try lia. done.
Qed.

(** *** [decodeURIComponent] undoes [encodeURIComponent] *)

Lemma octet_hex (c : ascii) :
  Text.octet (hex_digit (N_of_ascii c / 16)) (hex_digit (N_of_ascii c mod 16))
  = Some (N_of_ascii c).
Proof. destruct c as [[] [] [] [] [] [] [] []]; by vm_compute. Qed.

Lemma unreserved_not_percent (c : ascii) :
  uri_unreserved c = true -> is_char "%" c = false.
Proof. destruct c as [[] [] [] [] [] [] [] []]; by vm_compute. Qed.

Lemma high_not_unreserved (c : ascii) :
  (N_of_ascii c <? 128)%N = false -> uri_unreserved c = false.
Proof. destruct c as [[] [] [] [] [] [] [] []]; by vm_compute. Qed.

Lemma continuation_not_unreserved (c : ascii) :
  Text.continuation (N_of_ascii c) = true -> uri_unreserved c = false.
Proof. destruct c as [[] [] [] [] [] [] [] []]; by vm_compute. Qed.

Lemma encode_escaped (c : ascii) (s : string) :
  uri_unreserved c = false ->
  percent_encode (String c s)
  = String "%" (String (hex_digit (N_of_ascii c / 16))
                  (String (hex_digit (N_of_ascii c mod 16))
                     (percent_encode s))).
Proof. intros H. cbn [percent_encode]. by rewrite H. Qed.

Lemma decode_escape_first (c : ascii) (rest : string) :
  Text.decode None
    (String "%" (String (hex_digit (N_of_ascii c / 16))
                   (String (hex_digit (N_of_ascii c mod 16)) rest)))
  = match Text.following (N_of_ascii c) with
    | None => None
    | Some O => option_map (String c) (Text.decode None rest)
    | Some (S n) =>
        Text.decode (Some (Text.mkPending (N_of_ascii c) [] (S n))) rest
    end.
Proof.
  cbn [Text.decode]. change (is_char "%" "%") with true. cbv iota.
  by rewrite octet_hex, ascii_N_embedding.
Qed.

Lemma decode_escape_next (q : Text.pending) (c : ascii) (rest : string) :
  Text.continuation (N_of_ascii c) = true ->
  Text.decode (Some q)
    (String "%" (String (hex_digit (N_of_ascii c / 16))
                   (String (hex_digit (N_of_ascii c mod 16)) rest)))
  = match Text.awaited q with
    | O => None
    | S O =>
        let more := List.rev (N_of_ascii c :: Text.seen q) in
        if Text.utf8_code_point (Text.lead q) more
        then option_map (Text.bytes_text (Text.lead q :: more))
               (Text.decode None rest)
        else None
    | S n =>
        Text.decode
          (Some (Text.mkPending (Text.lead q) (N_of_ascii c :: Text.seen q) n))
          rest
    end.
Proof.
  intros Hc. cbn [Text.decode]. change (is_char "%" "%") with true. cbv iota.
  by rewrite octet_hex, Hc.
Qed.

Ltac bool_facts H :=
  repeat first [ rewrite andb_true_iff in H | rewrite orb_true_iff in H
               | rewrite N.leb_le in H | rewrite N.eqb_eq in H ].

Ltac following_cases :=
  unfold Text.following;
  repeat match goal with
         | |- context [(?a <? ?b)%N] => destruct (N.ltb_spec a b)
         end;
  try reflexivity; exfalso; intuition lia.

Lemma continuation_spec (b : N) :
  Text.continuation b = true <-> (128 <= b <= 191)%N.
Proof. unfold Text.continuation. rewrite andb_true_iff, !N.leb_le. done. Qed.

Lemma utf8_two (lead b1 : N) :
  Text.utf8_code_point lead [b1] = true ->
  Text.following lead = Some 1 /\ Text.continuation b1 = true.
Proof.
  unfold Text.utf8_code_point. intros H. bool_facts H.
  rewrite continuation_spec in H. split; [following_cases|].
  apply continuation_spec. lia.
Qed.

Lemma utf8_three (lead b1 b2 : N) :
  Text.utf8_code_point lead [b1; b2] = true ->
  Text.following lead = Some 2
  /\ Text.continuation b1 = true /\ Text.continuation b2 = true.
Proof.
  unfold Text.utf8_code_point. intros H. bool_facts H.
  rewrite !continuation_spec in H. split; [following_cases|].
  split; apply continuation_spec; intuition lia.
Qed.

Lemma utf8_four (lead b1 b2 b3 : N) :
  Text.utf8_code_point lead [b1; b2; b3] = true ->
  Text.following lead = Some 3
  /\ Text.continuation b1 = true /\ Text.continuation b2 = true
  /\ Text.continuation b3 = true.
Proof.
  unfold Text.utf8_code_point. intros H. bool_facts H.
  rewrite !continuation_spec in H. split; [following_cases|].
  repeat split; apply continuation_spec; intuition lia.
Qed.

Lemma decode_encode (n : nat) (s : string) :
  String.length s <= n -> Text.well_formed s = true ->
  Text.decode None (percent_encode s) = Some s.
Proof.
  revert s. induction n as [|n IH]; intros s Hlen Hwf.
  { destruct s; [done|simpl in Hlen; lia]. }
  destruct s as [|c s1]; [done|].
  cbn [Text.well_formed] in Hwf. cbn [String.length] in Hlen.
  destruct (N_of_ascii c <? 128)%N eqn:Hc.
  { destruct (uri_unreserved c) eqn:Hu.
    - cbn [percent_encode]. rewrite Hu. cbn [Text.decode].
      rewrite (unreserved_not_percent _ Hu). by rewrite IH by (done || lia).
    - rewrite encode_escaped, decode_escape_first by done.
      unfold Text.following. rewrite Hc. by rewrite IH by (done || lia). }
  rewrite encode_escaped, decode_escape_first by by apply high_not_unreserved.
  destruct s1 as [|c1 s2]; [done|]. cbn [String.length] in Hlen.
  destruct (Text.utf8_code_point (N_of_ascii c) [N_of_ascii c1]) eqn:H2.
  { destruct (utf8_two _ _ H2) as (-> & Hc1).
    rewrite encode_escaped, decode_escape_next
      by (done || by apply continuation_not_unreserved).
    cbn [Text.awaited Text.seen Text.lead List.rev app]. rewrite H2.
    rewrite IH by (done || lia).
    cbn [option_map Text.bytes_text fold_right]. by rewrite !ascii_N_embedding. }
  destruct s2 as [|c2 s3]; [done|]. cbn [String.length] in Hlen.
  destruct (Text.utf8_code_point (N_of_ascii c) [N_of_ascii c1; N_of_ascii c2])
    eqn:H3.
  { destruct (utf8_three _ _ _ H3) as (-> & Hc1 & Hc2).
    rewrite encode_escaped, decode_escape_next
      by (done || by apply continuation_not_unreserved).
    cbn [Text.awaited Text.seen Text.lead].
    rewrite encode_escaped, decode_escape_next
      by (done || by apply continuation_not_unreserved).
    cbn [Text.awaited Text.seen Text.lead List.rev app]. rewrite H3.
    rewrite IH by (done || lia).
    cbn [option_map Text.bytes_text fold_right]. by rewrite !ascii_N_embedding. }
  destruct s3 as [|c3 s4]; [done|]. cbn [String.length] in Hlen.
  apply andb_true_iff in Hwf as [H4 Hwf].
  destruct (utf8_four _ _ _ _ H4) as (-> & Hc1 & Hc2 & Hc3).
  do 3 (rewrite encode_escaped, decode_escape_next
          by (done || by apply continuation_not_unreserved);
        cbn [Text.awaited Text.seen Text.lead]).
  cbn [List.rev app]. rewrite H4.
  rewrite IH by (done || lia).
  cbn [option_map Text.bytes_text fold_right]. by rewrite !ascii_N_embedding.
Qed.

Lemma decodeURIComponent_encodeURIComponent (s : string) :
  Text.well_formed s = true ->
  Text.decodeURIComponent (percent_encode s) = Some s.
Proof. intros Hwf. by apply (decode_encode (String.length s)). Qed.

Lemma url_char_not_question (c : ascii) :
  Text.url_char c = true -> negb (is_char "?" c) = true.
Proof. destruct c as [[] [] [] [] [] [] [] []]; by vm_compute. Qed.

Lemma well_formed_clean_filename (name : string) :
  Text.well_formed name = true ->
  Text.well_formed (Utils.clean_filename name) = true.
Proof.
  unfold Utils.clean_filename, startsWith. destruct name as [|c name]; [done|].
  cbn [String.prefix]. destruct (Ascii.ascii_dec "/" c) as [<-|]; [|done].
  by rewrite prefix_empty.
Qed.

(** The file name of a URL that ends in [/] and an encoded name. *)
Lemma extractFilename_encoded (p name : string) :
  JS.forallb (fun c => negb (is_char "?" c)) p = true ->
  Text.well_formed name = true ->
  Links.extractFilename (p +:+ "/" +:+ percent_encode name) = name.
Proof.
  intros Hp Hwf. unfold Links.extractFilename.
  assert (truthy (p +:+ "/" +:+ percent_encode name) = true) as ->
    by by destruct p.
  cbn [negb]. rewrite (split_none "?").
  2:{ rewrite !forallb_app, Hp. cbn.
      eapply forallb_impl; [apply url_char_not_question|].
      apply percent_encode_chars. }
  cbn [hd].
  change ("/" +:+ percent_encode name)
    with (String "/" (percent_encode name)).
  rewrite last_split_app, split_none.
  2:{ eapply forallb_impl; [|apply percent_encode_chars].
      apply url_char_not_slash. }
  cbn [List.last]. by rewrite decodeURIComponent_encodeURIComponent.
Qed.

(** X2.  [extractFilename] gives back the file name a URL was built with:
    for a file name that is well-formed text and not empty, and an
    identifier and a gateway name without [?], the file name extracted from
    the URL [createGatewayURL] or [createIPFSURL] returns is the name given,
    less the one leading [/] the builders drop. *)
Theorem extractFilename_of_url (cid gateway name url : string) :
  JS.forallb (fun c => negb (is_char "?" c)) (Utils.extractCID cid +:+ gateway)
  = true ->
  Text.well_formed name = true ->
  truthy name = true ->
  Utils.createGatewayURL cid (Some name) (Some gateway) = Normal url
  \/ Links.createIPFSURL cid (Some name) = Normal url ->
  Links.extractFilename url = Utils.clean_filename name.
Proof.
  rewrite forallb_app. intros [Hid Hg]%andb_true_iff Hwf Hname Hurl.
  assert (exists p, JS.forallb (fun c => negb (is_char "?" c)) p = true
                    /\ url = p +:+ "/"
                             +:+ percent_encode (Utils.clean_filename name))
    as (p & Hp & ->).
  { assert (name <> "") as Hne by (by destruct name).
    destruct Hurl as [(_ & suffix & Hsuffix & ->)%createGatewayURL_inv
                     |(_ & suffix & Hsuffix & ->)%createIPFSURL_inv];
      rewrite filename_suffix_encoded in Hsuffix by done;
      injection Hsuffix as <-; cbn [default from_option id].
    - exists ("https://" +:+ Utils.extractCID cid +:+ ".ipfs." +:+ gateway).
      split; [by rewrite !forallb_app, Hid, Hg|]. by rewrite !app_assoc_s.
    - exists ("ipfs://" +:+ Utils.extractCID cid).
      split; [by rewrite !forallb_app, Hid|]. by rewrite !app_assoc_s. }
  apply extractFilename_encoded; [done|]. by apply well_formed_clean_filename.
Qed.

Lemma extractFilename_of_url_witness :
  Links.extractFilename
    "https://QmYwAPJzv5CZsnA625s3Xf2nemtYgPpHdWEz79ojWnPbdG.ipfs.dweb.link/my%20notes%3F.txt"
  = "my notes?.txt".
Proof.
  exact (extractFilename_of_url
           "QmYwAPJzv5CZsnA625s3Xf2nemtYgPpHdWEz79ojWnPbdG" "dweb.link"
           "/my notes?.txt"
           "https://QmYwAPJzv5CZsnA625s3Xf2nemtYgPpHdWEz79ojWnPbdG.ipfs.dweb.link/my%20notes%3F.txt"
           ltac:(reflexivity) ltac:(reflexivity) ltac:(reflexivity)
           ltac:(left; reflexivity)).
Defined.

(** ** Ages *)

Lemma div_at_least_one (seconds size : Z) :
  (0 < size)%Z -> (1 <=? seconds / size)%Z = (size <=? seconds)%Z.
Proof.
  intros Hsize. apply eq_iff_eq_true. rewrite !Z.leb_le. split.
  - intros H. pose proof (Z.mul_div_le seconds size Hsize). nia.
  - intros H. apply Z.div_le_lower_bound; lia.
Qed.

Ltac largest_unit unit size :=
  exists unit, size; split; [simpl; tauto|]; split; [lia|]; split; [|reflexivity];
  let Hin := fresh "Hin" in
  intros ? ? Hin ?; simpl in Hin;
  repeat (destruct Hin as [[= <- <-]|Hin]; [lia|]); done.

(** X4.  [getTimeAgo] names the largest unit that fits: for a date less than
    a second in the past, or in the future, it returns [just now]; otherwise
    it counts the whole seconds since the date in the largest of the units
    year (365 days), month (30 days), week, day, hour, minute and second
    that is not longer than the age, and writes the unit in the plural
    unless the count is 1.  Times are time values of dates, in milliseconds,
    less than 2^53 apart. *)
Theorem getTimeAgo_largest_unit (now date : Z) :
  (Z.abs (now - date) < 2 ^ 53)%Z ->
  let seconds := ((now - date) / 1000)%Z in
  ((now - date < 1000)%Z -> Links.getTimeAgo now date = "just now")
  /\ ((1000 <= now - date)%Z ->
      exists unit size,
        In (unit, size) Links.intervals
        /\ (size <= seconds)%Z
        /\ (forall unit' size',
              In (unit', size') Links.intervals ->
              (size' <= seconds)%Z -> (size' <= size)%Z)
        /\ Links.getTimeAgo now date
           = pretty (seconds / size)%Z +:+ " " +:+ unit
             +:+ (if (seconds / size =? 1)%Z then "" else "s") +:+ " ago").
Proof.
  intros _ seconds. unfold Links.getTimeAgo. fold seconds.
  cbn [Links.time_ago Links.intervals]. rewrite !div_at_least_one by lia.
  split.
  - intros Hnew.
    assert (seconds < 1)%Z as Hs
      by (apply Z.div_lt_upper_bound; lia).
    repeat match goal with
           | |- context [(?a <=? seconds)%Z] =>
               destruct (Z.leb_spec a seconds); [lia|]
           end.
    reflexivity.
  - intros Hold.
    assert (1 <= seconds)%Z as Hs
      by (apply Z.div_le_lower_bound; lia).
    destruct (Z.leb_spec 31536000 seconds); [largest_unit "year" 31536000%Z|].
    destruct (Z.leb_spec 2592000 seconds); [largest_unit "month" 2592000%Z|].
    destruct (Z.leb_spec 604800 seconds); [largest_unit "week" 604800%Z|].
    destruct (Z.leb_spec 86400 seconds); [largest_unit "day" 86400%Z|].
    destruct (Z.leb_spec 3600 seconds); [largest_unit "hour" 3600%Z|].
    destruct (Z.leb_spec 60 seconds); [largest_unit "minute" 60%Z|].
    destruct (Z.leb_spec 1 seconds); [largest_unit "second" 1%Z|lia].
Qed.

Lemma getTimeAgo_largest_unit_witness :
  Links.getTimeAgo 1700000000000 1700000000999 = "just now"
  /\ exists unit size,
       In (unit, size) Links.intervals
       /\ Links.getTimeAgo 1700031104000 1700000000000
          = pretty (31104 / size)%Z +:+ " " +:+ unit
            +:+ (if (31104 / size =? 1)%Z then "" else "s") +:+ " ago".
Proof.
  split.
  - exact (proj1 (getTimeAgo_largest_unit 1700000000000 1700000000999
                    ltac:(reflexivity)) ltac:(reflexivity)).
  - destruct (proj2 (getTimeAgo_largest_unit 1700031104000 1700000000000
                       ltac:(reflexivity)) ltac:(discriminate))
      as (unit & size & Hin & _ & _ & Hago).
    exists unit, size. split; [exact Hin|exact Hago].
Defined.

Example getTimeAgo_months :
  Links.getTimeAgo (360 * 86400000) 0 = "12 months ago"
  /\ Links.getTimeAgo 3600000 0 = "1 hour ago"
  /\ Links.getTimeAgo 0 3600000 = "just now".
Proof. repeat split; reflexivity. Qed.

(** ** Browser storage of the API client *)

Lemma lex_number_run_end (d acc : string) :
  JS.forallb JSON.is_number_char d = true ->
  JSON.lex (JSON.LNumber acc) (d +:+ "}")
  = Some [JSON.TNumber (String.rev (String.rev_app d acc)); JSON.TRBrace].
Proof.
  revert acc. induction d as [|c d IH]; intros acc.
  - intros _. reflexivity.
  - cbn [JS.forallb]. intros [Hc Hd]%andb_true_iff. rewrite sapp_cons.
    rewrite (lex_silent _ (JSON.LNumber (String c acc))).
    + by apply IH.
    + cbn [JSON.lex_step]. by rewrite Hc.
Qed.

(** An integer followed by the closing brace of the text. *)
Lemma lex_number_end (z : Z) :
  JSON.lex JSON.LDefault (pretty z +:+ "}")
  = Some [JSON.TNumber (pretty z); JSON.TRBrace].
Proof.
  destruct (number_value_pretty z) as (_ & c & d & Htext & Hc & Hd).
  rewrite Htext, sapp_cons.
  destruct (lex_number_start c Hc) as (Hstart & _).
  rewrite (lex_silent _ (JSON.LNumber (String c ""))) by done.
  rewrite lex_number_run_end by done.
  change (String.rev (String.rev_app d (String c "")))
    with (String.rev (String.rev (String c d))).
  by rewrite rev_involutive_s.
Qed.

(** The text [saveDelegation] stores parses back to the object it was
    written from. *)
Lemma delegation_text_parses (saved : Z) (r : Storage.DelegationResponse) :
  JSON.parse (JSON.stringify (Storage.stored_delegation saved r))
  = Some (Storage.stored_delegation saved r).
Proof.
  destruct r as [ok token expires sd sn]. unfold JSON.parse, JSON.parse_from.
  destruct sd as [sd|], sn as [sn|];
    cbn [JSON.stringify Storage.stored_delegation Storage.delegation
         Storage.expiresAt Storage.spaceDid Storage.spaceName
         Session.optional_field List.map join app];
    rewrite ?app_assoc_s; lex_text; rewrite lex_number_comma; lex_text;
    rewrite lex_number_end; cbn -[JSON.number_value pretty];
    rewrite (proj1 (number_value_pretty expires));
    cbn -[JSON.number_value pretty];
    rewrite (proj1 (number_value_pretty saved)); reflexivity.
Qed.

Lemma space_info_text_parses (saved : Z) (did : string) (name : option string) :
  JSON.parse (JSON.stringify (Storage.stored_space_info saved did name))
  = Some (Storage.stored_space_info saved did name).
Proof.
  unfold JSON.parse, JSON.parse_from.
  destruct name as [name|];
    cbn [JSON.stringify Storage.stored_space_info Session.optional_field
         List.map join app];
    rewrite ?app_assoc_s; lex_text; rewrite lex_number_end;
    cbn -[JSON.number_value pretty];
    rewrite (proj1 (number_value_pretty saved)); reflexivity.
Qed.

Lemma saveDelegation_response (saved : Z) (r : Storage.DelegationResponse)
    (ls : gmap string string) :
  Storage.saveDelegation saved (Storage.response_json r) ls
  = Normal (<["storacha_delegation" :=
                JSON.stringify (Storage.stored_delegation saved r)]> ls).
Proof. by destruct r as [ok token expires [sd|] [sn|]]. Qed.

Lemma stored_delegation_expiresAt (saved : Z) (r : Storage.DelegationResponse) :
  Storage.member "expiresAt" (Storage.stored_delegation saved r)
  = Some (JSON.Num (Storage.expiresAt r)).
Proof. by destruct r as [ok token expires [sd|] [sn|]]. Qed.

(** What [loadDelegation] does with a stored object whose [expiresAt] is an
    integer. *)
Lemma loadDelegation_stored (saved now : Z) (r : Storage.DelegationResponse)
    (ls : gmap string string) :
  ls !! "storacha_delegation"
  = Some (JSON.stringify (Storage.stored_delegation saved r)) ->
  Storage.loadDelegation now ls
  = Some (if (Storage.expiresAt r <? now / 1000)%Z
          then (Storage.clearDelegation ls, JSON.Null)
          else (ls, Storage.stored_delegation saved r)).
Proof.
  intros Hstored. unfold Storage.loadDelegation.
  rewrite Hstored.
  change (truthy (JSON.stringify (Storage.stored_delegation saved r))) with true.
  rewrite delegation_text_parses. cbn [negb]. rewrite stored_delegation_expiresAt. cbn [Storage.less_than].
  by destruct (Storage.expiresAt r <? now / 1000)%Z.
Qed.

Lemma loadDelegation_absent (now : Z) (ls : gmap string string) :
  ls !! "storacha_delegation" = None ->
  Storage.loadDelegation now ls = Some (ls, JSON.Null).
Proof. intros H. unfold Storage.loadDelegation. by rewrite H. Qed.

Lemma clearDelegation_lookup (ls : gmap string string) :
  Storage.clearDelegation ls !! "storacha_delegation" = None
  /\ Storage.clearDelegation ls !! "storacha_space_info" = None
  /\ forall key, key <> "storacha_delegation" -> key <> "storacha_space_info" ->
                 Storage.clearDelegation ls !! key = ls !! key.
Proof.
  unfold Storage.clearDelegation. split; [|split].
  - rewrite lookup_delete_ne by done. apply lookup_delete_eq.
  - apply lookup_delete_eq.
  - intros key H1 H2. by rewrite !lookup_delete_ne.
Qed.

(** X5.  A delegation response of the declared type that [saveDelegation]
    has stored is what [loadDelegation] returns, with the token, the expiry,
    the space and the time of saving, as long as the clock in whole seconds
    has not passed [expiresAt]; once it has, [loadDelegation] returns [null]
    and removes the stored delegation and the stored space information, and
    keeps returning [null]. *)
Theorem saved_delegation_is_loaded (r : Storage.DelegationResponse)
    (saved now : Z) (ls : gmap string string) :
  exists ls1,
    Storage.saveDelegation saved (Storage.response_json r) ls = Normal ls1
    /\ ((now / 1000 <= Storage.expiresAt r)%Z ->
        Storage.loadDelegation now ls1
        = Some (ls1, Storage.stored_delegation saved r))
    /\ ((Storage.expiresAt r < now / 1000)%Z ->
        exists ls2,
          Storage.loadDelegation now ls1 = Some (ls2, JSON.Null)
          /\ ls2 !! "storacha_delegation" = None
          /\ ls2 !! "storacha_space_info" = None
          /\ (forall later, Storage.loadDelegation later ls2 = Some (ls2, JSON.Null))).
Proof.
  eexists. split; [apply saveDelegation_response|].
  set (ls1 := <["storacha_delegation" := _]> ls).
  assert (ls1 !! "storacha_delegation"
          = Some (JSON.stringify (Storage.stored_delegation saved r)))
    as Hstored by apply lookup_insert_eq.
  rewrite (loadDelegation_stored _ _ _ _ Hstored). split.
  - intros Hfresh. by destruct (Z.ltb_spec (Storage.expiresAt r) (now / 1000)); [lia|].
  - intros Hexpired.
    destruct (Z.ltb_spec (Storage.expiresAt r) (now / 1000)); [|lia].
    exists (Storage.clearDelegation ls1).
    destruct (clearDelegation_lookup ls1) as (Hd & Hs & _).
    split; [done|]. split; [done|]. split; [done|].
    intros later. by apply loadDelegation_absent.
Qed.

Lemma saved_delegation_is_loaded_witness :
  let r := Storage.mkDelegationResponse true "mAYIEAKwV" 1700086400
             (Some "did:key:z6MkSpace") (Some "My Storage Space") in
  exists ls1,
    Storage.saveDelegation 1700000000000 (Storage.response_json r) ∅ = Normal ls1
    /\ Storage.loadDelegation 1700000001000 ls1
       = Some (ls1, Storage.stored_delegation 1700000000000 r)
    /\ exists ls2,
         Storage.loadDelegation 1700086401000 ls1 = Some (ls2, JSON.Null)
         /\ ls2 !! "storacha_delegation" = None.
Proof.
  intros r.
  destruct (saved_delegation_is_loaded r 1700000000000 1700000001000 ∅)
    as (ls1 & Hsave & Hfresh & _).
  destruct (saved_delegation_is_loaded r 1700000000000 1700086401000 ∅)
    as (ls1' & Hsave' & _ & Hexpired).
  assert (ls1' = ls1) as -> by congruence.
  exists ls1. split; [exact Hsave|]. split.
  - apply Hfresh. vm_compute. discriminate.
  - destruct (Hexpired ltac:(reflexivity)) as (ls2 & Hload & Hgone & _).
    exists ls2. split; [exact Hload|exact Hgone].
Defined.

(** X6.  After [saveDelegation] of a response of the declared type,
    [hasValidDelegation] holds exactly when the delegation has not expired
    at the time it is loaded and expires more than 300 seconds after the
    time of the check, both in whole seconds. *)
Theorem hasValidDelegation_after_save (r : Storage.DelegationResponse)
    (saved now now' : Z) (ls : gmap string string) :
  exists ls1 ls2,
    Storage.saveDelegation saved (Storage.response_json r) ls = Normal ls1
    /\ Storage.hasValidDelegation now now' ls1
       = Some (ls2, (now / 1000 <=? Storage.expiresAt r)%Z
                    && (now' / 1000 + 300 <? Storage.expiresAt r)%Z).
Proof.
  set (ls1 := <["storacha_delegation" :=
                   JSON.stringify (Storage.stored_delegation saved r)]> ls).
  exists ls1,
    (if (Storage.expiresAt r <? now / 1000)%Z
     then Storage.clearDelegation ls1 else ls1).
  split; [apply saveDelegation_response|].
  assert (ls1 !! "storacha_delegation"
          = Some (JSON.stringify (Storage.stored_delegation saved r)))
    as Hstored by apply lookup_insert_eq.
  unfold Storage.hasValidDelegation.
  rewrite (loadDelegation_stored _ _ _ _ Hstored).
  rewrite Z.leb_antisym.
  destruct (Storage.expiresAt r <? now / 1000)%Z; [reflexivity|].
  change (JSON.truthy (Storage.stored_delegation saved r)) with true.
  cbn [negb]. by rewrite stored_delegation_expiresAt.
Qed.

Example hasValidDelegation_buffer :
  let r := Storage.mkDelegationResponse true "mAYIEAKwV" 1700086400 None None in
  exists ls1,
    Storage.saveDelegation 1700000000000 (Storage.response_json r) ∅ = Normal ls1
    /\ Storage.hasValidDelegation 1700086200000 1700086200000 ls1
       = Some (ls1, false)
    /\ Storage.loadDelegation 1700086200000 ls1
       = Some (ls1, Storage.stored_delegation 1700000000000 r).
Proof. eexists. split; [reflexivity|]. split; reflexivity. Qed.

Lemma loadSpaceInfo_stored (saved : Z) (did : string) (name : option string)
    (ls : gmap string string) :
  ls !! "storacha_space_info"
  = Some (JSON.stringify (Storage.stored_space_info saved did name)) ->
  Api.loadSpaceInfo ls = Storage.stored_space_info saved did name.
Proof.
  intros H. unfold Api.loadSpaceInfo.
  rewrite H.
  change (truthy (JSON.stringify (Storage.stored_space_info saved did name)))
    with true.
  by rewrite space_info_text_parses.
Qed.

Lemma loadSpaceInfo_absent (ls : gmap string string) :
  ls !! "storacha_space_info" = None -> Api.loadSpaceInfo ls = JSON.Null.
Proof. intros H. unfold Api.loadSpaceInfo. by rewrite H. Qed.

(** X7.  The space information [saveSpaceInfo] stores is what
    [loadSpaceInfo] returns, also after a delegation has been saved and
    loaded before its expiry; it is gone, and [loadSpaceInfo] returns
    [null], once [loadDelegation] has met an expired delegation or a stored
    text that is not JSON, and after [clearDelegation] or [clearAll]. *)
Theorem space_info_round_trip (saved now : Z) (did : string)
    (name : option string) (ls : gmap string string) :
  let ls1 := Storage.saveSpaceInfo saved did name ls in
  let info := Storage.stored_space_info saved did name in
  Api.loadSpaceInfo ls1 = info
  /\ (forall r at_,
        exists ls2,
          Storage.saveDelegation at_ (Storage.response_json r) ls1 = Normal ls2
          /\ Api.loadSpaceInfo ls2 = info
          /\ exists ls3 data,
               Storage.loadDelegation now ls2 = Some (ls3, data)
               /\ Api.loadSpaceInfo ls3
                  = if (Storage.expiresAt r <? now / 1000)%Z
                    then JSON.Null else info)
  /\ (forall text,
        truthy text = true -> JSON.parse text = None ->
        exists ls3,
          Storage.loadDelegation now (<["storacha_delegation" := text]> ls1)
          = Some (ls3, JSON.Null)
          /\ Api.loadSpaceInfo ls3 = JSON.Null)
  /\ Api.loadSpaceInfo (Storage.clearDelegation ls1) = JSON.Null
  /\ Api.loadSpaceInfo (Storage.clearAll ls1) = JSON.Null.
Proof.
  intros ls1 info.
  assert (ls1 !! "storacha_space_info" = Some (JSON.stringify info)) as Hinfo
    by apply lookup_insert_eq.
  split; [by apply loadSpaceInfo_stored|]. split; [|split; [|split]].
  - intros r at_. eexists. split; [apply saveDelegation_response|].
    set (ls2 := <["storacha_delegation" := _]> ls1).
    assert (ls2 !! "storacha_space_info" = Some (JSON.stringify info)) as Hinfo2
      by (unfold ls2; by rewrite lookup_insert_ne).
    split; [by apply loadSpaceInfo_stored|].
    assert (ls2 !! "storacha_delegation"
            = Some (JSON.stringify (Storage.stored_delegation at_ r)))
      as Hstored by apply lookup_insert_eq.
    rewrite (loadDelegation_stored _ _ _ _ Hstored).
    destruct (Storage.expiresAt r <? now / 1000)%Z.
    + eexists _, _. split; [reflexivity|]. apply loadSpaceInfo_absent.
      apply clearDelegation_lookup.
    + eexists _, _. split; [reflexivity|]. by apply loadSpaceInfo_stored.
  - intros text Htext Hparse. unfold Storage.loadDelegation.
    rewrite lookup_insert_eq, Htext, Hparse. cbn [negb].
    eexists. split; [reflexivity|]. apply loadSpaceInfo_absent.
    apply clearDelegation_lookup.
  - apply loadSpaceInfo_absent, clearDelegation_lookup.
  - apply loadSpaceInfo_absent. unfold Storage.clearAll.
    rewrite lookup_delete_ne by done. apply lookup_delete_eq.
Qed.

Lemma space_info_round_trip_witness :
  let ls1 := Storage.saveSpaceInfo 1700000000000 "did:key:z6MkSpace"
               (Some "My Storage Space") ∅ in
  Api.loadSpaceInfo ls1
  = JSON.Obj [("did", JSON.Str "did:key:z6MkSpace");
              ("name", JSON.Str "My Storage Space");
              ("lastUsed", JSON.Num 1700000000000)]
  /\ exists ls3,
       Storage.loadDelegation 1700000000000
         (<["storacha_delegation" := "{"]> ls1) = Some (ls3, JSON.Null)
       /\ Api.loadSpaceInfo ls3 = JSON.Null.
Proof.
  intros ls1.
  destruct (space_info_round_trip 1700000000000 1700000000000
              "did:key:z6MkSpace" (Some "My Storage Space") ∅)
    as (Hload & _ & Hcorrupt & _).
  split; [exact Hload|].
  exact (Hcorrupt "{" ltac:(reflexivity) ltac:(reflexivity)).
Defined.

(** ** The backend and its clients *)


Lemma response_text_parses (r : Storage.DelegationResponse) :
  JSON.parse (JSON.stringify (Storage.response_json r))
  = Some (Storage.response_json r).
Proof.
  destruct r as [ok token expires sd sn]. unfold JSON.parse, JSON.parse_from.
  destruct ok, sd as [sd|], sn as [sn|];
    cbn [JSON.stringify Storage.response_json Storage.success
         Storage.delegation Storage.expiresAt Storage.spaceDid
         Storage.spaceName Session.optional_field List.map join app];
    rewrite ?app_assoc_s; lex_text;
    first [rewrite lex_number_comma | rewrite lex_number_end]; lex_text;
    cbn -[JSON.number_value pretty];
    rewrite (proj1 (number_value_pretty expires)); reflexivity.
Qed.

Lemma health_text_parses (timestamp : string) (storachaClient : option SDK.Client) :
  JSON.parse (JSON.stringify
                (Backend.body (Backend.health_route timestamp storachaClient)))
  = Some (Backend.body (Backend.health_route timestamp storachaClient)).
Proof.
  unfold JSON.parse, JSON.parse_from.
  destruct storachaClient;
    cbn [JSON.stringify Backend.health_route Backend.body Backend.has_client
         List.map join];
    rewrite ?app_assoc_s; lex_text; reflexivity.
Qed.


Lemma request_success (r : Storage.DelegationResponse) (statusText : string) :
  Api.request (Api.Resolved (Backend.respond
                               (Backend.mkReply 200 (Storage.response_json r))
                               statusText))
  = Normal (Storage.response_json r).
Proof.
  unfold Api.request, Api.request_try, Backend.respond. cbn [Api.body Backend.body].
  by rewrite response_text_parses.
Qed.

Lemma message_or_nonempty (fallback : string) (error : Exn) :
  fallback <> "" -> Bootstrap.message_or fallback error <> "".
Proof.
  intros Hf. unfold Bootstrap.message_or.
  by destruct (exn_message error).
Qed.

Lemma initialize_try_events (env : Backend.Env) (key proof : string)
    (storachaClient : option SDK.Client) :
  List.forallb Backend.is_initialisation
    (Backend.initialize_try env key proof storachaClient).1.1 = true.
Proof.
  unfold Backend.initialize_try, Backend.bind, Backend.call, Backend.ret.
  destruct (Backend.Signer_parse env key); [|done].
  destruct (Backend.create env); [|done].
  destruct (Backend.Proof_parse env proof) as [parsed|]; [|done].
  destruct (Backend.addSpace env parsed) as [space|]; [|done].
  by destruct (Backend.setCurrentSpace env (SDK.did space)).
Qed.

Lemma initializeStoracha_events (env : Backend.Env)
    (storachaClient : option SDK.Client) :
  List.forallb Backend.is_initialisation
    (Backend.initializeStoracha env storachaClient).1.1 = true.
Proof.
  unfold Backend.initializeStoracha.
  destruct (Backend.STORACHA_PRIVATE_KEY env) as [privateKey|]; [|done].
  destruct (Backend.STORACHA_PROOF env) as [proofString|]; [|done].
  destruct (negb (truthy privateKey) || negb (truthy proofString)); [done|].
  destruct (Backend.cleanBase64 privateKey) as [|key]; [done|].
  destruct (Backend.cleanBase64 proofString) as [|proof]; [done|].
  destruct (negb (truthy key) || negb (truthy proof)); [done|].
  pose proof (initialize_try_events env key proof storachaClient) as Hevs.
  by destruct (Backend.initialize_try env key proof storachaClient)
    as [[evs client] [result|error]].
Qed.

(** When [initializeStoracha] returns [true], the client is set. *)
Lemma initializeStoracha_true (env : Backend.Env)
    (storachaClient : option SDK.Client) :
  (Backend.initializeStoracha env storachaClient).2 = Normal true ->
  Backend.has_client (Backend.initializeStoracha env storachaClient).1.2 = true.
Proof.
  unfold Backend.initializeStoracha.
  destruct (Backend.STORACHA_PRIVATE_KEY env) as [privateKey|]; [|done].
  destruct (Backend.STORACHA_PROOF env) as [proofString|]; [|done].
  destruct (negb (truthy privateKey) || negb (truthy proofString)); [done|].
  destruct (Backend.cleanBase64 privateKey) as [|key]; [done|].
  destruct (Backend.cleanBase64 proofString) as [|proof]; [done|].
  destruct (negb (truthy key) || negb (truthy proof)); [done|].
  unfold Backend.initialize_try.
  destruct (Backend.Signer_parse env key) as [?|error].
  2:{ cbn. unfold Backend.initialize_catch. by destruct (exn_kind error). }
  destruct (Backend.create env) as [created|error].
  2:{ cbn. unfold Backend.initialize_catch. by destruct (exn_kind error). }
  unfold Backend.bind, Backend.call, Backend.ret.
  destruct (Backend.Proof_parse env proof) as [parsed|error].
  2:{ cbn. unfold Backend.initialize_catch. by destruct (exn_kind error). }
  destruct (Backend.addSpace env parsed) as [space|error].
  2:{ cbn. unfold Backend.initialize_catch. by destruct (exn_kind error). }
  destruct (Backend.setCurrentSpace env (SDK.did space)) as [?|error]; [done|].
  cbn. unfold Backend.initialize_catch. by destruct (exn_kind error).
Qed.

(** The three ways a request for a delegation can be answered. *)
Lemma delegation_route_cases (env : Backend.Env) (now now' : Z) (userDid : string)
    (storachaClient : option SDK.Client) :
  let run := Backend.delegation_route env now now' userDid storachaClient in
  (exists text,
     run.2 = Backend.mkReply 200
               (Storage.response_json
                  (Storage.mkDelegationResponse true text
                     (now' / 1000 + Backend.lifetime)%Z
                     (option_map SDK.did (Backend.currentSpace env))
                     (Some "My Storage Space")))
     /\ Backend.archive env = Normal (Some text)
     /\ startsWith userDid "did:" = true
     /\ Backend.has_client run.1.2 = true
     /\ In (Backend.EvCreateDelegation userDid Backend.abilities
              (now / 1000 + Backend.lifetime)%Z) run.1.1)
  \/ (run.2 = Backend.failure 400 Backend.invalid_did_message
      /\ startsWith userDid "did:" = false
      /\ List.forallb Backend.is_initialisation run.1.1 = true)
  \/ (exists message, message <> "" /\ run.2 = Backend.failure 500 message).
Proof.
  intros run. subst run. unfold Backend.delegation_route.
  assert (forall evs (client : option SDK.Client),
            List.forallb Backend.is_initialisation evs = true ->
            Backend.has_client client = true ->
            let run :=
              (if negb (startsWith userDid "did:")
               then (evs, client, Backend.failure 400 Backend.invalid_did_message)
               else
                 let expiration := (now / 1000 + Backend.lifetime)%Z in
                 match
                   Backend.bind
                     (Backend.call (Backend.EvDIDParse userDid)
                        (Backend.DID_parse env userDid))
                     (fun _ =>
                        Backend.bind
                          (Backend.call
                             (Backend.EvCreateDelegation userDid
                                Backend.abilities expiration)
                             (Backend.createDelegation env userDid expiration))
                          (fun _ =>
                             Backend.bind
                               (Backend.call Backend.EvArchive (Backend.archive env))
                               (fun archive =>
                                  match archive with
                                  | Some text => Backend.ret text
                                  | None =>
                                      Backend.throw
                                        (new_Error "Failed to create delegation archive")
                                  end)))
                 with
                 | (evs', Normal text) =>
                     ((evs ++ evs')%list, client,
                      Backend.mkReply 200
                        (Storage.response_json
                           (Storage.mkDelegationResponse true text
                              (now' / 1000 + Backend.lifetime)%Z
                              (option_map SDK.did (Backend.currentSpace env))
                              (Some "My Storage Space"))))
                 | (evs', Throw error) =>
                     ((evs ++ evs')%list, client,
                      Backend.failure 500
                        (Bootstrap.message_or "Failed to create delegation" error))
                 end) in
            (exists text,
               run.2 = Backend.mkReply 200
                         (Storage.response_json
                            (Storage.mkDelegationResponse true text
                               (now' / 1000 + Backend.lifetime)%Z
                               (option_map SDK.did (Backend.currentSpace env))
                               (Some "My Storage Space")))
               /\ Backend.archive env = Normal (Some text)
               /\ startsWith userDid "did:" = true
               /\ Backend.has_client run.1.2 = true
               /\ In (Backend.EvCreateDelegation userDid Backend.abilities
                        (now / 1000 + Backend.lifetime)%Z) run.1.1)
            \/ (run.2 = Backend.failure 400 Backend.invalid_did_message
                /\ startsWith userDid "did:" = false
                /\ List.forallb Backend.is_initialisation run.1.1 = true)
            \/ (exists message, message <> "" /\ run.2 = Backend.failure 500 message))
    as Hserve.
  { intros evs client Hevs Hclient.
    destruct (startsWith userDid "did:") eqn:Hdid; cbn [negb].
    2:{ right. left. done. }
    unfold Backend.bind, Backend.call, Backend.ret, Backend.throw.
    destruct (Backend.DID_parse env userDid) as [?|error].
    2:{ right. right. eexists. split; [|reflexivity]. by apply message_or_nonempty. }
    destruct (Backend.createDelegation env userDid _) as [?|error].
    2:{ right. right. eexists. split; [|reflexivity]. by apply message_or_nonempty. }
    destruct (Backend.archive env) as [[text|]|error].
    - left. exists text. cbn. split; [done|]. split; [done|]. split; [done|].
      split; [done|]. apply in_or_app. right. simpl. tauto.
    - right. right. eexists. split; [|reflexivity]. done.
    - right. right. eexists. split; [|reflexivity]. by apply message_or_nonempty. }
  destruct storachaClient as [client|].
  { apply (Hserve [] (Some client)); done. }
  pose proof (initializeStoracha_events env None) as Hevs.
  pose proof (initializeStoracha_true env None) as Hclient.
  destruct (Backend.initializeStoracha env None) as [[evs client] [[|]|error]].
  - apply Hserve; [done|by apply Hclient].
  - right. right. by exists Backend.not_configured_message.
  - right. right. eexists. split; [|reflexivity]. by apply message_or_nonempty.
Qed.

(** X9.  Every answer of the delegation route is of one of three kinds.
    With status 200 it reports success, and an expiry 24 hours after the
    second reading of the clock, for a delegation created with an expiry 24
    hours after the first reading; then the DID starts with [did:] and the
    client is set.  With status 400 it carries the invalid-DID message, the
    DID does not start with [did:], and no call beyond the initialisation
    was made.  With status 500 it carries an error text that is not empty.
    So the status is 200 exactly when [success] is true. *)
Theorem delegation_route_replies (env : Backend.Env) (now now' : Z)
    (userDid : string) (storachaClient : option SDK.Client) :
  let run := Backend.delegation_route env now now' userDid storachaClient in
  let reply := run.2 in
  (Backend.status reply = 200%Z \/ Backend.status reply = 400%Z
   \/ Backend.status reply = 500%Z)
  /\ (Backend.status reply = 200%Z
      <-> Storage.member "success" (Backend.body reply) = Some (JSON.Bool true))
  /\ (Backend.status reply = 200%Z ->
      Storage.member "expiresAt" (Backend.body reply)
      = Some (JSON.Num (now' / 1000 + 86400))
      /\ In (Backend.EvCreateDelegation userDid
               ["space/blob/add"; "space/index/add"; "filecoin/offer"; "upload/add"]
               (now / 1000 + 86400)%Z) run.1.1
      /\ startsWith userDid "did:" = true
      /\ Backend.has_client run.1.2 = true)
  /\ (Backend.status reply = 400%Z ->
      reply = Backend.failure 400 Backend.invalid_did_message
      /\ startsWith userDid "did:" = false
      /\ List.forallb Backend.is_initialisation run.1.1 = true)
  /\ (Backend.status reply = 500%Z ->
      exists message, message <> "" /\ reply = Backend.failure 500 message).
Proof.
  intros run reply.
  pose proof (delegation_route_cases env now now' userDid storachaClient) as H.
  cbv zeta in H. fold run in H. fold reply in H.
  destruct H as [(text & Hreply & _ & Hdid & Hclient & Hev)
                |[(Hreply & Hdid & Hevs)|(message & Hmessage & Hreply)]];
    rewrite Hreply.
  - split; [by left|]. split; [done|]. split; [|done].
    intros _. split; [|done].
    by destruct (Backend.currentSpace env).
  - split; [right; by left|]. done.
  - split; [right; by right|]. split; [done|]. split; [done|]. split; [done|].
    intros _. by exists message.
Qed.

Lemma backend_cleanBase64_text (input key : string) :
  Backend.cleanBase64 input = Server.Text key -> truthy input = true.
Proof. by destruct input. Qed.

(** X8.  An initialisation that fails after the client has been created
    leaves the client in place.  When the key parses and the client is
    created but parsing the proof throws an error, [initializeStoracha]
    returns [false] and the request that triggered it is answered with
    status 500; yet the variable [storachaClient] is set, so the health
    route reports [storacha: true], both pages show the backend as ready,
    and every later request for a delegation skips the initialisation and
    goes on with that client. *)
Theorem failed_initialisation_keeps_client (env : Backend.Env)
    (privateKey proofString key proof : string) (created : SDK.Client)
    (error : Exn) :
  Backend.STORACHA_PRIVATE_KEY env = Some privateKey ->
  Backend.STORACHA_PROOF env = Some proofString ->
  Backend.cleanBase64 privateKey = Server.Text key -> key <> "" ->
  Backend.cleanBase64 proofString = Server.Text proof -> proof <> "" ->
  Backend.Signer_parse env key = Normal () ->
  Backend.create env = Normal created ->
  Backend.Proof_parse env proof = Throw error ->
  (forall what, exn_kind error <> Thrown what) ->
  let calls := [Backend.EvSignerParse key; Backend.EvCreate;
                Backend.EvProofParse proof] in
  Backend.initializeStoracha env None = (calls, Some created, Normal false)
  /\ (forall now now' userDid,
        Backend.delegation_route env now now' userDid None
        = (calls, Some created,
           Backend.failure 500 Backend.not_configured_message))
  /\ (forall timestamp statusText,
        let health :=
          Api.Resolved (Backend.respond
                          (Backend.health_route timestamp (Some created))
                          statusText) in
        Frontend.checkBackend health = Frontend.ready
        /\ Frontend.checkBackendHealth health = Frontend.ready)
  /\ (forall now now' userDid,
        let run := Backend.delegation_route env now now' userDid (Some created) in
        List.forallb (fun ev => negb (Backend.is_initialisation ev)) run.1.1 = true
        /\ run.1.2 = Some created).
Proof.
  intros Hkey Hproof Hckey Hkey0 Hcproof Hproof0 Hsigner Hcreate Hparse Hkind calls.
  assert (Backend.initializeStoracha env None = (calls, Some created, Normal false))
    as Hinit.
  { unfold Backend.initializeStoracha. rewrite Hkey, Hproof.
    rewrite (backend_cleanBase64_text _ _ Hckey).
    rewrite (backend_cleanBase64_text _ _ Hcproof). cbn [negb orb].
    rewrite Hckey, Hcproof.
    assert (truthy key = true) as -> by by destruct key.
    assert (truthy proof = true) as -> by by destruct proof.
    cbn [negb orb]. unfold Backend.initialize_try.
    rewrite Hsigner, Hcreate. unfold Backend.bind, Backend.call. rewrite Hparse.
    cbn. unfold Backend.initialize_catch.
    destruct (exn_kind error) eqn:Hk; try done. by destruct (Hkind what). }
  split; [done|]. split; [|split].
  - intros now now' userDid. unfold Backend.delegation_route. by rewrite Hinit.
  - intros timestamp statusText health. subst health.
    unfold Frontend.checkBackend, Frontend.checkBackendHealth,
      Frontend.health_status, Backend.respond.
    cbn [Api.body]. by rewrite health_text_parses.
  - intros now now' userDid run. subst run. unfold Backend.delegation_route.
    destruct (startsWith userDid "did:"); cbn [negb]; [|done].
    unfold Backend.bind, Backend.call, Backend.ret, Backend.throw.
    destruct (Backend.DID_parse env userDid); [|done].
    destruct (Backend.createDelegation env userDid _); [|done].
    by destruct (Backend.archive env) as [[?|]|?].
Qed.

Lemma failed_initialisation_keeps_client_witness :
  let env := Scenario.backend (Some (new_Error "Unexpected end of data")) in
  let created := SDK.mkClient (Some "did:key:z6MkServer") in
  Backend.initializeStoracha env None
  = ([Backend.EvSignerParse "MgAAAAAAAAAA"; Backend.EvCreate;
      Backend.EvProofParse "AAAAAAAA"], Some created, Normal false)
  /\ Frontend.checkBackend
       (Api.Resolved (Backend.respond
                        (Backend.health_route "2023-11-14T22:13:20.000Z"
                           (Some created)) "OK"))
     = Frontend.ready
  /\ (Backend.delegation_route env 1700000000000 1700000000002 "did:key:z6MkUser"
        (Some created)).1.1
     = [Backend.EvDIDParse "did:key:z6MkUser";
        Backend.EvCreateDelegation "did:key:z6MkUser" Backend.abilities 1700086400;
        Backend.EvArchive].
Proof.
  intros env created.
  destruct (failed_initialisation_keeps_client env " MgAAAAAAAAAA " "AAAAAAAA"
              "MgAAAAAAAAAA" "AAAAAAAA" created
              (new_Error "Unexpected end of data")
              ltac:(reflexivity) ltac:(reflexivity) ltac:(reflexivity)
              ltac:(discriminate) ltac:(reflexivity) ltac:(discriminate)
              ltac:(reflexivity) ltac:(reflexivity) ltac:(reflexivity)
              ltac:(discriminate))
    as (Hinit & _ & Hhealth & _).
  split; [exact Hinit|]. split; [|reflexivity].
  exact (proj1 (Hhealth "2023-11-14T22:13:20.000Z" "OK")).
Defined.

(** *** The API client against the backend *)

Lemma network_first (env : Backend.Env) (clock : nat -> Z * Z) (userDid : string)
    (statusText : nat -> string) (storachaClient : option SDK.Client) :
  Backend.network env clock userDid statusText storachaClient 0
  = Api.Resolved
      (Backend.respond
         (Backend.delegation_route env (clock 0).1 (clock 0).2 userDid
            storachaClient).2
         (statusText 0)).
Proof.
  unfold Backend.network. cbn [Backend.serve].
  by destruct (Backend.delegation_route _ _ _ _ _) as [[evs client] reply].
Qed.








(** X11.  A delegation the backend issues reaches the storage of the
    caller: when the DID starts with [did:], the client of the backend is
    set and its SDK calls succeed, [getDelegationWithRetry] returns the
    answer after one request; [saveDelegation] of that answer stores the
    base64 text of the archive as [token]; [loadDelegation] returns it until
    the clock of the caller, in whole seconds, passes the expiry the backend
    announced (24 hours after its second clock reading), and
    [hasValidDelegation] holds until 300 seconds before that.  This is for
    a DID that is well-formed text; for a DID with a surrogate that is not
    part of a pair the address cannot be built, no request is sent and the
    call throws [URIError]. *)
Theorem issued_delegation_is_stored (env : Backend.Env) (clock : nat -> Z * Z)
    (userDid did baseURL : string) (statusText : nat -> string)
    (created : SDK.Client) (text : string) (saved : Z)
    (ls : gmap string string) (maxRetries : option nat) (delay : option Z) :
  startsWith userDid "did:" = true ->
  Backend.DID_parse env userDid = Normal () ->
  Backend.createDelegation env userDid ((clock 0%nat).1 / 1000 + 86400)%Z = Normal () ->
  Backend.archive env = Normal (Some text) ->
  0 < default 3 maxRetries ->
  let run :=
    Api.getDelegationWithRetry baseURL
      (Backend.network env clock userDid statusText (Some created))
      did maxRetries delay in
  let expires := ((clock 0%nat).2 / 1000 + 86400)%Z in
  if Text.well_formed did
  then
    exists data ls1,
      run.2 = Normal data
      /\ Api.fetch_count run.1 = 1
      /\ Storage.saveDelegation saved data ls = Normal ls1
      /\ (forall now, (now / 1000 <= expires)%Z ->
            exists stored,
              Storage.loadDelegation now ls1 = Some (ls1, stored)
              /\ Storage.member "token" stored = Some (JSON.Str text)
              /\ Storage.member "expiresAt" stored = Some (JSON.Num expires)
              /\ Storage.member "timestamp" stored = Some (JSON.Num saved))
      /\ (forall now now',
            exists ls2,
              Storage.hasValidDelegation now now' ls1
              = Some (ls2, (now / 1000 <=? expires)%Z
                           && (now' / 1000 + 300 <? expires)%Z))
  else run.2 = Throw (mkExn (Named "URIError") "URI malformed" None)
       /\ Api.fetch_count run.1 = 0.
Proof.
  intros Hdid Hparse Hcreate Harchive Hpos run expires. subst run.
  destruct (Text.well_formed did) eqn:Hwf.
  2:{ destruct (getDelegationWithRetry_no_endpoint baseURL did
                  (Backend.network env clock userDid statusText (Some created))
                  maxRetries delay Hwf Hpos) as (Hresult & Hcount & _).
      by split. }
  set (net := Backend.network env clock userDid statusText (Some created)).
  set (r := Storage.mkDelegationResponse true text expires
              (option_map SDK.did (Backend.currentSpace env))
              (Some "My Storage Space")).
  assert (Api.request (net 0) = Normal (Storage.response_json r)) as Hfirst.
  { unfold net. rewrite network_first. unfold Backend.delegation_route.
    rewrite Hdid. cbn [negb]. unfold Backend.bind, Backend.call, Backend.ret.
    rewrite Hparse. change Backend.lifetime with 86400%Z.
    rewrite Hcreate, Harchive. cbn [snd].
    apply request_success. }
  assert (Api.stops net (default 3 maxRetries) 0 = true) as Hstop
    by (unfold Api.stops; by rewrite Hfirst).
  destruct (getDelegationWithRetry_run baseURL did net maxRetries delay 0
              Hwf Hpos ltac:(intros; lia) Hstop) as (Hresult & Hcount & _).
  exists (Storage.response_json r). eexists.
  split; [by rewrite Hresult|]. split; [done|].
  split; [apply saveDelegation_response|].
  set (ls1 := <["storacha_delegation" := _]> ls).
  assert (ls1 !! "storacha_delegation"
          = Some (JSON.stringify (Storage.stored_delegation saved r)))
    as Hstored by apply lookup_insert_eq.
  split.
  - intros now Hnow. exists (Storage.stored_delegation saved r).
    rewrite (loadDelegation_stored _ _ _ _ Hstored).
    cbn [Storage.expiresAt r].
    destruct (Z.ltb_spec expires (now / 1000)); [lia|].
    split; [done|]. unfold r.
    by destruct (Backend.currentSpace env).
  - intros now now'.
    exists (if (expires <? now / 1000)%Z
            then Storage.clearDelegation ls1 else ls1).
    unfold Storage.hasValidDelegation.
    rewrite (loadDelegation_stored _ _ _ _ Hstored).
    cbn [Storage.expiresAt r]. rewrite Z.leb_antisym.
    destruct (expires <? now / 1000)%Z; [reflexivity|].
    change (JSON.truthy (Storage.stored_delegation saved r)) with true.
    cbn [negb]. by rewrite stored_delegation_expiresAt.
Qed.

Lemma issued_delegation_is_stored_witness :
  let run :=
    Api.getDelegationWithRetry ""
      (Backend.network (Scenario.backend None) Scenario.clock "did:key:z6MkUser"
         (fun _ => "OK") (Some (SDK.mkClient None)))
      "did:key:z6MkUser" None None in
  exists data ls1,
    run.2 = Normal data
    /\ Storage.saveDelegation 1700000000100 data ∅ = Normal ls1
    /\ exists stored,
         Storage.loadDelegation 1700086400999 ls1 = Some (ls1, stored)
         /\ Storage.member "token" stored = Some (JSON.Str "mAYIEAKwV").
Proof.
  destruct (issued_delegation_is_stored (Scenario.backend None) Scenario.clock
              "did:key:z6MkUser" "did:key:z6MkUser" "" (fun _ => "OK")
              (SDK.mkClient None) "mAYIEAKwV" 1700000000100 ∅ None None
              ltac:(reflexivity) ltac:(reflexivity) ltac:(reflexivity)
              ltac:(reflexivity) ltac:(vm_compute; lia))
    as (data & ls1 & Hdata & _ & Hsave & Hload & _).
  exists data, ls1. split; [exact Hdata|]. split; [exact Hsave|].
  destruct (Hload 1700086400999%Z ltac:(vm_compute; discriminate))
    as (stored & Hstored & Htoken & _).
  exists stored. split; [exact Hstored|exact Htoken].
Defined.

(** ** The upload history of the artboard hook *)

(** What one call of [uploadFile] does to the history and leaves alone. *)
Lemma uploadFile_effect (sdk : SDK.Env) (now now' : N) (date : string)
    (file : SDK.File) (description : option string) (st : Artboard.State) :
  let run := Artboard.uploadFile sdk now now' date file description st in
  Artboard.uploadedFiles run.1
  = (History.record_of run.2 ++ Artboard.uploadedFiles st)%list
  /\ Artboard.localStorage run.1
     = match History.record_of run.2 with
       | [] => Artboard.localStorage st
       | _ :: _ =>
           <[Artboard.UPLOADS_KEY :=
               JSON.stringify
                 (JSON.Arr (List.map Artboard.file_json
                              (Artboard.uploadedFiles run.1)))]>
             (Artboard.localStorage st)
       end
  /\ Artboard.client run.1 = Artboard.client st
  /\ Artboard.space run.1 = Artboard.space st
  /\ Artboard.userSession run.1 = Artboard.userSession st
  /\ match run.2 with
     | Artboard.UploadOk cid url record =>
         is_Some (Artboard.client st) /\ is_Some (Artboard.space st)
         /\ SDK.uploadFile sdk file = Normal cid
         /\ record = Artboard.mkUploaded (cid +:+ "-" +:+ pretty now')
                       (SDK.file_name file) (SDK.file_size file)
                       (SDK.file_type file) cid date url
                       (Some (if startsWith (SDK.file_type file) "image/"
                              then url +:+ "?img-width=300&img-height=300&img-fit=cover"
                              else url))
                       description
         /\ url = "https://" +:+ cid +:+ ".ipfs." +:+ Artboard.DEFAULT_GATEWAY
         /\ Artboard.trace run.1
            = (Artboard.trace st
               ++ [SDK.EvSetInterval 300; SDK.EvUploadFile file;
                   SDK.EvClearInterval; SDK.EvSetTimeout 2000])%list
     | Artboard.UploadFailed message =>
         (Artboard.client st = None \/ Artboard.space st = None) /\
         message = History.login_first /\ Artboard.trace run.1 = Artboard.trace st
         \/ is_Some (Artboard.client st) /\ is_Some (Artboard.space st)
            /\ (exists error, SDK.uploadFile sdk file = Throw error)
            /\ Artboard.trace run.1
               = (Artboard.trace st
                  ++ [SDK.EvSetInterval 300; SDK.EvUploadFile file])%list
     end.
Proof.
  intros run. subst run. unfold Artboard.uploadFile.
  destruct (Artboard.client st) as [c|] eqn:Hc, (Artboard.space st) as [sp|] eqn:Hsp.
  - rewrite uploadFile_begin_pending by (rewrite ?Hc, ?Hsp; eauto).
    unfold Artboard.uploadFile_end.
    destruct (SDK.uploadFile sdk file) as [cid|error] eqn:Hupload.
    + cbn. rewrite ?Hc, ?Hsp. rewrite <- ?app_assoc. cbn.
      repeat split; eauto.
    + unfold Artboard.uploadFile_catch. cbn. rewrite ?Hc, ?Hsp.
      repeat split; try done. right. repeat split; eauto.
  - unfold Artboard.uploadFile_begin.
    cbn [Artboard.client Artboard.space Artboard.with_abortControllers
         Artboard.setUploadProgress].
    rewrite ?Hc, ?Hsp. cbn. rewrite ?Hc, ?Hsp. repeat split; try done.
    left. repeat split; eauto.
  - unfold Artboard.uploadFile_begin.
    cbn [Artboard.client Artboard.space Artboard.with_abortControllers
         Artboard.setUploadProgress].
    rewrite ?Hc, ?Hsp. cbn. rewrite ?Hc, ?Hsp. repeat split; try done.
    left. repeat split; eauto.
  - unfold Artboard.uploadFile_begin.
    cbn [Artboard.client Artboard.space Artboard.with_abortControllers
         Artboard.setUploadProgress].
    rewrite ?Hc, ?Hsp. cbn. rewrite ?Hc, ?Hsp. repeat split; try done.
    left. repeat split; eauto.
Qed.






Lemma init_uploadedFiles_ext (ls ls' : gmap string string) :
  ls !! Artboard.UPLOADS_KEY = ls' !! Artboard.UPLOADS_KEY ->
  Artboard.init_uploadedFiles ls = Artboard.init_uploadedFiles ls'.
Proof. unfold Artboard.init_uploadedFiles. by intros ->. Qed.




(** X15.  [cancelUpload] does not stop the upload.  For a pending upload it
    drops the controller, marks the progress entry as failed and arms a
    timer, and makes no call into the SDK; when the SDK then completes the
    upload, [uploadFile] returns the record, puts it into the history and
    marks the entry as completed, whether or not the timer has removed the
    entry in between.  On an identifier without a controller [cancelUpload]
    changes nothing. *)
Theorem cancelUpload_does_not_stop (now now' : N) (date : string)
    (file : SDK.File) (description : option string) (cidString : string)
    (st : Artboard.State) :
  is_Some (Artboard.client st) -> is_Some (Artboard.space st) ->
  let fileId := Artboard.fileId now file in
  let pending := (Artboard.uploadFile_begin now file st).1 in
  let cancelled := History.cancelUpload fileId pending in
  (fileId ∈ Artboard.abortControllers pending)
  /\ (fileId ∉ Artboard.abortControllers cancelled)
  /\ (Artboard.status <$> (Artboard.uploadProgress cancelled !! fileId))
     = Some Artboard.failed
  /\ Artboard.trace cancelled = (Artboard.trace pending ++ [SDK.EvSetTimeout 1000])%list
  /\ (forall timer_fired : bool,
        let st' := if timer_fired then History.forget_progress fileId cancelled
                   else cancelled in
        let run := Artboard.uploadFile_end (Normal cidString) now' date fileId
                     file description st' in
        exists record,
          run.2 = Artboard.UploadOk cidString
                    ("https://" +:+ cidString +:+ ".ipfs.storacha.link") record
          /\ Artboard.uploadedFiles run.1 = record :: Artboard.uploadedFiles st
          /\ (Artboard.status <$> (Artboard.uploadProgress run.1 !! fileId))
             = Some Artboard.completed)
  /\ (forall other,
        other ∉ Artboard.abortControllers st -> History.cancelUpload other st = st).
Proof.
  intros Hc Hsp fileId pending cancelled. subst pending cancelled.
  rewrite uploadFile_begin_pending by done. fold fileId.
  unfold History.cancelUpload. cbn [Artboard.abortControllers].
  assert (fileId ∈ ({[fileId]} ∪ Artboard.abortControllers st : gset string))
    as Hin by (apply elem_of_union_l; by apply elem_of_singleton).
  rewrite decide_True by done.
  split; [done|]. split.
  { cbn. intros [_ Hout]%elem_of_difference. apply Hout.
    by apply elem_of_singleton. }
  split; [cbn; by rewrite !lookup_insert_eq|]. split; [done|]. split.
  - intros [|]; eexists; cbn; (split; [reflexivity|]); (split; [reflexivity|]);
      by rewrite ?lookup_insert_eq, ?lookup_delete_eq.
  - intros other Hother. by rewrite decide_False.
Qed.

Lemma cancelUpload_does_not_stop_witness :
  let fileId := Artboard.fileId 1700000000000 Sample.photo in
  let pending := (Artboard.uploadFile_begin 1700000000000 Sample.photo
                    Sample.logged_in).1 in
  let cancelled := History.cancelUpload fileId pending in
  (Artboard.status <$> (Artboard.uploadProgress cancelled !! fileId))
  = Some Artboard.failed
  /\ exists record,
       (Artboard.uploadFile_end (Normal "bafybeigdyrzt5sfp7udm7hu76uh7y26nf3efuylqabf3oclgtqy55fbzdi")
          1700000001500 "2023-11-14T22:13:21.500Z" fileId Sample.photo None
          cancelled).2
       = Artboard.UploadOk
           "bafybeigdyrzt5sfp7udm7hu76uh7y26nf3efuylqabf3oclgtqy55fbzdi"
           "https://bafybeigdyrzt5sfp7udm7hu76uh7y26nf3efuylqabf3oclgtqy55fbzdi.ipfs.storacha.link"
           record.
Proof.
  destruct (cancelUpload_does_not_stop 1700000000000 1700000001500
              "2023-11-14T22:13:21.500Z" Sample.photo None
              "bafybeigdyrzt5sfp7udm7hu76uh7y26nf3efuylqabf3oclgtqy55fbzdi"
              Sample.logged_in ltac:(vm_compute; eauto) ltac:(vm_compute; eauto))
    as (_ & _ & Hfailed & _ & Hend & _).
  split; [exact Hfailed|].
  destruct (Hend false) as (record & Hresult & _).
  exists record. exact Hresult.
Defined.

(** X16.  [logout] ends the session and keeps the history.  After it the
    session in the state and the one a new mount would read are the empty
    session, the hook is not connected, and an upload fails with the
    login-first message without any call into the SDK; the upload history
    in the state and in the storage is as before, so a hook mounted on the
    storage after the logout starts logged out and shows the same history. *)
Theorem logout_keeps_history (sdk : SDK.Env) (st : Artboard.State) :
  let out := History.logout st in
  Artboard.userSession out = Session.session_json Session.empty_session
  /\ Session.init_userSession (Artboard.localStorage out)
     = Normal (Session.session_json Session.empty_session)
  /\ Artboard.isConnected out = false
  /\ Artboard.client out = None
  /\ Artboard.uploadProgress out = ∅
  /\ (forall now now' date file description,
        let run := Artboard.uploadFile sdk now now' date file description out in
        run.2 = Artboard.UploadFailed History.login_first
        /\ Artboard.trace run.1 = Artboard.trace st)
  /\ Artboard.uploadedFiles out = Artboard.uploadedFiles st
  /\ Artboard.localStorage out !! Artboard.UPLOADS_KEY
     = Artboard.localStorage st !! Artboard.UPLOADS_KEY
  /\ (History.mirrored st ->
      Artboard.useStoracha (Artboard.localStorage out)
      = Artboard.InitOk
          (Artboard.mkState (Artboard.localStorage out) None None false
             (Artboard.uploadedFiles st) None false
             (Session.session_json Session.empty_session) ∅ ∅ [])).
Proof.
  intros out.
  assert (Artboard.localStorage out !! Session.SESSION_KEY = None) as Hsession
    by apply lookup_delete_eq.
  assert (Artboard.localStorage out !! Artboard.UPLOADS_KEY
          = Artboard.localStorage st !! Artboard.UPLOADS_KEY) as Huploads
    by (cbn; by rewrite lookup_delete_ne).
  split; [done|]. split; [by apply init_userSession_absent|].
  split; [done|]. split; [done|]. split; [done|]. split.
  { intros now now' date file description run. by subst run. }
  split; [done|]. split; [done|].
  intros Hst. unfold Artboard.useStoracha.
  rewrite (init_uploadedFiles_ext _ _ Huploads), Hst.
  by rewrite init_userSession_absent.
Qed.

Lemma logout_keeps_history_witness :
  let st := (Artboard.uploadFile Sample.ready_sdk 1700000000000 1700000001500
               "2023-11-14T22:13:21.500Z" Sample.photo None Sample.logged_in).1 in
  let out := History.logout st in
  exists after,
    Artboard.useStoracha (Artboard.localStorage out) = Artboard.InitOk after
    /\ Artboard.userSession after = Session.session_json Session.empty_session
    /\ List.map Artboard.name (Artboard.uploadedFiles after) = ["photo.png"].
Proof.
  intros st out.
  destruct (logout_keeps_history Sample.ready_sdk st)
    as (_ & _ & _ & _ & _ & _ & _ & _ & Hmount).
  eexists. split; [exact (Hmount ltac:(reflexivity))|]. split; reflexivity.
Defined.

Lemma getShareableLink_gateway (cid : string) (fileName : option string) :
  Utils.extractCID cid = cid -> Utils.isValidCID cid = true ->
  match fileName with
  | Some f => startsWith f "/" = false
  | None => True
  end ->
  History.getShareableLink cid fileName
  = Utils.createGatewayURL cid fileName (Some Artboard.DEFAULT_GATEWAY).
Proof.
  intros Hid Hvalid Hname. unfold Utils.createGatewayURL, History.getShareableLink.
  rewrite Hid, Hvalid. cbn [negb default from_option id].
  destruct fileName as [f|]; cbn [Utils.filename_suffix].
  - destruct (truthy f); [|cbn [Utils.with_suffix]; by rewrite sapp_nil_r].
    rewrite clean_filename_id by done.
    destruct (Text.encodeURIComponent f); [|done].
    cbn [Utils.with_suffix]. by rewrite !app_assoc_s.
  - cbn [Utils.with_suffix]. by rewrite sapp_nil_r.
Qed.

(** X17.  The link the hook shares is the gateway URL of the CID utility:
    for an identifier that [extractCID] leaves as it is and [isValidCID]
    accepts, and a file name that does not start with [/],
    [getShareableLink] ends as [createGatewayURL] does for the gateway
    [storacha.link]: with the same URL, or with the [URIError] of a file
    name that cannot be encoded.  The [gatewayUrl] of the record of a
    completed upload is the shareable link of its identifier, and
    [extractCID] finds the identifier in the link when it has no dots. *)
Theorem getShareableLink_is_gateway_url (cid : string) (fileName : option string) :
  Utils.extractCID cid = cid ->
  Utils.isValidCID cid = true ->
  match fileName with
  | Some f => startsWith f "/" = false
  | None => True
  end ->
  History.getShareableLink cid fileName
  = Utils.createGatewayURL cid fileName (Some "storacha.link")
  /\ (forall f, fileName = Some f -> f <> "" ->
        History.getShareableLink cid fileName
        = if Text.well_formed f
          then Normal ("https://" +:+ cid +:+ ".ipfs.storacha.link/"
                       +:+ percent_encode f)
          else Throw (mkExn (Named "URIError") "URI malformed" None))
  /\ (forall sdk now now' date file description st url record,
        (Artboard.uploadFile sdk now now' date file description st).2
        = Artboard.UploadOk cid url record ->
        History.getShareableLink cid None = Normal url
        /\ Artboard.gatewayUrl record = url)
  /\ (JS.forallb Utils.plain cid = true ->
      forall link, History.getShareableLink cid fileName = Normal link ->
                   Utils.extractCID link = cid).
Proof.
  intros Hid Hvalid Hname.
  pose proof (getShareableLink_gateway cid fileName Hid Hvalid Hname) as Hlink.
  split; [exact Hlink|]. split; [|split].
  - intros f -> Hf. unfold History.getShareableLink, Text.encodeURIComponent.
    assert (truthy f = true) as -> by (by destruct f).
    destruct (Text.well_formed f); [|done].
    unfold Artboard.DEFAULT_GATEWAY. by rewrite !app_assoc_s.
  - intros sdk now now' date file description st url record Hrun.
    pose proof (uploadFile_effect sdk now now' date file description st) as Heffect.
    cbv zeta in Heffect. rewrite Hrun in Heffect.
    destruct Heffect as (_ & _ & _ & _ & _ & _ & _ & _ & -> & -> & _).
    done.
  - intros Hplain link Hnormal. rewrite Hlink in Hnormal.
    apply createGatewayURL_inv in Hnormal as (_ & suffix & Hsuffix & ->).
    rewrite Hid. cbn [default from_option id].
    apply extractCID_of_gateway_url; try done.
    + by apply isValidCID_nonempty.
    + by apply (filename_suffix_path_or_empty fileName).
Qed.

Lemma getShareableLink_is_gateway_url_witness :
  History.getShareableLink
    "QmYwAPJzv5CZsnA625s3Xf2nemtYgPpHdWEz79ojWnPbdG" (Some "a b.png")
  = Utils.createGatewayURL "QmYwAPJzv5CZsnA625s3Xf2nemtYgPpHdWEz79ojWnPbdG"
      (Some "a b.png") (Some "storacha.link").
Proof.
  exact (proj1 (getShareableLink_is_gateway_url
                  "QmYwAPJzv5CZsnA625s3Xf2nemtYgPpHdWEz79ojWnPbdG"
                  (Some "a b.png") ltac:(reflexivity) ltac:(reflexivity)
                  ltac:(reflexivity))).
Defined.

Example getShareableLink_leading_slash :
  History.getShareableLink "QmYwAPJzv5CZsnA625s3Xf2nemtYgPpHdWEz79ojWnPbdG"
    (Some "/a.png")
  = Normal "https://QmYwAPJzv5CZsnA625s3Xf2nemtYgPpHdWEz79ojWnPbdG.ipfs.storacha.link/%2Fa.png"
  /\ Utils.createGatewayURL "QmYwAPJzv5CZsnA625s3Xf2nemtYgPpHdWEz79ojWnPbdG"
       (Some "/a.png") (Some "storacha.link")
     = Normal "https://QmYwAPJzv5CZsnA625s3Xf2nemtYgPpHdWEz79ojWnPbdG.ipfs.storacha.link/a.png".
Proof. split; reflexivity. Qed.

(** The hook does not validate the identifier, and the utility counts its
    length in code units: for [k] and fifteen times U+00E9 the hook returns
    a link where [createGatewayURL] throws. *)
Example getShareableLink_not_validated :
  let cid := String "k" (Text.bytes_text
               (List.concat (List.repeat [195; 169]%N 15)) "") in
  Utils.extractCID cid = cid
  /\ Utils.isValidCID cid = false
  /\ History.getShareableLink cid None
     = Normal ("https://" +:+ cid +:+ ".ipfs.storacha.link")
  /\ Utils.createGatewayURL cid None (Some "storacha.link")
     = Throw (new_Error ("Invalid CID: " +:+ cid)).
Proof. repeat split; reflexivity. Qed.

(** ** The upload-demo hook after a reload *)

(** The session that a completed bootstrap hands to [saveSession]. *)
Lemma bootstrap_session (sdk : SDK.Env) (cfg : Bootstrap.DelegationConfig)
    (evs : list SDK.Event) (session : Session.UserSession)
    (storachaClient : SDK.Client) (currentSpace : SDK.Space) :
  Bootstrap.bootstrap sdk cfg
  = (evs, Normal (session, storachaClient, currentSpace)) ->
  session = Session.mkSession "delegation@user" true (Some Session.delegation)
              (Some (SDK.did currentSpace)) (SDK.agent_did storachaClient).
Proof.
  unfold Bootstrap.bootstrap.
  destruct (negb _ || _); [done|]. destruct (negb _ || _); [done|].
  rewrite bind_call. destruct (SDK.Signer_parse sdk _); [|done].
  rewrite bind_call. destruct (SDK.create sdk) as [c|]; [|done].
  rewrite bind_call. destruct (SDK.Proof_parse sdk _) as [p|]; [|done].
  cbn [fst snd]. destruct (0 <? _)%nat; [done|].
  rewrite bind_call. destruct (SDK.addSpace sdk p); [|done].
  rewrite bind_call. destruct (SDK.spaces sdk) as [known|]; [|done].
  cbn [fst snd].
  destruct (Bootstrap.select_space _ known) as [sp|]; [|done].
  rewrite bind_call. destruct (SDK.setCurrentSpace sdk _); [|done].
  cbn [fst snd SDK.ret]. by intros [= _ <- <- <-].
Qed.

Lemma setupDelegation_true (sdk : SDK.Env) (cfg : Bootstrap.DelegationConfig)
    (st : UploadDemo.State) :
  (UploadDemo.setupDelegation sdk cfg st).2 = true ->
  exists evs storachaClient currentSpace,
    UploadDemo.setupDelegation sdk cfg st
    = (UploadDemo.mkState
         (<[Session.SESSION_KEY :=
              JSON.stringify
                (Session.session_json
                   (Session.mkSession "delegation@user" true
                      (Some Session.delegation) (Some (SDK.did currentSpace))
                      (SDK.agent_did storachaClient)))]>
            (UploadDemo.localStorage st))
         (Some storachaClient) (Some currentSpace)
         (Some (SDK.did currentSpace)) false (UploadDemo.isUploading st) None
         (Session.session_json
            (Session.mkSession "delegation@user" true
               (Some Session.delegation) (Some (SDK.did currentSpace))
               (SDK.agent_did storachaClient)))
         (UploadDemo.trace st ++ evs),
       true).
Proof.
  destruct (Bootstrap.bootstrap sdk cfg) as [evs [[[session c] sp]|err]] eqn:Hb.
  - intros _. exists evs, c, sp.
    rewrite (setupDelegation_success _ _ _ _ _ _ _ Hb).
    by rewrite (bootstrap_session _ _ _ _ _ _ Hb).
  - by rewrite (setupDelegation_failure _ _ _ _ _ Hb).
Qed.

(** Mounting the hook on a storage whose session was written by
    [saveSession]. *)
Lemma demo_useStoracha_saved (storage : gmap string string)
    (session : Session.UserSession) :
  storage !! Session.SESSION_KEY
  = Some (JSON.stringify (Session.session_json session)) ->
  UploadDemo.useStoracha storage
  = Normal (UploadDemo.mkState storage None None None false false None
              (Session.session_json session) []).
Proof.
  intros H. unfold UploadDemo.useStoracha.
  by rewrite (init_userSession_parsed _ _ _ H (session_text_parses session)).
Qed.

Lemma demo_useStoracha_absent (storage : gmap string string) :
  storage !! Session.SESSION_KEY = None ->
  UploadDemo.useStoracha storage
  = Normal (UploadDemo.mkState storage None None None false false None
              (Session.session_json Session.empty_session) []).
Proof.
  intros H. unfold UploadDemo.useStoracha.
  by rewrite (init_userSession_absent _ H).
Qed.

(** The guard of the effect on a session written by [saveSession]. *)
Lemma initializeFromSession_guard (sdk : SDK.Env) (st : UploadDemo.State)
    (session : Session.UserSession) :
  UploadDemo.userSession st = Session.session_json session ->
  Demo.initializeFromSession sdk st
  = if Session.isLoggedIn session
       && match Session.method session with
          | Some Session.delegation => true
          | _ => false
          end
       && negb (bool_decide (is_Some (UploadDemo.client st)))
    then Normal (Demo.initializeClient sdk st).1
    else Normal st.
Proof.
  intros H. unfold Demo.initializeFromSession. rewrite H.
  by destruct session as [e [] [[]|] sd ad].
Qed.

(** X19 (upload-demo hook, [setupDelegation], the [userSession] initialiser,
    the effect [initializeFromSession], [initializeClient], [uploadFile]):
    a delegation set up with success does not survive a reload.  Mounted on
    the storage that [setupDelegation] left, the hook reads the session as
    logged in by delegation and its effect runs [initializeClient], which
    only creates a client and lists its spaces: neither key nor proof is
    parsed again.  When that client has an agent and knows no space, the hook
    ends with a client, no space, [isReady] false and no error, the session
    still saying logged in; the effect then stays idle, and [uploadFile]
    fails with the request to set up the delegation first, without a call. *)
Theorem delegation_is_lost_on_reload (sdk sdk' : SDK.Env)
    (cfg : Bootstrap.DelegationConfig) (st : UploadDemo.State)
    (storachaClient : SDK.Client) (agentDid : string) :
  (UploadDemo.setupDelegation sdk cfg st).2 = true ->
  SDK.create sdk' = Normal storachaClient ->
  SDK.agent_did storachaClient = Some agentDid ->
  SDK.spaces sdk' = Normal [] ->
  exists (reloaded : UploadDemo.State) (session : Session.UserSession),
    Demo.mount sdk'
      (UploadDemo.localStorage (UploadDemo.setupDelegation sdk cfg st).1)
    = Normal reloaded
    /\ UploadDemo.userSession reloaded = Session.session_json session
    /\ Session.isLoggedIn session = true
    /\ Session.method session = Some Session.delegation
    /\ UploadDemo.trace reloaded = [SDK.EvCreate; SDK.EvSpaces]
    /\ UploadDemo.client reloaded = Some storachaClient
    /\ UploadDemo.space reloaded = None
    /\ UploadDemo.spaceDid reloaded = None
    /\ Demo.isReady reloaded = false
    /\ UploadDemo.error reloaded = None
    /\ UploadDemo.isInitializing reloaded = false
    /\ Demo.initializeFromSession sdk' reloaded = Normal reloaded
    /\ forall (now : N) (date : string) (file : SDK.File),
         Demo.uploadFile sdk' now date file reloaded
         = (reloaded,
            Demo.UploadFailed (SDK.file_size file) (SDK.file_name file)
              Demo.setup_first).
Proof.
  intros Hok Hcreate Hagent Hspaces.
  destruct (setupDelegation_true _ _ _ Hok) as (evs & c & sp & ->).
  cbn [fst UploadDemo.localStorage].
  set (session := Session.mkSession _ _ _ _ _).
  unfold Demo.mount.
  rewrite (demo_useStoracha_saved _ session) by apply lookup_insert_eq.
  rewrite (initializeFromSession_guard _ _ session) by done.
  cbn [Session.isLoggedIn Session.method session andb UploadDemo.client].
  rewrite bool_decide_eq_false_2 by (by intros [? [=]]).
  cbn [negb].
  unfold Demo.initializeClient, Demo.initializeClient_try.
  rewrite Hcreate. unfold Demo.agent_did_of. rewrite Hagent, Hspaces.
  eexists _, session. split; [reflexivity|].
  cbn. repeat split.
Qed.

Lemma delegation_is_lost_on_reload_witness :
  let fresh := Sample.sdk (Some Sample.full_capabilities) [] in
  exists (reloaded : UploadDemo.State) (session : Session.UserSession),
    Demo.mount fresh
      (UploadDemo.localStorage
         (UploadDemo.setupDelegation Sample.ready_sdk (Sample.config None)
            Sample.demo).1)
    = Normal reloaded
    /\ UploadDemo.userSession reloaded = Session.session_json session
    /\ Session.isLoggedIn session = true
    /\ Session.method session = Some Session.delegation
    /\ UploadDemo.trace reloaded = [SDK.EvCreate; SDK.EvSpaces]
    /\ UploadDemo.client reloaded
       = Some (SDK.mkClient (Some "did:key:z6MkAgent"))
    /\ UploadDemo.space reloaded = None
    /\ UploadDemo.spaceDid reloaded = None
    /\ Demo.isReady reloaded = false
    /\ UploadDemo.error reloaded = None
    /\ UploadDemo.isInitializing reloaded = false
    /\ Demo.initializeFromSession fresh reloaded = Normal reloaded
    /\ forall (now : N) (date : string) (file : SDK.File),
         Demo.uploadFile fresh now date file reloaded
         = (reloaded,
            Demo.UploadFailed (SDK.file_size file) (SDK.file_name file)
              Demo.setup_first).
Proof.
  exact (delegation_is_lost_on_reload Sample.ready_sdk
           (Sample.sdk (Some Sample.full_capabilities) [])
           (Sample.config None) Sample.demo
           (SDK.mkClient (Some "did:key:z6MkAgent")) "did:key:z6MkAgent"
           eq_refl eq_refl eq_refl eq_refl).
Defined.

(** ** The session of the upload-demo hook and its storage *)

Lemma session_kept_ext (st st' : UploadDemo.State) :
  UploadDemo.localStorage st' = UploadDemo.localStorage st ->
  UploadDemo.userSession st' = UploadDemo.userSession st ->
  Demo.session_kept st -> Demo.session_kept st'.
Proof.
  intros Hls Hs (session & d & H1 & H2 & H3). exists session, d.
  by rewrite Hls, Hs.
Qed.

Lemma session_kept_saved (st : UploadDemo.State)
    (session : Session.UserSession) (d : string) :
  Session.spaceDid session = Some d ->
  UploadDemo.localStorage st !! Session.SESSION_KEY
  = Some (JSON.stringify (Session.session_json session)) ->
  UploadDemo.userSession st = Session.session_json session ->
  Demo.session_kept st.
Proof.
  intros Hd Hls Hs. exists session, d. repeat split; [done..|].
  rewrite Hs.
  apply (init_userSession_parsed _ _ _ Hls (session_text_parses session)).
Qed.

Lemma session_kept_cleared (st : UploadDemo.State) :
  UploadDemo.localStorage st !! Session.SESSION_KEY = None ->
  UploadDemo.userSession st = Session.session_json Session.empty_session ->
  Demo.session_kept st.
Proof.
  intros Hls Hs. exists Session.empty_session, "". repeat split; [done..|].
  rewrite Hs. by apply init_userSession_absent.
Qed.

Lemma setupDelegation_kept (sdk : SDK.Env) (cfg : Bootstrap.DelegationConfig)
    (st : UploadDemo.State) :
  Demo.session_kept st ->
  Demo.session_kept (UploadDemo.setupDelegation sdk cfg st).1.
Proof.
  intros Hkept.
  destruct (Bootstrap.bootstrap sdk cfg) as [evs [[[session c] sp]|err]] eqn:Hb.
  - rewrite (setupDelegation_success _ _ _ _ _ _ _ Hb).
    apply (session_kept_saved _ session (SDK.did sp));
      [by rewrite (bootstrap_session _ _ _ _ _ _ Hb)
      |apply lookup_insert_eq|done].
  - rewrite (setupDelegation_failure _ _ _ _ _ Hb).
    by apply (session_kept_ext st).
Qed.

Lemma initializeClient_kept (sdk : SDK.Env) (st : UploadDemo.State) :
  Demo.session_kept st -> Demo.session_kept (Demo.initializeClient sdk st).1.
Proof.
  intros Hkept. unfold Demo.initializeClient, Demo.initializeClient_try.
  destruct (SDK.create sdk) as [c|e]; [|by apply (session_kept_ext st)].
  unfold Demo.agent_did_of.
  destruct (SDK.agent_did c) as [agentDid|]; [|by apply (session_kept_ext st)].
  destruct (SDK.spaces sdk) as [[|sp rest]|e];
    [by apply (session_kept_ext st)| |by apply (session_kept_ext st)].
  destruct (SDK.setCurrentSpace sdk (SDK.did sp)) as [[]|e];
    [|by apply (session_kept_ext st)].
  eapply session_kept_saved; [|apply lookup_insert_eq|]; done.
Qed.

(** [{...session, spaceDid}] on a session that has a space DID. *)
Lemma set_spaceDid (session : Session.UserSession) (d0 d : string) :
  Session.spaceDid session = Some d0 ->
  exists fields,
    Session.session_json session = JSON.Obj fields
    /\ JSON.Obj (JSON.set_field "spaceDid" (JSON.Str d) fields)
       = Session.session_json
           (Session.mkSession (Session.session_email session)
              (Session.isLoggedIn session) (Session.method session) (Some d)
              (Session.agentDid session)).
Proof.
  destruct session as [e b m sd ad]. cbn [Session.spaceDid]. intros ->.
  eexists. split; [reflexivity|]. reflexivity.
Qed.

Lemma refreshSpaces_kept (sdk : SDK.Env) (st : UploadDemo.State) :
  Demo.session_kept st ->
  exists st', Demo.refreshSpaces sdk st = Some st' /\ Demo.session_kept st'.
Proof.
  intros Hkept. unfold Demo.refreshSpaces.
  destruct (UploadDemo.client st) as [c|]; [|by exists st].
  destruct (SDK.spaces sdk) as [[|sp rest]|e];
    [eexists; split; [done|]; by apply (session_kept_ext st)|
    |eexists; split; [done|]; by apply (session_kept_ext st)].
  destruct (SDK.setCurrentSpace sdk (SDK.did sp)) as [[]|e];
    [|eexists; split; [done|]; by apply (session_kept_ext st)].
  destruct Hkept as (session & d0 & Hs & Hd & _).
  destruct (set_spaceDid session d0 (SDK.did sp) Hd) as (fields & Hf & Hset).
  cbn [UploadDemo.userSession Demo.setSpaceDid Demo.setSpace Demo.log].
  rewrite Hs, Hf. cbn [Demo.spread]. rewrite Hset.
  eexists. split; [done|].
  eapply session_kept_saved; [|apply lookup_insert_eq|]; done.
Qed.

Lemma demo_uploadFile_keeps (sdk : SDK.Env) (now : N) (date : string)
    (file : SDK.File) (st : UploadDemo.State) :
  let run := Demo.uploadFile sdk now date file st in
  UploadDemo.localStorage run.1 = UploadDemo.localStorage st
  /\ UploadDemo.userSession run.1 = UploadDemo.userSession st
  /\ UploadDemo.client run.1 = UploadDemo.client st
  /\ UploadDemo.space run.1 = UploadDemo.space st
  /\ UploadDemo.spaceDid run.1 = UploadDemo.spaceDid st
  /\ UploadDemo.isInitializing run.1 = UploadDemo.isInitializing st.
Proof.
  unfold Demo.uploadFile.
  destruct (UploadDemo.client st) eqn:Hc, (UploadDemo.space st) eqn:Hsp;
    try destruct (SDK.uploadFile sdk file); repeat split; done.
Qed.

Lemma demo_mount_kept (sdk : SDK.Env) (st : UploadDemo.State) :
  Demo.session_kept st ->
  exists st',
    Demo.mount sdk (UploadDemo.localStorage st) = Normal st'
    /\ Demo.session_kept st'.
Proof.
  intros (session & d & Hs & Hd & Hinit). unfold Demo.mount.
  unfold UploadDemo.useStoracha. rewrite Hinit, Hs.
  set (st0 := UploadDemo.mkState _ _ _ _ _ _ _ _ _).
  assert (Demo.session_kept st0) as Hkept.
  { exists session, d. repeat split; [done..|]. subst st0.
    cbn [UploadDemo.localStorage UploadDemo.userSession]. by rewrite <- Hs. }
  rewrite (initializeFromSession_guard _ _ session) by done.
  destruct (_ && _ && _); eexists; (split; [reflexivity|]);
    [by apply initializeClient_kept|done].
Qed.

(** X20 (upload-demo hook, [saveSession], [clearSession], the [userSession]
    initialiser, [setupDelegation], [initializeClient], [refreshSpaces],
    [uploadFile], [logout], the effect): the stored session mirrors the one
    in the hook's state.  A hook mounted on a storage without a session starts
    from the empty session, which its storage reads as; and from a state
    whose session the hook wrote and whose storage reads as that session,
    every callback, ended in success or failure, leads to such a state again,
    as does a reload, which starts from the same session. *)
Theorem demo_session_is_kept (sdk : SDK.Env) :
  (forall storage : gmap string string,
     storage !! Session.SESSION_KEY = None ->
     exists st,
       Demo.mount sdk storage = Normal st
       /\ UploadDemo.userSession st
          = Session.session_json Session.empty_session
       /\ UploadDemo.trace st = []
       /\ Demo.session_kept st)
  /\ forall st : UploadDemo.State,
       Demo.session_kept st ->
       (forall cfg, Demo.session_kept (UploadDemo.setupDelegation sdk cfg st).1)
       /\ Demo.session_kept (Demo.initializeClient sdk st).1
       /\ (exists st',
             Demo.refreshSpaces sdk st = Some st' /\ Demo.session_kept st')
       /\ (forall now date file,
             Demo.session_kept (Demo.uploadFile sdk now date file st).1)
       /\ Demo.session_kept (Demo.logout st)
       /\ (exists st',
             UploadDemo.useStoracha (UploadDemo.localStorage st) = Normal st'
             /\ UploadDemo.userSession st' = UploadDemo.userSession st)
       /\ exists st',
            Demo.mount sdk (UploadDemo.localStorage st) = Normal st'
            /\ Demo.session_kept st'.
Proof.
  split.
  - intros storage Habsent. unfold Demo.mount.
    rewrite (demo_useStoracha_absent _ Habsent).
    eexists. split; [reflexivity|]. repeat split.
    by apply session_kept_cleared.
  - intros st Hkept. repeat split.
    + intros cfg. by apply setupDelegation_kept.
    + by apply initializeClient_kept.
    + by apply refreshSpaces_kept.
    + intros now date file.
      destruct (demo_uploadFile_keeps sdk now date file st) as (Hls & Hs & _).
      by apply (session_kept_ext st).
    + apply session_kept_cleared; [apply lookup_delete_eq|done].
    + destruct Hkept as (session & d & Hs & Hd & Hinit).
      unfold UploadDemo.useStoracha. rewrite Hinit. by eexists.
    + by apply demo_mount_kept.
Qed.

(** X21 (upload-demo hook, [logout], [clearSession], [uploadFile], the
    effect): [logout] leaves no client, space or error, the empty session in
    the state and no session in the storage, whose other keys it keeps, and
    makes no call.  Afterwards the hook is not ready, [uploadFile] fails with
    the request to set up the delegation first, and a hook mounted on the
    storage starts from the empty session without a call: the effect does
    not initialise a client. *)
Theorem demo_logout_ends_session (sdk : SDK.Env) (st : UploadDemo.State) :
  let out := Demo.logout st in
  UploadDemo.client out = None
  /\ UploadDemo.space out = None
  /\ UploadDemo.spaceDid out = None
  /\ UploadDemo.error out = None
  /\ Demo.isReady out = false
  /\ UploadDemo.userSession out = Session.session_json Session.empty_session
  /\ UploadDemo.localStorage out
     = delete Session.SESSION_KEY (UploadDemo.localStorage st)
  /\ UploadDemo.trace out = UploadDemo.trace st
  /\ (forall now date file,
        Demo.uploadFile sdk now date file out
        = (out, Demo.UploadFailed (SDK.file_size file) (SDK.file_name file)
                  Demo.setup_first))
  /\ Demo.mount sdk (UploadDemo.localStorage out)
     = Normal (UploadDemo.mkState (UploadDemo.localStorage out) None None None
                 false false None
                 (Session.session_json Session.empty_session) []).
Proof.
  cbv zeta. repeat split.
  unfold Demo.mount.
  rewrite demo_useStoracha_absent by apply lookup_delete_eq.
  reflexivity.
Qed.

(** ** The two hooks on the same upload *)

Lemma upload_error_message (err : Exn) :
  truthy (exn_message err) = true ->
  (forall what, exn_kind err <> Thrown what) ->
  Demo.message_of "Upload failed" (Artboard.upload_error err)
  = Bootstrap.message_or "Upload failed" (Artboard.upload_error err).
Proof.
  intros Hmsg Hkind. unfold Artboard.upload_error.
  destruct (_ || _ || _).
  - unfold Demo.message_of, Bootstrap.message_or, new_Error.
    cbn [exn_kind exn_message].
    by rewrite sapp_cons.
  - unfold Demo.message_of, Bootstrap.message_or. rewrite Hmsg.
    destruct (exn_kind err) eqn:Hk; try done. by destruct (Hkind what).
Qed.

(** X18 (both hooks, [uploadFile]): on the same file and the same answer of
    the SDK, with a client and a space in each hook, the two hooks succeed
    or fail together.  On success they return the same CID and the same
    gateway URL, which the artboard hook returns as [url] while the
    upload-demo hook returns [ipfs://<cid>] there; the records agree except
    that the upload-demo hook leaves the thumbnail of a file that is no
    image undefined and has no description.  The artboard hook stores the
    record, the upload-demo hook writes nothing to the storage.  On failure
    the messages agree when the SDK threw an [Error] with a message. *)
Theorem hooks_agree_on_upload (sdk : SDK.Env) (now now' : N) (date : string)
    (file : SDK.File) (description : option string) (st : Artboard.State)
    (st' : UploadDemo.State) :
  is_Some (Artboard.client st) -> is_Some (Artboard.space st) ->
  is_Some (UploadDemo.client st') -> is_Some (UploadDemo.space st') ->
  let run := Artboard.uploadFile sdk now now' date file description st in
  let run' := Demo.uploadFile sdk now' date file st' in
  UploadDemo.localStorage run'.1 = UploadDemo.localStorage st'
  /\ match run.2, run'.2 with
     | Artboard.UploadOk cid url record,
       Demo.UploadOk cid' url' gatewayUrl size name record' =>
         SDK.uploadFile sdk file = Normal cid
         /\ cid' = cid /\ gatewayUrl = url /\ url' = "ipfs://" +:+ cid
         /\ size = SDK.file_size file /\ name = SDK.file_name file
         /\ record'
            = Artboard.mkUploaded (Artboard.id record) (Artboard.name record)
                (Artboard.size record) (Artboard.type record)
                (Artboard.cid record) (Artboard.uploadedAt record)
                (Artboard.gatewayUrl record)
                (if startsWith (SDK.file_type file) "image/"
                 then Artboard.thumbnailUrl record else None)
                None
         /\ Artboard.localStorage run.1 !! Artboard.UPLOADS_KEY
            = Some (JSON.stringify
                      (JSON.Arr (List.map Artboard.file_json
                                   (record :: Artboard.uploadedFiles st))))
     | Artboard.UploadFailed message, Demo.UploadFailed size name message' =>
         exists err,
           SDK.uploadFile sdk file = Throw err
           /\ size = SDK.file_size file /\ name = SDK.file_name file
           /\ (truthy (exn_message err) = true ->
               (forall what, exn_kind err <> Thrown what) ->
               message' = message)
     | _, _ => False
     end.
Proof.
  intros [c Hc] [sp Hsp] [c' Hc'] [sp' Hsp'].
  unfold Artboard.uploadFile, Artboard.uploadFile_begin, Demo.uploadFile.
  cbn [Artboard.client Artboard.space Artboard.setUploadProgress
       Artboard.with_abortControllers].
  rewrite Hc, Hsp, Hc', Hsp'. cbn [fst snd Artboard.log].
  unfold Artboard.uploadFile_end.
  destruct (SDK.uploadFile sdk file) as [cid|err] eqn:Hup.
  - cbn [fst snd]. split; [done|]. repeat split.
    + by destruct (startsWith (SDK.file_type file) "image/").
    + cbn. apply lookup_insert_eq.
  - cbn [fst snd Artboard.uploadFile_catch]. split; [done|].
    exists err. repeat split. intros Hmsg Hkind.
    by apply upload_error_message.
Qed.

Lemma hooks_agree_on_upload_witness :
  let sdk := Sample.ready_sdk in
  let st' := (UploadDemo.setupDelegation sdk (Sample.config None) Sample.demo).1 in
  let run :=
    Artboard.uploadFile sdk 1700000000000 1700000000900
      "2023-11-14T22:13:20.900Z" Sample.photo None Sample.logged_in in
  let run' :=
    Demo.uploadFile sdk 1700000000900 "2023-11-14T22:13:20.900Z" Sample.photo
      st' in
  UploadDemo.localStorage run'.1 = UploadDemo.localStorage st'
  /\ match run.2, run'.2 with
     | Artboard.UploadOk cid url record,
       Demo.UploadOk cid' url' gatewayUrl size name record' =>
         SDK.uploadFile sdk Sample.photo = Normal cid
         /\ cid' = cid /\ gatewayUrl = url /\ url' = "ipfs://" +:+ cid
         /\ size = SDK.file_size Sample.photo
         /\ name = SDK.file_name Sample.photo
         /\ record'
            = Artboard.mkUploaded (Artboard.id record) (Artboard.name record)
                (Artboard.size record) (Artboard.type record)
                (Artboard.cid record) (Artboard.uploadedAt record)
                (Artboard.gatewayUrl record)
                (if startsWith (SDK.file_type Sample.photo) "image/"
                 then Artboard.thumbnailUrl record else None)
                None
         /\ Artboard.localStorage run.1 !! Artboard.UPLOADS_KEY
            = Some (JSON.stringify
                      (JSON.Arr (List.map Artboard.file_json
                                   (record
                                    :: Artboard.uploadedFiles Sample.logged_in))))
     | Artboard.UploadFailed message, Demo.UploadFailed size name message' =>
         exists err,
           SDK.uploadFile sdk Sample.photo = Throw err
           /\ size = SDK.file_size Sample.photo
           /\ name = SDK.file_name Sample.photo
           /\ (truthy (exn_message err) = true ->
               (forall what, exn_kind err <> Thrown what) ->
               message' = message)
     | _, _ => False
     end.
Proof.
  exact (hooks_agree_on_upload Sample.ready_sdk 1700000000000 1700000000900
           "2023-11-14T22:13:20.900Z" Sample.photo None Sample.logged_in
           (UploadDemo.setupDelegation Sample.ready_sdk (Sample.config None)
              Sample.demo).1
           (ex_intro _ _ eq_refl) (ex_intro _ _ eq_refl)
           (ex_intro _ _ eq_refl) (ex_intro _ _ eq_refl)).
Defined.

(** ** The e-mail login of the artboard hook *)

Lemma plus_spec (p : N -> bool) (k : list N -> bool) (s : list N) :
  Email.plus p k s = true
  <-> exists pre post,
        s = (pre ++ post)%list /\ pre <> [] /\ List.forallb p pre = true
        /\ k post = true.
Proof.
  induction s as [|c s IH]; cbn [Email.plus].
  - split; [done|]. intros (pre & post & Hs & Hpre & _).
    by destruct pre.
  - rewrite andb_true_iff, orb_true_iff, IH. split.
    + intros [Hc [(pre & post & -> & Hpre & Hall & Hk)|Hk]].
      * exists (c :: pre), post. cbn [List.forallb]. by rewrite Hc, Hall.
      * exists [c], s. cbn [List.forallb]. by rewrite Hc.
    + intros (pre & post & Hs & Hpre & Hall & Hk).
      destruct pre as [|x pre]; [done|]. injection Hs as -> ->.
      cbn [List.forallb] in Hall. apply andb_true_iff in Hall as [Hc Hall].
      split; [done|]. destruct pre as [|y pre]; [by right|].
      left. by exists (y :: pre), post.
Qed.

Lemma lit_spec (x : N) (k : list N -> bool) (s : list N) :
  Email.lit x k s = true <-> exists post, s = x :: post /\ k post = true.
Proof.
  destruct s as [|c s]; cbn [Email.lit].
  - split; [done|]. by intros (post & ? & _).
  - rewrite andb_true_iff, N.eqb_eq. split.
    + intros [-> Hk]. by exists s.
    + by intros (post & [= -> ->] & Hk).
Qed.

Lemma end_of_input_spec (s : list N) : Email.end_of_input s = true <-> s = [].
Proof. by destruct s. Qed.

(** The addresses the pattern accepts. *)
Lemma email_pattern_spec (userEmail : string) :
  Email.email_pattern userEmail = true
  <-> exists mailbox domain suffix : list N,
        Email.code_points userEmail
        = (mailbox ++ 64%N :: domain ++ 46%N :: suffix)%list
        /\ mailbox <> [] /\ domain <> [] /\ suffix <> []
        /\ List.forallb Email.no_space_no_at (mailbox ++ domain ++ suffix) = true.
Proof.
  unfold Email.email_pattern. rewrite plus_spec. split.
  - intros (mailbox & rest & Hs & Hm & Hmall & Hrest).
    apply lit_spec in Hrest as (rest1 & -> & Hrest).
    apply plus_spec in Hrest as (domain & rest2 & -> & Hd & Hdall & Hrest).
    apply lit_spec in Hrest as (rest3 & -> & Hrest).
    apply plus_spec in Hrest as (suffix & rest4 & -> & Hx & Hxall & Hrest).
    apply end_of_input_spec in Hrest as ->. rewrite app_nil_r in Hs.
    exists mailbox, domain, suffix. rewrite !List.forallb_app, Hmall, Hdall, Hxall.
    done.
  - intros (mailbox & domain & suffix & Hs & Hm & Hd & Hx & Hall).
    rewrite !List.forallb_app, !andb_true_iff in Hall.
    destruct Hall as (Hmall & Hdall & Hxall).
    exists mailbox, (64%N :: domain ++ 46%N :: suffix)%list.
    repeat split; [done..|].
    apply lit_spec. eexists. split; [done|].
    apply plus_spec. exists domain, (46%N :: suffix)%list.
    repeat split; [done..|].
    apply lit_spec. eexists. split; [done|].
    apply plus_spec. exists suffix, []. by rewrite app_nil_r.
Qed.

Lemma code_points_from_bytes (s : string) (n : N) :
  JS.forallb (fun c => (N_of_ascii c <? 128)%N) s = true ->
  Email.code_points_from (Some n) s
  = n :: List.map N_of_ascii (list_ascii_of_string s).
Proof.
  revert n. induction s as [|c s IH]; intros n; [done|].
  cbn [JS.forallb]. intros [Hlt Hs]%andb_true_iff.
  cbn [Email.code_points_from list_ascii_of_string List.map].
  unfold Text.continuation, Email.lead_bits. rewrite Hlt.
  apply N.ltb_lt in Hlt.
  replace (128 <=? N_of_ascii c)%N with false by (symmetry; apply N.leb_gt; lia).
  cbn [andb]. by rewrite IH.
Qed.

(** The code points of a text of one-byte characters are its bytes. *)
Lemma code_points_bytes (s : string) :
  JS.forallb (fun c => (N_of_ascii c <? 128)%N) s = true ->
  Email.code_points s = List.map N_of_ascii (list_ascii_of_string s).
Proof.
  destruct s as [|c s]; [done|]. cbn [JS.forallb].
  intros [Hlt Hs]%andb_true_iff. unfold Email.code_points.
  cbn [Email.code_points_from list_ascii_of_string List.map].
  unfold Text.continuation, Email.lead_bits. rewrite Hlt.
  apply N.ltb_lt in Hlt.
  replace (128 <=? N_of_ascii c)%N with false by (symmetry; apply N.leb_gt; lia).
  cbn [andb]. by rewrite code_points_from_bytes.
Qed.

Lemma plain_byte (s : string) :
  JS.forallb Email.plain s = true ->
  JS.forallb (fun c => (N_of_ascii c <? 128)%N) s = true.
Proof.
  apply forallb_impl. intros c. unfold Email.plain.
  by intros [? _]%andb_true_iff.
Qed.

Lemma list_ascii_app (s t : string) :
  list_ascii_of_string (s +:+ t)
  = (list_ascii_of_string s ++ list_ascii_of_string t)%list.
Proof.
  induction s as [|c s IH]; [by rewrite sapp_nil_l|].
  rewrite sapp_cons. cbn [list_ascii_of_string]. by rewrite IH.
Qed.

Lemma forallb_plain_codes (s : string) :
  JS.forallb Email.plain s = true ->
  List.forallb Email.no_space_no_at
    (List.map N_of_ascii (list_ascii_of_string s)) = true.
Proof.
  induction s as [|c s IH]; [done|]. cbn [JS.forallb].
  intros [Hc Hs]%andb_true_iff. cbn [list_ascii_of_string List.map List.forallb].
  unfold Email.plain in Hc. apply andb_true_iff in Hc as [_ ->]. by apply IH.
Qed.

(** An address of plain characters around one [@] and a dot is accepted. *)
Lemma email_pattern_plain (mailbox domain suffix : string) :
  truthy mailbox = true -> truthy domain = true -> truthy suffix = true ->
  JS.forallb Email.plain mailbox = true ->
  JS.forallb Email.plain domain = true ->
  JS.forallb Email.plain suffix = true ->
  Email.email_pattern (mailbox +:+ "@" +:+ domain +:+ "." +:+ suffix) = true.
Proof.
  intros Hm Hd Hx Hmp Hdp Hxp. apply email_pattern_spec.
  exists (List.map N_of_ascii (list_ascii_of_string mailbox)),
         (List.map N_of_ascii (list_ascii_of_string domain)),
         (List.map N_of_ascii (list_ascii_of_string suffix)).
  split; [|split; [|split; [|split]]].
  - rewrite code_points_bytes.
    + by rewrite !list_ascii_app, !List.map_app.
    + rewrite !forallb_app, (plain_byte mailbox), (plain_byte domain),
        (plain_byte suffix) by done.
      reflexivity.
  - by destruct mailbox.
  - by destruct domain.
  - by destruct suffix.
  - rewrite !List.forallb_app.
    by rewrite !forallb_plain_codes.
Qed.

(** *** The calls of the login *)

Lemma create_space_spec (env : Email.Env) (calls : list Email.Call) :
  Email.create_space env calls
  = match Email.createSpace env calls with
    | Throw e =>
        ((calls ++ [Email.CCreateSpace Email.DEFAULT_SPACE_NAME])%list, Throw e)
    | Normal sp =>
        ((calls ++ [Email.CCreateSpace Email.DEFAULT_SPACE_NAME;
                    Email.CSetCurrentSpace (SDK.did sp)])%list,
         match Email.setCurrentSpace env
                 (calls ++ [Email.CCreateSpace Email.DEFAULT_SPACE_NAME])%list
                 (SDK.did sp) with
         | Normal _ => Normal sp
         | Throw e => Throw e
         end)
    end.
Proof.
  unfold Email.create_space, Email.bind, Email.call, Email.ret.
  destruct (Email.createSpace env calls) as [sp|e]; [|done].
  rewrite <- app_assoc.
  by destruct (Email.setCurrentSpace env _ (SDK.did sp)) as [[]|e].
Qed.

(** What [choose_space] adds to the calls: it creates at most two spaces, and
    a space it returns is the one its last call made current. *)
Ltac choose_space_cases :=
  repeat (rewrite create_space_spec;
          match goal with
          | |- context [Email.createSpace ?env ?calls] =>
              destruct (Email.createSpace env calls) as [?sp|?e]
          end;
          try match goal with
              | |- context [Email.setCurrentSpace ?env ?calls ?d] =>
                  destruct (Email.setCurrentSpace env calls d) as [[]|?e]
              end);
  rewrite <- ?app_assoc;
  (eexists _, _; split; [reflexivity|]);
  (split; [cbn; lia|]);
  intros ? Hnormal; try discriminate Hnormal; injection Hnormal as <-;
  first [ by exists [] | by eexists [_] | by eexists [_; _]
        | by eexists [_; _; _] | by eexists [_; _; _; _] ].

(** What [choose_space] adds to the calls: it creates at most two spaces, and
    a space it returns is the one its last call made current. *)
Lemma choose_space_calls (env : Email.Env) (calls : list Email.Call) :
  exists more outcome,
    Email.choose_space env calls = ((calls ++ more)%list, outcome)
    /\ length (List.filter Email.creates_space more) <= 2
    /\ forall sp,
         outcome = Normal sp ->
         exists before,
           more = (before ++ [Email.CSetCurrentSpace (SDK.did sp)])%list.
Proof.
  unfold Email.choose_space, Email.try_catch.
  destruct (Email.has_spaces env);
    [unfold Email.bind, Email.call, Email.ret;
     destruct (Email.spaces env) as [listed|e];
     [destruct (List.find Email.is_existing listed) as [existing|];
      [destruct (Email.setCurrentSpace env _ _) as [[]|e]|]|]|];
    choose_space_cases.
Qed.

Lemma loginWithEmail_try_spec (env : Email.Env) (userEmail : string) :
  Email.email_pattern userEmail = true ->
  Email.loginWithEmail_try env userEmail []
  = match Email.create env with
    | Throw e => ([Email.CCreate], Throw e)
    | Normal storachaClient =>
        match Email.login env userEmail with
        | Throw e => ([Email.CCreate; Email.CLogin userEmail], Throw e)
        | Normal _ =>
            match Email.plan_wait env with
            | Throw e =>
                ([Email.CCreate; Email.CLogin userEmail; Email.CPlanWait],
                 Throw e)
            | Normal _ =>
                let chosen :=
                  Email.choose_space env
                    [Email.CCreate; Email.CLogin userEmail; Email.CPlanWait] in
                (chosen.1,
                 match chosen.2 with
                 | Normal storachaSpace =>
                     Normal (Session.mkSession userEmail true
                               (Some Session.email)
                               (Some (SDK.did storachaSpace))
                               (SDK.agent_did storachaClient),
                             storachaClient, storachaSpace)
                 | Throw e => Throw e
                 end)
            end
        end
    end.
Proof.
  intros Hpattern. unfold Email.loginWithEmail_try. rewrite Hpattern.
  assert (truthy userEmail = true) as ->.
  { destruct userEmail; [|done]. by vm_compute in Hpattern. }
  cbn [negb orb]. unfold Email.bind at 1, Email.call at 1.
  destruct (Email.create env) as [c|e]; [|done].
  unfold Email.bind at 1, Email.call at 1.
  destruct (Email.login env userEmail) as [[]|e]; [|done].
  unfold Email.bind at 1, Email.call at 1.
  destruct (Email.plan_wait env) as [[]|e]; [|done].
  unfold Email.bind, Email.ret. cbn [app].
  by destruct (Email.choose_space env _) as [calls [sp|e]].
Qed.

Lemma loginWithEmail_rejected (env : Email.Env) (userEmail : string)
    (st : Artboard.State) :
  Email.email_pattern userEmail = false ->
  Email.loginWithEmail env userEmail st
  = (Artboard.mkState (Artboard.localStorage st) (Artboard.client st)
       (Artboard.space st) false (Artboard.uploadedFiles st)
       (Some Email.invalid_email) false (Artboard.userSession st)
       (Artboard.uploadProgress st) (Artboard.abortControllers st)
       (Artboard.trace st),
     [], Email.Failed Email.invalid_email).
Proof.
  intros Hpattern. unfold Email.loginWithEmail, Email.loginWithEmail_try.
  rewrite Hpattern. by rewrite orb_true_r.
Qed.

(** X22 ([loginWithEmail], its pattern for addresses): the login calls the
    SDK exactly for the addresses its pattern accepts, and these are the
    texts made of a mailbox, one [@], and a domain with a dot inside, in
    which no character is white space and the [@] is the only one; so an
    address of plain one-byte characters [mailbox@domain.suffix] is accepted.
    For any other text the login makes no call, leaves storage, session,
    client, space and history as they were, reports the message about a
    valid address and marks the hook as not connected. *)
Theorem loginWithEmail_validates (env : Email.Env) (userEmail : string)
    (st : Artboard.State) :
  let run := Email.loginWithEmail env userEmail st in
  let accepted :=
    exists mailbox domain suffix : list N,
      Email.code_points userEmail
      = (mailbox ++ 64%N :: domain ++ 46%N :: suffix)%list
      /\ mailbox <> [] /\ domain <> [] /\ suffix <> []
      /\ List.forallb Email.no_space_no_at (mailbox ++ domain ++ suffix)
         = true in
  (accepted -> exists rest, run.1.2 = Email.CCreate :: rest)
  /\ (~ accepted ->
      run = (Artboard.mkState (Artboard.localStorage st) (Artboard.client st)
               (Artboard.space st) false (Artboard.uploadedFiles st)
               (Some Email.invalid_email) false (Artboard.userSession st)
               (Artboard.uploadProgress st) (Artboard.abortControllers st)
               (Artboard.trace st),
             [], Email.Failed Email.invalid_email))
  /\ forall mailbox domain suffix : string,
       truthy mailbox = true -> truthy domain = true ->
       truthy suffix = true ->
       JS.forallb Email.plain (mailbox +:+ domain +:+ suffix) = true ->
       userEmail = mailbox +:+ "@" +:+ domain +:+ "." +:+ suffix ->
       accepted.
Proof.
  cbv zeta. split; [|split].
  - intros Hacc%email_pattern_spec. unfold Email.loginWithEmail.
    rewrite (loginWithEmail_try_spec _ _ Hacc).
    destruct (Email.create env) as [c|e]; [|by eexists].
    destruct (Email.login env userEmail) as [[]|e]; [|by eexists].
    destruct (Email.plan_wait env) as [[]|e]; [|by eexists].
    destruct (choose_space_calls env
                [Email.CCreate; Email.CLogin userEmail; Email.CPlanWait])
      as (more & outcome & -> & _).
    cbn [fst snd app]. destruct outcome; by eexists.
  - intros Hrej. apply loginWithEmail_rejected.
    destruct (Email.email_pattern userEmail) eqn:Hp; [|done].
    by apply email_pattern_spec in Hp.
  - intros mailbox domain suffix Hm Hd Hx Hplain ->.
    rewrite !forallb_app, !andb_true_iff in Hplain.
    destruct Hplain as (Hmp & Hdp & Hxp).
    apply email_pattern_spec. by apply email_pattern_plain.
Qed.

(** The state and the result of a login, by the outcome of its [try]. *)
Lemma loginWithEmail_outcome (env : Email.Env) (userEmail : string)
    (st : Artboard.State) :
  Email.loginWithEmail env userEmail st
  = match Email.loginWithEmail_try env userEmail [] with
    | (calls, Normal (session, storachaClient, storachaSpace)) =>
        (Artboard.mkState
           (<[Session.SESSION_KEY :=
                JSON.stringify (Session.session_json session)]>
              (Artboard.localStorage st))
           (Some storachaClient) (Some storachaSpace) false
           (Artboard.uploadedFiles st) None true
           (Session.session_json session) (Artboard.uploadProgress st)
           (Artboard.abortControllers st) (Artboard.trace st),
         calls, Email.LoggedIn session)
    | (calls, Throw err) =>
        (Artboard.mkState (Artboard.localStorage st) (Artboard.client st)
           (Artboard.space st) false (Artboard.uploadedFiles st)
           (Some (Bootstrap.message_or "Login failed" err)) false
           (Artboard.userSession st) (Artboard.uploadProgress st)
           (Artboard.abortControllers st) (Artboard.trace st),
         calls, Email.Failed (Bootstrap.message_or "Login failed" err))
    end.
Proof.
  unfold Email.loginWithEmail.
  by destruct (Email.loginWithEmail_try env userEmail [])
    as [calls [[[session c] sp]|err]].
Qed.

(** What the [try] of a login hands to [saveSession], and the calls before. *)
Lemma loginWithEmail_try_normal (env : Email.Env) (userEmail : string)
    (calls : list Email.Call) (session : Session.UserSession)
    (storachaClient : SDK.Client) (storachaSpace : SDK.Space) :
  Email.loginWithEmail_try env userEmail []
  = (calls, Normal (session, storachaClient, storachaSpace)) ->
  Email.email_pattern userEmail = true
  /\ Email.create env = Normal storachaClient
  /\ session = Session.mkSession userEmail true (Some Session.email)
                 (Some (SDK.did storachaSpace))
                 (SDK.agent_did storachaClient)
  /\ exists before,
       calls = (before ++ [Email.CSetCurrentSpace (SDK.did storachaSpace)])%list.
Proof.
  destruct (Email.email_pattern userEmail) eqn:Hp.
  - rewrite (loginWithEmail_try_spec _ _ Hp).
    destruct (Email.create env) as [c|e]; [|done].
    destruct (Email.login env userEmail) as [[]|e]; [|done].
    destruct (Email.plan_wait env) as [[]|e]; [|done].
    destruct (choose_space_calls env
                [Email.CCreate; Email.CLogin userEmail; Email.CPlanWait])
      as (more & outcome & -> & _ & Hlast).
    cbn [fst snd]. destruct outcome as [sp|e]; [|done].
    intros [= <- <- <- <-]. repeat split.
    destruct (Hlast sp eq_refl) as [before ->].
    exists ([Email.CCreate; Email.CLogin userEmail; Email.CPlanWait] ++ before)%list.
    by rewrite <- app_assoc.
  - unfold Email.loginWithEmail_try. rewrite Hp. by rewrite orb_true_r.
Qed.

Lemma loginWithEmail_try_creates (env : Email.Env) (userEmail : string) :
  length (List.filter Email.creates_space
            (Email.loginWithEmail_try env userEmail []).1) <= 2.
Proof.
  destruct (Email.email_pattern userEmail) eqn:Hp.
  - rewrite (loginWithEmail_try_spec _ _ Hp).
    destruct (Email.create env) as [c|e]; [|cbn; lia].
    destruct (Email.login env userEmail) as [[]|e]; [|cbn; lia].
    destruct (Email.plan_wait env) as [[]|e]; [|cbn; lia].
    destruct (choose_space_calls env
                [Email.CCreate; Email.CLogin userEmail; Email.CPlanWait])
      as (more & outcome & -> & Hle & _).
    cbn [fst]. by rewrite List.filter_app.
  - unfold Email.loginWithEmail_try. rewrite Hp, orb_true_r. cbn. lia.
Qed.

(** X23 ([loginWithEmail], the choice of the space): a login creates at most
    two spaces.  When it succeeds, its last call made current the space whose
    DID the session carries; that space and the client are in the state, the
    hook is connected and the session is stored.  When it fails, the hook is
    marked as not connected and shows the message, while client, space,
    session and storage stay as they were.  When the client lists a space
    named [artboard-space], or whose DID contains [space], that can be made
    current, that space is used and none is created. *)
Theorem email_login_space (env : Email.Env) (userEmail : string)
    (st : Artboard.State) :
  let run := Email.loginWithEmail env userEmail st in
  length (List.filter Email.creates_space run.1.2) <= 2
  /\ (forall session, run.2 = Email.LoggedIn session ->
      exists storachaClient storachaSpace before,
        Email.create env = Normal storachaClient
        /\ run.1.2
           = (before ++ [Email.CSetCurrentSpace (SDK.did storachaSpace)])%list
        /\ session
           = Session.mkSession userEmail true (Some Session.email)
               (Some (SDK.did storachaSpace)) (SDK.agent_did storachaClient)
        /\ Artboard.client run.1.1 = Some storachaClient
        /\ Artboard.space run.1.1 = Some storachaSpace
        /\ Artboard.isConnected run.1.1 = true
        /\ Artboard.error run.1.1 = None
        /\ Artboard.userSession run.1.1 = Session.session_json session
        /\ Artboard.localStorage run.1.1
           = <[Session.SESSION_KEY :=
                 JSON.stringify (Session.session_json session)]>
               (Artboard.localStorage st))
  /\ (forall message, run.2 = Email.Failed message ->
      Artboard.isConnected run.1.1 = false
      /\ Artboard.error run.1.1 = Some message
      /\ Artboard.client run.1.1 = Artboard.client st
      /\ Artboard.space run.1.1 = Artboard.space st
      /\ Artboard.userSession run.1.1 = Artboard.userSession st
      /\ Artboard.localStorage run.1.1 = Artboard.localStorage st)
  /\ (forall storachaClient listed existing,
      Email.email_pattern userEmail = true ->
      Email.create env = Normal storachaClient ->
      Email.login env userEmail = Normal () ->
      Email.plan_wait env = Normal () ->
      Email.has_spaces env = true ->
      Email.spaces env = Normal listed ->
      List.find Email.is_existing listed = Some existing ->
      Email.setCurrentSpace env
        [Email.CCreate; Email.CLogin userEmail; Email.CPlanWait; Email.CSpaces]
        (SDK.did (Email.listed_space existing)) = Normal () ->
      run.1.2
      = [Email.CCreate; Email.CLogin userEmail; Email.CPlanWait; Email.CSpaces;
         Email.CSetCurrentSpace (SDK.did (Email.listed_space existing))]
      /\ Artboard.space run.1.1 = Some (Email.listed_space existing)).
Proof.
  cbv zeta. rewrite loginWithEmail_outcome. split; [|split; [|split]].
  - pose proof (loginWithEmail_try_creates env userEmail) as Hle.
    by destruct (Email.loginWithEmail_try env userEmail [])
      as [calls [[[session c] sp]|err]].
  - intros session.
    destruct (Email.loginWithEmail_try env userEmail [])
      as [calls [[[session' c] sp]|err]] eqn:Hrun; [|done].
    intros [= <-].
    destruct (loginWithEmail_try_normal _ _ _ _ _ _ Hrun)
      as (_ & Hc & Hs & before & ->).
    by exists c, sp, before.
  - intros message.
    destruct (Email.loginWithEmail_try env userEmail [])
      as [calls [[[session' c] sp]|err]] eqn:Hrun; [done|].
    by intros [= <-].
  - intros c listed existing Hp Hc Hlogin Hplan Hhas Hspaces Hfind Hset.
    rewrite (loginWithEmail_try_spec _ _ Hp), Hc, Hlogin, Hplan.
    unfold Email.choose_space, Email.try_catch. rewrite Hhas.
    unfold Email.bind, Email.call, Email.ret. rewrite Hspaces, Hfind.
    cbn [app]. by rewrite Hset.
Qed.

(** A client that lists a space of the name: the login uses it. *)
Example email_login_reuses_space :
  let listed :=
    [Email.mkListed (SDK.mkSpace "did:key:z6MkOld") None;
     Email.mkListed (SDK.mkSpace "did:key:z6MkArt") (Some "artboard-space")] in
  let run := Email.loginWithEmail (Mail.env listed) "ada@example.org"
               Sample.artboard in
  run.1.2 = [Email.CCreate; Email.CLogin "ada@example.org"; Email.CPlanWait;
             Email.CSpaces; Email.CSetCurrentSpace "did:key:z6MkArt"]
  /\ run.2 = Email.LoggedIn
               (Session.mkSession "ada@example.org" true (Some Session.email)
                  (Some "did:key:z6MkArt") (Some "did:key:z6MkAgent")).
Proof. vm_compute. split; reflexivity. Qed.

(** A client that cannot make current the space it created first: the login
    creates a second one and leaves the first behind. *)
Example email_login_abandons_space :
  let run := Email.loginWithEmail Mail.stubborn "ada@example.org"
               Sample.artboard in
  run.1.2 = [Email.CCreate; Email.CLogin "ada@example.org"; Email.CPlanWait;
             Email.CSpaces;
             Email.CCreateSpace "artboard-space";
             Email.CSetCurrentSpace "did:key:z6MkNew0";
             Email.CCreateSpace "artboard-space";
             Email.CSetCurrentSpace "did:key:z6MkNew1"]
  /\ run.2 = Email.LoggedIn
               (Session.mkSession "ada@example.org" true (Some Session.email)
                  (Some "did:key:z6MkNew1") (Some "did:key:z6MkAgent")).
Proof. vm_compute. split; reflexivity. Qed.

(** ** The artboard hook after a reload *)

(** Mounting the artboard hook on a storage with a session written by
    [saveSession] and the history of a state that mirrors it. *)
Lemma artboard_useStoracha_saved (storage : gmap string string)
    (session : Session.UserSession) (files : list Artboard.UploadedFile) :
  storage !! Session.SESSION_KEY
  = Some (JSON.stringify (Session.session_json session)) ->
  Artboard.init_uploadedFiles storage = Artboard.InitOk files ->
  Artboard.useStoracha storage
  = Artboard.InitOk
      (Artboard.mkState storage None None false files None false
         (Session.session_json session) ∅ ∅ []).
Proof.
  intros Hs Hf. unfold Artboard.useStoracha. rewrite Hf.
  by rewrite (init_userSession_parsed _ _ _ Hs (session_text_parses session)).
Qed.

(** The guard of [autoConnect] on a session written by [saveSession]. *)
Lemma autoConnect_guard (env : Email.Env) (st : Artboard.State)
    (session : Session.UserSession) :
  Artboard.userSession st = Session.session_json session ->
  Email.autoConnect env st
  = if Session.isLoggedIn session
       && match Session.method session with
          | Some Session.email => true
          | _ => false
          end
       && truthy (Session.session_email session)
    then Artboard.InitOk
           ((Email.loginWithEmail env (Session.session_email session) st).1.1,
            (Email.loginWithEmail env (Session.session_email session) st).1.2)
    else Artboard.InitOk (st, []).
Proof.
  intros H. unfold Email.autoConnect. rewrite H.
  by destruct session as [e [] [[]|] sd ad]; destruct e.
Qed.

(** X24 (artboard hook, [loginWithEmail], [loginWithDelegation], the
    initialisers, the effect [autoConnect], [uploadFile]): only a login by
    e-mail is resumed after a reload.  From a state whose storage mirrors its
    history, a hook mounted on the storage that a login left starts with the
    session of that login and the same history, without client and not
    connected.  After a login by e-mail the effect logs in again with the
    stored address, calling the SDK anew.  After a login by delegation the
    effect makes no call: the session still says logged in, the hook stays
    not connected and [uploadFile] fails with the request to log in first. *)
Theorem only_email_login_is_resumed (env env' : Email.Env) (sdk : SDK.Env)
    (cfg : Bootstrap.DelegationConfig) (userEmail : string)
    (st : Artboard.State) :
  History.mirrored st ->
  (forall session,
     (Email.loginWithEmail env userEmail st).2 = Email.LoggedIn session ->
     let stored :=
       Artboard.localStorage (Email.loginWithEmail env userEmail st).1.1 in
     let mounted :=
       Artboard.mkState stored None None false (Artboard.uploadedFiles st)
         None false (Session.session_json session) ∅ ∅ [] in
     Artboard.useStoracha stored = Artboard.InitOk mounted
     /\ Email.mount env' stored
        = Artboard.InitOk
            ((Email.loginWithEmail env' userEmail mounted).1.1,
             (Email.loginWithEmail env' userEmail mounted).1.2)
     /\ exists rest,
          (Email.loginWithEmail env' userEmail mounted).1.2
          = Email.CCreate :: rest)
  /\ (forall session,
        (Artboard.loginWithDelegation sdk cfg st).2 = Artboard.LoginOk session ->
        let stored :=
          Artboard.localStorage (Artboard.loginWithDelegation sdk cfg st).1 in
        let mounted :=
          Artboard.mkState stored None None false (Artboard.uploadedFiles st)
            None false (Session.session_json session) ∅ ∅ [] in
        Artboard.useStoracha stored = Artboard.InitOk mounted
        /\ Session.isLoggedIn session = true
        /\ Email.mount env' stored = Artboard.InitOk (mounted, [])
        /\ forall sdk' now now' date file description,
             (Artboard.uploadFile sdk' now now' date file description
                mounted).2
             = Artboard.UploadFailed History.login_first).
Proof.
  intros Hmirror. split.
  - intros session. rewrite loginWithEmail_outcome.
    destruct (Email.loginWithEmail_try env userEmail [])
      as [calls [[[session' c] sp]|err]] eqn:Hrun; [|done].
    intros [= <-]. cbn [fst snd Artboard.localStorage].
    destruct (loginWithEmail_try_normal _ _ _ _ _ _ Hrun)
      as (Hp & _ & Hs & _).
    assert (Artboard.useStoracha
              (<[Session.SESSION_KEY :=
                   JSON.stringify (Session.session_json session')]>
                 (Artboard.localStorage st))
            = Artboard.InitOk
                (Artboard.mkState
                   (<[Session.SESSION_KEY :=
                        JSON.stringify (Session.session_json session')]>
                      (Artboard.localStorage st))
                   None None false (Artboard.uploadedFiles st) None false
                   (Session.session_json session') ∅ ∅ [])) as Hmount.
    { apply artboard_useStoracha_saved; [apply lookup_insert_eq|].
      rewrite <- Hmirror. apply init_uploadedFiles_ext.
      by rewrite lookup_insert_ne. }
    split; [done|]. unfold Email.mount. rewrite Hmount.
    rewrite (autoConnect_guard _ _ session') by done.
    assert (truthy userEmail = true) as Htruthy.
    { destruct userEmail; [|done]. by vm_compute in Hp. }
    rewrite Hs at 1 2 3. cbn [Session.isLoggedIn Session.method
                               Session.session_email andb].
    rewrite Htruthy. split; [by rewrite Hs|].
    rewrite loginWithEmail_outcome, (loginWithEmail_try_spec _ _ Hp).
    destruct (Email.create env') as [c'|e]; [|by eexists].
    destruct (Email.login env' userEmail) as [[]|e]; [|by eexists].
    destruct (Email.plan_wait env') as [[]|e]; [|by eexists].
    destruct (choose_space_calls env'
                [Email.CCreate; Email.CLogin userEmail; Email.CPlanWait])
      as (more & outcome & -> & _).
    cbn [fst snd app]. destruct outcome; by eexists.
  - intros session.
    destruct (Bootstrap.bootstrap sdk cfg)
      as [evs [[[session' c] sp]|err]] eqn:Hrun.
    + rewrite (loginWithDelegation_success _ _ _ _ _ _ _ Hrun).
      intros [= <-]. cbn [fst snd Artboard.localStorage].
      assert (Artboard.useStoracha
                (<[Session.SESSION_KEY :=
                     JSON.stringify (Session.session_json session')]>
                   (Artboard.localStorage st))
              = Artboard.InitOk
                  (Artboard.mkState
                     (<[Session.SESSION_KEY :=
                          JSON.stringify (Session.session_json session')]>
                        (Artboard.localStorage st))
                     None None false (Artboard.uploadedFiles st) None false
                     (Session.session_json session') ∅ ∅ [])) as Hmount.
      { apply artboard_useStoracha_saved; [apply lookup_insert_eq|].
        rewrite <- Hmirror. apply init_uploadedFiles_ext.
        by rewrite lookup_insert_ne. }
      split; [done|]. unfold Email.mount. rewrite Hmount.
      rewrite (autoConnect_guard _ _ session') by done.
      rewrite (bootstrap_session _ _ _ _ _ _ Hrun).
      cbn [Session.isLoggedIn Session.method andb]. repeat split.
    + by rewrite (loginWithDelegation_failure _ _ _ _ _ Hrun).
Qed.

Lemma only_email_login_is_resumed_witness :
  let listed :=
    [Email.mkListed (SDK.mkSpace "did:key:z6MkArt") (Some "artboard-space")] in
  let st := Sample.artboard in
  (forall session,
     (Email.loginWithEmail (Mail.env listed) "ada@example.org" st).2
     = Email.LoggedIn session ->
     let stored :=
       Artboard.localStorage
         (Email.loginWithEmail (Mail.env listed) "ada@example.org" st).1.1 in
     let mounted :=
       Artboard.mkState stored None None false (Artboard.uploadedFiles st)
         None false (Session.session_json session) ∅ ∅ [] in
     Artboard.useStoracha stored = Artboard.InitOk mounted
     /\ Email.mount (Mail.env []) stored
        = Artboard.InitOk
            ((Email.loginWithEmail (Mail.env []) "ada@example.org" mounted).1.1,
             (Email.loginWithEmail (Mail.env []) "ada@example.org" mounted).1.2)
     /\ exists rest,
          (Email.loginWithEmail (Mail.env []) "ada@example.org" mounted).1.2
          = Email.CCreate :: rest)
  /\ (forall session,
        (Artboard.loginWithDelegation Sample.ready_sdk (Sample.config None)
           st).2 = Artboard.LoginOk session ->
        let stored :=
          Artboard.localStorage
            (Artboard.loginWithDelegation Sample.ready_sdk (Sample.config None)
               st).1 in
        let mounted :=
          Artboard.mkState stored None None false (Artboard.uploadedFiles st)
            None false (Session.session_json session) ∅ ∅ [] in
        Artboard.useStoracha stored = Artboard.InitOk mounted
        /\ Session.isLoggedIn session = true
        /\ Email.mount (Mail.env []) stored = Artboard.InitOk (mounted, [])
        /\ forall sdk' now now' date file description,
             (Artboard.uploadFile sdk' now now' date file description
                mounted).2
             = Artboard.UploadFailed History.login_first).
Proof.
  exact (only_email_login_is_resumed
           (Mail.env
              [Email.mkListed (SDK.mkSpace "did:key:z6MkArt")
                 (Some "artboard-space")])
           (Mail.env []) Sample.ready_sdk (Sample.config None)
           "ada@example.org" Sample.artboard eq_refl).
Defined.

(** ** Debounced and throttled functions *)

Lemma debounced_run {A : Type} (wait : Z) (evs : list (@Timers.Event A))
    (clock : Z) (st0 st : @Timers.Debounced A) :
  Timers.run (Timers.debounced wait) clock evs st0 = Some st ->
  match Timers.timeout st0 with
  | None =>
      Timers.debounce_ran st
      = (Timers.debounce_ran st0
         ++ List.map (fun x => (x.1.2, x.2)) (Timers.settled evs))%list
      /\ Forall (fun x => (x.1.1 + Z.max 0 wait <= x.1.2)%Z)
           (Timers.settled evs)
  | Some (at_least, args) =>
      forall now, at_least = Timers.due now wait ->
        Timers.debounce_ran st
        = (Timers.debounce_ran st0
           ++ List.map (fun x => (x.1.2, x.2))
                (Timers.settled (Timers.Called now args :: evs)))%list
        /\ Forall (fun x => (x.1.1 + Z.max 0 wait <= x.1.2)%Z)
             (Timers.settled (Timers.Called now args :: evs))
  end.
Proof.
  revert clock st0. induction evs as [|e rest IH]; intros clock st0.
  - cbn [Timers.run]. intros [= <-].
    destruct (Timers.timeout st0) as [[d a]|]; cbn; [intros _ _|];
      by rewrite app_nil_r.
  - cbn [Timers.run]. destruct (clock <=? Timers.time_of e)%Z; [|done].
    destruct e as [t1 b|t].
    + cbn [Timers.debounced]. intros Hrun. specialize (IH _ _ Hrun).
      cbn [Timers.timeout Timers.debounce_ran] in IH.
      specialize (IH t1 eq_refl).
      destruct (Timers.timeout st0) as [[d a]|]; [intros t0 _|]; exact IH.
    + cbn [Timers.debounced].
      destruct (Timers.timeout st0) as [[d a]|]; [|done].
      destruct (d <=? t)%Z eqn:Hdue; [|done]. intros Hrun.
      specialize (IH _ _ Hrun).
      cbn [Timers.timeout Timers.debounce_ran] in IH.
      destruct IH as [Hran Hall]. intros t0 ->.
      cbn [Timers.settled List.map fst snd]. split.
      * by rewrite Hran, <- app_assoc.
      * constructor; [|done]. cbn [fst snd]. unfold Timers.due in Hdue. lia.
Qed.

Lemma settled_calls {A : Type} (evs : list (@Timers.Event A)) :
  length (Timers.settled evs) <= length (Timers.calls evs).
Proof.
  induction evs as [|[t a|t] rest IH]; cbn [Timers.settled Timers.calls];
    [done| |done].
  destruct rest as [|[]]; cbn [List.length] in *; lia.
Qed.

(** X25 ([utils.debounce]): whatever the calls of the debounced function
    and the delays of its timer, [func] is called exactly for those calls
    that the running out of the timer follows directly, with the arguments
    of that call, in order, and not before [wait] ms after it; a call that
    another call follows is dropped.  So [func] is called at most as often
    as the debounced function. *)
Theorem debounce_runs_last_call {A : Type} (wait start : Z)
    (evs : list (@Timers.Event A)) (st : @Timers.Debounced A) :
  Timers.run (Timers.debounced wait) start evs (Timers.mkDebounced None [])
  = Some st ->
  Timers.debounce_ran st
  = List.map (fun x => (x.1.2, x.2)) (Timers.settled evs)
  /\ Forall (fun x => (x.1.1 + Z.max 0 wait <= x.1.2)%Z) (Timers.settled evs)
  /\ sublist (List.map (fun x => (x.1.1, x.2)) (Timers.settled evs))
       (Timers.calls evs)
  /\ length (Timers.debounce_ran st) <= length (Timers.calls evs).
Proof.
  intros Hrun. destruct (debounced_run _ _ _ _ _ Hrun) as [Hran Hall].
  cbn [Timers.debounce_ran app] in Hran. repeat split; [done..| |].
  - clear. induction evs as [|[t a|t] rest IH];
      cbn [Timers.settled Timers.calls]; [done| |done].
    destruct rest as [|[t' b|t'] rest']; cbn [List.map fst snd].
    + apply sublist_nil_l.
    + by apply sublist_cons.
    + by apply sublist_skip.
  - rewrite Hran, length_map. apply settled_calls.
Qed.

Lemma debounce_runs_last_call_witness :
  let evs := [Timers.Called 0 "a"; Timers.Called 100 "ab";
              Timers.Called 250 "abc"; Timers.Fired 560;
              Timers.Called 900 "abcd"] in
  let st := Timers.mkDebounced (Some (1200%Z, "abcd")) [(560%Z, "abc")] in
  Timers.debounce_ran st
  = List.map (fun x => (x.1.2, x.2)) (Timers.settled evs)
  /\ Forall (fun x => (x.1.1 + Z.max 0 300 <= x.1.2)%Z) (Timers.settled evs)
  /\ sublist (List.map (fun x => (x.1.1, x.2)) (Timers.settled evs))
       (Timers.calls evs)
  /\ length (Timers.debounce_ran st) <= length (Timers.calls evs).
Proof.
  exact (debounce_runs_last_call 300 0
           [Timers.Called 0 "a"; Timers.Called 100 "ab";
            Timers.Called 250 "abc"; Timers.Fired 560;
            Timers.Called 900 "abcd"]
           (Timers.mkDebounced (Some (1200%Z, "abcd")) [(560%Z, "abc")])
           eq_refl).
Defined.

Lemma spaced_snoc (gap : Z) (times : list Z) (t : Z) :
  Timers.spaced gap times ->
  (forall t0, last times = Some t0 -> (t0 + gap <= t)%Z) ->
  Timers.spaced gap (times ++ [t]).
Proof.
  induction times as [|x [|y rest] IH]; [done| |].
  - intros _ Hlast. cbn. split; [|done]. by apply Hlast.
  - intros [Hxy Hrest] Hlast. cbn [app Timers.spaced]. split; [done|].
    apply IH; [done|]. intros t0 Ht0. apply Hlast.
    by rewrite last_cons_cons.
Qed.






(** A call of [func] that throws leaves the throttle open: the next call
    of the throttled function, 5 ms later, runs [func] again. *)
Example throttle_after_exception :
  Timers.run (Timers.throttled (fun earlier _ => negb (bool_decide (earlier = []))) 1000) 0
    [Timers.Called 0 "a"; Timers.Called 5 "b"; Timers.Called 10 "c"]
    (Timers.mkThrottled false [] [])
  = Some (Timers.mkThrottled true [1005%Z] [(0%Z, "a"); (5%Z, "b")]).
Proof. reflexivity. Qed.

(** ** The test-setup route *)

(** X27 ([app.get('/api/test-setup')], [initializeStoracha]): the test-setup
    route initialises again whether or not the backend has a client.  Once
    the key parses and a client is created, that client replaces the one the
    backend had, however the rest of the initialisation ends; the route
    answers [success: true] exactly when the proof parses, its space is
    added and made current, and otherwise, for an error that carries a
    message, it answers with status 200, [success: false] and
    [hasClient: true].  Without credentials it makes no call, keeps the
    client and answers [success: false]. *)
Theorem test_setup_replaces_client (env : Backend.Env)
    (storachaClient : option SDK.Client) :
  let run := Backend.test_setup_route env storachaClient in
  (forall privateKey proofString key proof created,
     Backend.STORACHA_PRIVATE_KEY env = Some privateKey ->
     Backend.STORACHA_PROOF env = Some proofString ->
     Backend.cleanBase64 privateKey = Server.Text key -> key <> "" ->
     Backend.cleanBase64 proofString = Server.Text proof -> proof <> "" ->
     Backend.Signer_parse env key = Normal () ->
     Backend.create env = Normal created ->
     run.1.2 = Some created
     /\ (exists more,
           run.1.1
           = [Backend.EvSignerParse key; Backend.EvCreate;
              Backend.EvProofParse proof] ++ more)%list
     /\ (Storage.member "success" (Backend.body run.2) = Some (JSON.Bool true)
         <-> exists parsed space,
               Backend.Proof_parse env proof = Normal parsed
               /\ Backend.addSpace env parsed = Normal space
               /\ Backend.setCurrentSpace env (SDK.did space) = Normal ())
     /\ (Backend.status run.2 = 200%Z ->
         Storage.member "hasClient" (Backend.body run.2)
         = Some (JSON.Bool true)))
  /\ (Backend.STORACHA_PRIVATE_KEY env = None
      \/ Backend.STORACHA_PROOF env = None ->
      run = ([], storachaClient,
             Backend.mkReply 200
               (JSON.Obj [("success", JSON.Bool false);
                          ("message", JSON.Str "Failed to initialize Storacha");
                          ("hasClient",
                           JSON.Bool (Backend.has_client storachaClient))]))).
Proof.
  cbv zeta. split.
  - intros privateKey proofString key proof created Hkey Hproof Hckey Hkey0
      Hcproof Hproof0 Hsigner Hcreate.
    unfold Backend.test_setup_route, Backend.initializeStoracha.
    rewrite Hkey, Hproof.
    rewrite (backend_cleanBase64_text _ _ Hckey).
    rewrite (backend_cleanBase64_text _ _ Hcproof). cbn [negb orb].
    rewrite Hckey, Hcproof.
    assert (truthy key = true) as -> by by destruct key.
    assert (truthy proof = true) as -> by by destruct proof.
    cbn [negb orb]. unfold Backend.initialize_try.
    rewrite Hsigner, Hcreate. unfold Backend.bind, Backend.call, Backend.ret.
    destruct (Backend.Proof_parse env proof) as [parsed|error] eqn:Hparse;
      [destruct (Backend.addSpace env parsed) as [space|error] eqn:Hadd;
       [destruct (Backend.setCurrentSpace env (SDK.did space))
          as [[]|error] eqn:Hset|]|];
      cbn; unfold Backend.initialize_catch;
      try destruct (exn_kind error); cbn;
      (split; [reflexivity|]); (split; [by eexists|]);
      (split; [|done]);
      (split;
       [intros Hsuccess; first [discriminate Hsuccess | by eauto]
       |intros (parsed' & space' & H1 & H2 & H3); congruence]).
  - unfold Backend.test_setup_route, Backend.initializeStoracha.
    intros [->| ->]; [done|].
    by destruct (Backend.STORACHA_PRIVATE_KEY env).
Qed.

(** On a backend whose proof no longer parses, the test-setup route replaces
    a client and reports it. *)
Example test_setup_after_bad_proof :
  Backend.test_setup_route
    (Scenario.backend (Some (new_Error "Unexpected end of data")))
    (Some (SDK.mkClient (Some "did:key:z6MkBefore")))
  = ([Backend.EvSignerParse "MgAAAAAAAAAA"; Backend.EvCreate;
      Backend.EvProofParse "AAAAAAAA"],
     Some (SDK.mkClient (Some "did:key:z6MkServer")),
     Backend.mkReply 200
       (JSON.Obj [("success", JSON.Bool false);
                  ("message", JSON.Str "Failed to initialize Storacha");
                  ("hasClient", JSON.Bool true)])).
Proof. vm_compute. reflexivity. Qed.
